(** * Verification of the MQTT client session manager (source/cy_mqtt_api.c)

    The C translation unit is embedded function by function.  Client objects
    live in a heap indexed by their address, the file-scope variables form the
    rest of the [world], and every call that leaves the translation unit (RTOS
    abstraction, transport, MQTT codec, allocator, application callback) is
    appended to a [trace] and answered by an [environment], so that a property
    such as "no codec call is made" is a statement about the trace. *)

From Stdlib Require Import ZArith Bool List Lia.
From stdpp Require Import base option list gmap.

Local Open Scope Z_scope.

(** ** Scalar types *)

(** [MQTTStatus_t] of the codec (core_mqtt.h).  The source names
    [MQTTSuccess], [MQTTSendFailed], [MQTTRecvFailed], [MQTTBadResponse],
    [MQTTIllegalState] and [MQTTKeepAliveTimeout]. *)
Inductive MQTTStatus_t : Type :=
| MQTTSuccess
| MQTTBadParameter
| MQTTNoMemory
| MQTTSendFailed
| MQTTRecvFailed
| MQTTBadResponse
| MQTTServerRefused
| MQTTNoDataAvailable
| MQTTIllegalState
| MQTTStateCollision
| MQTTKeepAliveTimeout.

#[global] Instance MQTTStatus_t_eq_dec : EqDecision MQTTStatus_t.
Proof. solve_decision. Defined.

(** Result of a call into the RTOS abstraction or the transport: success or
    an error code of that module. *)
Inductive platform_result : Type :=
| PLATFORM_OK
| PLATFORM_ERR (code : Z).

#[global] Instance platform_result_eq_dec : EqDecision platform_result.
Proof. solve_decision. Defined.

(** [cy_rslt_t].  The MQTT module's own codes are the constructors named as in
    the source; [CY_RSLT_PLATFORM] carries an error code handed through from
    another module, which by the result encoding differs from all of them. *)
Inductive cy_rslt_t : Type :=
| CY_RSLT_SUCCESS
| CY_RSLT_MODULE_MQTT_BADARG
| CY_RSLT_MODULE_MQTT_NOMEM
| CY_RSLT_MODULE_MQTT_CREATE_FAIL
| CY_RSLT_MODULE_MQTT_INIT_FAIL
| CY_RSLT_MODULE_MQTT_OBJ_NOT_INITIALIZED
| CY_RSLT_MODULE_MQTT_NOT_CONNECTED
| CY_RSLT_MODULE_MQTT_CONNECT_FAIL
| CY_RSLT_MODULE_MQTT_PUBLISH_FAIL
| CY_RSLT_MODULE_MQTT_SUBSCRIBE_FAIL
| CY_RSLT_MODULE_MQTT_UNSUBSCRIBE_FAIL
| CY_RSLT_MODULE_MQTT_DEINIT_FAIL
| CY_RSLT_MODULE_MQTT_ERROR
| CY_RSLT_PLATFORM (code : Z).

#[global] Instance cy_rslt_t_eq_dec : EqDecision cy_rslt_t.
Proof. solve_decision. Defined.

Definition cy_rslt_of (r : platform_result) : cy_rslt_t :=
  match r with
  | PLATFORM_OK => CY_RSLT_SUCCESS
  | PLATFORM_ERR c => CY_RSLT_PLATFORM c
  end.

Inductive RetryUtilsStatus_t : Type :=
| RetryUtilsSuccess
| RetryUtilsRetriesExhausted.

#[global] Instance RetryUtilsStatus_t_eq_dec : EqDecision RetryUtilsStatus_t.
Proof. solve_decision. Defined.

(** Pointers are addresses in [Z]; [NULL] is 0.  The address of a client's
    codec context, [&(mqtt_obj->mqtt_context)], is represented by the address
    of the client that embeds it. *)
Definition NULL : Z := 0.

(** Unsigned and signed wrap-around of the C integer types.  [size_t] has the
    32 bits of the microcontrollers the library is written for. *)
Definition wrap_uint8 (z : Z) : Z := z mod 2 ^ 8.
Definition wrap_uint32 (z : Z) : Z := z mod 2 ^ 32.
Definition wrap_size_t (z : Z) : Z := z mod 2 ^ 32.
Definition wrap_int32 (z : Z) : Z := (z + 2 ^ 31) mod 2 ^ 32 - 2 ^ 31.

(** QoS levels: [MQTTQoS_t] of the codec and [cy_mqtt_qos_t] of the API. *)
Definition MQTTQoS0 : Z := 0.
Definition MQTTQoS1 : Z := 1.
Definition MQTTQoS2 : Z := 2.
Definition CY_MQTT_QOS0 : Z := 0.
Definition CY_MQTT_QOS1 : Z := 1.
Definition CY_MQTT_QOS2 : Z := 2.
Definition CY_MQTT_QOS_INVALID : Z := 128.

(** [MQTTSubAckStatus_t]: the SUBACK return codes of MQTT 3.1.1. *)
Definition MQTTSubAckSuccessQos0 : Z := 0.
Definition MQTTSubAckSuccessQos1 : Z := 1.
Definition MQTTSubAckSuccessQos2 : Z := 2.
Definition MQTTSubAckFailure : Z := 128.

Definition MQTT_PACKET_ID_INVALID : Z := 0.

(** Control packet types (first byte of the fixed header). *)
Definition MQTT_PACKET_TYPE_PUBLISH : Z := 48.
Definition MQTT_PACKET_TYPE_PUBACK : Z := 64.
Definition MQTT_PACKET_TYPE_PUBREC : Z := 80.
Definition MQTT_PACKET_TYPE_PUBREL : Z := 98.
Definition MQTT_PACKET_TYPE_PUBCOMP : Z := 112.
Definition MQTT_PACKET_TYPE_SUBACK : Z := 144.
Definition MQTT_PACKET_TYPE_UNSUBACK : Z := 176.
Definition MQTT_PACKET_TYPE_PINGRESP : Z := 208.
Definition MQTT_PACKET_TYPE_DISCONNECT : Z := 224.

(** Constants defined in the translation unit itself. *)
Definition CY_MQTT_CONNACK_RECV_TIMEOUT_MS : Z := 2000.
Definition CY_MQTT_SOCKET_RECEIVE_TIMEOUT_MS : Z := 1.
Definition CY_MQTT_RECEIVE_DATA_TIMEOUT_MS : Z := 0.
Definition CY_MQTT_RECEIVE_THREAD_SLEEP_MS : Z := 100.
Definition CY_MQTT_DISCONNECT_EVENT_QUEUE_TIMEOUT_IN_MSEC : Z := 500.

(** Constants of cy_mqtt_api.h, which is not among the sources: parameters. *)
Record config : Type := {
  CY_MQTT_MAX_HANDLE : Z;
  CY_MQTT_MAX_OUTGOING_PUBLISHES : Z;
  CY_MQTT_MAX_OUTGOING_SUBSCRIBES : Z;
  CY_MQTT_MIN_NETWORK_BUFFER_SIZE : Z;
  CY_MQTT_MAX_RETRY_VALUE : Z;
  CY_MQTT_ACK_RECEIVE_TIMEOUT_MS : Z;
  CY_MQTT_MESSAGE_RECEIVE_TIMEOUT_MS : Z;
  CY_MQTT_MESSAGE_SEND_TIMEOUT_MS : Z
}.

(** ** Structures *)

Record MQTTPublishInfo_t : Type := {
  qos : Z;
  retain : bool;
  dup : bool;
  pTopicName : Z;
  topicNameLength : Z;
  pPayload : Z;
  payloadLength : Z
}.

#[global] Instance MQTTPublishInfo_t_eq_dec : EqDecision MQTTPublishInfo_t.
Proof. solve_decision. Defined.

Definition set_qos (v : Z) (p : MQTTPublishInfo_t) : MQTTPublishInfo_t :=
  Build_MQTTPublishInfo_t v (retain p) (dup p) (pTopicName p) (topicNameLength p)
    (pPayload p) (payloadLength p).

Definition set_dup (v : bool) (p : MQTTPublishInfo_t) : MQTTPublishInfo_t :=
  Build_MQTTPublishInfo_t (qos p) (retain p) v (pTopicName p) (topicNameLength p)
    (pPayload p) (payloadLength p).

Definition zero_pubinfo : MQTTPublishInfo_t :=
  Build_MQTTPublishInfo_t 0 false false NULL 0 NULL 0.

(** [cy_mqtt_pubpack_t]: a PUBLISH kept until its acknowledgement arrives. *)
Record cy_mqtt_pubpack_t : Type := {
  packetid : Z;
  pubinfo : MQTTPublishInfo_t
}.

#[global] Instance cy_mqtt_pubpack_t_eq_dec : EqDecision cy_mqtt_pubpack_t.
Proof. solve_decision. Defined.

Definition zero_pubpack : cy_mqtt_pubpack_t := Build_cy_mqtt_pubpack_t 0 zero_pubinfo.

(** [cy_mqtt_pub_ack_status_t]. *)
Record cy_mqtt_pub_ack_status_t : Type := {
  ack_packetid : Z;
  puback_status : bool
}.

Record MQTTSubscribeInfo_t : Type := {
  sub_qos : Z;
  pTopicFilter : Z;
  topicFilterLength : Z
}.

Record MQTTConnectInfo_t : Type := {
  cleanSession : bool;
  keepAliveSeconds : Z;
  pClientIdentifier : Z;
  clientIdentifierLength : Z;
  pUserName : Z;
  userNameLength : Z;
  pPassword : Z;
  passwordLength : Z
}.

Record MQTTPacketInfo_t : Type := {
  type : Z;
  pRemainingData : list Z;
  remainingLength : Z
}.

Record MQTTDeserializedInfo_t : Type := {
  packetIdentifier : Z;
  pPublishInfo : option MQTTPublishInfo_t;
  deserializationResult : MQTTStatus_t
}.

(** The API's view of a message, a subscription and a connection request. *)
Record cy_mqtt_publish_info_t : Type := {
  msg_qos : Z;
  msg_retain : bool;
  msg_dup : bool;
  topic : Z;
  topic_len : Z;
  payload : Z;
  payload_len : Z
}.

Record cy_mqtt_subscribe_info_t : Type := {
  sub_topic : Z;
  sub_topic_len : Z;
  requested_qos : Z;
  allocated_qos : Z
}.

Record cy_mqtt_connect_info_t : Type := {
  client_id : Z;
  client_id_len : Z;
  username : Z;
  username_len : Z;
  password : Z;
  password_len : Z;
  clean_session : bool;
  keep_alive_sec : Z;
  will_info : option cy_mqtt_publish_info_t
}.

Record cy_mqtt_broker_info_t : Type := {
  hostname : Z;
  hostname_len : Z;
  port : Z
}.

Inductive cy_mqtt_disconn_type_t : Type :=
| CY_MQTT_DISCONN_TYPE_BROKER_DOWN
| CY_MQTT_DISCONN_TYPE_NETWORK_DOWN.

Record cy_mqtt_received_msg_info_t : Type := {
  packet_id : Z;
  received_message : cy_mqtt_publish_info_t
}.

(** [cy_mqtt_event_t]: the tagged union handed to the application. *)
Inductive cy_mqtt_event_t : Type :=
| CY_MQTT_EVENT_TYPE_PUBLISH_RECEIVE (pub_msg : cy_mqtt_received_msg_info_t)
| CY_MQTT_EVENT_TYPE_DISCONNECT (reason : cy_mqtt_disconn_type_t).

Record cy_awsport_server_info_t : Type := {
  host_name : Z;
  server_port : Z
}.

Record cy_awsport_ssl_credentials_t : Type := {
  alpnprotos : Z;
  alpnprotoslen : Z;
  sni_host_name : Z;
  sni_host_name_size : Z;
  cred_username : Z;
  cred_username_size : Z;
  cred_password : Z;
  cred_password_size : Z;
  client_cert : Z;
  client_cert_size : Z;
  private_key : Z;
  private_key_size : Z;
  root_ca : Z;
  root_ca_size : Z
}.

Definition zero_credentials : cy_awsport_ssl_credentials_t :=
  Build_cy_awsport_ssl_credentials_t 0 0 0 0 0 0 0 0 0 0 0 0 0 0.

(** The part of [NetworkContext_t] the translation unit writes: the
    disconnect notification binding. *)
Record NetworkContext_t : Type := {
  disconnect_cbf_bound : bool;
  disconnect_user_data : Z
}.

(** [cy_mqtt_object_t].  The codec context [mqtt_context] is owned by the
    codec and has no field here: what the codec does with it is answered by
    the environment. *)
Record cy_mqtt_object_t : Type := {
  mqtt_obj_initialized : bool;
  mqtt_secure_mode : bool;
  mqtt_session_established : bool;
  broker_session_present : bool;
  mqtt_conn_status : bool;
  mqtt_obj_index : Z;
  network_context : NetworkContext_t;
  server_info : cy_awsport_server_info_t;
  security : cy_awsport_ssl_credentials_t;
  recv_thread : Z;
  mqtt_event_cb : Z;
  sub_ack_status : list Z;
  num_of_subs_in_req : Z;
  unsub_ack_received : bool;
  pub_ack_status : cy_mqtt_pub_ack_status_t;
  sent_packet_id : Z;
  outgoing_pub_packets : list cy_mqtt_pubpack_t;
  process_mutex : Z;
  user_data : Z
}.

Definition set_mqtt_obj_initialized (v : bool) (o : cy_mqtt_object_t) : cy_mqtt_object_t :=
  Build_cy_mqtt_object_t v (mqtt_secure_mode o) (mqtt_session_established o)
    (broker_session_present o) (mqtt_conn_status o) (mqtt_obj_index o)
    (network_context o) (server_info o) (security o) (recv_thread o) (mqtt_event_cb o)
    (sub_ack_status o) (num_of_subs_in_req o) (unsub_ack_received o) (pub_ack_status o)
    (sent_packet_id o) (outgoing_pub_packets o) (process_mutex o) (user_data o).

Definition set_mqtt_secure_mode (v : bool) (o : cy_mqtt_object_t) : cy_mqtt_object_t :=
  Build_cy_mqtt_object_t (mqtt_obj_initialized o) v (mqtt_session_established o)
    (broker_session_present o) (mqtt_conn_status o) (mqtt_obj_index o)
    (network_context o) (server_info o) (security o) (recv_thread o) (mqtt_event_cb o)
    (sub_ack_status o) (num_of_subs_in_req o) (unsub_ack_received o) (pub_ack_status o)
    (sent_packet_id o) (outgoing_pub_packets o) (process_mutex o) (user_data o).

Definition set_mqtt_session_established (v : bool) (o : cy_mqtt_object_t) : cy_mqtt_object_t :=
  Build_cy_mqtt_object_t (mqtt_obj_initialized o) (mqtt_secure_mode o) v
    (broker_session_present o) (mqtt_conn_status o) (mqtt_obj_index o)
    (network_context o) (server_info o) (security o) (recv_thread o) (mqtt_event_cb o)
    (sub_ack_status o) (num_of_subs_in_req o) (unsub_ack_received o) (pub_ack_status o)
    (sent_packet_id o) (outgoing_pub_packets o) (process_mutex o) (user_data o).

Definition set_broker_session_present (v : bool) (o : cy_mqtt_object_t) : cy_mqtt_object_t :=
  Build_cy_mqtt_object_t (mqtt_obj_initialized o) (mqtt_secure_mode o)
    (mqtt_session_established o) v (mqtt_conn_status o) (mqtt_obj_index o)
    (network_context o) (server_info o) (security o) (recv_thread o) (mqtt_event_cb o)
    (sub_ack_status o) (num_of_subs_in_req o) (unsub_ack_received o) (pub_ack_status o)
    (sent_packet_id o) (outgoing_pub_packets o) (process_mutex o) (user_data o).

Definition set_mqtt_conn_status (v : bool) (o : cy_mqtt_object_t) : cy_mqtt_object_t :=
  Build_cy_mqtt_object_t (mqtt_obj_initialized o) (mqtt_secure_mode o)
    (mqtt_session_established o) (broker_session_present o) v (mqtt_obj_index o)
    (network_context o) (server_info o) (security o) (recv_thread o) (mqtt_event_cb o)
    (sub_ack_status o) (num_of_subs_in_req o) (unsub_ack_received o) (pub_ack_status o)
    (sent_packet_id o) (outgoing_pub_packets o) (process_mutex o) (user_data o).

Definition set_mqtt_obj_index (v : Z) (o : cy_mqtt_object_t) : cy_mqtt_object_t :=
  Build_cy_mqtt_object_t (mqtt_obj_initialized o) (mqtt_secure_mode o)
    (mqtt_session_established o) (broker_session_present o) (mqtt_conn_status o) v
    (network_context o) (server_info o) (security o) (recv_thread o) (mqtt_event_cb o)
    (sub_ack_status o) (num_of_subs_in_req o) (unsub_ack_received o) (pub_ack_status o)
    (sent_packet_id o) (outgoing_pub_packets o) (process_mutex o) (user_data o).

Definition set_network_context (v : NetworkContext_t) (o : cy_mqtt_object_t) : cy_mqtt_object_t :=
  Build_cy_mqtt_object_t (mqtt_obj_initialized o) (mqtt_secure_mode o)
    (mqtt_session_established o) (broker_session_present o) (mqtt_conn_status o)
    (mqtt_obj_index o) v (server_info o) (security o) (recv_thread o) (mqtt_event_cb o)
    (sub_ack_status o) (num_of_subs_in_req o) (unsub_ack_received o) (pub_ack_status o)
    (sent_packet_id o) (outgoing_pub_packets o) (process_mutex o) (user_data o).

Definition set_server_info (v : cy_awsport_server_info_t) (o : cy_mqtt_object_t) : cy_mqtt_object_t :=
  Build_cy_mqtt_object_t (mqtt_obj_initialized o) (mqtt_secure_mode o)
    (mqtt_session_established o) (broker_session_present o) (mqtt_conn_status o)
    (mqtt_obj_index o) (network_context o) v (security o) (recv_thread o)
    (mqtt_event_cb o) (sub_ack_status o) (num_of_subs_in_req o) (unsub_ack_received o)
    (pub_ack_status o) (sent_packet_id o) (outgoing_pub_packets o) (process_mutex o)
    (user_data o).

Definition set_security (v : cy_awsport_ssl_credentials_t) (o : cy_mqtt_object_t) : cy_mqtt_object_t :=
  Build_cy_mqtt_object_t (mqtt_obj_initialized o) (mqtt_secure_mode o)
    (mqtt_session_established o) (broker_session_present o) (mqtt_conn_status o)
    (mqtt_obj_index o) (network_context o) (server_info o) v (recv_thread o)
    (mqtt_event_cb o) (sub_ack_status o) (num_of_subs_in_req o) (unsub_ack_received o)
    (pub_ack_status o) (sent_packet_id o) (outgoing_pub_packets o) (process_mutex o)
    (user_data o).

Definition set_recv_thread (v : Z) (o : cy_mqtt_object_t) : cy_mqtt_object_t :=
  Build_cy_mqtt_object_t (mqtt_obj_initialized o) (mqtt_secure_mode o)
    (mqtt_session_established o) (broker_session_present o) (mqtt_conn_status o)
    (mqtt_obj_index o) (network_context o) (server_info o) (security o) v
    (mqtt_event_cb o) (sub_ack_status o) (num_of_subs_in_req o) (unsub_ack_received o)
    (pub_ack_status o) (sent_packet_id o) (outgoing_pub_packets o) (process_mutex o)
    (user_data o).

Definition set_mqtt_event_cb (v : Z) (o : cy_mqtt_object_t) : cy_mqtt_object_t :=
  Build_cy_mqtt_object_t (mqtt_obj_initialized o) (mqtt_secure_mode o)
    (mqtt_session_established o) (broker_session_present o) (mqtt_conn_status o)
    (mqtt_obj_index o) (network_context o) (server_info o) (security o) (recv_thread o)
    v (sub_ack_status o) (num_of_subs_in_req o) (unsub_ack_received o)
    (pub_ack_status o) (sent_packet_id o) (outgoing_pub_packets o) (process_mutex o)
    (user_data o).

Definition set_sub_ack_status (v : list Z) (o : cy_mqtt_object_t) : cy_mqtt_object_t :=
  Build_cy_mqtt_object_t (mqtt_obj_initialized o) (mqtt_secure_mode o)
    (mqtt_session_established o) (broker_session_present o) (mqtt_conn_status o)
    (mqtt_obj_index o) (network_context o) (server_info o) (security o) (recv_thread o)
    (mqtt_event_cb o) v (num_of_subs_in_req o) (unsub_ack_received o) (pub_ack_status o)
    (sent_packet_id o) (outgoing_pub_packets o) (process_mutex o) (user_data o).

Definition set_num_of_subs_in_req (v : Z) (o : cy_mqtt_object_t) : cy_mqtt_object_t :=
  Build_cy_mqtt_object_t (mqtt_obj_initialized o) (mqtt_secure_mode o)
    (mqtt_session_established o) (broker_session_present o) (mqtt_conn_status o)
    (mqtt_obj_index o) (network_context o) (server_info o) (security o) (recv_thread o)
    (mqtt_event_cb o) (sub_ack_status o) v (unsub_ack_received o) (pub_ack_status o)
    (sent_packet_id o) (outgoing_pub_packets o) (process_mutex o) (user_data o).

Definition set_unsub_ack_received (v : bool) (o : cy_mqtt_object_t) : cy_mqtt_object_t :=
  Build_cy_mqtt_object_t (mqtt_obj_initialized o) (mqtt_secure_mode o)
    (mqtt_session_established o) (broker_session_present o) (mqtt_conn_status o)
    (mqtt_obj_index o) (network_context o) (server_info o) (security o) (recv_thread o)
    (mqtt_event_cb o) (sub_ack_status o) (num_of_subs_in_req o) v (pub_ack_status o)
    (sent_packet_id o) (outgoing_pub_packets o) (process_mutex o) (user_data o).

Definition set_pub_ack_status (v : cy_mqtt_pub_ack_status_t) (o : cy_mqtt_object_t) : cy_mqtt_object_t :=
  Build_cy_mqtt_object_t (mqtt_obj_initialized o) (mqtt_secure_mode o)
    (mqtt_session_established o) (broker_session_present o) (mqtt_conn_status o)
    (mqtt_obj_index o) (network_context o) (server_info o) (security o) (recv_thread o)
    (mqtt_event_cb o) (sub_ack_status o) (num_of_subs_in_req o) (unsub_ack_received o) v
    (sent_packet_id o) (outgoing_pub_packets o) (process_mutex o) (user_data o).

Definition set_sent_packet_id (v : Z) (o : cy_mqtt_object_t) : cy_mqtt_object_t :=
  Build_cy_mqtt_object_t (mqtt_obj_initialized o) (mqtt_secure_mode o)
    (mqtt_session_established o) (broker_session_present o) (mqtt_conn_status o)
    (mqtt_obj_index o) (network_context o) (server_info o) (security o) (recv_thread o)
    (mqtt_event_cb o) (sub_ack_status o) (num_of_subs_in_req o) (unsub_ack_received o)
    (pub_ack_status o) v (outgoing_pub_packets o) (process_mutex o) (user_data o).

Definition set_outgoing_pub_packets (v : list cy_mqtt_pubpack_t) (o : cy_mqtt_object_t) : cy_mqtt_object_t :=
  Build_cy_mqtt_object_t (mqtt_obj_initialized o) (mqtt_secure_mode o)
    (mqtt_session_established o) (broker_session_present o) (mqtt_conn_status o)
    (mqtt_obj_index o) (network_context o) (server_info o) (security o) (recv_thread o)
    (mqtt_event_cb o) (sub_ack_status o) (num_of_subs_in_req o) (unsub_ack_received o)
    (pub_ack_status o) (sent_packet_id o) v (process_mutex o) (user_data o).

Definition set_process_mutex (v : Z) (o : cy_mqtt_object_t) : cy_mqtt_object_t :=
  Build_cy_mqtt_object_t (mqtt_obj_initialized o) (mqtt_secure_mode o)
    (mqtt_session_established o) (broker_session_present o) (mqtt_conn_status o)
    (mqtt_obj_index o) (network_context o) (server_info o) (security o) (recv_thread o)
    (mqtt_event_cb o) (sub_ack_status o) (num_of_subs_in_req o) (unsub_ack_received o)
    (pub_ack_status o) (sent_packet_id o) (outgoing_pub_packets o) v (user_data o).

Definition set_user_data (v : Z) (o : cy_mqtt_object_t) : cy_mqtt_object_t :=
  Build_cy_mqtt_object_t (mqtt_obj_initialized o) (mqtt_secure_mode o)
    (mqtt_session_established o) (broker_session_present o) (mqtt_conn_status o)
    (mqtt_obj_index o) (network_context o) (server_info o) (security o) (recv_thread o)
    (mqtt_event_cb o) (sub_ack_status o) (num_of_subs_in_req o) (unsub_ack_received o)
    (pub_ack_status o) (sent_packet_id o) (outgoing_pub_packets o) (process_mutex o) v.

(** [mqtt_data_base_t]: one entry of the handle database. *)
Record mqtt_data_base_t : Type := {
  mqtt_handle : Z;
  mqtt_context : Z
}.

Definition zero_db_entry : mqtt_data_base_t := Build_mqtt_data_base_t NULL NULL.

(** ** Calls that leave the translation unit *)

Inductive mutex_ref : Type :=
| mqtt_db_mutex_ref
| process_mutex_ref (h : Z).

Inductive thread_ref : Type :=
| mqtt_disconnect_event_thread_ref
| recv_thread_ref (h : Z).

Definition incoming_packet : Type := (MQTTPacketInfo_t * MQTTDeserializedInfo_t)%type.

Inductive event : Type :=
| Call_cy_rtos_init_mutex2 (m : mutex_ref)
| Call_cy_rtos_deinit_mutex (m : mutex_ref)
| Call_cy_rtos_get_mutex (m : mutex_ref)
| Call_cy_rtos_set_mutex (m : mutex_ref)
| Call_cy_rtos_create_thread (t : thread_ref)
| Call_cy_rtos_terminate_thread (t : thread_ref)
| Call_cy_rtos_join_thread (t : thread_ref)
| Call_cy_rtos_init_queue (length : Z)
| Call_cy_rtos_deinit_queue
| Call_cy_rtos_put_queue (item : Z) (timeout_ms : Z)
| Call_cy_rtos_get_queue
| Call_cy_rtos_delay_milliseconds (ms : Z)
| Call_malloc_object
| Call_malloc_sub_list (count : Z)
| Call_free_object (h : Z)
| Call_free_sub_list
| Call_cy_awsport_network_init
| Call_cy_awsport_network_deinit
| Call_cy_awsport_network_create (h : Z) (secure : bool)
| Call_cy_awsport_network_connect (h : Z) (send_timeout recv_timeout : Z)
| Call_cy_awsport_network_disconnect (h : Z)
| Call_cy_awsport_network_delete (h : Z)
| Call_RetryUtils_ParamsReset
| Call_RetryUtils_BackoffAndSleep
| Call_MQTT_Init (h : Z) (networkbuff : Z) (buff_len : Z)
| Call_MQTT_Connect (h : Z) (info : MQTTConnectInfo_t)
    (will_msg : option MQTTPublishInfo_t) (timeout_ms : Z)
| Call_MQTT_Publish (h : Z) (info : MQTTPublishInfo_t) (id : Z)
| Call_MQTT_Subscribe (h : Z) (subs : list MQTTSubscribeInfo_t) (count : Z) (id : Z)
| Call_MQTT_Unsubscribe (h : Z) (subs : list MQTTSubscribeInfo_t) (count : Z) (id : Z)
| Call_MQTT_Disconnect (h : Z)
| Call_MQTT_ProcessLoop (h : Z) (timeout_ms : Z)
| Call_MQTT_GetPacketId (h : Z)
| Call_MQTT_PublishToResend (h : Z)
| Call_MQTT_GetSubAckStatusCodes (packet_info : MQTTPacketInfo_t)
| Call_mqtt_event_cb (h : Z) (ev : cy_mqtt_event_t) (data : Z).

(** The environment answers a call from the history of calls so far, the
    call being answered at its head. *)
Record environment : Type := {
  platform_answer : list event -> platform_result;
  codec_answer : list event -> MQTTStatus_t;
  retry_answer : list event -> RetryUtilsStatus_t;
  (** value written through an out-parameter or returned: a mutex, thread or
      queue handle, an allocated address, a packet identifier, a queue item *)
  value_answer : list event -> Z;
  (** the session-present flag MQTT_Connect stores, if it stores one *)
  session_present_answer : list event -> option bool;
  (** the packets the codec hands to the event callback during one
      MQTT_ProcessLoop *)
  incoming_answer : list event -> list incoming_packet;
  (** the status bytes MQTT_GetSubAckStatusCodes points at; their number is
      the reported count *)
  suback_payload_answer : list event -> list Z;
  (** the packet identifiers the resend cursor yields, in order *)
  resend_answer : list event -> list Z;
  (** the number of attempts after which RetryUtils_BackoffAndSleep reports
      [RetryUtilsRetriesExhausted] at the latest *)
  retry_attempts_bound : nat
}.

(** ** The state *)

(** A heap cell: the last contents written at an address, and whether the
    block is still allocated. *)
Record cell : Type := {
  cell_live : bool;
  cell_obj : cy_mqtt_object_t
}.

(** The file-scope variables, the heap of client objects and the trace.
    [thread_sno] is the function-static counter of cy_mqtt_connect. *)
Record world : Type := {
  mqtt_handle_database : list mqtt_data_base_t;
  mqtt_handle_count : Z;
  mqtt_db_mutex : Z;
  mqtt_lib_init_status : bool;
  mqtt_db_mutex_init_status : bool;
  mqtt_disconnect_event_thread : Z;
  mqtt_disconnect_event_queue : Z;
  thread_sno : Z;
  heap : gmap Z cell;
  trace : list event
}.

Definition set_mqtt_handle_database (v : list mqtt_data_base_t) (o : world) : world :=
  Build_world v (mqtt_handle_count o) (mqtt_db_mutex o) (mqtt_lib_init_status o)
    (mqtt_db_mutex_init_status o) (mqtt_disconnect_event_thread o)
    (mqtt_disconnect_event_queue o) (thread_sno o) (heap o) (trace o).

Definition set_mqtt_handle_count (v : Z) (o : world) : world :=
  Build_world (mqtt_handle_database o) v (mqtt_db_mutex o) (mqtt_lib_init_status o)
    (mqtt_db_mutex_init_status o) (mqtt_disconnect_event_thread o)
    (mqtt_disconnect_event_queue o) (thread_sno o) (heap o) (trace o).

Definition set_mqtt_db_mutex (v : Z) (o : world) : world :=
  Build_world (mqtt_handle_database o) (mqtt_handle_count o) v (mqtt_lib_init_status o)
    (mqtt_db_mutex_init_status o) (mqtt_disconnect_event_thread o)
    (mqtt_disconnect_event_queue o) (thread_sno o) (heap o) (trace o).

Definition set_mqtt_lib_init_status (v : bool) (o : world) : world :=
  Build_world (mqtt_handle_database o) (mqtt_handle_count o) (mqtt_db_mutex o) v
    (mqtt_db_mutex_init_status o) (mqtt_disconnect_event_thread o)
    (mqtt_disconnect_event_queue o) (thread_sno o) (heap o) (trace o).

Definition set_mqtt_db_mutex_init_status (v : bool) (o : world) : world :=
  Build_world (mqtt_handle_database o) (mqtt_handle_count o) (mqtt_db_mutex o)
    (mqtt_lib_init_status o) v (mqtt_disconnect_event_thread o)
    (mqtt_disconnect_event_queue o) (thread_sno o) (heap o) (trace o).

Definition set_mqtt_disconnect_event_thread (v : Z) (o : world) : world :=
  Build_world (mqtt_handle_database o) (mqtt_handle_count o) (mqtt_db_mutex o)
    (mqtt_lib_init_status o) (mqtt_db_mutex_init_status o) v
    (mqtt_disconnect_event_queue o) (thread_sno o) (heap o) (trace o).

Definition set_mqtt_disconnect_event_queue (v : Z) (o : world) : world :=
  Build_world (mqtt_handle_database o) (mqtt_handle_count o) (mqtt_db_mutex o)
    (mqtt_lib_init_status o) (mqtt_db_mutex_init_status o)
    (mqtt_disconnect_event_thread o) v (thread_sno o) (heap o) (trace o).

Definition set_thread_sno (v : Z) (o : world) : world :=
  Build_world (mqtt_handle_database o) (mqtt_handle_count o) (mqtt_db_mutex o)
    (mqtt_lib_init_status o) (mqtt_db_mutex_init_status o)
    (mqtt_disconnect_event_thread o) (mqtt_disconnect_event_queue o) v (heap o)
    (trace o).

Definition set_heap (v : gmap Z cell) (o : world) : world :=
  Build_world (mqtt_handle_database o) (mqtt_handle_count o) (mqtt_db_mutex o)
    (mqtt_lib_init_status o) (mqtt_db_mutex_init_status o)
    (mqtt_disconnect_event_thread o) (mqtt_disconnect_event_queue o) (thread_sno o) v
    (trace o).

Definition set_trace (v : list event) (o : world) : world :=
  Build_world (mqtt_handle_database o) (mqtt_handle_count o) (mqtt_db_mutex o)
    (mqtt_lib_init_status o) (mqtt_db_mutex_init_status o)
    (mqtt_disconnect_event_thread o) (mqtt_disconnect_event_queue o) (thread_sno o)
    (heap o) v.

(** ** The monad of the embedding

    A computation takes a world to a result and a new world, or has no
    behaviour ([None]): it dereferenced a pointer that is not a live client
    object, indexed an array outside its bounds, or a collaborator broke the
    contract a loop relies on to terminate. *)

Definition M (A : Type) : Type := world -> option (A * world).

#[global] Instance M_ret : MRet M := λ A a w, Some (a, w).

#[global] Instance M_bind : MBind M :=
  λ A B f m w, match m w with
               | Some (a, w') => f a w'
               | None => None
               end.

Definition no_behaviour {A : Type} : M A := λ _, None.

Definition gets {A : Type} (f : world -> A) : M A := λ w, Some (f w, w).

Definition modify (f : world -> world) : M unit := λ w, Some (tt, f w).

(** Record a call; the answer is read from the extended trace. *)
Definition call (e : event) : M (list event) :=
  λ w, let tr := e :: trace w in Some (tr, set_trace tr w).

Definition deref (h : Z) : M cy_mqtt_object_t :=
  λ w, match heap w !! h with
       | Some c => if cell_live c then Some (cell_obj c, w) else None
       | None => None
       end.

Definition update (h : Z) (f : cy_mqtt_object_t -> cy_mqtt_object_t) : M unit :=
  o ← deref h;
  modify (λ w, set_heap (<[h := Build_cell true (f o)]> (heap w)) w).

Definition array_load {A : Type} (l : list A) (index : Z) : M A :=
  if decide (0 <= index) then
    match l !! Z.to_nat index with
    | Some x => mret x
    | None => no_behaviour
    end
  else no_behaviour.

Definition array_store {A : Type} (l : list A) (index : Z) (x : A) : M (list A) :=
  if decide (0 <= index < Z.of_nat (length l)) then mret (<[Z.to_nat index := x]> l)
  else no_behaviour.

Definition set_pubinfo (v : MQTTPublishInfo_t) (s : cy_mqtt_pubpack_t) : cy_mqtt_pubpack_t :=
  Build_cy_mqtt_pubpack_t (packetid s) v.

Definition set_packetid (v : Z) (s : cy_mqtt_pubpack_t) : cy_mqtt_pubpack_t :=
  Build_cy_mqtt_pubpack_t v (pubinfo s).

Definition set_puback_status (v : bool) (s : cy_mqtt_pub_ack_status_t) :
    cy_mqtt_pub_ack_status_t :=
  Build_cy_mqtt_pub_ack_status_t (ack_packetid s) v.

Section Embedding.

Context (cfg : config) (env : environment).

(** *** Collaborators *)

Definition platform_call (e : event) : M cy_rslt_t :=
  tr ← call e; mret (cy_rslt_of (platform_answer env tr)).

Definition codec_call (e : event) : M MQTTStatus_t :=
  tr ← call e; mret (codec_answer env tr).

Definition value_call (e : event) : M Z :=
  tr ← call e; mret (value_answer env tr).

Definition cy_rtos_get_mutex (m : mutex_ref) : M cy_rslt_t :=
  platform_call (Call_cy_rtos_get_mutex m).

Definition cy_rtos_set_mutex (m : mutex_ref) : M cy_rslt_t :=
  platform_call (Call_cy_rtos_set_mutex m).

Definition cy_rtos_deinit_mutex (m : mutex_ref) : M cy_rslt_t :=
  platform_call (Call_cy_rtos_deinit_mutex m).

Definition cy_rtos_terminate_thread (t : thread_ref) : M cy_rslt_t :=
  platform_call (Call_cy_rtos_terminate_thread t).

Definition cy_rtos_join_thread (t : thread_ref) : M cy_rslt_t :=
  platform_call (Call_cy_rtos_join_thread t).

Definition cy_awsport_network_disconnect (h : Z) : M cy_rslt_t :=
  platform_call (Call_cy_awsport_network_disconnect h).

Definition cy_awsport_network_delete (h : Z) : M cy_rslt_t :=
  platform_call (Call_cy_awsport_network_delete h).

Definition MQTT_Publish (h : Z) (info : MQTTPublishInfo_t) (id : Z) : M MQTTStatus_t :=
  codec_call (Call_MQTT_Publish h info id).

Definition MQTT_Disconnect (h : Z) : M MQTTStatus_t :=
  codec_call (Call_MQTT_Disconnect h).

Definition MQTT_GetPacketId (h : Z) : M Z :=
  value_call (Call_MQTT_GetPacketId h).

(** The application callback, called when it is not NULL.  It is taken not
    to call back into the library. *)
Definition invoke_mqtt_event_cb (h : Z) (o : cy_mqtt_object_t) (ev : cy_mqtt_event_t) :
    M unit :=
  if decide (mqtt_event_cb o ≠ NULL) then
    call (Call_mqtt_event_cb h ev (user_data o));; mret tt
  else mret tt.

(** *** The outgoing PUBLISH store *)

Definition mqtt_cleanup_outgoing_publish (h : Z) (index : Z) : M cy_rslt_t :=
  if decide (index >= CY_MQTT_MAX_OUTGOING_PUBLISHES cfg) then
    mret CY_RSLT_MODULE_MQTT_BADARG
  else
    o ← deref h;
    arr ← array_store (outgoing_pub_packets o) index zero_pubpack;
    update h (set_outgoing_pub_packets arr);;
    mret CY_RSLT_SUCCESS.

(** The scan [for( index = 0; ...; index++ )] up to the first slot that
    satisfies the test, where the source leaves the loop. *)
Fixpoint first_slot (test : cy_mqtt_pubpack_t -> bool) (index : Z)
    (slots : list cy_mqtt_pubpack_t) : option Z :=
  match slots with
  | [] => None
  | s :: rest => if test s then Some index else first_slot test (index + 1) rest
  end.

Definition mqtt_cleanup_outgoing_publish_with_packet_id (h : Z) (id : Z) : M cy_rslt_t :=
  if decide (h = NULL ∨ id = MQTT_PACKET_ID_INVALID) then
    mret CY_RSLT_MODULE_MQTT_BADARG
  else
    o ← deref h;
    match first_slot (λ s, bool_decide (packetid s = id)) 0 (outgoing_pub_packets o) with
    | Some index => mqtt_cleanup_outgoing_publish h index
    | None => mret CY_RSLT_SUCCESS
    end.

(** [sub_ack_status[i] = payload[i]] for [i] from [i] on, [n] times. *)
Fixpoint copy_suback_status (n : nat) (i : Z) (codes : list Z) (status : list Z) :
    M (list Z) :=
  match n with
  | O => mret status
  | S n' =>
      c ← array_load codes i;
      status' ← array_store status i c;
      copy_suback_status n' (i + 1) codes status'
  end.

Definition mqtt_update_suback_status (h : Z) (packet_info : MQTTPacketInfo_t) :
    M cy_rslt_t :=
  tr ← call (Call_MQTT_GetSubAckStatusCodes packet_info);
  let mqttStatus := codec_answer env tr in
  let codes := suback_payload_answer env tr in
  let num_of_subscriptions := Z.of_nat (length codes) in
  o ← deref h;
  if decide (mqttStatus ≠ MQTTSuccess ∨ num_of_subscriptions ≠ num_of_subs_in_req o) then
    update h (set_num_of_subs_in_req 0);;
    mret CY_RSLT_MODULE_MQTT_ERROR
  else
    status ← copy_suback_status (Z.to_nat (num_of_subs_in_req o)) 0 codes (sub_ack_status o);
    update h (set_sub_ack_status status);;
    update h (set_num_of_subs_in_req 0);;
    mret CY_RSLT_SUCCESS.

Definition mqtt_get_next_free_index_for_publish (h : Z) (pindex : Z) : M (cy_rslt_t * Z) :=
  if decide (h = NULL) then mret (CY_RSLT_MODULE_MQTT_BADARG, pindex)
  else
    o ← deref h;
    match first_slot (λ s, bool_decide (packetid s = MQTT_PACKET_ID_INVALID)) 0
            (outgoing_pub_packets o) with
    | Some index => mret (CY_RSLT_SUCCESS, index)
    | None => mret (CY_RSLT_MODULE_MQTT_ERROR, pindex)
    end.

Definition mqtt_cleanup_outgoing_publishes (h : Z) : M cy_rslt_t :=
  if decide (h = NULL) then mret CY_RSLT_MODULE_MQTT_BADARG
  else
    update h (set_outgoing_pub_packets
                (replicate (Z.to_nat (CY_MQTT_MAX_OUTGOING_PUBLISHES cfg)) zero_pubpack));;
    mret CY_RSLT_SUCCESS.

(** *** Publish resend *)

(** The [for] loop of mqtt_handle_publish_resend over the slots from [index]
    on.  Returns [found_packetid] and whether the loop was left because a
    send failed. *)
Fixpoint resend_matching_slots (h : Z) (packetid_to_resend : Z) (index : Z)
    (slots : list cy_mqtt_pubpack_t) (found_packetid : bool) : M (bool * bool) :=
  match slots with
  | [] => mret (found_packetid, false)
  | s :: rest =>
      if decide (packetid s = packetid_to_resend) then
        if decide (qos (pubinfo s) ≠ MQTTQoS0) then
          o ← deref h;
          arr ← array_store (outgoing_pub_packets o) index
                  (set_pubinfo (set_dup true (pubinfo s)) s);
          update h (set_outgoing_pub_packets arr);;
          mqttStatus ← MQTT_Publish h (set_dup true (pubinfo s)) (packetid s);
          if decide (mqttStatus ≠ MQTTSuccess) then mret (true, true)
          else resend_matching_slots h packetid_to_resend (index + 1) rest true
        else resend_matching_slots h packetid_to_resend (index + 1) rest true
      else resend_matching_slots h packetid_to_resend (index + 1) rest found_packetid
  end.

(** The [while] loop, entered with the identifier the cursor returned last
    and the identifiers it has yet to yield; past the last one it returns
    [MQTT_PACKET_ID_INVALID]. *)
Fixpoint resend_while (h : Z) (result : cy_rslt_t) (packetid_to_resend : Z)
    (cursor : list Z) {struct cursor} : M cy_rslt_t :=
  if decide (packetid_to_resend = MQTT_PACKET_ID_INVALID) then mret result
  else
    o ← deref h;
    scan ← resend_matching_slots h packetid_to_resend 0 (outgoing_pub_packets o) false;
    let found_packetid : bool := fst scan in
    let send_failed : bool := snd scan in
    let result := if send_failed then CY_RSLT_MODULE_MQTT_PUBLISH_FAIL else result in
    if found_packetid then
      call (Call_MQTT_PublishToResend h);;
      match cursor with
      | [] => mret result
      | next :: cursor' => resend_while h result next cursor'
      end
    else mret CY_RSLT_MODULE_MQTT_PUBLISH_FAIL.

Definition mqtt_handle_publish_resend (h : Z) : M cy_rslt_t :=
  tr ← call (Call_MQTT_PublishToResend h);
  match resend_answer env tr with
  | [] => mret CY_RSLT_SUCCESS
  | packetid_to_resend :: cursor =>
      resend_while h CY_RSLT_SUCCESS packetid_to_resend cursor
  end.

(** *** The event dispatcher *)

Definition mqtt_awsport_network_disconnect_callback (user_data : Z) : M unit :=
  platform_call (Call_cy_rtos_put_queue user_data
                   CY_MQTT_DISCONNECT_EVENT_QUEUE_TIMEOUT_IN_MSEC);;
  mret tt.

(** The scan of the handle database for the codec context. *)
Fixpoint lookup_handle (param_mqtt_context : Z) (db : list mqtt_data_base_t) : Z :=
  match db with
  | [] => NULL
  | e :: rest =>
      if decide (mqtt_context e = param_mqtt_context) then mqtt_handle e
      else lookup_handle param_mqtt_context rest
  end.

Definition received_qos (codec_qos : Z) : Z :=
  let q0 := 0 in
  let q1 := if decide (codec_qos = MQTTQoS0) then CY_MQTT_QOS0 else q0 in
  let q2 := if decide (codec_qos = MQTTQoS1) then CY_MQTT_QOS1 else q1 in
  if decide (codec_qos = MQTTQoS2) then CY_MQTT_QOS2 else q2.

Definition publish_receive_event (id : Z) (p : MQTTPublishInfo_t) : cy_mqtt_event_t :=
  CY_MQTT_EVENT_TYPE_PUBLISH_RECEIVE
    (Build_cy_mqtt_received_msg_info_t id
       (Build_cy_mqtt_publish_info_t (received_qos (qos p)) (retain p) (dup p)
          (pTopicName p) (topicNameLength p) (pPayload p) (payloadLength p))).

(** The body shared by the PUBREC and PUBACK cases. *)
Definition handle_publish_ack (h : Z) (id : Z) (info : MQTTDeserializedInfo_t) : M unit :=
  (if decide (deserializationResult info ≠ MQTTSuccess) then mret tt
   else
     update h (λ o, set_pub_ack_status
                      (set_puback_status (bool_decide (id = ack_packetid (pub_ack_status o)))
                         (pub_ack_status o)) o));;
  mqtt_cleanup_outgoing_publish_with_packet_id h id;;
  mret tt.

Definition mqtt_event_callback (param_mqtt_context : Z)
    (param_packet_info : option MQTTPacketInfo_t)
    (param_deserialized_info : option MQTTDeserializedInfo_t) : M unit :=
  match param_packet_info, param_deserialized_info with
  | Some packet_info, Some info =>
      if decide (param_mqtt_context = NULL) then mret tt
      else
        handle ← gets (λ w, lookup_handle param_mqtt_context (mqtt_handle_database w));
        if decide (handle = NULL) then mret tt
        else
          let id := packetIdentifier info in
          if decide (Z.land (type packet_info) 240 = MQTT_PACKET_TYPE_PUBLISH) then
            match pPublishInfo info with
            | Some p =>
                o ← deref handle;
                invoke_mqtt_event_cb handle o (publish_receive_event id p)
            | None => mret tt
            end
          else if decide (type packet_info = MQTT_PACKET_TYPE_SUBACK) then
            o ← deref handle;
            if decide (sent_packet_id o ≠ id) then mret tt
            else mqtt_update_suback_status handle packet_info;; mret tt
          else if decide (type packet_info = MQTT_PACKET_TYPE_UNSUBACK) then
            o ← deref handle;
            if decide (sent_packet_id o ≠ id) then update handle (set_unsub_ack_received false)
            else update handle (set_unsub_ack_received true)
          else if decide (type packet_info = MQTT_PACKET_TYPE_PINGRESP) then
            if decide (deserializationResult info ≠ MQTTSuccess) then
              o ← deref handle;
              invoke_mqtt_event_cb handle o
                (CY_MQTT_EVENT_TYPE_DISCONNECT CY_MQTT_DISCONN_TYPE_BROKER_DOWN);;
              update handle (set_mqtt_session_established false)
            else mret tt
          else if decide (type packet_info = MQTT_PACKET_TYPE_PUBREC) then
            handle_publish_ack handle id info
          else if decide (type packet_info = MQTT_PACKET_TYPE_PUBREL) then mret tt
          else if decide (type packet_info = MQTT_PACKET_TYPE_PUBCOMP) then mret tt
          else if decide (type packet_info = MQTT_PACKET_TYPE_PUBACK) then
            handle_publish_ack handle id info
          else if decide (type packet_info = MQTT_PACKET_TYPE_DISCONNECT) then mret tt
          else mret tt
  | _, _ => mret tt
  end.

(** MQTT_ProcessLoop: the codec reads what the transport has, hands each
    packet to the event callback with its own context, and reports a
    status. *)
Fixpoint dispatch_incoming (h : Z) (packets : list incoming_packet) : M unit :=
  match packets with
  | [] => mret tt
  | (packet_info, info) :: rest =>
      mqtt_event_callback h (Some packet_info) (Some info);;
      dispatch_incoming h rest
  end.

Definition MQTT_ProcessLoop (h : Z) (timeout_ms : Z) : M MQTTStatus_t :=
  tr ← call (Call_MQTT_ProcessLoop h timeout_ms);
  dispatch_incoming h (incoming_answer env tr);;
  mret (codec_answer env tr).

(** *** Session establishment *)

Definition MQTT_Connect (h : Z) (info : MQTTConnectInfo_t)
    (will_msg : option MQTTPublishInfo_t) (timeout_ms : Z) : M MQTTStatus_t :=
  tr ← call (Call_MQTT_Connect h info will_msg timeout_ms);
  match session_present_answer env tr with
  | Some b => update h (set_broker_session_present b)
  | None => mret tt
  end;;
  mret (codec_answer env tr).

(** [session_present] is [&(mqtt_obj->broker_session_present)] at the only
    call site, so the codec writes the flag into the object. *)
Definition mqtt_establish_session (h : Z) (connect_info : MQTTConnectInfo_t)
    (will_msg : option MQTTPublishInfo_t) (create_clean_session : bool) : M cy_rslt_t :=
  result ← cy_rtos_get_mutex (process_mutex_ref h);
  if decide (result ≠ CY_RSLT_SUCCESS) then mret CY_RSLT_MODULE_MQTT_CONNECT_FAIL
  else
    mqttStatus ← MQTT_Connect h connect_info will_msg CY_MQTT_CONNACK_RECV_TIMEOUT_MS;
    if decide (mqttStatus ≠ MQTTSuccess) then
      cy_rtos_set_mutex (process_mutex_ref h);;
      mret CY_RSLT_MODULE_MQTT_CONNECT_FAIL
    else
      update h (set_mqtt_session_established true);;
      result ← cy_rtos_set_mutex (process_mutex_ref h);
      if decide (result ≠ CY_RSLT_SUCCESS) then mret CY_RSLT_MODULE_MQTT_CONNECT_FAIL
      else mret result.

Definition mqtt_initialize_core_lib (h : Z) (networkbuff : Z) (buff_len : Z) : M cy_rslt_t :=
  if decide (h = NULL) then mret CY_RSLT_MODULE_MQTT_BADARG
  else
    mqttStatus ← codec_call (Call_MQTT_Init h networkbuff buff_len);
    if decide (mqttStatus ≠ MQTTSuccess) then mret CY_RSLT_MODULE_MQTT_INIT_FAIL
    else mret CY_RSLT_SUCCESS.

(** *** The two worker threads, one loop iteration each *)

Definition mqtt_disconn_event_thread_iteration : M unit :=
  tr ← call Call_cy_rtos_get_queue;
  let result := cy_rslt_of (platform_answer env tr) in
  let handle := value_answer env tr in
  if decide (CY_RSLT_SUCCESS ≠ result) then mret tt
  else if decide (handle = NULL) then mret tt
  else
    result ← cy_rtos_get_mutex (process_mutex_ref handle);
    if decide (result ≠ CY_RSLT_SUCCESS) then mret tt
    else
      o ← deref handle;
      (if decide (mqtt_session_established o = true) then
         invoke_mqtt_event_cb handle o
           (CY_MQTT_EVENT_TYPE_DISCONNECT CY_MQTT_DISCONN_TYPE_NETWORK_DOWN);;
         update handle (set_mqtt_session_established false)
       else mret tt);;
      cy_rtos_set_mutex (process_mutex_ref handle);;
      mret tt.

(** The check made before the loop of mqtt_receive_thread is entered. *)
Definition mqtt_receive_thread_entry (arg : Z) : M bool :=
  if decide (arg = NULL) then mret false
  else o ← deref arg; mret (mqtt_obj_initialized o).

(** One iteration of the loop; [false] when the loop is left. *)
Definition mqtt_receive_thread_iteration (h : Z) : M bool :=
  result ← cy_rtos_get_mutex (process_mutex_ref h);
  if decide (result ≠ CY_RSLT_SUCCESS) then mret false
  else
    o ← deref h;
    (if mqtt_session_established o then
       mqtt_status ← MQTT_ProcessLoop h CY_MQTT_RECEIVE_DATA_TIMEOUT_MS;
       if decide (mqtt_status ≠ MQTTSuccess) then
         if decide (mqtt_status = MQTTRecvFailed ∨ mqtt_status = MQTTSendFailed ∨
                    mqtt_status = MQTTBadResponse ∨ mqtt_status = MQTTKeepAliveTimeout ∨
                    mqtt_status = MQTTIllegalState) then
           if decide (mqtt_status = MQTTKeepAliveTimeout) then
             o' ← deref h;
             invoke_mqtt_event_cb h o'
               (CY_MQTT_EVENT_TYPE_DISCONNECT CY_MQTT_DISCONN_TYPE_BROKER_DOWN);;
             update h (set_mqtt_session_established false)
           else mret tt
         else mret tt
       else mret tt
     else mret tt);;
    cy_rtos_set_mutex (process_mutex_ref h);;
    call (Call_cy_rtos_delay_milliseconds CY_MQTT_RECEIVE_THREAD_SLEEP_MS);;
    mret true.

(** *** Library initialisation *)

Definition cy_mqtt_init : M cy_rslt_t :=
  initialized ← gets mqtt_lib_init_status;
  if (initialized : bool) then mret CY_RSLT_SUCCESS
  else
    tr ← call (Call_cy_rtos_init_mutex2 mqtt_db_mutex_ref);
    modify (set_mqtt_db_mutex (value_answer env tr));;
    let result := cy_rslt_of (platform_answer env tr) in
    if decide (result ≠ CY_RSLT_SUCCESS) then mret result
    else
      modify (set_mqtt_db_mutex_init_status true);;
      result ← platform_call Call_cy_awsport_network_init;
      if decide (result ≠ CY_RSLT_SUCCESS) then
        cy_rtos_deinit_mutex mqtt_db_mutex_ref;;
        modify (set_mqtt_db_mutex_init_status false);;
        mret result
      else
        tr ← call (Call_cy_rtos_init_queue (CY_MQTT_MAX_HANDLE cfg));
        modify (set_mqtt_disconnect_event_queue (value_answer env tr));;
        let result := cy_rslt_of (platform_answer env tr) in
        if decide (result ≠ CY_RSLT_SUCCESS) then
          cy_rtos_deinit_mutex mqtt_db_mutex_ref;;
          platform_call Call_cy_awsport_network_deinit;;
          modify (set_mqtt_db_mutex_init_status false);;
          mret result
        else
          tr ← call (Call_cy_rtos_create_thread mqtt_disconnect_event_thread_ref);
          modify (set_mqtt_disconnect_event_thread (value_answer env tr));;
          let result := cy_rslt_of (platform_answer env tr) in
          if decide (result ≠ CY_RSLT_SUCCESS) then
            cy_rtos_deinit_mutex mqtt_db_mutex_ref;;
            platform_call Call_cy_awsport_network_deinit;;
            platform_call Call_cy_rtos_deinit_queue;;
            modify (set_mqtt_db_mutex_init_status false);;
            mret result
          else
            modify (set_mqtt_lib_init_status true);;
            mret result.

(** *** Creation *)

(** A client object after [memset( mqtt_obj, 0x00, sizeof( cy_mqtt_object_t ) )]. *)
Definition zero_obj : cy_mqtt_object_t :=
  Build_cy_mqtt_object_t false false false false false 0
    (Build_NetworkContext_t false NULL) (Build_cy_awsport_server_info_t NULL 0)
    zero_credentials NULL NULL
    (replicate (Z.to_nat (CY_MQTT_MAX_OUTGOING_SUBSCRIBES cfg)) 0) 0 false
    (Build_cy_mqtt_pub_ack_status_t 0 false) 0
    (replicate (Z.to_nat (CY_MQTT_MAX_OUTGOING_PUBLISHES cfg)) zero_pubpack) NULL NULL.

(** [malloc( sizeof( cy_mqtt_object_t ) )]: NULL, or the address of a block
    that is not in use. *)
Definition malloc_object : M Z :=
  p ← value_call Call_malloc_object;
  if decide (p = NULL) then mret NULL
  else
    c ← gets (λ w, heap w !! p);
    match c with
    | Some (Build_cell true _) => no_behaviour
    | _ => mret p
    end.

Definition write_cell (h : Z) (c : cell) : M unit :=
  modify (λ w, set_heap (<[h := c]> (heap w)) w).

Definition free_object (h : Z) : M unit :=
  o ← deref h;
  call (Call_free_object h);;
  write_cell h (Build_cell false o).

(** The scan of cy_mqtt_create for a database entry whose handle is NULL. *)
Fixpoint first_free_db_slot (slot_index : Z) (db : list mqtt_data_base_t) : option Z :=
  match db with
  | [] => None
  | e :: rest =>
      if decide (mqtt_handle e = NULL) then Some slot_index
      else first_free_db_slot (slot_index + 1) rest
  end.

(** The code after the label [exit] of cy_mqtt_create, for an allocated object. *)
Definition cy_mqtt_create_exit (mqtt_obj : Z) (process_mutex_init_status : bool)
    (result : cy_rslt_t) : M (cy_rslt_t * option Z) :=
  (if process_mutex_init_status then
     cy_rtos_deinit_mutex (process_mutex_ref mqtt_obj);; mret tt
   else mret tt);;
  free_object mqtt_obj;;
  mret (result, None).

(** Returns the result and the handle stored through [mqtt_handle], if one
    was stored.  [mqtt_handle] is the address of the caller's variable. *)
Definition cy_mqtt_create (buffer : Z) (bufflen : Z)
    (security : option cy_awsport_ssl_credentials_t)
    (broker_info : option cy_mqtt_broker_info_t) (event_callback : Z) (user_data : Z)
    (mqtt_handle : Z) : M (cy_rslt_t * option Z) :=
  match broker_info with
  | None => mret (CY_RSLT_MODULE_MQTT_BADARG, None)
  | Some broker_info =>
  if decide (mqtt_handle = NULL ∨ event_callback = NULL) then
    mret (CY_RSLT_MODULE_MQTT_BADARG, None)
  else if decide (buffer = NULL) then mret (CY_RSLT_MODULE_MQTT_BADARG, None)
  else if decide (bufflen < CY_MQTT_MIN_NETWORK_BUFFER_SIZE cfg) then
    mret (CY_RSLT_MODULE_MQTT_BADARG, None)
  else
    lib_init ← gets mqtt_lib_init_status;
    db_mutex_init ← gets mqtt_db_mutex_init_status;
    if decide (lib_init = false ∨ db_mutex_init = false) then
      mret (CY_RSLT_MODULE_MQTT_CREATE_FAIL, None)
    else
      result ← cy_rtos_get_mutex mqtt_db_mutex_ref;
      if decide (result ≠ CY_RSLT_SUCCESS) then mret (result, None)
      else
        count ← gets mqtt_handle_count;
        if decide (count >= CY_MQTT_MAX_HANDLE cfg) then
          cy_rtos_set_mutex mqtt_db_mutex_ref;;
          mret (CY_RSLT_MODULE_MQTT_CREATE_FAIL, None)
        else
          result ← cy_rtos_set_mutex mqtt_db_mutex_ref;
          if decide (result ≠ CY_RSLT_SUCCESS) then mret (result, None)
          else
            mqtt_obj ← malloc_object;
            if decide (mqtt_obj = NULL) then mret (CY_RSLT_MODULE_MQTT_NOMEM, None)
            else
              let o0 :=
                match security with
                | Some s => set_mqtt_secure_mode true (set_security s zero_obj)
                | None => set_mqtt_secure_mode false zero_obj
                end in
              let o1 :=
                set_user_data user_data
                  (set_mqtt_event_cb event_callback
                     (set_server_info
                        (Build_cy_awsport_server_info_t (hostname broker_info)
                           (port broker_info)) o0)) in
              write_cell mqtt_obj (Build_cell true o1);;
              tr ← call (Call_cy_rtos_init_mutex2 (process_mutex_ref mqtt_obj));
              update mqtt_obj (set_process_mutex (value_answer env tr));;
              let result := cy_rslt_of (platform_answer env tr) in
              if decide (result ≠ CY_RSLT_SUCCESS) then
                cy_mqtt_create_exit mqtt_obj false result
              else
                result ← mqtt_initialize_core_lib mqtt_obj buffer bufflen;
                if decide (result ≠ CY_RSLT_SUCCESS) then
                  cy_mqtt_create_exit mqtt_obj true result
                else
                  update mqtt_obj (set_network_context (Build_NetworkContext_t true mqtt_obj));;
                  result ← cy_rtos_get_mutex mqtt_db_mutex_ref;
                  if decide (result ≠ CY_RSLT_SUCCESS) then
                    cy_mqtt_create_exit mqtt_obj true result
                  else
                    db ← gets mqtt_handle_database;
                    match first_free_db_slot 0 db with
                    | None =>
                        cy_rtos_set_mutex mqtt_db_mutex_ref;;
                        cy_mqtt_create_exit mqtt_obj true CY_RSLT_MODULE_MQTT_CREATE_FAIL
                    | Some slot_index =>
                        db' ← array_store db slot_index
                                (Build_mqtt_data_base_t mqtt_obj mqtt_obj);
                        modify (set_mqtt_handle_database db');;
                        update mqtt_obj (set_mqtt_obj_initialized true);;
                        update mqtt_obj (set_mqtt_obj_index slot_index);;
                        modify (λ w, set_mqtt_handle_count
                                       (wrap_uint8 (mqtt_handle_count w + 1)) w);;
                        result ← cy_rtos_set_mutex mqtt_db_mutex_ref;
                        if decide (result ≠ CY_RSLT_SUCCESS) then
                          r ← cy_mqtt_create_exit mqtt_obj true result;
                          mret (fst r, Some mqtt_obj)
                        else mret (CY_RSLT_SUCCESS, Some mqtt_obj)
                    end
  end.

(** *** Connect *)

Definition connect_details (connect_info : cy_mqtt_connect_info_t) : MQTTConnectInfo_t :=
  Build_MQTTConnectInfo_t (clean_session connect_info) (keep_alive_sec connect_info)
    (client_id connect_info) (client_id_len connect_info)
    (username connect_info) (username_len connect_info)
    (password connect_info) (password_len connect_info).

(** The will message handed to the codec.  The tests of [dup] and [retain]
    against both truth values cannot fail for a [bool] and are not shown. *)
Definition will_msg_details (will : cy_mqtt_publish_info_t) : MQTTPublishInfo_t :=
  Build_MQTTPublishInfo_t
    (if decide (msg_qos will = CY_MQTT_QOS0) then MQTTQoS0
     else if decide (msg_qos will = CY_MQTT_QOS1) then MQTTQoS1
     else MQTTQoS2)
    (msg_retain will) (msg_dup will) (topic will) (topic_len will)
    (payload will) (payload_len will).

(** [connect_info->will_info != NULL] and its QoS is above [CY_MQTT_QOS2]. *)
Definition will_qos_invalid (will : option cy_mqtt_publish_info_t) : bool :=
  match will with
  | Some will => bool_decide (msg_qos will > CY_MQTT_QOS2)
  | None => false
  end.

(** The [do ... while] that brings the transport up. *)
Fixpoint connect_transport (fuel : nat) (h : Z) (secure : bool)
    (retryUtilsStatus : RetryUtilsStatus_t) : M cy_rslt_t :=
  match fuel with
  | O => no_behaviour
  | S fuel' =>
      result ← platform_call (Call_cy_awsport_network_create h secure);
      step ←
        (if decide (result ≠ CY_RSLT_SUCCESS) then
           tr ← call Call_RetryUtils_BackoffAndSleep;
           mret (result, retry_answer env tr)
         else
           result ← platform_call
                      (Call_cy_awsport_network_connect h
                         (CY_MQTT_MESSAGE_SEND_TIMEOUT_MS cfg)
                         CY_MQTT_SOCKET_RECEIVE_TIMEOUT_MS);
           retryUtilsStatus ←
             (if decide (result ≠ CY_RSLT_SUCCESS) then
                tr ← call Call_RetryUtils_BackoffAndSleep;
                cy_awsport_network_delete h;;
                mret (retry_answer env tr)
              else mret retryUtilsStatus);
           if decide (retryUtilsStatus = RetryUtilsRetriesExhausted) then
             mret (CY_RSLT_MODULE_MQTT_CONNECT_FAIL, retryUtilsStatus)
           else mret (result, retryUtilsStatus));
      let result : cy_rslt_t := fst step in
      let retryUtilsStatus : RetryUtilsStatus_t := snd step in
      if decide (result ≠ CY_RSLT_SUCCESS ∧ retryUtilsStatus = RetryUtilsSuccess) then
        connect_transport fuel' h secure retryUtilsStatus
      else mret result
  end.

(** The code after the label [exit] of cy_mqtt_connect. *)
Definition cy_mqtt_connect_exit (h : Z) (result : cy_rslt_t) : M cy_rslt_t :=
  o ← deref h;
  (if decide (mqtt_session_established o = true) then
     MQTT_Disconnect h;;
     update h (set_mqtt_session_established false)
   else mret tt);;
  (if decide (recv_thread o ≠ NULL) then
     cy_rtos_terminate_thread (recv_thread_ref h);;
     cy_rtos_join_thread (recv_thread_ref h);;
     update h (set_recv_thread NULL)
   else mret tt);;
  cy_awsport_network_disconnect h;;
  cy_awsport_network_delete h;;
  mret result.

Definition cy_mqtt_connect (mqtt_handle : Z) (connect_info : cy_mqtt_connect_info_t) :
    M cy_rslt_t :=
  if decide (mqtt_handle = NULL) then mret CY_RSLT_MODULE_MQTT_BADARG
  else
    o ← deref mqtt_handle;
    if decide (mqtt_obj_initialized o = false) then
      mret CY_RSLT_MODULE_MQTT_OBJ_NOT_INITIALIZED
    else if will_qos_invalid (will_info connect_info) then
      mret CY_RSLT_MODULE_MQTT_CONNECT_FAIL
    else
      let will_msg_ptr := will_msg_details <$> will_info connect_info in
      call Call_RetryUtils_ParamsReset;;
      result ← connect_transport (S (retry_attempts_bound env)) mqtt_handle
                 (mqtt_secure_mode o) RetryUtilsSuccess;
      if decide (result ≠ CY_RSLT_SUCCESS) then mret result
      else
        let create_clean_session :=
          if decide (cleanSession (connect_details connect_info) = true) then false
          else true in
        result ← mqtt_establish_session mqtt_handle (connect_details connect_info)
                   will_msg_ptr create_clean_session;
        if decide (result ≠ CY_RSLT_SUCCESS) then cy_mqtt_connect_exit mqtt_handle result
        else
          o ← deref mqtt_handle;
          result ←
            (if decide (recv_thread o = NULL) then
               modify (λ w, set_thread_sno (wrap_uint8 (thread_sno w + 1)) w);;
               update mqtt_handle (set_recv_thread NULL);;
               tr ← call (Call_cy_rtos_create_thread (recv_thread_ref mqtt_handle));
               update mqtt_handle (set_recv_thread (value_answer env tr));;
               mret (cy_rslt_of (platform_answer env tr))
             else mret result);
          if decide (result ≠ CY_RSLT_SUCCESS) then cy_mqtt_connect_exit mqtt_handle result
          else
            o ← deref mqtt_handle;
            result ←
              (if decide (broker_session_present o = true ∧ create_clean_session = false)
               then mqtt_handle_publish_resend mqtt_handle
               else mqtt_cleanup_outgoing_publishes mqtt_handle);
            if decide (result ≠ CY_RSLT_SUCCESS) then
              cy_mqtt_connect_exit mqtt_handle result
            else
              update mqtt_handle (set_mqtt_conn_status true);;
              mret result.

(** *** The request path *)

(** Iterations the ACK wait loops need at most: the [uint32_t] budget starts
    at the configured timeout and loses [CY_MQTT_SOCKET_RECEIVE_TIMEOUT_MS]
    per round until it is 0. *)
Definition ack_wait_fuel : nat :=
  Z.to_nat (if decide (wrap_uint32 (CY_MQTT_ACK_RECEIVE_TIMEOUT_MS cfg) = 0) then 2 ^ 32
            else wrap_uint32 (CY_MQTT_ACK_RECEIVE_TIMEOUT_MS cfg)).

(** Rounds of a retry loop: [retry] is a [uint8_t] compared with
    [CY_MQTT_MAX_RETRY_VALUE]; the embedding is exact for values up to 255. *)
Definition retry_fuel : nat := Z.to_nat (Z.max 1 (CY_MQTT_MAX_RETRY_VALUE cfg)).

Definition load_slot (h : Z) (index : Z) : M cy_mqtt_pubpack_t :=
  o ← deref h; array_load (outgoing_pub_packets o) index.

Definition store_slot (h : Z) (index : Z) (s : cy_mqtt_pubpack_t) : M unit :=
  o ← deref h;
  arr ← array_store (outgoing_pub_packets o) index s;
  update h (set_outgoing_pub_packets arr).

(** The inner loop of cy_mqtt_publish; returns [mqttStatus] and [result]. *)
Fixpoint publish_ack_wait (fuel : nat) (h : Z) (timeout : Z) (result : cy_rslt_t) :
    M (MQTTStatus_t * cy_rslt_t) :=
  match fuel with
  | O => no_behaviour
  | S fuel' =>
      mqttStatus ← MQTT_ProcessLoop h CY_MQTT_RECEIVE_DATA_TIMEOUT_MS;
      if decide (mqttStatus ≠ MQTTSuccess) then
        mret (mqttStatus, CY_RSLT_MODULE_MQTT_PUBLISH_FAIL)
      else
        o ← deref h;
        if decide (puback_status (pub_ack_status o) = true) then
          mret (mqttStatus, CY_RSLT_SUCCESS)
        else
          let timeout := wrap_uint32 (timeout - CY_MQTT_SOCKET_RECEIVE_TIMEOUT_MS) in
          if decide (timeout > 0) then publish_ack_wait fuel' h timeout result
          else mret (mqttStatus, result)
  end.

(** The publish retry loop. *)
Fixpoint publish_retry (fuel : nat) (h : Z) (publishIndex : Z) (retry : Z)
    (result : cy_rslt_t) : M cy_rslt_t :=
  match fuel with
  | O => no_behaviour
  | S fuel' =>
      update h (λ o, set_pub_ack_status (set_puback_status false (pub_ack_status o)) o);;
      let timeout := wrap_uint32 (CY_MQTT_ACK_RECEIVE_TIMEOUT_MS cfg) in
      s ← load_slot h publishIndex;
      mqttStatus ← MQTT_Publish h (pubinfo s) (packetid s);
      step ←
        (if decide (mqttStatus ≠ MQTTSuccess) then
           mret (mqttStatus, CY_RSLT_MODULE_MQTT_PUBLISH_FAIL)
         else
           step ←
             (if decide (qos (pubinfo s) ≠ MQTTQoS0) then
                waited ← publish_ack_wait ack_wait_fuel h timeout result;
                o ← deref h;
                if decide (puback_status (pub_ack_status o) = false) then
                  mret (MQTTRecvFailed, CY_RSLT_MODULE_MQTT_PUBLISH_FAIL)
                else mret waited
              else mret (mqttStatus, CY_RSLT_SUCCESS));
           s' ← load_slot h publishIndex;
           store_slot h publishIndex (set_pubinfo (set_dup true (pubinfo s')) s');;
           mret step);
      let mqttStatus : MQTTStatus_t := fst step in
      let result : cy_rslt_t := snd step in
      let retry := wrap_uint8 (retry + 1) in
      if decide (mqttStatus ≠ MQTTSuccess ∧ retry < CY_MQTT_MAX_RETRY_VALUE cfg) then
        publish_retry fuel' h publishIndex retry result
      else mret result
  end.

Definition cy_mqtt_publish (mqtt_handle : Z) (pubmsg : option cy_mqtt_publish_info_t) :
    M cy_rslt_t :=
  match pubmsg with
  | None => mret CY_RSLT_MODULE_MQTT_BADARG
  | Some pubmsg =>
  if decide (mqtt_handle = NULL) then mret CY_RSLT_MODULE_MQTT_BADARG
  else
    o ← deref mqtt_handle;
    if decide (mqtt_obj_initialized o = false) then
      mret CY_RSLT_MODULE_MQTT_OBJ_NOT_INITIALIZED
    else if decide (mqtt_session_established o = false) then
      mret CY_RSLT_MODULE_MQTT_NOT_CONNECTED
    else
      found ← mqtt_get_next_free_index_for_publish mqtt_handle
                (CY_MQTT_MAX_OUTGOING_PUBLISHES cfg);
      let publishIndex : Z := snd found in
      if decide (fst found ≠ CY_RSLT_SUCCESS) then mret CY_RSLT_MODULE_MQTT_PUBLISH_FAIL
      else if decide (msg_qos pubmsg = CY_MQTT_QOS0 ∨ msg_qos pubmsg = CY_MQTT_QOS1 ∨
                      msg_qos pubmsg = CY_MQTT_QOS2) then
        s ← load_slot mqtt_handle publishIndex;
        store_slot mqtt_handle publishIndex
          (set_pubinfo
             (Build_MQTTPublishInfo_t (msg_qos pubmsg) (retain (pubinfo s)) (dup (pubinfo s))
                (topic pubmsg) (topic_len pubmsg) (payload pubmsg) (payload_len pubmsg)) s);;
        result ← cy_rtos_get_mutex (process_mutex_ref mqtt_handle);
        if decide (result ≠ CY_RSLT_SUCCESS) then mret result
        else
          id ← MQTT_GetPacketId mqtt_handle;
          s ← load_slot mqtt_handle publishIndex;
          store_slot mqtt_handle publishIndex (set_packetid id s);;
          update mqtt_handle
            (λ o, set_pub_ack_status
                    (Build_cy_mqtt_pub_ack_status_t id (puback_status (pub_ack_status o))) o);;
          result ← publish_retry retry_fuel mqtt_handle publishIndex 0 result;
          if decide (result ≠ CY_RSLT_SUCCESS) then
            mqtt_cleanup_outgoing_publish mqtt_handle publishIndex;;
            cy_rtos_set_mutex (process_mutex_ref mqtt_handle);;
            mret result
          else
            s ← load_slot mqtt_handle publishIndex;
            (if decide (qos (pubinfo s) = MQTTQoS0) then
               mqtt_cleanup_outgoing_publish mqtt_handle publishIndex;; mret tt
             else mret tt);;
            result ← cy_rtos_set_mutex (process_mutex_ref mqtt_handle);
            mret result
      else mret CY_RSLT_MODULE_MQTT_PUBLISH_FAIL
  end.

(** The first loop of cy_mqtt_subscribe: translate the requested QoS of the
    entries from [index] on.  [None] for the list when a QoS is not
    supported; the caller's array as written so far is returned with it. *)
Fixpoint subscribe_translate (n : nat) (index : Z)
    (sub_info : list cy_mqtt_subscribe_info_t) (sub_list : list MQTTSubscribeInfo_t) :
    M (option (list MQTTSubscribeInfo_t) * list cy_mqtt_subscribe_info_t) :=
  match n with
  | O => mret (Some sub_list, sub_info)
  | S n' =>
      e ← array_load sub_info index;
      if decide (requested_qos e = CY_MQTT_QOS0 ∨ requested_qos e = CY_MQTT_QOS1 ∨
                 requested_qos e = CY_MQTT_QOS2) then
        sub_info' ← array_store sub_info index
                      (Build_cy_mqtt_subscribe_info_t (sub_topic e) (sub_topic_len e)
                         (requested_qos e) CY_MQTT_QOS_INVALID);
        subscribe_translate n' (index + 1) sub_info'
          (sub_list ++ [Build_MQTTSubscribeInfo_t (requested_qos e) (sub_topic e)
                          (sub_topic_len e)])
      else mret (None, sub_info)
  end.

Definition set_allocated_qos (v : Z) (e : cy_mqtt_subscribe_info_t) :
    cy_mqtt_subscribe_info_t :=
  Build_cy_mqtt_subscribe_info_t (sub_topic e) (sub_topic_len e) (requested_qos e) v.

(** [sub_ack_status[index] = MQTTSubAckFailure] for the first [n] entries
    from [index] on. *)
Fixpoint mark_suback_failure (n : nat) (index : Z) (status : list Z) : M (list Z) :=
  match n with
  | O => mret status
  | S n' =>
      status' ← array_store status index MQTTSubAckFailure;
      mark_suback_failure n' (index + 1) status'
  end.

(** The loop that turns the SUBACK codes into [allocated_qos]. *)
Fixpoint subscribe_collect (n : nat) (index : Z) (status : list Z)
    (sub_info : list cy_mqtt_subscribe_info_t) (result : cy_rslt_t) :
    M (cy_rslt_t * list cy_mqtt_subscribe_info_t) :=
  match n with
  | O => mret (result, sub_info)
  | S n' =>
      c ← array_load status index;
      e ← array_load sub_info index;
      if decide (c = MQTTSubAckFailure) then
        sub_info' ← array_store sub_info index (set_allocated_qos CY_MQTT_QOS_INVALID e);
        subscribe_collect n' (index + 1) status sub_info' result
      else
        let granted :=
          if decide (c = MQTTSubAckSuccessQos0) then CY_MQTT_QOS0
          else if decide (c = MQTTSubAckSuccessQos1) then CY_MQTT_QOS1
          else CY_MQTT_QOS2 in
        sub_info' ← array_store sub_info index (set_allocated_qos granted e);
        subscribe_collect n' (index + 1) status sub_info' CY_RSLT_SUCCESS
  end.

(** The inner loop of cy_mqtt_subscribe. *)
Fixpoint subscribe_ack_wait (fuel : nat) (h : Z) (sub_count : Z) (timeout : Z)
    (sub_info : list cy_mqtt_subscribe_info_t) (result : cy_rslt_t) :
    M (MQTTStatus_t * cy_rslt_t * list cy_mqtt_subscribe_info_t) :=
  match fuel with
  | O => no_behaviour
  | S fuel' =>
      mqttStatus ← MQTT_ProcessLoop h CY_MQTT_RECEIVE_DATA_TIMEOUT_MS;
      if decide (mqttStatus ≠ MQTTSuccess) then
        mret (mqttStatus, CY_RSLT_MODULE_MQTT_SUBSCRIBE_FAIL, sub_info)
      else
        o ← deref h;
        if decide (num_of_subs_in_req o = 0) then
          collected ← subscribe_collect (Z.to_nat sub_count) 0 (sub_ack_status o) sub_info
                        CY_RSLT_MODULE_MQTT_SUBSCRIBE_FAIL;
          mret (mqttStatus, fst collected, snd collected)
        else
          let timeout := wrap_uint32 (timeout - CY_MQTT_SOCKET_RECEIVE_TIMEOUT_MS) in
          if decide (timeout > 0) then subscribe_ack_wait fuel' h sub_count timeout sub_info result
          else mret (mqttStatus, result, sub_info)
  end.

(** The subscribe retry loop. *)
Fixpoint subscribe_retry (fuel : nat) (h : Z) (sub_list : list MQTTSubscribeInfo_t)
    (sub_count : Z) (retry : Z) (sub_info : list cy_mqtt_subscribe_info_t) :
    M (cy_rslt_t * list cy_mqtt_subscribe_info_t) :=
  match fuel with
  | O => no_behaviour
  | S fuel' =>
      let timeout := wrap_uint32 (CY_MQTT_ACK_RECEIVE_TIMEOUT_MS cfg) in
      let result := CY_RSLT_MODULE_MQTT_SUBSCRIBE_FAIL in
      update h (set_sub_ack_status
                  (replicate (Z.to_nat (CY_MQTT_MAX_OUTGOING_SUBSCRIBES cfg)) 0));;
      update h (set_num_of_subs_in_req sub_count);;
      o ← deref h;
      mqttStatus ← codec_call (Call_MQTT_Subscribe h sub_list sub_count (sent_packet_id o));
      step ←
        (if decide (mqttStatus ≠ MQTTSuccess) then
           mret (mqttStatus, CY_RSLT_MODULE_MQTT_SUBSCRIBE_FAIL, sub_info)
         else
           o ← deref h;
           status ← mark_suback_failure (Z.to_nat sub_count) 0 (sub_ack_status o);
           update h (set_sub_ack_status status);;
           waited ← subscribe_ack_wait ack_wait_fuel h sub_count timeout sub_info result;
           o ← deref h;
           if decide (num_of_subs_in_req o ≠ 0) then
             mret (MQTTRecvFailed, CY_RSLT_MODULE_MQTT_SUBSCRIBE_FAIL, snd waited)
           else mret waited);
      let mqttStatus : MQTTStatus_t := fst (fst step) in
      let result : cy_rslt_t := snd (fst step) in
      let retry := wrap_uint8 (retry + 1) in
      if decide (mqttStatus ≠ MQTTSuccess ∧ retry < CY_MQTT_MAX_RETRY_VALUE cfg) then
        subscribe_retry fuel' h sub_list sub_count retry (snd step)
      else mret (result, snd step)
  end.

(** Returns the result and the caller's array as the call leaves it; [None]
    when [sub_info] is NULL. *)
Definition cy_mqtt_subscribe (mqtt_handle : Z)
    (sub_info : option (list cy_mqtt_subscribe_info_t)) (sub_count : Z) :
    M (cy_rslt_t * option (list cy_mqtt_subscribe_info_t)) :=
  if decide (mqtt_handle = NULL ∨ sub_info = None ∨ sub_count < 1 ∨
             sub_count > CY_MQTT_MAX_OUTGOING_SUBSCRIBES cfg) then
    mret (CY_RSLT_MODULE_MQTT_BADARG, sub_info)
  else
    o ← deref mqtt_handle;
    if decide (mqtt_obj_initialized o = false) then
      mret (CY_RSLT_MODULE_MQTT_OBJ_NOT_INITIALIZED, sub_info)
    else if decide (mqtt_session_established o = false) then
      mret (CY_RSLT_MODULE_MQTT_NOT_CONNECTED, sub_info)
    else if decide (sub_count > CY_MQTT_MAX_OUTGOING_SUBSCRIBES cfg) then
      mret (CY_RSLT_MODULE_MQTT_SUBSCRIBE_FAIL, sub_info)
    else
      p ← value_call (Call_malloc_sub_list sub_count);
      if decide (p = NULL) then mret (CY_RSLT_MODULE_MQTT_NOMEM, sub_info)
      else
        translated ← subscribe_translate (Z.to_nat sub_count) 0 (default [] sub_info) [];
        match fst translated with
        | None =>
            call Call_free_sub_list;;
            mret (CY_RSLT_MODULE_MQTT_SUBSCRIBE_FAIL, Some (snd translated))
        | Some sub_list =>
            result ← cy_rtos_get_mutex (process_mutex_ref mqtt_handle);
            if decide (result ≠ CY_RSLT_SUCCESS) then
              call Call_free_sub_list;;
              mret (result, Some (snd translated))
            else
              id ← MQTT_GetPacketId mqtt_handle;
              update mqtt_handle (set_sent_packet_id id);;
              done ← subscribe_retry retry_fuel mqtt_handle sub_list sub_count 0
                       (snd translated);
              if decide (fst done ≠ CY_RSLT_SUCCESS) then
                cy_rtos_set_mutex (process_mutex_ref mqtt_handle);;
                call Call_free_sub_list;;
                mret (fst done, Some (snd done))
              else
                result ← cy_rtos_set_mutex (process_mutex_ref mqtt_handle);
                call Call_free_sub_list;;
                if decide (result ≠ CY_RSLT_SUCCESS) then mret (result, Some (snd done))
                else mret (CY_RSLT_SUCCESS, Some (snd done))
        end.

(** The first loop of cy_mqtt_unsubscribe. *)
Fixpoint unsubscribe_translate (n : nat) (index : Z)
    (unsub_info : list cy_mqtt_subscribe_info_t) (unsub_list : list MQTTSubscribeInfo_t) :
    M (option (list MQTTSubscribeInfo_t)) :=
  match n with
  | O => mret (Some unsub_list)
  | S n' =>
      e ← array_load unsub_info index;
      if decide (requested_qos e = CY_MQTT_QOS0 ∨ requested_qos e = CY_MQTT_QOS1 ∨
                 requested_qos e = CY_MQTT_QOS2) then
        unsubscribe_translate n' (index + 1) unsub_info
          (unsub_list ++ [Build_MQTTSubscribeInfo_t (requested_qos e) (sub_topic e)
                            (sub_topic_len e)])
      else mret None
  end.

(** The inner loop of cy_mqtt_unsubscribe. *)
Fixpoint unsubscribe_ack_wait (fuel : nat) (h : Z) (timeout : Z) (result : cy_rslt_t) :
    M (MQTTStatus_t * cy_rslt_t) :=
  match fuel with
  | O => no_behaviour
  | S fuel' =>
      mqttStatus ← MQTT_ProcessLoop h CY_MQTT_RECEIVE_DATA_TIMEOUT_MS;
      if decide (mqttStatus ≠ MQTTSuccess) then
        mret (mqttStatus, CY_RSLT_MODULE_MQTT_UNSUBSCRIBE_FAIL)
      else
        o ← deref h;
        if decide (unsub_ack_received o = true) then mret (mqttStatus, CY_RSLT_SUCCESS)
        else
          let timeout := wrap_uint32 (timeout - CY_MQTT_SOCKET_RECEIVE_TIMEOUT_MS) in
          if decide (timeout > 0) then unsubscribe_ack_wait fuel' h timeout result
          else mret (mqttStatus, result)
  end.

(** The unsubscribe retry loop. *)
Fixpoint unsubscribe_retry (fuel : nat) (h : Z) (unsub_list : list MQTTSubscribeInfo_t)
    (unsub_count : Z) (retry : Z) (result : cy_rslt_t) : M cy_rslt_t :=
  match fuel with
  | O => no_behaviour
  | S fuel' =>
      let timeout := wrap_uint32 (CY_MQTT_ACK_RECEIVE_TIMEOUT_MS cfg) in
      update h (set_unsub_ack_received false);;
      o ← deref h;
      mqttStatus ← codec_call
                     (Call_MQTT_Unsubscribe h unsub_list unsub_count (sent_packet_id o));
      step ←
        (if decide (mqttStatus ≠ MQTTSuccess) then
           mret (mqttStatus, CY_RSLT_MODULE_MQTT_UNSUBSCRIBE_FAIL)
         else
           waited ← unsubscribe_ack_wait ack_wait_fuel h timeout result;
           o ← deref h;
           if decide (unsub_ack_received o = false) then
             mret (MQTTRecvFailed, CY_RSLT_MODULE_MQTT_UNSUBSCRIBE_FAIL)
           else mret waited);
      let mqttStatus : MQTTStatus_t := fst step in
      let result : cy_rslt_t := snd step in
      let retry := wrap_uint8 (retry + 1) in
      if decide (mqttStatus ≠ MQTTSuccess ∧ retry < CY_MQTT_MAX_RETRY_VALUE cfg) then
        unsubscribe_retry fuel' h unsub_list unsub_count retry result
      else mret result
  end.

Definition cy_mqtt_unsubscribe (mqtt_handle : Z)
    (unsub_info : option (list cy_mqtt_subscribe_info_t)) (unsub_count : Z) : M cy_rslt_t :=
  if decide (mqtt_handle = NULL ∨ unsub_info = None ∨ unsub_count < 1) then
    mret CY_RSLT_MODULE_MQTT_BADARG
  else
    o ← deref mqtt_handle;
    if decide (mqtt_obj_initialized o = false) then
      mret CY_RSLT_MODULE_MQTT_OBJ_NOT_INITIALIZED
    else if decide (mqtt_session_established o = false) then
      mret CY_RSLT_MODULE_MQTT_NOT_CONNECTED
    else if decide (unsub_count > CY_MQTT_MAX_OUTGOING_SUBSCRIBES cfg) then
      mret CY_RSLT_MODULE_MQTT_UNSUBSCRIBE_FAIL
    else
      p ← value_call (Call_malloc_sub_list unsub_count);
      if decide (p = NULL) then mret CY_RSLT_MODULE_MQTT_NOMEM
      else
        translated ← unsubscribe_translate (Z.to_nat unsub_count) 0 (default [] unsub_info) [];
        match translated with
        | None =>
            call Call_free_sub_list;;
            mret CY_RSLT_MODULE_MQTT_UNSUBSCRIBE_FAIL
        | Some unsub_list =>
            result ← cy_rtos_get_mutex (process_mutex_ref mqtt_handle);
            if decide (result ≠ CY_RSLT_SUCCESS) then
              call Call_free_sub_list;;
              mret result
            else
              id ← MQTT_GetPacketId mqtt_handle;
              update mqtt_handle (set_sent_packet_id id);;
              result ← unsubscribe_retry retry_fuel mqtt_handle unsub_list unsub_count 0
                         result;
              if decide (result ≠ CY_RSLT_SUCCESS) then
                cy_rtos_set_mutex (process_mutex_ref mqtt_handle);;
                call Call_free_sub_list;;
                mret result
              else
                result ← cy_rtos_set_mutex (process_mutex_ref mqtt_handle);
                call Call_free_sub_list;;
                if decide (result ≠ CY_RSLT_SUCCESS) then mret result
                else mret CY_RSLT_SUCCESS
        end.

(** *** Disconnect, delete, deinit *)

Definition cy_mqtt_disconnect (mqtt_handle : Z) : M cy_rslt_t :=
  if decide (mqtt_handle = NULL) then mret CY_RSLT_MODULE_MQTT_BADARG
  else
    result ← cy_rtos_get_mutex (process_mutex_ref mqtt_handle);
    if decide (result ≠ CY_RSLT_SUCCESS) then mret result
    else
      o ← deref mqtt_handle;
      if decide (mqtt_obj_initialized o = false) then
        mret CY_RSLT_MODULE_MQTT_OBJ_NOT_INITIALIZED
      else if decide (mqtt_conn_status o = false) then
        mret CY_RSLT_MODULE_MQTT_NOT_CONNECTED
      else
        stopped ←
          (if decide (recv_thread o ≠ NULL) then
             result ← cy_rtos_terminate_thread (recv_thread_ref mqtt_handle);
             if decide (result ≠ CY_RSLT_SUCCESS) then mret (Some result)
             else
               result ← cy_rtos_join_thread (recv_thread_ref mqtt_handle);
               if decide (result ≠ CY_RSLT_SUCCESS) then mret (Some result)
               else update mqtt_handle (set_recv_thread NULL);; mret None
           else mret None);
        match stopped with
        | Some result => mret result
        | None =>
            MQTT_Disconnect mqtt_handle;;
            update mqtt_handle (set_mqtt_session_established false);;
            cy_awsport_network_disconnect mqtt_handle;;
            cy_awsport_network_delete mqtt_handle;;
            update mqtt_handle (set_mqtt_conn_status false);;
            result ← cy_rtos_set_mutex (process_mutex_ref mqtt_handle);
            mret result
        end.

Definition cy_mqtt_delete (mqtt_handle : Z) : M cy_rslt_t :=
  if decide (mqtt_handle = NULL) then mret CY_RSLT_MODULE_MQTT_BADARG
  else
    o ← deref mqtt_handle;
    if decide (mqtt_obj_initialized o = false) then
      mret CY_RSLT_MODULE_MQTT_OBJ_NOT_INITIALIZED
    else
      cy_rtos_deinit_mutex (process_mutex_ref mqtt_handle);;
      result ← cy_rtos_get_mutex mqtt_db_mutex_ref;
      if decide (result ≠ CY_RSLT_SUCCESS) then mret result
      else
        db ← gets mqtt_handle_database;
        db' ← array_store db (mqtt_obj_index o) zero_db_entry;
        modify (set_mqtt_handle_database db');;
        modify (λ w, set_mqtt_handle_count (wrap_uint8 (mqtt_handle_count w - 1)) w);;
        result ← cy_rtos_set_mutex mqtt_db_mutex_ref;
        if decide (result ≠ CY_RSLT_SUCCESS) then mret result
        else
          update mqtt_handle (λ _, zero_obj);;
          free_object mqtt_handle;;
          mret CY_RSLT_SUCCESS.

Definition cy_mqtt_deinit : M cy_rslt_t :=
  lib_init ← gets mqtt_lib_init_status;
  db_mutex_init ← gets mqtt_db_mutex_init_status;
  if decide (lib_init = false ∨ db_mutex_init = false) then
    mret CY_RSLT_MODULE_MQTT_DEINIT_FAIL
  else
    count ← gets mqtt_handle_count;
    if decide (count ≠ 0) then mret CY_RSLT_SUCCESS
    else
      result ← cy_rtos_deinit_mutex mqtt_db_mutex_ref;
      if decide (result ≠ CY_RSLT_SUCCESS) then mret result
      else
        modify (set_mqtt_db_mutex_init_status false);;
        result ← platform_call Call_cy_awsport_network_deinit;
        if decide (result ≠ CY_RSLT_SUCCESS) then mret result
        else
          thread ← gets mqtt_disconnect_event_thread;
          stopped ←
            (if decide (thread ≠ NULL) then
               result ← cy_rtos_terminate_thread mqtt_disconnect_event_thread_ref;
               if decide (result ≠ CY_RSLT_SUCCESS) then mret (Some result)
               else
                 result ← cy_rtos_join_thread mqtt_disconnect_event_thread_ref;
                 if decide (result ≠ CY_RSLT_SUCCESS) then mret (Some result)
                 else modify (set_mqtt_disconnect_event_thread NULL);; mret None
             else mret None);
          match stopped with
          | Some result => mret result
          | None =>
              result ← platform_call Call_cy_rtos_deinit_queue;
              if decide (result ≠ CY_RSLT_SUCCESS) then mret result
              else
                modify (set_mqtt_lib_init_status false);;
                mret CY_RSLT_SUCCESS
          end.

End Embedding.

Arguments mqtt_event_callback : simpl never.

(** ** The transport adapter

    mqtt_awsport_network_receive is called by the codec, not by the code
    above.  What the transport and the clock do during one round of its loop
    is a [transport_read]; the function consumes a script of them. *)

Record transport_read : Type := {
  entryTimeMs : Z;
  bytes_received : Z;
  exitTimeMs : Z
}.

Inductive receive_outcome : Type :=
| Returned (value : Z)
| StillPolling.

(** The [do ... while] with [total_received] and [remainingTimeMs] as they
    are when a round starts.  [StillPolling]: the script ended and the loop
    had not been left. *)
Fixpoint receive_loop (timeout_ms : Z) (bytes_recv : Z) (reads : list transport_read)
    (total_received : Z) (remainingTimeMs : Z) : receive_outcome :=
  match reads with
  | [] => StillPolling
  | r :: rest =>
      let elapsedTimeMs := wrap_size_t (exitTimeMs r - entryTimeMs r) in
      if decide (bytes_received r < 0) then Returned (bytes_received r)
      else if decide (bytes_received r = 0 ∧ total_received = 0) then Returned total_received
      else
        let total_received' :=
          if decide (bytes_received r = 0) then total_received
          else wrap_int32 (total_received + bytes_received r) in
        let elapsedTimeMs' := if decide (bytes_received r = 0) then elapsedTimeMs else 0 in
        let remainingTimeMs' :=
          if decide (bytes_received r = 0) then remainingTimeMs else wrap_size_t timeout_ms in
        let remainingTimeMs'' := wrap_size_t (remainingTimeMs' - elapsedTimeMs') in
        if decide (wrap_size_t total_received' < bytes_recv ∧ remainingTimeMs'' > 0) then
          receive_loop timeout_ms bytes_recv rest total_received' remainingTimeMs''
        else Returned total_received'
  end.

(** The number of bytes round [r] asks the transport for. *)
Definition bytestoread (bytes_recv : Z) (total_received : Z) : Z :=
  wrap_size_t (bytes_recv - total_received).

Definition mqtt_awsport_network_receive (cfg : config) (bytes_recv : Z)
    (reads : list transport_read) : receive_outcome :=
  receive_loop (CY_MQTT_MESSAGE_RECEIVE_TIMEOUT_MS cfg) bytes_recv reads 0
    (wrap_size_t (CY_MQTT_MESSAGE_RECEIVE_TIMEOUT_MS cfg)).

(** ** Vocabulary of the statements *)

(** [h] is the address of the live client object [o]. *)
Definition live_at (w : world) (h : Z) (o : cy_mqtt_object_t) : Prop :=
  heap w !! h = Some (Build_cell true o).

(** The store with the first slot that carries [id] zeroed: what "clean up
    the matching slot" of the dispatcher amounts to. *)
Fixpoint zero_first_slot (id : Z) (slots : list cy_mqtt_pubpack_t) :
    list cy_mqtt_pubpack_t :=
  match slots with
  | [] => []
  | s :: rest =>
      if decide (packetid s = id) then zero_pubpack :: rest
      else s :: zero_first_slot id rest
  end.

(** The packet identifiers of the PUBLISH packets sent, oldest first. *)
Definition published_ids (tr : list event) : list Z :=
  omap (λ e, match e with
             | Call_MQTT_Publish _ _ id => Some id
             | _ => None
             end) (rev tr).

(** What the PUBACK and PUBREC cases leave in the client object. *)
Definition after_publish_ack (id : Z) (info : MQTTDeserializedInfo_t)
    (o : cy_mqtt_object_t) : cy_mqtt_object_t :=
  set_outgoing_pub_packets
    (if decide (id = MQTT_PACKET_ID_INVALID) then outgoing_pub_packets o
     else zero_first_slot id (outgoing_pub_packets o))
    (set_pub_ack_status
       (if decide (deserializationResult info = MQTTSuccess) then
          Build_cy_mqtt_pub_ack_status_t (ack_packetid (pub_ack_status o))
            (bool_decide (id = ack_packetid (pub_ack_status o)))
        else pub_ack_status o) o).

(** The invariant of C3 on a world: every live client whose session is
    established is marked connected. *)
Definition session_implies_conn_status (w : world) : Prop :=
  forall h o,
    live_at w h o -> mqtt_session_established o = true -> mqtt_conn_status o = true.

(** The two flags of the invariant, per live client. *)
Definition flags_of_cell (c : cell) : option (bool * bool) :=
  if cell_live c then
    Some (mqtt_session_established (cell_obj c), mqtt_conn_status (cell_obj c))
  else None.

Definition flags (w : world) : gmap Z (bool * bool) := omap flags_of_cell (heap w).

(** From [w] to [w'] no session was established that was not established
    before, and no established session lost its connected mark. *)
Definition drops (w w' : world) : Prop :=
  forall h c, flags w' !! h = Some (true, c) -> flags w !! h = Some (true, c).

(** The same for every client but [h0]. *)
Definition drops_except (h0 : Z) (w w' : world) : Prop :=
  forall h c, h ≠ h0 -> flags w' !! h = Some (true, c) -> flags w !! h = Some (true, c).

(** Every run of [m] relates the world before to the world after by [R]. *)
Definition rel {A : Type} (R : world -> world -> Prop) (m : M A) : Prop :=
  forall w a w', m w = Some (a, w') -> R w w'.

(** Relations the flag-preserving steps respect and that compose. *)
Class FlagPreorder (R : world -> world -> Prop) : Prop := {
  fp_keeps : forall w w', flags w' = flags w -> R w w';
  fp_trans : forall w1 w2 w3, R w1 w2 -> R w2 w3 -> R w1 w3
}.

(** A triple on the flags of one client: if [P] holds of the flags of [h]
    before a run of [m], then [Q] holds of them after. *)
Definition hoare_at {A : Type} (h : Z) (P : option (bool * bool) -> Prop) (m : M A)
    (Q : A -> option (bool * bool) -> Prop) : Prop :=
  forall w a w', P (flags w !! h) -> m w = Some (a, w') -> Q a (flags w' !! h).

(** The invariant for one client, and the stronger "no session". *)
Definition flags_ok (x : option (bool * bool)) : Prop :=
  forall c, x = Some (true, c) -> c = true.

Definition no_session (x : option (bool * bool)) : Prop :=
  forall c, x ≠ Some (true, c).

(** The transport honours the length it is asked for: in every round it
    returns at most [bytestoread] bytes. *)
Fixpoint reads_within_request (bytes_recv : Z) (reads : list transport_read) (total : Z) :
    Prop :=
  match reads with
  | [] => True
  | r :: rest =>
      bytes_received r <= bytestoread bytes_recv total /\
      reads_within_request bytes_recv rest
        (if decide (0 < bytes_received r) then total + bytes_received r else total)
  end.


(** ** The outgoing PUBLISH store between calls *)

(** Every slot of a store is free: its packet identifier is
    [MQTT_PACKET_ID_INVALID]. *)
Definition slots_free (slots : list cy_mqtt_pubpack_t) : Prop :=
  Forall (λ s, packetid s = MQTT_PACKET_ID_INVALID) slots.

(** The store of a client object has its configured size and holds no
    pending PUBLISH. *)
Definition store_empty (cfg : config) (o : cy_mqtt_object_t) : Prop :=
  length (outgoing_pub_packets o) = Z.to_nat (CY_MQTT_MAX_OUTGOING_PUBLISHES cfg) /\
  slots_free (outgoing_pub_packets o).

(** An assertion on the client objects holds of every live one. *)
Definition each (φ : Z -> cy_mqtt_object_t -> Prop) (w : world) : Prop :=
  forall h o, live_at w h o -> φ h o.

Definition all_empty (cfg : config) : Z -> cy_mqtt_object_t -> Prop :=
  λ _, store_empty cfg.

Definition stores_empty (cfg : config) (w : world) : Prop := each (all_empty cfg) w.

(** A triple on the live client objects and on the calls made: from a world
    whose live objects satisfy [φ], a run of [m] that returns [a] ends in a
    world whose live objects satisfy [ψ a], and every call it has recorded
    satisfies [P]. *)
Definition triple {A : Type} (φ : Z -> cy_mqtt_object_t -> Prop) (P : event -> Prop)
    (m : M A) (ψ : A -> Z -> cy_mqtt_object_t -> Prop) : Prop :=
  forall w a w',
    each φ w -> m w = Some (a, w') ->
    each (ψ a) w' /\ exists new, trace w' = new ++ trace w /\ Forall P new.

Definition any_call (e : event) : Prop := True.

Definition not_a_publish (e : event) : Prop :=
  match e with
  | Call_MQTT_Publish _ _ _ => False
  | _ => True
  end.

(** All slots but slot [index] are free, and that one is free or carries
    [id]. *)
Definition only_slot (index : nat) (id : Z) (slots : list cy_mqtt_pubpack_t) : Prop :=
  forall j s,
    slots !! j = Some s ->
    packetid s = MQTT_PACKET_ID_INVALID ∨ (j = index /\ packetid s = id).

(** The store of a client inside cy_mqtt_publish, between the assignment of
    the packet identifier and the release of the slot: the PUBLISH with
    identifier [id] is in slot [index] or has been released already, [id] is
    the identifier whose acknowledgement is awaited, and an acknowledgement
    seen means the slot has been released. *)
Definition publish_in_flight (cfg : config) (index : nat) (id : Z)
    (o : cy_mqtt_object_t) : Prop :=
  length (outgoing_pub_packets o) = Z.to_nat (CY_MQTT_MAX_OUTGOING_PUBLISHES cfg) /\
  ack_packetid (pub_ack_status o) = id /\
  only_slot index id (outgoing_pub_packets o) /\
  (puback_status (pub_ack_status o) = true -> slots_free (outgoing_pub_packets o)).

(** The same before the acknowledgement flag has been reset. *)
Definition slot_taken (cfg : config) (index : nat) (id : Z) (o : cy_mqtt_object_t) : Prop :=
  length (outgoing_pub_packets o) = Z.to_nat (CY_MQTT_MAX_OUTGOING_PUBLISHES cfg) /\
  ack_packetid (pub_ack_status o) = id /\
  only_slot index id (outgoing_pub_packets o).

(** One client, [h0], satisfies [χ]; the stores of the others are empty. *)
Definition at_client (cfg : config) (h0 : Z) (χ : cy_mqtt_object_t -> Prop) :
    Z -> cy_mqtt_object_t -> Prop :=
  λ h o, if decide (h = h0) then χ o else store_empty cfg o.

(** The store of a client when the retry loop of cy_mqtt_publish has ended
    a round with [result]: on success the slot has been released by an
    acknowledgement, or it holds a QoS 0 PUBLISH. *)
Definition publish_settled (cfg : config) (index : nat) (id : Z) (result : cy_rslt_t)
    (o : cy_mqtt_object_t) : Prop :=
  publish_in_flight cfg index id o /\
  (result = CY_RSLT_SUCCESS ->
   slots_free (outgoing_pub_packets o) ∨
   exists s, outgoing_pub_packets o !! index = Some s /\ qos (pubinfo s) = MQTTQoS0).

(** The slot has been chosen and the packet identifier stored in it. *)
Definition slot_claimed (cfg : config) (index : nat) (id : Z) (o : cy_mqtt_object_t) : Prop :=
  length (outgoing_pub_packets o) = Z.to_nat (CY_MQTT_MAX_OUTGOING_PUBLISHES cfg) /\
  only_slot index id (outgoing_pub_packets o).

(** An assertion on client objects that looks at the store and at the
    acknowledgement status only, bounds the store, and is kept by what
    the PUBACK and PUBREC cases do to an object. *)
Class StoreAssertion (cfg : config) (φ : Z -> cy_mqtt_object_t -> Prop) : Prop := {
  sa_frame : forall h o o',
    outgoing_pub_packets o' = outgoing_pub_packets o ->
    pub_ack_status o' = pub_ack_status o ->
    φ h o -> φ h o';
  sa_length : forall h o,
    φ h o ->
    (length (outgoing_pub_packets o) <= Z.to_nat (CY_MQTT_MAX_OUTGOING_PUBLISHES cfg))%nat;
  sa_publish_ack : forall h id info o, φ h o -> φ h (after_publish_ack id info o)
}.

(** ** Vocabulary of the statements on the request path and the trace *)

(** A slot is the first free one of a store. *)
Definition first_free_slot (slots : list cy_mqtt_pubpack_t) (index : Z)
    (s : cy_mqtt_pubpack_t) : Prop :=
  0 <= index /\ slots !! Z.to_nat index = Some s /\ packetid s = MQTT_PACKET_ID_INVALID /\
  forall (k : nat) s', (k < Z.to_nat index)%nat -> slots !! k = Some s' ->
                       packetid s' ≠ MQTT_PACKET_ID_INVALID.

(** The client object with [pub_ack_status.puback_status] cleared. *)
Definition ack_cleared (o : cy_mqtt_object_t) : cy_mqtt_object_t :=
  set_pub_ack_status (set_puback_status false (pub_ack_status o)) o.

(** The PUBLISH of a slot as it is sent again. *)
Definition marked_dup (s : cy_mqtt_pubpack_t) : cy_mqtt_pubpack_t :=
  set_pubinfo (set_dup true (pubinfo s)) s.

(** One round of the retry loop of a QoS 1 or 2 publish that is sent and
    not acknowledged: the PUBLISH, then the polls of the ACK wait. *)
Definition unacked_round (cfg : config) (h : Z) (s : cy_mqtt_pubpack_t) : list event :=
  replicate (Z.to_nat (CY_MQTT_ACK_RECEIVE_TIMEOUT_MS cfg))
    (Call_MQTT_ProcessLoop h CY_MQTT_RECEIVE_DATA_TIMEOUT_MS)
  ++ [Call_MQTT_Publish h (pubinfo s) (packetid s)].

(** Every run of [m] extends the trace by events that satisfy [P]. *)
Definition emits {A : Type} (P : event -> Prop) (m : M A) : Prop :=
  forall w a w', m w = Some (a, w') ->
    exists new, trace w' = new ++ trace w /\ Forall P new.

(** The calls the request loops and the dispatcher make: the codec and the
    application callback. *)
Definition codec_or_callback (e : event) : Prop :=
  match e with
  | Call_MQTT_Publish _ _ _ | Call_MQTT_Subscribe _ _ _ _ | Call_MQTT_Unsubscribe _ _ _ _
  | Call_MQTT_ProcessLoop _ _ | Call_MQTT_GetSubAckStatusCodes _
  | Call_mqtt_event_cb _ _ _ => True
  | _ => False
  end.

(** The acquisitions of the process mutex of client [h] that the trace [tr]
    (newest call first) has not matched by a release.  An acquisition counts
    when the RTOS reported success. *)
Fixpoint held (env : environment) (h : Z) (tr : list event) : nat :=
  match tr with
  | [] => 0
  | Call_cy_rtos_get_mutex (process_mutex_ref h') :: rest =>
      if decide (h' = h) then
        match platform_answer env tr with
        | PLATFORM_OK => S (held env h rest)
        | PLATFORM_ERR _ => held env h rest
        end
      else held env h rest
  | Call_cy_rtos_set_mutex (process_mutex_ref h') :: rest =>
      if decide (h' = h) then pred (held env h rest) else held env h rest
  | _ :: rest => held env h rest
  end.

(** Calls that are neither an acquisition nor a release of a mutex. *)
Definition not_a_lock (e : event) : Prop :=
  match e with
  | Call_cy_rtos_get_mutex _ | Call_cy_rtos_set_mutex _ => False
  | _ => True
  end.

(** A triple on traces. *)
Definition trace_triple {A : Type} (P : list event -> Prop) (m : M A)
    (Q : A -> list event -> Prop) : Prop :=
  forall w a w', P (trace w) -> m w = Some (a, w') -> Q a (trace w').
(** ** Concrete configurations, environments and worlds

    Used to run the embedding on explicit inputs. *)

Definition example_config : config := Build_config 2 4 3 256 3 3000 500 3000.

(** Every collaborator succeeds; the codec has nothing to deliver. *)
Definition quiet_env : environment :=
  Build_environment (λ _, PLATFORM_OK) (λ _, MQTTSuccess) (λ _, RetryUtilsSuccess)
    (λ tr, Z.of_nat (length tr) + 4096) (λ _, Some false) (λ _, []) (λ _, []) (λ _, []) 3.

(** The state of the translation unit when the program starts. *)
Definition initial_world (cfg : config) : world :=
  Build_world (replicate (Z.to_nat (CY_MQTT_MAX_HANDLE cfg)) zero_db_entry) 0 NULL false
    false NULL NULL 0 ∅ [].

Definition world_after {A : Type} (m : M A) (w : world) : world :=
  match m w with
  | Some (_, w') => w'
  | None => w
  end.

Definition example_broker : cy_mqtt_broker_info_t := Build_cy_mqtt_broker_info_t 512 9 1883.

Definition example_connect_info : cy_mqtt_connect_info_t :=
  Build_cy_mqtt_connect_info_t 600 2 NULL 0 NULL 0 true 60 None.

(** The library initialised and one client created: its address is 4103. *)
Definition created_world : world :=
  Eval vm_compute in
    world_after
      (cy_mqtt_init example_config quiet_env;;
       cy_mqtt_create example_config quiet_env 768 1024 None (Some example_broker) 77 0 9)
      (initial_world example_config).

Definition example_client : Z := 4103.

(** The same client after a successful cy_mqtt_connect. *)
Definition connected_world : world :=
  Eval vm_compute in
    world_after (cy_mqtt_connect example_config quiet_env example_client example_connect_info)
      created_world.

Definition example_object (w : world) : cy_mqtt_object_t :=
  match heap w !! example_client with
  | Some c => cell_obj c
  | None => zero_obj example_config
  end.

Definition with_object (o : cy_mqtt_object_t) (w : world) : world :=
  set_heap (<[example_client := Build_cell true o]> (heap w)) w.

Definition qos1_message (id : Z) : cy_mqtt_pubpack_t :=
  Build_cy_mqtt_pubpack_t id (Build_MQTTPublishInfo_t MQTTQoS1 false false 900 3 950 2).

(** The connected client with one QoS 1 PUBLISH, packet identifier 5, in
    flight and not yet acknowledged. *)
Definition inflight_world : world :=
  Eval vm_compute in
    with_object
      (set_outgoing_pub_packets [qos1_message 5; zero_pubpack; zero_pubpack; zero_pubpack]
         (set_pub_ack_status (Build_cy_mqtt_pub_ack_status_t 5 false)
            (example_object connected_world)))
      connected_world.

(** A PUBACK for packet identifier 5 that the codec could not deserialize. *)
Definition puback_packet : MQTTPacketInfo_t :=
  Build_MQTTPacketInfo_t MQTT_PACKET_TYPE_PUBACK [0; 5] 2.

Definition bad_puback_info : MQTTDeserializedInfo_t :=
  Build_MQTTDeserializedInfo_t 5 None MQTTBadResponse.

(** The broker resumes the session of the client and the resend cursor of
    the codec yields the packet identifiers 1 and 2; every call succeeds. *)
Definition resumed_session_env : environment :=
  Build_environment (λ _, PLATFORM_OK) (λ _, MQTTSuccess) (λ _, RetryUtilsSuccess)
    (λ tr, Z.of_nat (length tr) + 4096) (λ _, Some true) (λ _, []) (λ _, [])
    (λ _, [1; 2]) 3.

(** The connected client waiting for the SUBACK of a SUBSCRIBE with two
    topics, packet identifier 7. *)
Definition subscribing_world : world :=
  Eval vm_compute in
    with_object
      (set_sub_ack_status [MQTTSubAckFailure; MQTTSubAckFailure; 0]
         (set_num_of_subs_in_req 2
            (set_sent_packet_id 7 (example_object connected_world))))
      connected_world.

(** The codec reports the SUBACK codes 0x01 and 0x80. *)
Definition suback_env : environment :=
  Build_environment (λ _, PLATFORM_OK) (λ _, MQTTSuccess) (λ _, RetryUtilsSuccess)
    (λ tr, Z.of_nat (length tr) + 4096) (λ _, Some false) (λ _, []) (λ _, [1; 128])
    (λ _, []) 3.

Definition suback_packet : MQTTPacketInfo_t :=
  Build_MQTTPacketInfo_t MQTT_PACKET_TYPE_SUBACK [0; 7; 1; 128] 4.

(** Rounds of the transport adapter: a read of [n] bytes that takes [ms]
    milliseconds, the clock starting at 0 for simplicity. *)
Definition read_taking (n : Z) (ms : Z) : transport_read := Build_transport_read 0 n ms.

(** Four of ten bytes arrive; then the socket stays empty, 499 reads of 1 ms
    each and one of 2 ms: 501 ms without progress against a budget of 500. *)
Definition overrun_script : list transport_read :=
  read_taking 4 0 :: replicate 499 (read_taking 0 1) ++ [read_taking 0 2].

(** The disconnect event queue hands out the handle of [example_client]. *)
Definition network_down_env : environment :=
  Build_environment (λ _, PLATFORM_OK) (λ _, MQTTSuccess) (λ _, RetryUtilsSuccess)
    (λ tr, match tr with
           | Call_cy_rtos_get_queue :: _ => example_client
           | _ => Z.of_nat (length tr) + 4096
           end)
    (λ _, Some false) (λ _, []) (λ _, []) (λ _, []) 3.

(** The connected client after the disconnect event thread has handled a
    network-down notification for it. *)
Definition network_down_world : world :=
  Eval vm_compute in
    world_after (mqtt_disconn_event_thread_iteration network_down_env) connected_world.

Definition example_message : cy_mqtt_publish_info_t :=
  Build_cy_mqtt_publish_info_t CY_MQTT_QOS1 false false 900 3 950 2.

Definition example_subscription : cy_mqtt_subscribe_info_t :=
  Build_cy_mqtt_subscribe_info_t 900 3 CY_MQTT_QOS1 0.

(** Environments for whole requests.  The broker's answer is found from the
    request in the trace. *)
Fixpoint last_publish_id (tr : list event) : Z :=
  match tr with
  | [] => 0
  | Call_MQTT_Publish _ _ id :: _ => id
  | _ :: rest => last_publish_id rest
  end.

Fixpoint last_subscribe_id (tr : list event) : Z :=
  match tr with
  | [] => 0
  | Call_MQTT_Subscribe _ _ _ id :: _ => id
  | _ :: rest => last_subscribe_id rest
  end.

(** The PUBACK is lost for the first PUBLISH and arrives for the second. *)
Definition late_puback_env : environment :=
  Build_environment (λ _, PLATFORM_OK) (λ _, MQTTSuccess) (λ _, RetryUtilsSuccess)
    (λ tr, Z.of_nat (length tr) + 4096) (λ _, Some false)
    (λ tr, if decide (2 <= length (published_ids tr))%nat
           then [(puback_packet,
                  Build_MQTTDeserializedInfo_t (last_publish_id tr) None MQTTSuccess)]
           else [])
    (λ _, []) (λ _, []) 3.

(** The broker grants QoS 1 to the first topic and rejects the second. *)
Definition mixed_suback_env : environment :=
  Build_environment (λ _, PLATFORM_OK) (λ _, MQTTSuccess) (λ _, RetryUtilsSuccess)
    (λ tr, Z.of_nat (length tr) + 4096) (λ _, Some false)
    (λ tr, [(suback_packet,
             Build_MQTTDeserializedInfo_t (last_subscribe_id tr) None MQTTSuccess)])
    (λ _, [1; 128]) (λ _, []) 3.

(** The codec reports a keep-alive timeout from MQTT_ProcessLoop. *)
Definition keep_alive_timeout_env : environment :=
  Build_environment (λ _, PLATFORM_OK)
    (λ tr, match tr with
           | Call_MQTT_ProcessLoop _ _ :: _ => MQTTKeepAliveTimeout
           | _ => MQTTSuccess
           end)
    (λ _, RetryUtilsSuccess) (λ tr, Z.of_nat (length tr) + 4096) (λ _, Some false)
    (λ _, []) (λ _, []) (λ _, []) 3.

(** [example_config] with an ACK wait of five rounds. *)
Definition short_wait_config : config := Build_config 2 4 3 256 3 5 500 3000.


(** The registry mutex cannot be acquired: the RTOS answers error 7. *)
Definition registry_mutex_fails_env : environment :=
  Build_environment
    (λ tr, match tr with
           | Call_cy_rtos_get_mutex mqtt_db_mutex_ref :: _ => PLATFORM_ERR 7
           | _ => PLATFORM_OK
           end)
    (λ _, MQTTSuccess) (λ _, RetryUtilsSuccess) (λ tr, Z.of_nat (length tr) + 4096)
    (λ _, Some false) (λ _, []) (λ _, []) (λ _, []) 3.

(** The network layer refuses to shut down; every other call succeeds. *)
Definition network_deinit_fails_env : environment :=
  Build_environment
    (λ tr, match tr with
           | Call_cy_awsport_network_deinit :: _ => PLATFORM_ERR 7
           | _ => PLATFORM_OK
           end)
    (λ _, MQTTSuccess) (λ _, RetryUtilsSuccess) (λ tr, Z.of_nat (length tr) + 4096)
    (λ _, Some false) (λ _, []) (λ _, []) (λ _, []) 3.

(** The library after an init and a deinit that failed at the network
    layer. *)
Definition half_torn_down_world : world :=
  Eval vm_compute in
    world_after
      (cy_mqtt_init example_config quiet_env;; cy_mqtt_deinit network_deinit_fails_env)
      (initial_world example_config).

(** The library initialised, without clients. *)
Definition initialised_world : world :=
  Eval vm_compute in
    world_after (cy_mqtt_init example_config quiet_env) (initial_world example_config).

(** The codec cannot send a PUBLISH; every other call succeeds. *)
Definition send_fails_env : environment :=
  Build_environment (λ _, PLATFORM_OK)
    (λ tr, match tr with
           | Call_MQTT_Publish _ _ _ :: _ => MQTTSendFailed
           | _ => MQTTSuccess
           end)
    (λ _, RetryUtilsSuccess) (λ tr, Z.of_nat (length tr) + 4096) (λ _, Some false)
    (λ _, []) (λ _, []) (λ _, []) 3.
(** ** Steps of the system

    What an application thread, the receive thread of a client, the
    disconnect event thread and the transport can do to the world, each taken
    as one step. *)

Inductive operation : Type :=
| Op_init
| Op_create (buffer bufflen : Z) (security : option cy_awsport_ssl_credentials_t)
    (broker_info : option cy_mqtt_broker_info_t) (event_callback user_data mqtt_handle : Z)
| Op_connect (h : Z) (connect_info : cy_mqtt_connect_info_t)
| Op_publish (h : Z) (pubmsg : option cy_mqtt_publish_info_t)
| Op_subscribe (h : Z) (sub_info : option (list cy_mqtt_subscribe_info_t)) (sub_count : Z)
| Op_unsubscribe (h : Z) (unsub_info : option (list cy_mqtt_subscribe_info_t))
    (unsub_count : Z)
| Op_disconnect (h : Z)
| Op_delete (h : Z)
| Op_deinit
| Op_receive_thread_iteration (h : Z)
| Op_disconn_event_thread_iteration
| Op_network_disconnect_callback (user_data : Z).

Definition run_operation (cfg : config) (env : environment) (op : operation) : M unit :=
  match op with
  | Op_init => cy_mqtt_init cfg env;; mret tt
  | Op_create buffer bufflen security broker_info event_callback user_data mqtt_handle =>
      cy_mqtt_create cfg env buffer bufflen security broker_info event_callback user_data
        mqtt_handle;;
      mret tt
  | Op_connect h connect_info => cy_mqtt_connect cfg env h connect_info;; mret tt
  | Op_publish h pubmsg => cy_mqtt_publish cfg env h pubmsg;; mret tt
  | Op_subscribe h sub_info sub_count =>
      cy_mqtt_subscribe cfg env h sub_info sub_count;; mret tt
  | Op_unsubscribe h unsub_info unsub_count =>
      cy_mqtt_unsubscribe cfg env h unsub_info unsub_count;; mret tt
  | Op_disconnect h => cy_mqtt_disconnect env h;; mret tt
  | Op_delete h => cy_mqtt_delete cfg env h;; mret tt
  | Op_deinit => cy_mqtt_deinit env;; mret tt
  | Op_receive_thread_iteration h => mqtt_receive_thread_iteration cfg env h;; mret tt
  | Op_disconn_event_thread_iteration => mqtt_disconn_event_thread_iteration env
  | Op_network_disconnect_callback user_data =>
      mqtt_awsport_network_disconnect_callback env user_data
  end.

(** The worlds at which some step has just returned, from program start. *)
Inductive reachable (cfg : config) (env : environment) : world -> Prop :=
| reachable_initial : reachable cfg env (initial_world cfg)
| reachable_step (w : world) (op : operation) (w' : world) :
    reachable cfg env w ->
    run_operation cfg env op w = Some (tt, w') ->
    reachable cfg env w'.

(** The connect of [example_client] stopped where mqtt_establish_session has
    returned: the transport is up, the CONNECT handshake has succeeded and
    the process mutex has been released. *)
Definition handshake_done_world : world :=
  Eval vm_compute in
    world_after
      (call Call_RetryUtils_ParamsReset;;
       connect_transport example_config quiet_env 4 example_client false RetryUtilsSuccess;;
       mqtt_establish_session quiet_env example_client (connect_details example_connect_info)
         None false)
      created_world.


(** * Properties *)

(** ** Running the monad *)

Lemma bind_Some {A B : Type} (m : M A) (f : A -> M B) (w w' : world) (a : A) :
  m w = Some (a, w') -> (m ≫= f) w = f a w'.
Proof. intros H. unfold mbind, M_bind. rewrite H. reflexivity. Qed.

Lemma bind_inv {A B : Type} (m : M A) (f : A -> M B) (w w'' : world) (b : B) :
  (m ≫= f) w = Some (b, w'') ->
  exists a w', m w = Some (a, w') /\ f a w' = Some (b, w'').
Proof.
  unfold mbind, M_bind. destruct (m w) as [[a w']|]; [|discriminate].
  intros H. exists a, w'. split; [reflexivity|exact H].
Qed.

Lemma deref_live (w : world) (h : Z) (o : cy_mqtt_object_t) :
  live_at w h o -> deref h w = Some (o, w).
Proof. intros H. unfold deref. rewrite H. reflexivity. Qed.

Lemma update_live (w : world) (h : Z) (o : cy_mqtt_object_t)
    (f : cy_mqtt_object_t -> cy_mqtt_object_t) :
  live_at w h o ->
  update h f w = Some (tt, set_heap (<[h := Build_cell true (f o)]> (heap w)) w).
Proof. intros H. unfold update. rewrite (bind_Some _ _ _ _ _ (deref_live _ _ _ H)). reflexivity. Qed.

Lemma live_at_set_trace (w : world) (tr : list event) (h : Z) (o : cy_mqtt_object_t) :
  live_at w h o -> live_at (set_trace tr w) h o.
Proof. exact (λ H, H). Qed.

Lemma live_at_insert (w : world) (h : Z) (o : cy_mqtt_object_t) (m : gmap Z cell) :
  live_at (set_heap (<[h := Build_cell true o]> m) w) h o.
Proof. unfold live_at. simpl. apply lookup_insert_eq. Qed.

(** ** Request validation (C8, C7) *)

(** C8.  subscribe with a topic count below 1 or above
    CY_MQTT_MAX_OUTGOING_SUBSCRIBES returns BADARG and leaves the world as it
    was: no call to the codec or to any other collaborator is recorded and no
    client state is written. *)
Theorem subscribe_count_out_of_range_is_badarg (cfg : config) (env : environment)
    (h : Z) (sub_info : option (list cy_mqtt_subscribe_info_t)) (sub_count : Z) (w : world) :
  sub_count < 1 ∨ sub_count > CY_MQTT_MAX_OUTGOING_SUBSCRIBES cfg ->
  cy_mqtt_subscribe cfg env h sub_info sub_count w
  = Some ((CY_RSLT_MODULE_MQTT_BADARG, sub_info), w).
Proof.
  intros Hcount. unfold cy_mqtt_subscribe.
  rewrite decide_True by tauto. reflexivity.
Qed.

Lemma subscribe_count_out_of_range_is_badarg_witness :
  cy_mqtt_subscribe example_config quiet_env example_client
    (Some [example_subscription]) 4 connected_world
  = Some ((CY_RSLT_MODULE_MQTT_BADARG, Some [example_subscription]),
          connected_world).
Proof.
  apply (subscribe_count_out_of_range_is_badarg example_config quiet_env).
  right. vm_compute. reflexivity.
Defined.

(** C7.  For a client (a live, initialised object) whose session is not
    established, publish, subscribe and unsubscribe called with arguments
    that pass validation return NOT_CONNECTED and leave the world as it was:
    nothing is sent through the codec and no request state is written. *)
Theorem requests_without_session_are_not_connected (cfg : config) (env : environment)
    (h : Z) (o : cy_mqtt_object_t) (w : world) :
  h ≠ NULL ->
  live_at w h o ->
  mqtt_obj_initialized o = true ->
  mqtt_session_established o = false ->
  (forall pubmsg,
     cy_mqtt_publish cfg env h (Some pubmsg) w
     = Some (CY_RSLT_MODULE_MQTT_NOT_CONNECTED, w)) /\
  (forall sub_info sub_count,
     1 <= sub_count <= CY_MQTT_MAX_OUTGOING_SUBSCRIBES cfg ->
     cy_mqtt_subscribe cfg env h (Some sub_info) sub_count w
     = Some ((CY_RSLT_MODULE_MQTT_NOT_CONNECTED, Some sub_info), w)) /\
  (forall unsub_info unsub_count,
     1 <= unsub_count ->
     cy_mqtt_unsubscribe cfg env h (Some unsub_info) unsub_count w
     = Some (CY_RSLT_MODULE_MQTT_NOT_CONNECTED, w)).
Proof.
  intros Hh Hlive Hinit Hsess. repeat split.
  - intros pubmsg. unfold cy_mqtt_publish.
    rewrite decide_False by assumption.
    rewrite (bind_Some _ _ _ _ _ (deref_live _ _ _ Hlive)).
    rewrite decide_False by (rewrite Hinit; discriminate).
    rewrite decide_True by assumption. reflexivity.
  - intros sub_info sub_count Hcount. unfold cy_mqtt_subscribe.
    rewrite decide_False by (intros [?|[?|[?|?]]]; [contradiction|discriminate|lia|lia]).
    rewrite (bind_Some _ _ _ _ _ (deref_live _ _ _ Hlive)).
    rewrite decide_False by (rewrite Hinit; discriminate).
    rewrite decide_True by assumption. reflexivity.
  - intros unsub_info unsub_count Hcount. unfold cy_mqtt_unsubscribe.
    rewrite decide_False by (intros [?|[?|?]]; [contradiction|discriminate|lia]).
    rewrite (bind_Some _ _ _ _ _ (deref_live _ _ _ Hlive)).
    rewrite decide_False by (rewrite Hinit; discriminate).
    rewrite decide_True by assumption. reflexivity.
Qed.

Lemma requests_without_session_are_not_connected_witness :
  mqtt_session_established (example_object connected_world) = true /\
  mqtt_session_established (example_object network_down_world) = false /\
  cy_mqtt_publish example_config quiet_env example_client (Some example_message)
    network_down_world
  = Some (CY_RSLT_MODULE_MQTT_NOT_CONNECTED, network_down_world) /\
  cy_mqtt_subscribe example_config quiet_env example_client (Some [example_subscription]) 1
    network_down_world
  = Some ((CY_RSLT_MODULE_MQTT_NOT_CONNECTED, Some [example_subscription]),
          network_down_world) /\
  cy_mqtt_unsubscribe example_config quiet_env example_client (Some [example_subscription])
    1 network_down_world
  = Some (CY_RSLT_MODULE_MQTT_NOT_CONNECTED, network_down_world).
Proof.
  split; [reflexivity|]. split; [reflexivity|].
  pose proof (requests_without_session_are_not_connected example_config quiet_env
                example_client (example_object network_down_world) network_down_world)
    as H.
  destruct H as (Hpub & Hsub & Hunsub).
  - discriminate.
  - vm_compute. reflexivity.
  - reflexivity.
  - reflexivity.
  - split; [apply Hpub|]. split; [apply Hsub|apply Hunsub].
    + vm_compute. split; discriminate.
    + vm_compute. discriminate.
Defined.

(** Unfold the monad and the collaborators down to functions on worlds. *)
Ltac unfold_monad :=
  unfold platform_call, codec_call, value_call, cy_rtos_get_mutex, cy_rtos_set_mutex,
    cy_rtos_deinit_mutex, cy_rtos_terminate_thread, cy_rtos_join_thread,
    cy_awsport_network_disconnect, cy_awsport_network_delete, MQTT_Publish,
    MQTT_Disconnect, MQTT_GetPacketId, invoke_mqtt_event_cb, free_object, write_cell,
    update, deref, call, gets, modify, no_behaviour, mbind, M_bind, mret, M_ret in *.

(** ** Library teardown (C1) *)

(** C1, as the code has it.  A call to deinit made while the handle count is
    not zero tears nothing down: the world, trace included, is as before.
    It returns SUCCESS when the library is initialised, and DEINIT_FAIL only
    when the library or its registry mutex is not initialised. *)
Theorem deinit_with_clients_tears_nothing_down (env : environment) (w : world) :
  mqtt_handle_count w ≠ 0 ->
  cy_mqtt_deinit env w
  = Some (if decide (mqtt_lib_init_status w = false ∨ mqtt_db_mutex_init_status w = false)
          then CY_RSLT_MODULE_MQTT_DEINIT_FAIL else CY_RSLT_SUCCESS, w).
Proof.
  intros Hcount. unfold cy_mqtt_deinit. unfold_monad. simpl.
  destruct (decide (mqtt_lib_init_status w = false ∨ mqtt_db_mutex_init_status w = false));
    [reflexivity|].
  rewrite decide_True by assumption. reflexivity.
Qed.

Lemma deinit_with_clients_tears_nothing_down_witness :
  cy_mqtt_deinit quiet_env created_world = Some (CY_RSLT_SUCCESS, created_world).
Proof.
  rewrite (deinit_with_clients_tears_nothing_down quiet_env created_world).
  - reflexivity.
  - vm_compute. discriminate.
Defined.

(** C1 as stated fails: with one client created and the library initialised,
    deinit returns SUCCESS, not DEINIT_FAIL. *)
Lemma deinit_with_client_reports_success :
  mqtt_handle_count created_world = 1 /\
  mqtt_lib_init_status created_world = true /\
  cy_mqtt_deinit quiet_env created_world = Some (CY_RSLT_SUCCESS, created_world) /\
  cy_mqtt_deinit quiet_env created_world
  ≠ Some (CY_RSLT_MODULE_MQTT_DEINIT_FAIL, created_world).
Proof. vm_compute. repeat split; discriminate. Qed.

(** ** Disconnect and the per-client mutex (C4) *)

(** C4 at its failing inputs.  When disconnect has acquired the process
    mutex and then finds the object not initialised or not connected, it
    returns the error at once: the only call recorded is the acquisition, so
    the mutex is still held when the function returns. *)
Theorem disconnect_early_exit_keeps_mutex (env : environment) (h : Z)
    (o : cy_mqtt_object_t) (w : world) :
  h ≠ NULL ->
  live_at w h o ->
  platform_answer env (Call_cy_rtos_get_mutex (process_mutex_ref h) :: trace w)
  = PLATFORM_OK ->
  mqtt_obj_initialized o = false ∨ mqtt_conn_status o = false ->
  cy_mqtt_disconnect env h w
  = Some (if decide (mqtt_obj_initialized o = false)
          then CY_RSLT_MODULE_MQTT_OBJ_NOT_INITIALIZED
          else CY_RSLT_MODULE_MQTT_NOT_CONNECTED,
          set_trace (Call_cy_rtos_get_mutex (process_mutex_ref h) :: trace w) w).
Proof.
  intros Hh Hlive Hget Hstate. unfold cy_mqtt_disconnect.
  rewrite decide_False by assumption.
  unfold_monad. simpl. rewrite Hget. simpl.
  unfold live_at in Hlive. rewrite Hlive. simpl.
  destruct (decide (mqtt_obj_initialized o = false)); [reflexivity|].
  rewrite decide_True by tauto. reflexivity.
Qed.

Lemma disconnect_early_exit_keeps_mutex_witness :
  cy_mqtt_disconnect quiet_env example_client created_world
  = Some (CY_RSLT_MODULE_MQTT_NOT_CONNECTED,
          set_trace (Call_cy_rtos_get_mutex (process_mutex_ref example_client)
                       :: trace created_world) created_world).
Proof.
  assert (Hlive : exists o, live_at created_world example_client o /\
                            mqtt_obj_initialized o = true /\ mqtt_conn_status o = false).
  { eexists. split; [vm_compute; reflexivity|]. split; reflexivity. }
  destruct Hlive as (o & Hlive & Hinit & Hconn).
  rewrite (disconnect_early_exit_keeps_mutex quiet_env example_client o created_world).
  - rewrite decide_False by (rewrite Hinit; discriminate). reflexivity.
  - discriminate.
  - exact Hlive.
  - reflexivity.
  - right. exact Hconn.
Defined.

(** ** Delete (C10) *)

(** C10, as the code has it.  delete of an initialised client never looks
    at [mqtt_conn_status] or [mqtt_session_established]: whatever they are,
    it destroys the process mutex and asks for the registry mutex.  If that
    fails it returns the error code of the RTOS with the registry and the
    object untouched.  Otherwise it clears the registry slot and decrements
    the handle count; if releasing the registry mutex fails it returns that
    error code with the object neither zeroed nor freed, and else it zeroes
    and frees the object and returns SUCCESS.  No code of the MQTT module is
    returned in any case. *)
Theorem delete_ignores_connection_state (cfg : config) (env : environment) (h : Z)
    (o : cy_mqtt_object_t) (w : world) :
  h ≠ NULL ->
  live_at w h o ->
  mqtt_obj_initialized o = true ->
  0 <= mqtt_obj_index o < Z.of_nat (length (mqtt_handle_database w)) ->
  let tr1 := Call_cy_rtos_deinit_mutex (process_mutex_ref h) :: trace w in
  let tr2 := Call_cy_rtos_get_mutex mqtt_db_mutex_ref :: tr1 in
  let tr3 := Call_cy_rtos_set_mutex mqtt_db_mutex_ref :: tr2 in
  let unregistered :=
    set_mqtt_handle_count (wrap_uint8 (mqtt_handle_count w - 1))
      (set_mqtt_handle_database
         (<[Z.to_nat (mqtt_obj_index o) := zero_db_entry]> (mqtt_handle_database w)) w) in
  cy_mqtt_delete cfg env h w
  = Some
      match platform_answer env tr2 with
      | PLATFORM_ERR code => (CY_RSLT_PLATFORM code, set_trace tr2 w)
      | PLATFORM_OK =>
          match platform_answer env tr3 with
          | PLATFORM_ERR code => (CY_RSLT_PLATFORM code, set_trace tr3 unregistered)
          | PLATFORM_OK =>
              (CY_RSLT_SUCCESS,
               set_trace (Call_free_object h :: tr3)
                 (set_heap (<[h := Build_cell false (zero_obj cfg)]> (heap w))
                    unregistered))
          end
      end.
Proof.
  intros Hh Hlive Hinit Hidx tr1 tr2 tr3 unregistered. unfold live_at in Hlive.
  assert (Hstore : array_store (mqtt_handle_database w) (mqtt_obj_index o) zero_db_entry
                   = mret (<[Z.to_nat (mqtt_obj_index o) := zero_db_entry]>
                             (mqtt_handle_database w))).
  { unfold array_store. rewrite decide_True by assumption. reflexivity. }
  unfold cy_mqtt_delete. rewrite decide_False by assumption.
  unfold_monad. simpl. rewrite Hlive. simpl.
  rewrite decide_False by (rewrite Hinit; discriminate).
  fold tr1. fold tr2.
  destruct (platform_answer env tr2) as [|c2] eqn:H2; simpl; [|reflexivity].
  rewrite Hstore. unfold_monad. simpl. fold tr3.
  destruct (platform_answer env tr3) as [|c3] eqn:H3; simpl; [|reflexivity].
  rewrite Hlive. simpl. rewrite lookup_insert_eq. simpl.
  rewrite !insert_insert_eq. reflexivity.
Qed.
Lemma delete_ignores_connection_state_witness :
  (exists o, live_at connected_world example_client o /\
             mqtt_conn_status o = true /\ mqtt_session_established o = true) /\
  fst <$> cy_mqtt_delete example_config quiet_env example_client connected_world
  = Some CY_RSLT_SUCCESS.
Proof.
  assert (Hlive : live_at connected_world example_client (example_object connected_world)).
  { vm_compute. reflexivity. }
  split.
  - exists (example_object connected_world). split; [exact Hlive|]. split; reflexivity.
  - rewrite (delete_ignores_connection_state example_config quiet_env example_client
               (example_object connected_world) connected_world).
    + reflexivity.
    + discriminate.
    + exact Hlive.
    + reflexivity.
    + vm_compute. split; [discriminate|reflexivity].
Defined.

(** C10 as stated fails when the registry mutex cannot be acquired.  The
    client is initialised, connected and has a session; delete destroys its
    process mutex and returns the error code of the RTOS, with the registry
    slot, the handle count and the object as they were: nothing is cleared,
    zeroed or freed, and the result is not SUCCESS. *)
Lemma delete_of_connected_client_can_fail :
  mqtt_obj_initialized (example_object connected_world) = true /\
  mqtt_conn_status (example_object connected_world) = true /\
  mqtt_session_established (example_object connected_world) = true /\
  cy_mqtt_delete example_config registry_mutex_fails_env example_client connected_world
  = Some (CY_RSLT_PLATFORM 7,
          set_trace
            (Call_cy_rtos_get_mutex mqtt_db_mutex_ref
             :: Call_cy_rtos_deinit_mutex (process_mutex_ref example_client)
             :: trace connected_world)
            connected_world) /\
  ¬ (exists w',
       cy_mqtt_delete example_config registry_mutex_fails_env example_client
         connected_world
       = Some (CY_RSLT_SUCCESS, w')).
Proof.
  split; [reflexivity|]. split; [reflexivity|]. split; [reflexivity|].
  assert (Hrun :
            cy_mqtt_delete example_config registry_mutex_fails_env example_client
              connected_world
            = Some (CY_RSLT_PLATFORM 7,
                    set_trace
                      (Call_cy_rtos_get_mutex mqtt_db_mutex_ref
                       :: Call_cy_rtos_deinit_mutex (process_mutex_ref example_client)
                       :: trace connected_world)
                      connected_world)) by (vm_compute; reflexivity).
  split; [exact Hrun|].
  intros [w' Hw']. rewrite Hrun in Hw'. discriminate.
Qed.

(** ** The event dispatcher (C5, C9) *)

Lemma array_load_Some {A : Type} (l : list A) (i : Z) (x : A) (w : world) :
  0 <= i -> l !! Z.to_nat i = Some x -> array_load l i w = Some (x, w).
Proof.
  intros Hi Hx. unfold array_load. rewrite decide_True by assumption.
  rewrite Hx. reflexivity.
Qed.

Lemma array_store_Some {A : Type} (l : list A) (i : Z) (x : A) (w : world) :
  0 <= i < Z.of_nat (length l) ->
  array_store l i x w = Some (<[Z.to_nat i := x]> l, w).
Proof. intros Hi. unfold array_store. rewrite decide_True by assumption. reflexivity. Qed.

(** The copy loop writes [codes[i..i+n)] over [status[i..i+n)]. *)
Lemma copy_suback_status_run (n : nat) :
  forall (i : nat) (codes status : list Z) (w : world),
    (i + n <= length codes)%nat ->
    (i + n <= length status)%nat ->
    copy_suback_status n (Z.of_nat i) codes status w
    = Some (take i status ++ take n (drop i codes) ++ drop (i + n) status, w).
Proof.
  induction n as [|n IH]; intros i codes status w Hc Hs.
  - simpl. rewrite Nat.add_0_r, take_drop. reflexivity.
  - simpl.
    destruct (lookup_lt_is_Some_2 codes i) as [c Hci]; [lia|].
    rewrite (bind_Some _ _ _ _ _ (array_load_Some codes (Z.of_nat i) c w
               ltac:(lia) ltac:(rewrite Nat2Z.id; exact Hci))).
    rewrite (bind_Some _ _ _ _ _ (array_store_Some status (Z.of_nat i) c w ltac:(lia))).
    rewrite Nat2Z.id.
    replace (Z.of_nat i + 1) with (Z.of_nat (S i)) by lia.
    rewrite IH by (rewrite ?length_insert; lia).
    f_equal. f_equal.
    rewrite (drop_S codes c i Hci). simpl.
    rewrite (take_S_r (<[i:=c]> status) i c)
      by (apply list_lookup_insert_eq; lia).
    rewrite take_insert_ge by lia.
    rewrite drop_insert_lt by lia.
    rewrite <- app_assoc. simpl.
    replace (S i + n)%nat with (i + S n)%nat by lia.
    replace (S (i + n))%nat with (i + S n)%nat by lia. reflexivity.
Qed.

Lemma set_sub_ack_status_same (o : cy_mqtt_object_t) :
  set_sub_ack_status (sub_ack_status o) o = o.
Proof. destruct o. reflexivity. Qed.

(** C5.  A SUBACK whose packet identifier equals [sent_packet_id] is
    dispatched to the owning client.  If the number of status codes the codec
    reports differs from [num_of_subs_in_req], the handler sets
    [num_of_subs_in_req] to 0 and fails with MQTT_ERROR, and [sub_ack_status]
    is not written.  Otherwise the codes are copied over
    [sub_ack_status[0..num)], the rest of the array is kept, and
    [num_of_subs_in_req] is set to 0.  The codec is taken to report no codes
    when its call fails. *)
Theorem suback_dispatch_updates_status (cfg : config) (env : environment)
    (ctx h : Z) (o : cy_mqtt_object_t) (packet_info : MQTTPacketInfo_t)
    (info : MQTTDeserializedInfo_t) (w : world) :
  ctx ≠ NULL ->
  lookup_handle ctx (mqtt_handle_database w) = h ->
  h ≠ NULL ->
  live_at w h o ->
  type packet_info = MQTT_PACKET_TYPE_SUBACK ->
  packetIdentifier info = sent_packet_id o ->
  0 <= num_of_subs_in_req o <= Z.of_nat (length (sub_ack_status o)) ->
  let tr := Call_MQTT_GetSubAckStatusCodes packet_info :: trace w in
  let codes := suback_payload_answer env tr in
  let after (o' : cy_mqtt_object_t) :=
    set_heap (<[h := Build_cell true o']> (heap w)) (set_trace tr w) in
  (codec_answer env tr ≠ MQTTSuccess -> codes = []) ->
  (Z.of_nat (length codes) ≠ num_of_subs_in_req o ->
   mqtt_update_suback_status env h packet_info w
   = Some (CY_RSLT_MODULE_MQTT_ERROR, after (set_num_of_subs_in_req 0 o)) /\
   mqtt_event_callback cfg env ctx (Some packet_info) (Some info) w
   = Some (tt, after (set_num_of_subs_in_req 0 o))) /\
  (Z.of_nat (length codes) = num_of_subs_in_req o ->
   mqtt_event_callback cfg env ctx (Some packet_info) (Some info) w
   = Some (tt, after (set_num_of_subs_in_req 0
                        (set_sub_ack_status
                           (codes ++ drop (length codes) (sub_ack_status o)) o)))).
Proof.
  intros Hctx Hlookup Hh Hlive Htype Hid Hnum tr codes after Hcodec.
  assert (Hupd_err :
            codec_answer env tr ≠ MQTTSuccess ∨
            Z.of_nat (length codes) ≠ num_of_subs_in_req o ->
            mqtt_update_suback_status env h packet_info w
            = Some (CY_RSLT_MODULE_MQTT_ERROR, after (set_num_of_subs_in_req 0 o))).
  { intros Hbad. unfold mqtt_update_suback_status.
    unfold live_at in Hlive. unfold_monad. simpl. fold tr. fold codes.
    rewrite Hlive. simpl. rewrite decide_True by exact Hbad.
    simpl. rewrite Hlive. reflexivity. }
  assert (Hupd_ok :
            codec_answer env tr = MQTTSuccess ->
            Z.of_nat (length codes) = num_of_subs_in_req o ->
            mqtt_update_suback_status env h packet_info w
            = Some (CY_RSLT_SUCCESS,
                    after (set_num_of_subs_in_req 0
                             (set_sub_ack_status
                                (codes ++ drop (length codes) (sub_ack_status o)) o)))).
  { intros Hok Heq. unfold mqtt_update_suback_status.
    unfold live_at in Hlive.
    unfold call, mbind, M_bind at 1. simpl. fold tr. fold codes.
    unfold deref, mbind, M_bind at 1. simpl. rewrite Hlive. simpl.
    rewrite decide_False by (intros [?|?]; contradiction).
    rewrite <- Heq, Nat2Z.id.
    unfold mbind, M_bind at 1.
    rewrite (copy_suback_status_run (length codes) 0 codes (sub_ack_status o))
      by (simpl; lia).
    simpl. rewrite drop_0, take_ge by lia.
    unfold_monad. simpl. rewrite Hlive. simpl. rewrite lookup_insert_eq. simpl.
    rewrite insert_insert_eq. reflexivity. }
  assert (Hcb : forall r w',
            mqtt_update_suback_status env h packet_info w = Some (r, w') ->
            mqtt_event_callback cfg env ctx (Some packet_info) (Some info) w
            = Some (tt, w')).
  { intros r w' Hrun. unfold mqtt_event_callback.
    rewrite decide_False by assumption.
    unfold gets at 1. unfold mbind, M_bind at 1. rewrite Hlookup.
    rewrite decide_False by assumption.
    rewrite decide_False by (rewrite Htype; vm_compute; discriminate).
    rewrite decide_True by assumption.
    rewrite (bind_Some _ _ _ _ _ (deref_live _ _ _ Hlive)).
    rewrite decide_False by (intros Hne; apply Hne; symmetry; exact Hid).
    rewrite (bind_Some _ _ _ _ _ Hrun). reflexivity. }
  split.
  - intros Hne. split.
    + apply Hupd_err. right. exact Hne.
    + apply Hcb with (r := CY_RSLT_MODULE_MQTT_ERROR). apply Hupd_err. right. exact Hne.
  - intros Heq. destruct (decide (codec_answer env tr = MQTTSuccess)) as [Hok|Hfail].
    + apply Hcb with (r := CY_RSLT_SUCCESS). apply Hupd_ok; assumption.
    + apply Hcb with (r := CY_RSLT_MODULE_MQTT_ERROR).
      rewrite (Hcodec Hfail). simpl. rewrite drop_0, set_sub_ack_status_same.
      apply Hupd_err. left. exact Hfail.
Qed.

Lemma suback_dispatch_updates_status_witness :
  exists w',
    mqtt_event_callback example_config suback_env example_client (Some suback_packet)
      (Some (Build_MQTTDeserializedInfo_t 7 None MQTTSuccess)) subscribing_world
    = Some (tt, w') /\
    sub_ack_status (example_object w') = [1; 128; 0] /\
    num_of_subs_in_req (example_object w') = 0.
Proof.
  pose proof (suback_dispatch_updates_status example_config suback_env example_client
                example_client (example_object subscribing_world) suback_packet
                (Build_MQTTDeserializedInfo_t 7 None MQTTSuccess) subscribing_world) as H.
  destruct H as [_ H].
  - discriminate.
  - reflexivity.
  - discriminate.
  - vm_compute. reflexivity.
  - reflexivity.
  - reflexivity.
  - vm_compute. split; discriminate.
  - intros Hfail. exfalso. apply Hfail. reflexivity.
  - eexists. split; [apply H; reflexivity|]. split; vm_compute; reflexivity.
Defined.

Lemma set_outgoing_pub_packets_same (o : cy_mqtt_object_t) :
  set_outgoing_pub_packets (outgoing_pub_packets o) o = o.
Proof. destruct o. reflexivity. Qed.

Lemma set_pub_ack_status_same (o : cy_mqtt_object_t) :
  set_pub_ack_status (pub_ack_status o) o = o.
Proof. destruct o. reflexivity. Qed.

Lemma set_heap_same (w : world) : set_heap (heap w) w = w.
Proof. destruct w. reflexivity. Qed.

Lemma store_same_object (w : world) (h : Z) (o : cy_mqtt_object_t) :
  live_at w h o -> set_heap (<[h := Build_cell true o]> (heap w)) w = w.
Proof. intros H. rewrite insert_id by exact H. apply set_heap_same. Qed.

(** The scan finds the slot that [zero_first_slot] zeroes. *)
Lemma first_slot_zero (id : Z) (slots : list cy_mqtt_pubpack_t) :
  forall i : Z,
    match first_slot (λ s, bool_decide (packetid s = id)) i slots with
    | Some j =>
        i <= j < i + Z.of_nat (length slots) /\
        <[Z.to_nat (j - i) := zero_pubpack]> slots = zero_first_slot id slots
    | None => zero_first_slot id slots = slots
    end.
Proof.
  induction slots as [|s rest IH]; intros i; simpl.
  - reflexivity.
  - destruct (decide (packetid s = id)) as [Heq|Hne].
    + rewrite bool_decide_eq_true_2 by exact Heq.
      split; [lia|]. rewrite Z.sub_diag. reflexivity.
    + rewrite bool_decide_eq_false_2 by exact Hne.
      specialize (IH (i + 1)).
      destruct (first_slot _ (i + 1) rest) as [j|].
      * destruct IH as [Hj Hins]. split; [lia|].
        replace (Z.to_nat (j - i)) with (S (Z.to_nat (j - (i + 1)))) by lia.
        simpl. rewrite Hins. reflexivity.
      * rewrite IH. reflexivity.
Qed.

Lemma cleanup_with_packet_id_run (cfg : config) (h id : Z) (o : cy_mqtt_object_t)
    (w : world) :
  h ≠ NULL ->
  live_at w h o ->
  (length (outgoing_pub_packets o) <= Z.to_nat (CY_MQTT_MAX_OUTGOING_PUBLISHES cfg))%nat ->
  exists r,
    mqtt_cleanup_outgoing_publish_with_packet_id cfg h id w
    = Some (r, set_heap
                 (<[h := Build_cell true
                           (set_outgoing_pub_packets
                              (if decide (id = MQTT_PACKET_ID_INVALID)
                               then outgoing_pub_packets o
                               else zero_first_slot id (outgoing_pub_packets o)) o)]>
                    (heap w)) w).
Proof.
  intros Hh Hlive Hlen. unfold mqtt_cleanup_outgoing_publish_with_packet_id.
  destruct (decide (id = MQTT_PACKET_ID_INVALID)) as [Hid|Hid].
  - rewrite decide_True by (right; exact Hid).
    rewrite set_outgoing_pub_packets_same, (store_same_object _ _ _ Hlive).
    eexists. reflexivity.
  - rewrite decide_False by (intros [?|?]; contradiction).
    rewrite (bind_Some _ _ _ _ _ (deref_live _ _ _ Hlive)).
    pose proof (first_slot_zero id (outgoing_pub_packets o) 0) as Hscan.
    destruct (first_slot _ 0 (outgoing_pub_packets o)) as [j|].
    + destruct Hscan as [Hj Hins]. rewrite Z.sub_0_r in Hins.
      unfold mqtt_cleanup_outgoing_publish.
      rewrite decide_False by lia.
      rewrite (bind_Some _ _ _ _ _ (deref_live _ _ _ Hlive)).
      rewrite (bind_Some _ _ _ _ _ (array_store_Some (outgoing_pub_packets o) j zero_pubpack w
                                  ltac:(lia))).
      rewrite (bind_Some _ _ _ _ _ (update_live _ _ _ _ Hlive)).
      rewrite Hins. eexists. reflexivity.
    + rewrite Hscan, set_outgoing_pub_packets_same, (store_same_object _ _ _ Hlive).
      eexists. reflexivity.
Qed.

Lemma handle_publish_ack_run (cfg : config) (h id : Z) (info : MQTTDeserializedInfo_t)
    (o : cy_mqtt_object_t) (w : world) :
  h ≠ NULL ->
  live_at w h o ->
  (length (outgoing_pub_packets o) <= Z.to_nat (CY_MQTT_MAX_OUTGOING_PUBLISHES cfg))%nat ->
  handle_publish_ack cfg h id info w
  = Some (tt, set_heap (<[h := Build_cell true (after_publish_ack id info o)]> (heap w)) w).
Proof.
  intros Hh Hlive Hlen. unfold handle_publish_ack, after_publish_ack.
  destruct (decide (deserializationResult info = MQTTSuccess)) as [Hok|Hbad].
  - rewrite decide_False by (intros Hne; contradiction).
    rewrite (bind_Some _ _ _ _ _ (update_live _ _ _ _ Hlive)).
    match goal with
    | |- context [set_heap (<[h := Build_cell true ?o1]> (heap w)) w] =>
        destruct (cleanup_with_packet_id_run cfg h id o1
                    (set_heap (<[h := Build_cell true o1]> (heap w)) w) Hh
                    (live_at_insert _ _ _ _) Hlen) as [r Hrun]
    end.
    rewrite (bind_Some _ _ _ _ _ Hrun). simpl.
    rewrite insert_insert_eq. reflexivity.
  - rewrite decide_True by exact Hbad.
    rewrite (bind_Some _ _ _ _ _ (eq_refl : (mret tt : M unit) w = Some (tt, w))).
    destruct (cleanup_with_packet_id_run cfg h id o w Hh Hlive Hlen) as [r Hrun].
    rewrite (bind_Some _ _ _ _ _ Hrun).
    rewrite set_pub_ack_status_same. reflexivity.
Qed.

(** C9, as the code has it.  When a PUBACK or PUBREC is dispatched to the
    owning client, [pub_ack_status.puback_status] is set to (packet id =
    [pub_ack_status.packetid]) only if the deserialization result is
    success, and is left as it was otherwise.  Whatever that result, the
    first slot of [outgoing_pub_packets] that carries the packet identifier
    is zeroed, unless the identifier is 0.  Nothing else changes. *)
Theorem publish_ack_dispatch (cfg : config) (env : environment) (ctx h : Z)
    (o : cy_mqtt_object_t) (packet_info : MQTTPacketInfo_t)
    (info : MQTTDeserializedInfo_t) (w : world) :
  ctx ≠ NULL ->
  lookup_handle ctx (mqtt_handle_database w) = h ->
  h ≠ NULL ->
  live_at w h o ->
  Z.of_nat (length (outgoing_pub_packets o)) <= CY_MQTT_MAX_OUTGOING_PUBLISHES cfg ->
  type packet_info = MQTT_PACKET_TYPE_PUBACK ∨ type packet_info = MQTT_PACKET_TYPE_PUBREC ->
  mqtt_event_callback cfg env ctx (Some packet_info) (Some info) w
  = Some (tt, set_heap
                (<[h := Build_cell true (after_publish_ack (packetIdentifier info) info o)]>
                   (heap w)) w).
Proof.
  intros Hctx Hlookup Hh Hlive Hlen Htype. unfold mqtt_event_callback.
  rewrite decide_False by assumption.
  unfold gets at 1. unfold mbind, M_bind at 1. rewrite Hlookup.
  rewrite decide_False by assumption.
  destruct Htype as [Htype|Htype]; rewrite Htype.
  - rewrite decide_False by (vm_compute; discriminate).
    rewrite decide_False by (vm_compute; discriminate).
    rewrite decide_False by (vm_compute; discriminate).
    rewrite decide_False by (vm_compute; discriminate).
    rewrite decide_False by (vm_compute; discriminate).
    rewrite decide_False by (vm_compute; discriminate).
    rewrite decide_False by (vm_compute; discriminate).
    rewrite decide_True by reflexivity.
    apply handle_publish_ack_run; [assumption|assumption|lia].
  - rewrite decide_False by (vm_compute; discriminate).
    rewrite decide_False by (vm_compute; discriminate).
    rewrite decide_False by (vm_compute; discriminate).
    rewrite decide_False by (vm_compute; discriminate).
    rewrite decide_True by reflexivity.
    apply handle_publish_ack_run; [assumption|assumption|lia].
Qed.

Lemma publish_ack_dispatch_witness :
  exists w',
    mqtt_event_callback example_config quiet_env example_client (Some puback_packet)
      (Some (Build_MQTTDeserializedInfo_t 5 None MQTTSuccess)) inflight_world
    = Some (tt, w') /\
    puback_status (pub_ack_status (example_object w')) = true /\
    outgoing_pub_packets (example_object w')
    = [zero_pubpack; zero_pubpack; zero_pubpack; zero_pubpack].
Proof.
  eexists. split.
  - apply (publish_ack_dispatch example_config quiet_env example_client example_client
             (example_object inflight_world)).
    + discriminate.
    + reflexivity.
    + discriminate.
    + vm_compute. reflexivity.
    + vm_compute. discriminate.
    + left. reflexivity.
  - split; vm_compute; reflexivity.
Defined.

(** C9 as stated fails: a PUBACK whose packet identifier 5 equals
    [pub_ack_status.packetid] but whose deserialization result is not
    success leaves [puback_status] false, while the slot is zeroed. *)
Lemma puback_not_deserialized_leaves_ack_status :
  ack_packetid (pub_ack_status (example_object inflight_world)) = 5 /\
  packetIdentifier bad_puback_info = 5 /\
  exists w',
    mqtt_event_callback example_config quiet_env example_client (Some puback_packet)
      (Some bad_puback_info) inflight_world
    = Some (tt, w') /\
    puback_status (pub_ack_status (example_object w')) = false /\
    outgoing_pub_packets (example_object w')
    = [zero_pubpack; zero_pubpack; zero_pubpack; zero_pubpack].
Proof.
  split; [reflexivity|]. split; [reflexivity|].
  eexists. split; [vm_compute; reflexivity|]. split; reflexivity.
Qed.

(** ** Publish resend (C2) *)

(** A cursor-reported identifier that is in no slot ends the resend with
    PUBLISH_FAIL and without a PUBLISH being sent for it. *)
Lemma resend_scan_not_found (env : environment) (h id : Z)
    (slots : list cy_mqtt_pubpack_t) :
  forall (index : Z) (w : world),
    Forall (λ s, packetid s ≠ id) slots ->
    resend_matching_slots env h id index slots false w = Some ((false, false), w).
Proof.
  induction slots as [|s rest IH]; intros index w Hall; simpl.
  - reflexivity.
  - inversion Hall as [|? ? Hs Hrest]; subst.
    rewrite decide_False by exact Hs. apply IH. exact Hrest.
Qed.

Lemma resend_unknown_id_fails (env : environment) (h id : Z) (o : cy_mqtt_object_t)
    (cursor : list Z) (result : cy_rslt_t) (w : world) :
  id ≠ MQTT_PACKET_ID_INVALID ->
  live_at w h o ->
  Forall (λ s, packetid s ≠ id) (outgoing_pub_packets o) ->
  resend_while env h result id cursor w = Some (CY_RSLT_MODULE_MQTT_PUBLISH_FAIL, w).
Proof.
  intros Hid Hlive Hall.
  destruct cursor; simpl; rewrite decide_False by exact Hid;
    rewrite (bind_Some _ _ _ _ _ (deref_live _ _ _ Hlive));
    rewrite (bind_Some _ _ _ _ _ (resend_scan_not_found env h id _ 0 w Hall));
    reflexivity.
Qed.

(** ** The transport adapter (C6) *)

(** A negative read is returned at once, whatever has been received. *)
Lemma receive_negative_read (timeout_ms bytes_recv total remaining : Z)
    (r : transport_read) (rest : list transport_read) :
  bytes_received r < 0 ->
  receive_loop timeout_ms bytes_recv (r :: rest) total remaining
  = Returned (bytes_received r).
Proof. intros H. simpl. rewrite decide_True by exact H. reflexivity. Qed.

(** A first read of 0 bytes makes the function return 0. *)
Lemma receive_nothing_available (cfg : config) (bytes_recv : Z) (r : transport_read)
    (rest : list transport_read) :
  bytes_received r = 0 ->
  mqtt_awsport_network_receive cfg bytes_recv (r :: rest) = Returned 0.
Proof.
  intros H. unfold mqtt_awsport_network_receive. simpl.
  rewrite decide_False by lia. rewrite decide_True by (split; [exact H|reflexivity]).
  reflexivity.
Qed.

(** A positive read resets the budget to the full timeout; the loop goes on
    exactly when bytes are missing and that budget is not 0. *)
Lemma receive_progress_resets_budget (timeout_ms bytes_recv total remaining : Z)
    (r : transport_read) (rest : list transport_read) :
  0 <= total ->
  0 < bytes_received r ->
  total + bytes_received r < 2 ^ 31 ->
  0 <= timeout_ms < 2 ^ 32 ->
  receive_loop timeout_ms bytes_recv (r :: rest) total remaining
  = if decide (total + bytes_received r < bytes_recv ∧ timeout_ms > 0)
    then receive_loop timeout_ms bytes_recv rest (total + bytes_received r) timeout_ms
    else Returned (total + bytes_received r).
Proof.
  intros Htotal Hpos Hsum Ht. simpl.
  rewrite decide_False by lia.
  rewrite decide_False by lia.
  rewrite !(decide_False (P := bytes_received r = 0)) by lia.
  assert (Hw : wrap_int32 (total + bytes_received r) = total + bytes_received r).
  { unfold wrap_int32. rewrite Z.mod_small by lia. lia. }
  assert (Hs : wrap_size_t (total + bytes_received r) = total + bytes_received r).
  { unfold wrap_size_t. apply Z.mod_small. lia. }
  assert (Hb : wrap_size_t (wrap_size_t timeout_ms - 0) = timeout_ms).
  { unfold wrap_size_t. rewrite Z.sub_0_r, Z.mod_mod by lia. apply Z.mod_small. lia. }
  rewrite Hw, Hs, Hb. reflexivity.
Qed.

(** A read of 0 bytes after partial data that takes longer than what is left
    of the budget does not end the loop: the unsigned subtraction wraps and
    the budget becomes [2 ^ 32 - (elapsed - remaining)]. *)
Lemma receive_overdrawn_budget_wraps (timeout_ms bytes_recv total remaining : Z)
    (r : transport_read) (rest : list transport_read) :
  bytes_received r = 0 ->
  0 < total < bytes_recv ->
  bytes_recv < 2 ^ 32 ->
  0 < remaining < exitTimeMs r - entryTimeMs r ->
  exitTimeMs r - entryTimeMs r < 2 ^ 32 ->
  receive_loop timeout_ms bytes_recv (r :: rest) total remaining
  = receive_loop timeout_ms bytes_recv rest total
      (2 ^ 32 - (exitTimeMs r - entryTimeMs r - remaining)).
Proof.
  intros Hzero Htotal Hreq Hover Helapsed. simpl.
  rewrite decide_False by lia.
  rewrite decide_False by lia.
  rewrite !(decide_True (P := bytes_received r = 0)) by exact Hzero.
  assert (He : wrap_size_t (exitTimeMs r - entryTimeMs r) = exitTimeMs r - entryTimeMs r).
  { unfold wrap_size_t. apply Z.mod_small. lia. }
  assert (Hr : wrap_size_t (remaining - (exitTimeMs r - entryTimeMs r))
               = 2 ^ 32 - (exitTimeMs r - entryTimeMs r - remaining)).
  { unfold wrap_size_t.
    replace (remaining - (exitTimeMs r - entryTimeMs r))
      with (2 ^ 32 - (exitTimeMs r - entryTimeMs r - remaining) + (-1) * 2 ^ 32) by lia.
    rewrite Z.mod_add by lia. apply Z.mod_small. lia. }
  assert (Hs : wrap_size_t total = total).
  { unfold wrap_size_t. apply Z.mod_small. lia. }
  rewrite He, Hr, Hs.
  rewrite decide_True by lia. reflexivity.
Qed.

(** With a transport that honours the requested length the value returned is
    a negative error or at most the number of bytes requested. *)
Lemma receive_never_exceeds_request (timeout_ms bytes_recv : Z)
    (reads : list transport_read) :
  forall (total remaining v : Z),
    0 <= total <= bytes_recv ->
    bytes_recv < 2 ^ 31 ->
    reads_within_request bytes_recv reads total ->
    receive_loop timeout_ms bytes_recv reads total remaining = Returned v ->
    v <= bytes_recv.
Proof.
  induction reads as [|r rest IH]; intros total remaining v Htotal Hreq Hreads Hrun.
  - discriminate.
  - simpl in Hreads. destruct Hreads as [Hr Hrest].
    unfold bytestoread, wrap_size_t in Hr. rewrite Z.mod_small in Hr by lia.
    simpl in Hrun.
    destruct (decide (bytes_received r < 0)) as [Hneg|Hneg].
    { injection Hrun as <-. lia. }
    destruct (decide (bytes_received r = 0 ∧ total = 0)) as [Hnone|Hnone].
    { injection Hrun as <-. lia. }
    destruct (decide (bytes_received r = 0)) as [Hzero|Hpos].
    + rewrite decide_False in Hrest by lia.
      destruct (decide (_ ∧ _)) in Hrun.
      * apply (IH _ _ _ Htotal Hreq Hrest Hrun).
      * injection Hrun as <-. lia.
    + rewrite decide_True in Hrest by lia.
      assert (Hw : wrap_int32 (total + bytes_received r) = total + bytes_received r).
      { unfold wrap_int32. rewrite Z.mod_small by lia. lia. }
      rewrite Hw in Hrun.
      destruct (decide (_ ∧ _)) in Hrun.
      * eapply (IH (total + bytes_received r)); [lia|exact Hreq|exact Hrest|exact Hrun].
      * injection Hrun as <-. lia.
Qed.

(** C6 at its failing input.  With a budget of 500 ms, 4 of 10 requested
    bytes arrive and the socket then stays empty for 501 ms, the last read
    taking 2 ms when 1 ms is left.  The budget is spent, yet the function has
    not returned: it is still polling after 2000 further milliseconds without
    data, and it returns 10 if the missing bytes arrive then. *)
Theorem receive_polls_on_after_budget_overrun :
  CY_MQTT_MESSAGE_RECEIVE_TIMEOUT_MS example_config = 500 /\
  mqtt_awsport_network_receive example_config 10 overrun_script = StillPolling /\
  mqtt_awsport_network_receive example_config 10
    (overrun_script ++ replicate 2000 (read_taking 0 1)) = StillPolling /\
  mqtt_awsport_network_receive example_config 10
    (overrun_script ++ replicate 2000 (read_taking 0 1) ++ [read_taking 6 0])
  = Returned 10 /\
  mqtt_awsport_network_receive example_config 10
    (read_taking 4 0 :: replicate 500 (read_taking 0 1)) = Returned 4.
Proof. repeat split; vm_compute; reflexivity. Qed.

(** ** The session flags (C3) *)

Lemma flags_live (w : world) (h : Z) (o : cy_mqtt_object_t) :
  live_at w h o ->
  flags w !! h = Some (mqtt_session_established o, mqtt_conn_status o).
Proof. intros H. unfold flags. rewrite lookup_omap, H. reflexivity. Qed.

Lemma flags_lookup_inv (w : world) (h : Z) (s c : bool) :
  flags w !! h = Some (s, c) ->
  exists o, live_at w h o /\ mqtt_session_established o = s /\ mqtt_conn_status o = c.
Proof.
  unfold flags, live_at. rewrite lookup_omap.
  destruct (heap w !! h) as [[live o]|]; simpl; [|discriminate].
  unfold flags_of_cell. simpl. destruct live; [|discriminate].
  intros H. injection H as Hs Hc. exists o. repeat split; assumption.
Qed.

Lemma session_implies_conn_status_flags (w : world) :
  session_implies_conn_status w <->
  (forall h c, flags w !! h = Some (true, c) -> c = true).
Proof.
  split.
  - intros Hinv h c Hf. destruct (flags_lookup_inv _ _ _ _ Hf) as (o & Hl & Hs & Hc).
    rewrite <- Hc. apply (Hinv h o Hl Hs).
  - intros Hf h o Hl Hs. apply (Hf h). rewrite (flags_live _ _ _ Hl), Hs. reflexivity.
Qed.

Lemma drops_preserves (w w' : world) :
  drops w w' -> session_implies_conn_status w -> session_implies_conn_status w'.
Proof.
  rewrite !session_implies_conn_status_flags. intros Hd Hinv h c Hf.
  apply (Hinv h). apply Hd. exact Hf.
Qed.

#[global] Instance drops_preorder : FlagPreorder drops.
Proof.
  split.
  - intros w w' Heq h c H. rewrite <- Heq. exact H.
  - intros w1 w2 w3 H12 H23 h c H. apply H12, H23, H.
Qed.

#[global] Instance drops_except_preorder (h0 : Z) : FlagPreorder (drops_except h0).
Proof.
  split.
  - intros w w' Heq h c _ H. rewrite <- Heq. exact H.
  - intros w1 w2 w3 H12 H23 h c Hne H. apply H12, H23, H; exact Hne.
Qed.

#[global] Instance keeps_preorder : FlagPreorder (λ w w', flags w' = flags w).
Proof.
  split.
  - intros w w' H. exact H.
  - intros w1 w2 w3 H12 H23. rewrite H23. exact H12.
Qed.

Section Relational.

Context (R : world -> world -> Prop) `{!FlagPreorder R}.

Lemma rel_ret {A : Type} (a : A) : rel R (mret a).
Proof.
  intros w a' w' H. injection H as _ Hw. subst w'. apply fp_keeps. reflexivity.
Qed.

Lemma rel_bind {A B : Type} (m : M A) (f : A -> M B) :
  rel R m -> (forall a, rel R (f a)) -> rel R (m ≫= f).
Proof.
  intros Hm Hf w b w'' Hrun.
  destruct (bind_inv _ _ _ _ _ Hrun) as (a & w' & H1 & H2).
  eapply fp_trans; [apply (Hm _ _ _ H1)|apply (Hf _ _ _ _ H2)].
Qed.

Lemma rel_no_behaviour {A : Type} : rel R (no_behaviour : M A).
Proof. intros w a w' H. discriminate. Qed.

Lemma rel_gets {A : Type} (f : world -> A) : rel R (gets f).
Proof.
  intros w a w' H. injection H as _ Hw. subst w'. apply fp_keeps. reflexivity.
Qed.

Lemma rel_call (e : event) : rel R (call e).
Proof.
  intros w a w' H. injection H as _ Hw. subst w'. apply fp_keeps. reflexivity.
Qed.

(** A change of the file-scope variables that leaves the heap alone. *)
Lemma rel_modify (f : world -> world) :
  (forall w, heap (f w) = heap w) -> rel R (modify f).
Proof.
  intros Hf w a w' H. injection H as _ Hw. subst w'. apply fp_keeps.
  unfold flags. rewrite Hf. reflexivity.
Qed.

Lemma rel_deref (h : Z) : rel R (deref h).
Proof.
  intros w a w' H. unfold deref in H.
  destruct (heap w !! h) as [[live o]|]; simpl in H; [|discriminate].
  destruct live; [|discriminate].
  injection H as _ Hw. subst w'. apply fp_keeps. reflexivity.
Qed.

Lemma update_flags (h : Z) (f : cy_mqtt_object_t -> cy_mqtt_object_t) (w w' : world) :
  update h f w = Some (tt, w') ->
  exists o, live_at w h o /\
            flags w' = <[h := (mqtt_session_established (f o), mqtt_conn_status (f o))]>
                         (flags w).
Proof.
  unfold update. intros H.
  destruct (bind_inv _ _ _ _ _ H) as (o & w1 & H1 & H2).
  unfold deref in H1.
  destruct (heap w !! h) as [[live o']|] eqn:Hh; simpl in H1; [|discriminate].
  destruct live; [|discriminate].
  injection H1 as Ho Hw. subst o' w1.
  injection H2 as Hw. subst w'.
  exists o. split; [exact Hh|].
  unfold flags. simpl. apply omap_insert_Some. reflexivity.
Qed.

(** Writing fields other than the two flags. *)
Lemma rel_update_keeps (h : Z) (f : cy_mqtt_object_t -> cy_mqtt_object_t) :
  (forall o, mqtt_session_established (f o) = mqtt_session_established o /\
             mqtt_conn_status (f o) = mqtt_conn_status o) ->
  rel R (update h f).
Proof.
  intros Hf w [] w' H. destruct (update_flags _ _ _ _ H) as (o & Hl & Hfl).
  apply fp_keeps. rewrite Hfl. destruct (Hf o) as [-> ->].
  apply insert_id. apply flags_live. exact Hl.
Qed.

Lemma rel_array_load {A : Type} (l : list A) (i : Z) : rel R (array_load l i).
Proof.
  intros w a w' H. unfold array_load in H.
  destruct (decide (0 <= i)); [|discriminate].
  destruct (l !! Z.to_nat i); [|discriminate].
  injection H as _ Hw. subst w'. apply fp_keeps. reflexivity.
Qed.

Lemma rel_array_store {A : Type} (l : list A) (i : Z) (x : A) : rel R (array_store l i x).
Proof.
  intros w a w' H. unfold array_store in H.
  destruct (decide (0 <= i < Z.of_nat (length l))); [|discriminate].
  injection H as _ Hw. subst w'. apply fp_keeps. reflexivity.
Qed.

End Relational.

(** Clearing the session flag, or zeroing the object, drops. *)
Lemma rel_update_drops (h : Z) (f : cy_mqtt_object_t -> cy_mqtt_object_t) :
  (forall o, mqtt_session_established (f o) = false) -> rel drops (update h f).
Proof.
  intros Hf w [] w' H. destruct (update_flags _ _ _ _ H) as (o & Hl & Hfl).
  intros h' c Hc. rewrite Hfl in Hc.
  destruct (decide (h = h')) as [->|Hne].
  - rewrite lookup_insert_eq, Hf in Hc. discriminate.
  - rewrite lookup_insert_ne in Hc by exact Hne. exact Hc.
Qed.

(** Any write to [h0] is allowed by [drops_except h0]. *)
Lemma rel_update_except (h0 : Z) (f : cy_mqtt_object_t -> cy_mqtt_object_t) :
  rel (drops_except h0) (update h0 f).
Proof.
  intros w [] w' H. destruct (update_flags _ _ _ _ H) as (o & Hl & Hfl).
  intros h' c Hne Hc. rewrite Hfl in Hc.
  rewrite lookup_insert_ne in Hc by (intros ->; contradiction). exact Hc.
Qed.

Lemma rel_weaken {A : Type} (R R' : world -> world -> Prop) (m : M A) :
  (forall w w', R w w' -> R' w w') -> rel R m -> rel R' m.
Proof. intros HR Hm w a w' H. apply HR. apply (Hm _ _ _ H). Qed.

Lemma drops_drops_except (h0 : Z) (w w' : world) : drops w w' -> drops_except h0 w w'.
Proof. intros H h c _ Hc. apply H. exact Hc. Qed.

Lemma keeps_drops (w w' : world) : flags w' = flags w -> drops w w'.
Proof. apply fp_keeps. Qed.

Create HintDb rel discriminated.

#[global] Hint Extern 0 (FlagPreorder _) => exact _ : rel.

(** One step of a proof that a computation respects a relation: peel the
    monadic structure, split on tests, close leaves with known facts. *)
Ltac rel_step :=
  match goal with
  | |- rel _ (mret _) => apply rel_ret; exact _
  | |- rel _ (_ ≫= _) => apply rel_bind; [exact _| |intros]
  | |- rel _ no_behaviour => apply rel_no_behaviour
  | |- rel _ (gets _) => apply rel_gets; exact _
  | |- rel _ (call _) => apply rel_call; exact _
  | |- rel _ (deref _) => apply rel_deref; exact _
  | |- rel _ (array_load _ _) => apply rel_array_load; exact _
  | |- rel _ (array_store _ _ _) => apply rel_array_store; exact _
  | |- rel _ (modify _) => apply rel_modify; [exact _|intros; reflexivity]
  | |- rel _ (update _ _) =>
      first [ apply rel_update_keeps; [exact _|intros; split; reflexivity]
            | apply rel_update_drops; intros; reflexivity
            | apply rel_update_except ]
  | |- rel _ (if decide ?P then _ else _) => destruct (decide P)
  | |- rel _ (if ?b then _ else _) => destruct b
  | |- rel _ (match ?x with _ => _ end) => destruct x
  | |- rel _ (let _ := _ in _) => cbv zeta
  | |- rel _ _ => solve [eauto with rel]
  end.

Ltac rel_auto := repeat rel_step.

Section RelationalCollaborators.

Context (R : world -> world -> Prop) `{!FlagPreorder R} (env : environment).

Lemma rel_platform_call (e : event) : rel R (platform_call env e).
Proof. unfold platform_call. rel_auto. Qed.

Lemma rel_codec_call (e : event) : rel R (codec_call env e).
Proof. unfold codec_call. rel_auto. Qed.

Lemma rel_value_call (e : event) : rel R (value_call env e).
Proof. unfold value_call. rel_auto. Qed.

Lemma rel_invoke_mqtt_event_cb (h : Z) (o : cy_mqtt_object_t) (ev : cy_mqtt_event_t) :
  rel R (invoke_mqtt_event_cb h o ev).
Proof. unfold invoke_mqtt_event_cb. rel_auto. Qed.

End RelationalCollaborators.

#[global] Hint Resolve rel_platform_call rel_codec_call rel_value_call
  rel_invoke_mqtt_event_cb : rel.

Ltac rel_unfold_calls :=
  unfold cy_rtos_get_mutex, cy_rtos_set_mutex, cy_rtos_deinit_mutex,
    cy_rtos_terminate_thread, cy_rtos_join_thread, cy_awsport_network_disconnect,
    cy_awsport_network_delete, MQTT_Publish, MQTT_Disconnect, MQTT_GetPacketId,
    load_slot, store_slot.

Section DropsOfTheDispatcher.

Context (cfg : config) (env : environment).
Context (R : world -> world -> Prop) `{!FlagPreorder R}.

Lemma rel_mqtt_cleanup_outgoing_publish (h index : Z) :
  rel R (mqtt_cleanup_outgoing_publish cfg h index).
Proof. unfold mqtt_cleanup_outgoing_publish. rel_auto. Qed.

Hint Resolve rel_mqtt_cleanup_outgoing_publish : rel.

Lemma rel_mqtt_cleanup_outgoing_publish_with_packet_id (h id : Z) :
  rel R (mqtt_cleanup_outgoing_publish_with_packet_id cfg h id).
Proof. unfold mqtt_cleanup_outgoing_publish_with_packet_id. rel_auto. Qed.

Lemma rel_copy_suback_status (n : nat) :
  forall (i : Z) (codes status : list Z), rel R (copy_suback_status n i codes status).
Proof. induction n as [|n IH]; intros i codes status; simpl; rel_auto. Qed.

Hint Resolve rel_mqtt_cleanup_outgoing_publish_with_packet_id rel_copy_suback_status : rel.

Lemma rel_mqtt_update_suback_status (h : Z) (packet_info : MQTTPacketInfo_t) :
  rel R (mqtt_update_suback_status env h packet_info).
Proof. unfold mqtt_update_suback_status. rel_auto. Qed.

Lemma rel_handle_publish_ack (h id : Z) (info : MQTTDeserializedInfo_t) :
  rel R (handle_publish_ack cfg h id info).
Proof. unfold handle_publish_ack. rel_auto. Qed.

End DropsOfTheDispatcher.

#[global] Hint Resolve rel_mqtt_cleanup_outgoing_publish
  rel_mqtt_cleanup_outgoing_publish_with_packet_id rel_copy_suback_status
  rel_mqtt_update_suback_status rel_handle_publish_ack : rel.

Lemma drops_mqtt_event_callback (cfg : config) (env : environment) (ctx : Z)
    (packet_info : option MQTTPacketInfo_t) (info : option MQTTDeserializedInfo_t) :
  rel drops (mqtt_event_callback cfg env ctx packet_info info).
Proof. unfold mqtt_event_callback. rel_auto. Qed.

Lemma drops_dispatch_incoming (cfg : config) (env : environment) (h : Z)
    (packets : list incoming_packet) :
  rel drops (dispatch_incoming cfg env h packets).
Proof.
  induction packets as [|[packet_info info] rest IH]; simpl.
  - rel_auto.
  - apply rel_bind; [exact _|apply drops_mqtt_event_callback|intros _; exact IH].
Qed.

Lemma drops_MQTT_ProcessLoop (cfg : config) (env : environment) (h timeout_ms : Z) :
  rel drops (MQTT_ProcessLoop cfg env h timeout_ms).
Proof.
  unfold MQTT_ProcessLoop.
  apply rel_bind; [exact _|rel_auto|intros tr].
  apply rel_bind; [exact _|apply drops_dispatch_incoming|intros _; rel_auto].
Qed.

#[global] Hint Resolve drops_mqtt_event_callback drops_dispatch_incoming
  drops_MQTT_ProcessLoop : rel.

Lemma drops_mqtt_receive_thread_iteration (cfg : config) (env : environment) (h : Z) :
  rel drops (mqtt_receive_thread_iteration cfg env h).
Proof. unfold mqtt_receive_thread_iteration. rel_unfold_calls. rel_auto. Qed.

Lemma drops_mqtt_disconn_event_thread_iteration (env : environment) :
  rel drops (mqtt_disconn_event_thread_iteration env).
Proof. unfold mqtt_disconn_event_thread_iteration. rel_unfold_calls. rel_auto. Qed.

Lemma drops_mqtt_awsport_network_disconnect_callback (env : environment) (user_data : Z) :
  rel drops (mqtt_awsport_network_disconnect_callback env user_data).
Proof. unfold mqtt_awsport_network_disconnect_callback. rel_auto. Qed.

(** *** The request path *)

Lemma drops_publish_ack_wait (cfg : config) (env : environment) (fuel : nat) :
  forall (h timeout : Z) (result : cy_rslt_t),
    rel drops (publish_ack_wait cfg env fuel h timeout result).
Proof.
  induction fuel as [|fuel IH]; intros h timeout result; simpl; rel_auto.
Qed.

#[global] Hint Resolve drops_publish_ack_wait : rel.

Lemma drops_publish_retry (cfg : config) (env : environment) (fuel : nat) :
  forall (h publishIndex retry : Z) (result : cy_rslt_t),
    rel drops (publish_retry cfg env fuel h publishIndex retry result).
Proof.
  induction fuel as [|fuel IH]; intros h publishIndex retry result; simpl;
    rel_unfold_calls; rel_auto.
Qed.

#[global] Hint Resolve drops_publish_retry : rel.

Lemma drops_cy_mqtt_publish (cfg : config) (env : environment) (h : Z)
    (pubmsg : option cy_mqtt_publish_info_t) :
  rel drops (cy_mqtt_publish cfg env h pubmsg).
Proof.
  unfold cy_mqtt_publish, mqtt_get_next_free_index_for_publish.
  rel_unfold_calls. rel_auto.
Qed.

Section PureLoops.

Context (R : world -> world -> Prop) `{!FlagPreorder R}.

Lemma rel_subscribe_translate (n : nat) :
  forall (index : Z) (sub_info : list cy_mqtt_subscribe_info_t)
         (sub_list : list MQTTSubscribeInfo_t),
    rel R (subscribe_translate n index sub_info sub_list).
Proof. induction n as [|n IH]; intros index sub_info sub_list; simpl; rel_auto. Qed.

Lemma rel_unsubscribe_translate (n : nat) :
  forall (index : Z) (unsub_info : list cy_mqtt_subscribe_info_t)
         (unsub_list : list MQTTSubscribeInfo_t),
    rel R (unsubscribe_translate n index unsub_info unsub_list).
Proof. induction n as [|n IH]; intros index unsub_info unsub_list; simpl; rel_auto. Qed.

Lemma rel_mark_suback_failure (n : nat) :
  forall (index : Z) (status : list Z), rel R (mark_suback_failure n index status).
Proof. induction n as [|n IH]; intros index status; simpl; rel_auto. Qed.

Lemma rel_subscribe_collect (n : nat) :
  forall (index : Z) (status : list Z) (sub_info : list cy_mqtt_subscribe_info_t)
         (result : cy_rslt_t),
    rel R (subscribe_collect n index status sub_info result).
Proof. induction n as [|n IH]; intros index status sub_info result; simpl; rel_auto. Qed.

End PureLoops.

#[global] Hint Resolve rel_subscribe_translate rel_unsubscribe_translate
  rel_mark_suback_failure rel_subscribe_collect : rel.

Lemma drops_subscribe_ack_wait (cfg : config) (env : environment) (fuel : nat) :
  forall (h sub_count timeout : Z) (sub_info : list cy_mqtt_subscribe_info_t)
         (result : cy_rslt_t),
    rel drops (subscribe_ack_wait cfg env fuel h sub_count timeout sub_info result).
Proof.
  induction fuel as [|fuel IH]; intros h sub_count timeout sub_info result; simpl;
    rel_auto.
Qed.

#[global] Hint Resolve drops_subscribe_ack_wait : rel.

Lemma drops_subscribe_retry (cfg : config) (env : environment) (fuel : nat) :
  forall (h : Z) (sub_list : list MQTTSubscribeInfo_t) (sub_count retry : Z)
         (sub_info : list cy_mqtt_subscribe_info_t),
    rel drops (subscribe_retry cfg env fuel h sub_list sub_count retry sub_info).
Proof.
  induction fuel as [|fuel IH]; intros h sub_list sub_count retry sub_info; simpl;
    rel_auto.
Qed.

#[global] Hint Resolve drops_subscribe_retry : rel.

Lemma drops_cy_mqtt_subscribe (cfg : config) (env : environment) (h : Z)
    (sub_info : option (list cy_mqtt_subscribe_info_t)) (sub_count : Z) :
  rel drops (cy_mqtt_subscribe cfg env h sub_info sub_count).
Proof. unfold cy_mqtt_subscribe. rel_unfold_calls. rel_auto. Qed.

Lemma drops_unsubscribe_ack_wait (cfg : config) (env : environment) (fuel : nat) :
  forall (h timeout : Z) (result : cy_rslt_t),
    rel drops (unsubscribe_ack_wait cfg env fuel h timeout result).
Proof.
  induction fuel as [|fuel IH]; intros h timeout result; simpl; rel_auto.
Qed.

#[global] Hint Resolve drops_unsubscribe_ack_wait : rel.

Lemma drops_unsubscribe_retry (cfg : config) (env : environment) (fuel : nat) :
  forall (h : Z) (unsub_list : list MQTTSubscribeInfo_t) (unsub_count retry : Z)
         (result : cy_rslt_t),
    rel drops (unsubscribe_retry cfg env fuel h unsub_list unsub_count retry result).
Proof.
  induction fuel as [|fuel IH]; intros h unsub_list unsub_count retry result; simpl;
    rel_auto.
Qed.

#[global] Hint Resolve drops_unsubscribe_retry : rel.

Lemma drops_cy_mqtt_unsubscribe (cfg : config) (env : environment) (h : Z)
    (unsub_info : option (list cy_mqtt_subscribe_info_t)) (unsub_count : Z) :
  rel drops (cy_mqtt_unsubscribe cfg env h unsub_info unsub_count).
Proof. unfold cy_mqtt_unsubscribe. rel_unfold_calls. rel_auto. Qed.

(** *** Library and client lifecycle *)

Lemma drops_cy_mqtt_init (cfg : config) (env : environment) :
  rel drops (cy_mqtt_init cfg env).
Proof. unfold cy_mqtt_init. rel_unfold_calls. rel_auto. Qed.

Lemma drops_cy_mqtt_deinit (env : environment) : rel drops (cy_mqtt_deinit env).
Proof. unfold cy_mqtt_deinit. rel_unfold_calls. rel_auto. Qed.

(** Storing an object without an established session, or the dead cell of a
    freed block, drops. *)
Lemma drops_write_cell (h : Z) (c : cell) :
  (cell_live c = true -> mqtt_session_established (cell_obj c) = false) ->
  rel drops (write_cell h c).
Proof.
  intros Hc w [] w' H. injection H as Hw. subst w'.
  intros h' s Hs. unfold flags in *. simpl in Hs.
  rewrite lookup_omap in Hs. rewrite lookup_omap.
  destruct (decide (h = h')) as [->|Hne].
  - rewrite lookup_insert_eq in Hs. simpl in Hs. unfold flags_of_cell in Hs.
    destruct (cell_live c); [|discriminate].
    rewrite Hc in Hs by reflexivity. discriminate.
  - rewrite lookup_insert_ne in Hs by exact Hne. exact Hs.
Qed.

Lemma drops_free_object (h : Z) : rel drops (free_object h).
Proof.
  unfold free_object.
  apply rel_bind; [exact _|rel_auto|intros o].
  apply rel_bind; [exact _|rel_auto|intros _].
  apply drops_write_cell. discriminate.
Qed.

Lemma drops_malloc_object (env : environment) : rel drops (malloc_object env).
Proof. unfold malloc_object. rel_auto. Qed.

Lemma rel_mqtt_initialize_core_lib (R : world -> world -> Prop) `{!FlagPreorder R}
    (env : environment) (h networkbuff buff_len : Z) :
  rel R (mqtt_initialize_core_lib env h networkbuff buff_len).
Proof. unfold mqtt_initialize_core_lib. rel_auto. Qed.

#[global] Hint Resolve drops_free_object drops_malloc_object
  rel_mqtt_initialize_core_lib : rel.

Lemma drops_cy_mqtt_create_exit (env : environment) (mqtt_obj : Z)
    (process_mutex_init_status : bool) (result : cy_rslt_t) :
  rel drops (cy_mqtt_create_exit env mqtt_obj process_mutex_init_status result).
Proof. unfold cy_mqtt_create_exit. rel_unfold_calls. rel_auto. Qed.

#[global] Hint Resolve drops_cy_mqtt_create_exit : rel.

Lemma drops_cy_mqtt_create (cfg : config) (env : environment) (buffer bufflen : Z)
    (security : option cy_awsport_ssl_credentials_t)
    (broker_info : option cy_mqtt_broker_info_t) (event_callback user_data mqtt_handle : Z) :
  rel drops (cy_mqtt_create cfg env buffer bufflen security broker_info event_callback
               user_data mqtt_handle).
Proof.
  unfold cy_mqtt_create. rel_unfold_calls.
  repeat first [ apply drops_write_cell; intros _; destruct security; reflexivity
               | rel_step ].
Qed.

Lemma drops_cy_mqtt_delete (cfg : config) (env : environment) (h : Z) :
  rel drops (cy_mqtt_delete cfg env h).
Proof. unfold cy_mqtt_delete. rel_unfold_calls. rel_auto. Qed.

(** *** Connect and disconnect: the other clients *)

Section ConnectParts.

Context (cfg : config) (env : environment).
Context (R : world -> world -> Prop) `{!FlagPreorder R}.

Lemma rel_MQTT_Connect (h : Z) (info : MQTTConnectInfo_t)
    (will_msg : option MQTTPublishInfo_t) (timeout_ms : Z) :
  rel R (MQTT_Connect env h info will_msg timeout_ms).
Proof. unfold MQTT_Connect. rel_auto. Qed.

Lemma rel_connect_transport (fuel : nat) :
  forall (h : Z) (secure : bool) (retryUtilsStatus : RetryUtilsStatus_t),
    rel R (connect_transport cfg env fuel h secure retryUtilsStatus).
Proof.
  induction fuel as [|fuel IH]; intros h secure retryUtilsStatus; simpl;
    rel_unfold_calls; rel_auto.
Qed.

Lemma rel_resend_matching_slots (h id : Z) (slots : list cy_mqtt_pubpack_t) :
  forall (index : Z) (found_packetid : bool),
    rel R (resend_matching_slots env h id index slots found_packetid).
Proof.
  induction slots as [|s rest IH]; intros index found_packetid; simpl;
    rel_unfold_calls; rel_auto.
Qed.

Hint Resolve rel_resend_matching_slots : rel.

Lemma rel_resend_while (h : Z) (cursor : list Z) :
  forall (result : cy_rslt_t) (id : Z), rel R (resend_while env h result id cursor).
Proof.
  induction cursor as [|next cursor IH]; intros result id; simpl; rel_auto.
Qed.

Hint Resolve rel_resend_while : rel.

Lemma rel_mqtt_handle_publish_resend (h : Z) : rel R (mqtt_handle_publish_resend env h).
Proof. unfold mqtt_handle_publish_resend. rel_auto. Qed.

Lemma rel_mqtt_cleanup_outgoing_publishes (h : Z) :
  rel R (mqtt_cleanup_outgoing_publishes cfg h).
Proof. unfold mqtt_cleanup_outgoing_publishes. rel_auto. Qed.

End ConnectParts.

#[global] Hint Resolve rel_MQTT_Connect rel_connect_transport rel_resend_matching_slots
  rel_resend_while rel_mqtt_handle_publish_resend rel_mqtt_cleanup_outgoing_publishes : rel.

Lemma except_mqtt_establish_session (env : environment) (h : Z)
    (connect_info : MQTTConnectInfo_t) (will_msg : option MQTTPublishInfo_t)
    (create_clean_session : bool) :
  rel (drops_except h)
    (mqtt_establish_session env h connect_info will_msg create_clean_session).
Proof. unfold mqtt_establish_session. rel_unfold_calls. rel_auto. Qed.

Lemma except_cy_mqtt_connect_exit (env : environment) (h : Z) (result : cy_rslt_t) :
  rel (drops_except h) (cy_mqtt_connect_exit env h result).
Proof. unfold cy_mqtt_connect_exit. rel_unfold_calls. rel_auto. Qed.

#[global] Hint Resolve except_mqtt_establish_session except_cy_mqtt_connect_exit : rel.

Lemma except_cy_mqtt_connect (cfg : config) (env : environment) (h : Z)
    (connect_info : cy_mqtt_connect_info_t) :
  rel (drops_except h) (cy_mqtt_connect cfg env h connect_info).
Proof. unfold cy_mqtt_connect. rel_unfold_calls. rel_auto. Qed.

Lemma except_cy_mqtt_disconnect (env : environment) (h : Z) :
  rel (drops_except h) (cy_mqtt_disconnect env h).
Proof. unfold cy_mqtt_disconnect. rel_unfold_calls. rel_auto. Qed.

(** *** Connect and disconnect: the client itself *)

Lemma hoare_at_ret {A : Type} (h : Z) (P : option (bool * bool) -> Prop) (a : A)
    (Q : A -> option (bool * bool) -> Prop) :
  (forall x, P x -> Q a x) -> hoare_at h P (mret a) Q.
Proof. intros HPQ w a' w' HP H. injection H as <- <-. apply HPQ. exact HP. Qed.

Lemma hoare_at_bind {A B : Type} (h : Z) (P : option (bool * bool) -> Prop) (m : M A)
    (Q : A -> option (bool * bool) -> Prop) (f : A -> M B)
    (S : B -> option (bool * bool) -> Prop) :
  hoare_at h P m Q -> (forall a, hoare_at h (Q a) (f a) S) -> hoare_at h P (m ≫= f) S.
Proof.
  intros Hm Hf w b w'' HP Hrun.
  destruct (bind_inv _ _ _ _ _ Hrun) as (a & w' & H1 & H2).
  apply (Hf a w' b w''); [apply (Hm w a w' HP H1)|exact H2].
Qed.

Lemma hoare_at_conseq {A : Type} (h : Z) (P P' : option (bool * bool) -> Prop) (m : M A)
    (Q Q' : A -> option (bool * bool) -> Prop) :
  (forall x, P' x -> P x) -> (forall a x, Q a x -> Q' a x) ->
  hoare_at h P m Q -> hoare_at h P' m Q'.
Proof. intros HP HQ Hm w a w' HP' Hrun. apply HQ. apply (Hm w a w'); auto. Qed.

(** Steps that keep the flags keep every assertion on them. *)
Lemma hoare_at_keeps {A : Type} (h : Z) (P : option (bool * bool) -> Prop) (m : M A) :
  rel (λ w w', flags w' = flags w) m -> hoare_at h P m (λ _, P).
Proof. intros Hm w a w' HP Hrun. rewrite (Hm w a w' Hrun). exact HP. Qed.

Lemma hoare_at_any {A : Type} (h : Z) (P : option (bool * bool) -> Prop) (m : M A) :
  hoare_at h P m (λ _ _, True).
Proof. intros w a w' _ _. exact I. Qed.

Lemma hoare_at_update (h : Z) (P : option (bool * bool) -> Prop)
    (f : cy_mqtt_object_t -> cy_mqtt_object_t) (Q : unit -> option (bool * bool) -> Prop) :
  (forall o, P (Some (mqtt_session_established o, mqtt_conn_status o)) ->
             Q tt (Some (mqtt_session_established (f o), mqtt_conn_status (f o)))) ->
  hoare_at h P (update h f) Q.
Proof.
  intros HPQ w [] w' HP Hrun. destruct (update_flags _ _ _ _ Hrun) as (o & Hl & Hfl).
  rewrite Hfl, lookup_insert_eq. apply HPQ.
  rewrite <- (flags_live _ _ _ Hl). exact HP.
Qed.

(** After [deref h] the flags are those of the object read. *)
Lemma hoare_at_deref (h : Z) (P : option (bool * bool) -> Prop) :
  hoare_at h P (deref h)
    (λ o x, P x /\ x = Some (mqtt_session_established o, mqtt_conn_status o)).
Proof.
  intros w o w' HP Hrun. unfold deref in Hrun.
  destruct (heap w !! h) as [[live o']|] eqn:Hh; simpl in Hrun; [|discriminate].
  destruct live; [|discriminate].
  injection Hrun as -> <-. split; [exact HP|]. apply flags_live. exact Hh.
Qed.

Lemma flags_ok_no_session (x : option (bool * bool)) : no_session x -> flags_ok x.
Proof. intros H c Hx. destruct (H c Hx). Qed.

(** The exit path of connect leaves the client without a session. *)
Lemma cy_mqtt_connect_exit_no_session (env : environment) (h : Z) (result : cy_rslt_t)
    (P : option (bool * bool) -> Prop) :
  hoare_at h P (cy_mqtt_connect_exit env h result) (λ _, no_session).
Proof.
  unfold cy_mqtt_connect_exit.
  eapply hoare_at_bind; [apply hoare_at_deref|intros o].
  eapply hoare_at_bind with (Q := λ _, no_session).
  - destruct (decide (mqtt_session_established o = true)) as [Hs|Hs].
    + eapply hoare_at_bind; [apply hoare_at_any|intros ?].
      apply hoare_at_update. intros o' _ c Hc. discriminate.
    + apply hoare_at_ret. intros x [_ Hx] c Hc. rewrite Hx in Hc.
      injection Hc as Hc _. contradiction.
  - intros ?.
    eapply hoare_at_conseq; [intros x Hx; exact Hx|intros ? x Hx; exact Hx|].
    apply hoare_at_keeps. rel_unfold_calls. rel_auto.
Qed.

(** connect re-establishes the invariant for its client on every return. *)
Lemma cy_mqtt_connect_flags_ok (cfg : config) (env : environment) (h : Z)
    (connect_info : cy_mqtt_connect_info_t) :
  hoare_at h flags_ok (cy_mqtt_connect cfg env h connect_info) (λ _, flags_ok).
Proof.
  unfold cy_mqtt_connect.
  destruct (decide (h = NULL)); [apply hoare_at_ret; auto|].
  eapply hoare_at_bind; [apply hoare_at_keeps; rel_auto|intros o].
  destruct (decide (mqtt_obj_initialized o = false)); [apply hoare_at_ret; auto|].
  destruct (will_qos_invalid (will_info connect_info)); [apply hoare_at_ret; auto|].
  cbv zeta.
  eapply hoare_at_bind; [apply hoare_at_keeps; rel_auto|intros ?].
  eapply hoare_at_bind; [apply hoare_at_keeps; rel_auto|intros result].
  destruct (decide (result ≠ CY_RSLT_SUCCESS)); [apply hoare_at_ret; auto|].
  eapply hoare_at_bind; [apply hoare_at_any|intros result'].
  assert (Hexit : forall r,
            hoare_at h (λ _, True) (cy_mqtt_connect_exit env h r) (λ _, flags_ok)).
  { intros r. eapply hoare_at_conseq;
      [intros x Hx; exact Hx|intros ? x Hx; apply flags_ok_no_session; exact Hx|].
    apply cy_mqtt_connect_exit_no_session. }
  destruct (decide (result' ≠ CY_RSLT_SUCCESS)); [apply Hexit|].
  eapply hoare_at_bind; [apply hoare_at_any|intros o'].
  eapply hoare_at_bind; [apply hoare_at_any|intros result''].
  destruct (decide (result'' ≠ CY_RSLT_SUCCESS)); [apply Hexit|].
  eapply hoare_at_bind; [apply hoare_at_any|intros o''].
  eapply hoare_at_bind; [apply hoare_at_any|intros result'''].
  destruct (decide (result''' ≠ CY_RSLT_SUCCESS)); [apply Hexit|].
  eapply hoare_at_bind with (Q := λ _, flags_ok).
  - apply hoare_at_update. intros o1 _ c Hc. injection Hc as _ Hc. symmetry. exact Hc.
  - intros ?. apply hoare_at_ret. auto.
Qed.

(** So does disconnect. *)
Lemma cy_mqtt_disconnect_flags_ok (env : environment) (h : Z) :
  hoare_at h flags_ok (cy_mqtt_disconnect env h) (λ _, flags_ok).
Proof.
  unfold cy_mqtt_disconnect.
  destruct (decide (h = NULL)); [apply hoare_at_ret; auto|].
  eapply hoare_at_bind; [apply hoare_at_keeps; rel_unfold_calls; rel_auto|intros result].
  destruct (decide (result ≠ CY_RSLT_SUCCESS)); [apply hoare_at_ret; auto|].
  eapply hoare_at_bind; [apply hoare_at_keeps; rel_auto|intros o].
  destruct (decide (mqtt_obj_initialized o = false)); [apply hoare_at_ret; auto|].
  destruct (decide (mqtt_conn_status o = false)); [apply hoare_at_ret; auto|].
  eapply hoare_at_bind; [apply hoare_at_keeps; rel_unfold_calls; rel_auto|intros stopped].
  destruct stopped as [r|]; [apply hoare_at_ret; auto|].
  eapply hoare_at_bind; [apply hoare_at_any|intros ?].
  eapply hoare_at_bind with (Q := λ _, no_session).
  { apply hoare_at_update. intros o' _ c Hc. discriminate. }
  intros ?.
  eapply hoare_at_bind; [apply hoare_at_keeps; rel_unfold_calls; rel_auto|intros ?].
  eapply hoare_at_bind; [apply hoare_at_keeps; rel_unfold_calls; rel_auto|intros ?].
  eapply hoare_at_bind with (Q := λ _, no_session).
  { apply hoare_at_update. intros o' Ho c Hc. simpl in Hc.
    injection Hc as Hs _. apply (Ho (mqtt_conn_status o')). rewrite Hs. reflexivity. }
  intros ?.
  eapply hoare_at_bind; [apply hoare_at_keeps; rel_unfold_calls; rel_auto|intros r].
  apply hoare_at_ret. intros x Hx. apply flags_ok_no_session. exact Hx.
Qed.

(** *** The invariant at every return *)

Lemma local_preserves {A : Type} (h : Z) (m : M A) (w w' : world) (a : A) :
  rel (drops_except h) m ->
  hoare_at h flags_ok m (λ _, flags_ok) ->
  session_implies_conn_status w ->
  m w = Some (a, w') ->
  session_implies_conn_status w'.
Proof.
  rewrite !session_implies_conn_status_flags.
  intros Hexcept Hlocal Hinv Hrun h' c Hf.
  destruct (decide (h' = h)) as [->|Hne].
  - apply (Hlocal w a w' (Hinv h) Hrun c Hf).
  - apply (Hinv h'). apply (Hexcept w a w' Hrun h' c Hne Hf).
Qed.

Lemma rel_then_ret {A : Type} (R : world -> world -> Prop) (m : M A) (w w' : world) :
  rel R m -> (m;; mret tt) w = Some (tt, w') -> R w w'.
Proof.
  intros Hm Hrun. destruct (bind_inv _ _ _ _ _ Hrun) as (a & w1 & H1 & H2).
  injection H2 as <-. apply (Hm w a w1 H1).
Qed.

(** Every step leaves the invariant as it found it. *)
Lemma run_operation_preserves (cfg : config) (env : environment) (op : operation)
    (w w' : world) :
  session_implies_conn_status w ->
  run_operation cfg env op w = Some (tt, w') ->
  session_implies_conn_status w'.
Proof.
  intros Hinv Hrun.
  destruct op as [ | buffer bufflen security broker_info event_callback user_data handle
                 | h connect_info | h pubmsg | h sub_info sub_count
                 | h unsub_info unsub_count | h | h | | h | | user_data ];
    simpl in Hrun.
  - apply (drops_preserves w w'); [|exact Hinv].
    apply (rel_then_ret drops _ w w' (drops_cy_mqtt_init cfg env) Hrun).
  - apply (drops_preserves w w'); [|exact Hinv].
    apply (rel_then_ret drops _ w w'
             (drops_cy_mqtt_create cfg env buffer bufflen security broker_info
                event_callback user_data handle) Hrun).
  - destruct (bind_inv _ _ _ _ _ Hrun) as (r & w1 & H1 & H2). injection H2 as <-.
    apply (local_preserves h _ w w1 r (except_cy_mqtt_connect cfg env h connect_info)
             (cy_mqtt_connect_flags_ok cfg env h connect_info) Hinv H1).
  - apply (drops_preserves w w'); [|exact Hinv].
    apply (rel_then_ret drops _ w w' (drops_cy_mqtt_publish cfg env h pubmsg) Hrun).
  - apply (drops_preserves w w'); [|exact Hinv].
    apply (rel_then_ret drops _ w w'
             (drops_cy_mqtt_subscribe cfg env h sub_info sub_count) Hrun).
  - apply (drops_preserves w w'); [|exact Hinv].
    apply (rel_then_ret drops _ w w'
             (drops_cy_mqtt_unsubscribe cfg env h unsub_info unsub_count) Hrun).
  - destruct (bind_inv _ _ _ _ _ Hrun) as (r & w1 & H1 & H2). injection H2 as <-.
    apply (local_preserves h _ w w1 r (except_cy_mqtt_disconnect env h)
             (cy_mqtt_disconnect_flags_ok env h) Hinv H1).
  - apply (drops_preserves w w'); [|exact Hinv].
    apply (rel_then_ret drops _ w w' (drops_cy_mqtt_delete cfg env h) Hrun).
  - apply (drops_preserves w w'); [|exact Hinv].
    apply (rel_then_ret drops _ w w' (drops_cy_mqtt_deinit env) Hrun).
  - apply (drops_preserves w w'); [|exact Hinv].
    apply (rel_then_ret drops _ w w'
             (drops_mqtt_receive_thread_iteration cfg env h) Hrun).
  - apply (drops_preserves w w'); [|exact Hinv].
    apply (drops_mqtt_disconn_event_thread_iteration env w tt w' Hrun).
  - apply (drops_preserves w w'); [|exact Hinv].
    apply (drops_mqtt_awsport_network_disconnect_callback env user_data w tt w' Hrun).
Qed.

Lemma initial_world_invariant (cfg : config) :
  session_implies_conn_status (initial_world cfg).
Proof. intros h o Hl. unfold live_at in Hl. simpl in Hl. rewrite lookup_empty in Hl. discriminate. Qed.

(** C3, as the code has it.  At the return of every API call and after
    every iteration of the receive thread and of the disconnect event
    thread, from program start on, [mqtt_session_established] implies
    [mqtt_conn_status] for every live client. *)
Theorem session_implies_conn_status_at_returns (cfg : config) (env : environment)
    (w : world) :
  reachable cfg env w -> session_implies_conn_status w.
Proof.
  intros Hreach. induction Hreach as [|w op w' _ IH Hrun].
  - apply initial_world_invariant.
  - apply (run_operation_preserves cfg env op w w' IH Hrun).
Qed.

Lemma created_world_reachable : reachable example_config quiet_env created_world.
Proof.
  eapply reachable_step with (op := Op_create 768 1024 None (Some example_broker) 77 0 9).
  - eapply reachable_step with (op := Op_init); [apply reachable_initial|].
    vm_compute. reflexivity.
  - vm_compute. reflexivity.
Qed.

Lemma session_implies_conn_status_at_returns_witness :
  session_implies_conn_status connected_world.
Proof.
  apply (session_implies_conn_status_at_returns example_config quiet_env).
  eapply reachable_step with (op := Op_connect example_client example_connect_info).
  - eapply reachable_step with (op := Op_create 768 1024 None (Some example_broker) 77 0 9).
    + eapply reachable_step with (op := Op_init); [apply reachable_initial|].
      vm_compute. reflexivity.
    + vm_compute. reflexivity.
  - vm_compute. reflexivity.
Defined.

(** C3 as stated fails inside connect.  When mqtt_establish_session has
    returned, with the process mutex released, the client has
    [mqtt_session_established] set and [mqtt_conn_status] clear; a disconnect
    issued then is refused as NOT_CONNECTED.  The connect that goes on from
    there ends in [connected_world]. *)
Lemma session_established_before_conn_status :
  reachable example_config quiet_env created_world /\
  hd_error (trace handshake_done_world)
  = Some (Call_cy_rtos_set_mutex (process_mutex_ref example_client)) /\
  mqtt_session_established (example_object handshake_done_world) = true /\
  mqtt_conn_status (example_object handshake_done_world) = false /\
  ¬ session_implies_conn_status handshake_done_world /\
  fst <$> cy_mqtt_disconnect quiet_env example_client handshake_done_world
  = Some CY_RSLT_MODULE_MQTT_NOT_CONNECTED /\
  cy_mqtt_connect example_config quiet_env example_client example_connect_info created_world
  = Some (CY_RSLT_SUCCESS, connected_world).
Proof.
  split; [apply created_world_reachable|].
  split; [reflexivity|]. split; [reflexivity|]. split; [reflexivity|].
  split.
  - intros Hinv.
    assert (Hl : live_at handshake_done_world example_client
                   (example_object handshake_done_world)) by (vm_compute; reflexivity).
    specialize (Hinv _ _ Hl eq_refl). discriminate.
  - split; vm_compute; reflexivity.
Qed.

(** ** The outgoing PUBLISH store between calls (C2) *)

(** *** Triples on the live client objects *)

Lemma each_same_heap (φ : Z -> cy_mqtt_object_t -> Prop) (w w' : world) :
  heap w' = heap w -> each φ w -> each φ w'.
Proof. intros Hh H h o Hl. apply (H h o). unfold live_at in *. rewrite <- Hh. exact Hl. Qed.

Lemma each_insert (φ ψ : Z -> cy_mqtt_object_t -> Prop) (w : world) (h : Z) (c : cell) :
  each φ w ->
  (cell_live c = true -> ψ h (cell_obj c)) ->
  (forall h' o, h' ≠ h -> φ h' o -> ψ h' o) ->
  each ψ (set_heap (<[h := c]> (heap w)) w).
Proof.
  intros H Hc Hother h' o Hl. unfold live_at in Hl. simpl in Hl.
  destruct (decide (h' = h)) as [->|Hne].
  - rewrite lookup_insert_eq in Hl. injection Hl as ->. apply Hc. reflexivity.
  - rewrite lookup_insert_ne in Hl by congruence. apply Hother; [exact Hne|].
    apply (H h' o Hl).
Qed.

Lemma deref_inv (h : Z) (w w' : world) (o : cy_mqtt_object_t) :
  deref h w = Some (o, w') -> live_at w h o /\ w' = w.
Proof.
  unfold deref, live_at. destruct (heap w !! h) as [[live o']|]; simpl; [|discriminate].
  destruct live; [|discriminate]. intros H. injection H as -> ->. split; reflexivity.
Qed.

Lemma update_inv (h : Z) (f : cy_mqtt_object_t -> cy_mqtt_object_t) (w w' : world)
    (u : unit) :
  update h f w = Some (u, w') ->
  exists o, live_at w h o /\ w' = set_heap (<[h := Build_cell true (f o)]> (heap w)) w.
Proof.
  intros H. unfold update in H.
  destruct (bind_inv _ _ _ _ _ H) as (o & w1 & H1 & H2).
  destruct (deref_inv _ _ _ _ H1) as [Hl ->].
  exists o. split; [exact Hl|]. injection H2 as _ <-. reflexivity.
Qed.

Section TripleRules.

Context (φ : Z -> cy_mqtt_object_t -> Prop) (P : event -> Prop).

Lemma triple_ret {A : Type} (a : A) (ψ : A -> Z -> cy_mqtt_object_t -> Prop) :
  (forall h o, φ h o -> ψ a h o) -> triple φ P (mret a) ψ.
Proof.
  intros Hψ w a' w' Hφ H. injection H as <- <-.
  split; [intros h o Hl; apply Hψ, (Hφ h o Hl)|].
  exists []. split; [reflexivity|constructor].
Qed.

Lemma triple_bind {A B : Type} (m : M A) (f : A -> M B)
    (ψ : A -> Z -> cy_mqtt_object_t -> Prop) (χ : B -> Z -> cy_mqtt_object_t -> Prop) :
  triple φ P m ψ -> (forall a, triple (ψ a) P (f a) χ) -> triple φ P (m ≫= f) χ.
Proof.
  intros Hm Hf w b w'' Hφ Hrun.
  destruct (bind_inv _ _ _ _ _ Hrun) as (a & w' & H1 & H2).
  destruct (Hm w a w' Hφ H1) as (Hψ & new1 & Ht1 & Hn1).
  destruct (Hf a w' b w'' Hψ H2) as (Hχ & new2 & Ht2 & Hn2).
  split; [exact Hχ|].
  exists (new2 ++ new1). split.
  - rewrite Ht2, Ht1. apply app_assoc.
  - apply Forall_app. split; assumption.
Qed.

Lemma triple_no_behaviour {A : Type} (ψ : A -> Z -> cy_mqtt_object_t -> Prop) :
  triple φ P no_behaviour ψ.
Proof. intros w a w' _ H. discriminate. Qed.

(** A computation that leaves the world as it is and whose result
    satisfies [R] hands [R] on to what follows. *)
Lemma triple_bind_read {A B : Type} (m : M A) (R : A -> Prop) (f : A -> M B)
    (χ : B -> Z -> cy_mqtt_object_t -> Prop) :
  (forall w a w', each φ w -> m w = Some (a, w') -> R a /\ w' = w) ->
  (forall a, R a -> triple φ P (f a) χ) ->
  triple φ P (m ≫= f) χ.
Proof.
  intros Hm Hf w b w'' Hφ Hrun.
  destruct (bind_inv _ _ _ _ _ Hrun) as (a & w' & H1 & H2).
  destruct (Hm w a w' Hφ H1) as [HR ->].
  apply (Hf a HR w b w'' Hφ H2).
Qed.

Lemma triple_pure {A : Type} (m : M A) :
  (forall w a w', m w = Some (a, w') -> w' = w) -> triple φ P m (λ _, φ).
Proof.
  intros Hm w a w' Hφ H. rewrite (Hm w a w' H).
  split; [exact Hφ|]. exists []. split; [reflexivity|constructor].
Qed.

Lemma triple_gets {A : Type} (f : world -> A) : triple φ P (gets f) (λ _, φ).
Proof. apply triple_pure. intros w a w' H. injection H as _ <-. reflexivity. Qed.

Lemma triple_deref (h : Z) : triple φ P (deref h) (λ _, φ).
Proof. apply triple_pure. intros w a w' H. apply (deref_inv _ _ _ _ H). Qed.

Lemma triple_array_load {A : Type} (l : list A) (i : Z) :
  triple φ P (array_load l i) (λ _, φ).
Proof.
  apply triple_pure. intros w a w'. unfold array_load.
  destruct (decide (0 <= i)); [|discriminate].
  destruct (l !! Z.to_nat i); [|discriminate].
  intros H. injection H as _ <-. reflexivity.
Qed.

Lemma triple_array_store {A : Type} (l : list A) (i : Z) (x : A) :
  triple φ P (array_store l i x) (λ _, φ).
Proof.
  apply triple_pure. intros w a w'. unfold array_store.
  destruct (decide (0 <= i < Z.of_nat (length l))); [|discriminate].
  intros H. injection H as _ <-. reflexivity.
Qed.

Lemma triple_call (e : event) : P e -> triple φ P (call e) (λ _, φ).
Proof.
  intros He w a w' Hφ H. injection H as _ <-.
  split; [exact Hφ|]. exists [e]. split; [reflexivity|]. constructor; [exact He|constructor].
Qed.

Lemma triple_modify (g : world -> world) :
  (forall w, heap (g w) = heap w) -> (forall w, trace (g w) = trace w) ->
  triple φ P (modify g) (λ _, φ).
Proof.
  intros Hh Ht w a w' Hφ H. injection H as _ <-.
  split; [apply (each_same_heap φ w _ (Hh w) Hφ)|].
  exists []. split; [apply Ht|constructor].
Qed.

Lemma triple_update (h : Z) (f : cy_mqtt_object_t -> cy_mqtt_object_t)
    (ψ : Z -> cy_mqtt_object_t -> Prop) :
  (forall o, φ h o -> ψ h (f o)) ->
  (forall h' o, h' ≠ h -> φ h' o -> ψ h' o) ->
  triple φ P (update h f) (λ _, ψ).
Proof.
  intros Hf Hother w a w' Hφ H.
  destruct (update_inv _ _ _ _ _ H) as (o & Hl & ->).
  split.
  - apply (each_insert φ ψ); [exact Hφ| |exact Hother].
    intros _. apply Hf, (Hφ h o Hl).
  - exists []. split; [reflexivity|constructor].
Qed.

Lemma triple_write_cell (h : Z) (c : cell) (ψ : Z -> cy_mqtt_object_t -> Prop) :
  (cell_live c = true -> ψ h (cell_obj c)) ->
  (forall h' o, h' ≠ h -> φ h' o -> ψ h' o) ->
  triple φ P (write_cell h c) (λ _, ψ).
Proof.
  intros Hc Hother w a w' Hφ H. injection H as _ <-.
  split; [apply (each_insert φ ψ); assumption|].
  exists []. split; [reflexivity|constructor].
Qed.

(** What [deref h] returns satisfies the assertion. *)
Lemma triple_deref_bind {B : Type} (h : Z) (f : cy_mqtt_object_t -> M B)
    (χ : B -> Z -> cy_mqtt_object_t -> Prop) :
  (forall o, φ h o -> triple φ P (f o) χ) -> triple φ P (deref h ≫= f) χ.
Proof.
  intros Hf w b w'' Hφ Hrun.
  destruct (bind_inv _ _ _ _ _ Hrun) as (o & w' & H1 & H2).
  destruct (deref_inv _ _ _ _ H1) as [Hl ->].
  apply (Hf o (Hφ h o Hl) w b w'' Hφ H2).
Qed.

(** ... and is the object at [h] until the next write. *)
Lemma triple_deref_bind_eq {B : Type} (h : Z) (f : cy_mqtt_object_t -> M B)
    (χ : B -> Z -> cy_mqtt_object_t -> Prop) :
  (forall o, φ h o -> triple (λ h' o', φ h' o' /\ (h' = h -> o' = o)) P (f o) χ) ->
  triple φ P (deref h ≫= f) χ.
Proof.
  intros Hf w b w'' Hφ Hrun.
  destruct (bind_inv _ _ _ _ _ Hrun) as (o & w' & H1 & H2).
  destruct (deref_inv _ _ _ _ H1) as [Hl ->].
  apply (Hf o (Hφ h o Hl) w b w''); [|exact H2].
  intros h' o' Hl'. split; [apply (Hφ h' o' Hl')|].
  intros ->. unfold live_at in *. congruence.
Qed.

Lemma triple_array_load_bind {A B : Type} (l : list A) (i : Z) (f : A -> M B)
    (χ : B -> Z -> cy_mqtt_object_t -> Prop) :
  (forall x, 0 <= i -> l !! Z.to_nat i = Some x -> triple φ P (f x) χ) ->
  triple φ P (array_load l i ≫= f) χ.
Proof.
  intros Hf. apply (triple_bind_read _ (λ x, 0 <= i /\ l !! Z.to_nat i = Some x)).
  - intros w a w' _. unfold array_load.
    destruct (decide (0 <= i)); [|discriminate].
    destruct (l !! Z.to_nat i) eqn:Hx; [|discriminate].
    intros H. injection H as <- <-. repeat split; assumption.
  - intros x [Hi Hx]. apply Hf; assumption.
Qed.

Lemma triple_array_store_bind {A B : Type} (l : list A) (i : Z) (x : A)
    (f : list A -> M B) (χ : B -> Z -> cy_mqtt_object_t -> Prop) :
  (0 <= i < Z.of_nat (length l) -> triple φ P (f (<[Z.to_nat i := x]> l)) χ) ->
  triple φ P (array_store l i x ≫= f) χ.
Proof.
  intros Hf.
  apply (triple_bind_read _ (λ arr, 0 <= i < Z.of_nat (length l) /\
                                    arr = <[Z.to_nat i := x]> l)).
  - intros w a w' _. unfold array_store.
    destruct (decide (0 <= i < Z.of_nat (length l))); [|discriminate].
    intros H. injection H as <- <-. repeat split; lia.
  - intros arr [Hi ->]. apply Hf. exact Hi.
Qed.

End TripleRules.

Lemma triple_conseq {A : Type} (φ φ' : Z -> cy_mqtt_object_t -> Prop) (P : event -> Prop)
    (m : M A) (ψ ψ' : A -> Z -> cy_mqtt_object_t -> Prop) :
  (forall h o, φ' h o -> φ h o) -> (forall a h o, ψ a h o -> ψ' a h o) ->
  triple φ P m ψ -> triple φ' P m ψ'.
Proof.
  intros Hφ Hψ Hm w a w' H Hrun.
  destruct (Hm w a w' (λ h o Hl, Hφ h o (H h o Hl)) Hrun) as (H' & Hnew).
  split; [|exact Hnew]. intros h o Hl. apply Hψ, (H' h o Hl).
Qed.

Create HintDb keeps discriminated.

(** One step of a proof that a computation keeps an assertion: peel the
    monadic structure, split on tests, close leaves with known facts. *)
Ltac keeps_step :=
  lazymatch goal with
  | |- triple _ _ (mret _) _ => apply triple_ret; intros ? ? ?; assumption
  | |- triple _ _ (deref _ ≫= _) _ => apply triple_deref_bind; intros ? ?
  | |- triple _ _ (array_load _ _ ≫= _) _ => apply triple_array_load_bind; intros ? ? ?
  | |- triple _ _ (array_store _ _ _ ≫= _) _ => apply triple_array_store_bind; intros ?
  | |- triple ?φ _ (_ ≫= _) _ => apply (triple_bind φ _ _ _ (λ _, φ)); [|intros ?]
  | |- triple _ _ no_behaviour _ => apply triple_no_behaviour
  | |- triple _ _ (gets _) _ => apply triple_gets
  | |- triple _ _ (call _) _ => apply triple_call; exact I
  | |- triple _ _ (deref _) _ => apply triple_deref
  | |- triple _ _ (array_load _ _) _ => apply triple_array_load
  | |- triple _ _ (array_store _ _ _) _ => apply triple_array_store
  | |- triple _ _ (modify _) _ => apply triple_modify; intros; reflexivity
  | |- triple _ _ (update _ _) _ =>
      apply triple_update; [intros ? ?; assumption|intros ? ? ? ?; assumption]
  | |- triple _ _ (if decide ?Q then _ else _) _ => destruct (decide Q)
  | |- triple _ _ (if ?b then _ else _) _ => destruct b
  | |- triple _ _ (match ?x with _ => _ end) _ => destruct x
  | |- triple _ _ (let _ := _ in _) _ => cbv zeta
  | |- triple _ _ _ _ => solve [eauto with keeps]
  end.

Ltac keeps_auto := repeat keeps_step.

(** A first computation that keeps the assertion. *)
Tactic Notation "keeps_bind" "as" ident(x) :=
  lazymatch goal with
  | |- triple ?φ _ (_ ≫= _) _ => apply (triple_bind φ _ _ _ (λ _, φ)); [|intros x]
  end.

Ltac keeps_unfold_calls :=
  unfold cy_rtos_get_mutex, cy_rtos_set_mutex, cy_rtos_deinit_mutex,
    cy_rtos_terminate_thread, cy_rtos_join_thread, cy_awsport_network_disconnect,
    cy_awsport_network_delete, MQTT_Disconnect, MQTT_GetPacketId, invoke_mqtt_event_cb;
  unfold platform_call, codec_call, value_call.

(** *** Free slots *)

Lemma slots_free_lookup (slots : list cy_mqtt_pubpack_t) (j : nat) (s : cy_mqtt_pubpack_t) :
  slots_free slots -> slots !! j = Some s -> packetid s = MQTT_PACKET_ID_INVALID.
Proof. intros H Hj. apply (proj1 (Forall_lookup _ _) H j s Hj). Qed.

Lemma slots_free_insert (slots : list cy_mqtt_pubpack_t) (j : nat) (s : cy_mqtt_pubpack_t) :
  slots_free slots -> packetid s = MQTT_PACKET_ID_INVALID -> slots_free (<[j := s]> slots).
Proof. intros H Hs. apply Forall_insert; assumption. Qed.

Lemma slots_free_replicate (n : nat) : slots_free (replicate n zero_pubpack).
Proof. apply Forall_replicate. reflexivity. Qed.

Lemma zero_first_slot_length (id : Z) (slots : list cy_mqtt_pubpack_t) :
  length (zero_first_slot id slots) = length slots.
Proof.
  induction slots as [|s rest IH]; simpl; [reflexivity|].
  destruct (decide (packetid s = id)); simpl; [reflexivity|]. rewrite IH. reflexivity.
Qed.

Lemma zero_first_slot_lookup (id : Z) (slots : list cy_mqtt_pubpack_t) :
  forall (j : nat) (s : cy_mqtt_pubpack_t),
    zero_first_slot id slots !! j = Some s -> s = zero_pubpack ∨ slots !! j = Some s.
Proof.
  induction slots as [|s0 rest IH]; intros j s; simpl; [discriminate|].
  destruct (decide (packetid s0 = id)).
  - destruct j as [|j]; simpl; [|right; assumption].
    intros H. injection H as <-. left. reflexivity.
  - destruct j as [|j]; simpl; [right; assumption|]. apply IH.
Qed.

Lemma slots_free_zero_first_slot (id : Z) (slots : list cy_mqtt_pubpack_t) :
  slots_free slots -> slots_free (zero_first_slot id slots).
Proof.
  intros H. apply Forall_lookup. intros j s Hj.
  destruct (zero_first_slot_lookup id slots j s Hj) as [->|Hs]; [reflexivity|].
  apply (slots_free_lookup slots j s H Hs).
Qed.

Lemma only_slot_of_free (index : nat) (id : Z) (slots : list cy_mqtt_pubpack_t) :
  slots_free slots -> only_slot index id slots.
Proof. intros H j s Hj. left. apply (slots_free_lookup slots j s H Hj). Qed.

Lemma only_slot_no_id (index : nat) (slots : list cy_mqtt_pubpack_t) :
  only_slot index MQTT_PACKET_ID_INVALID slots -> slots_free slots.
Proof.
  intros H. apply Forall_lookup. intros j s Hj.
  destruct (H j s Hj) as [Hs|[_ Hs]]; exact Hs.
Qed.

Lemma only_slot_insert (index : nat) (id : Z) (slots : list cy_mqtt_pubpack_t)
    (s : cy_mqtt_pubpack_t) :
  only_slot index id slots ->
  packetid s = MQTT_PACKET_ID_INVALID ∨ packetid s = id ->
  only_slot index id (<[index := s]> slots).
Proof.
  intros H Hs j s' Hj.
  destruct (decide (j = index)) as [->|Hne].
  - assert (Hlt : (index < length slots)%nat).
    { apply lookup_lt_Some in Hj. rewrite length_insert in Hj. exact Hj. }
    rewrite list_lookup_insert_eq in Hj by exact Hlt. injection Hj as <-.
    destruct Hs as [Hs|Hs]; [left; exact Hs|right; split; [reflexivity|exact Hs]].
  - rewrite list_lookup_insert_ne in Hj by congruence. apply (H j s' Hj).
Qed.

Lemma only_slot_release (index : nat) (id : Z) (slots : list cy_mqtt_pubpack_t) :
  only_slot index id slots -> slots_free (<[index := zero_pubpack]> slots).
Proof.
  intros H. apply Forall_lookup. intros j s Hj.
  destruct (decide (j = index)) as [->|Hne].
  - assert (Hlt : (index < length slots)%nat).
    { apply lookup_lt_Some in Hj. rewrite length_insert in Hj. exact Hj. }
    rewrite list_lookup_insert_eq in Hj by exact Hlt. injection Hj as <-. reflexivity.
  - rewrite list_lookup_insert_ne in Hj by congruence.
    destruct (H j s Hj) as [Hs|[Hj' _]]; [exact Hs|contradiction].
Qed.

Lemma only_slot_zero_first_slot (index : nat) (id id' : Z)
    (slots : list cy_mqtt_pubpack_t) :
  only_slot index id slots -> only_slot index id (zero_first_slot id' slots).
Proof.
  intros H j s Hj.
  destruct (zero_first_slot_lookup id' slots j s Hj) as [->|Hs]; [left; reflexivity|].
  apply (H j s Hs).
Qed.

(** Zeroing the first slot that carries [id] frees the store when no other
    slot is taken. *)
Lemma only_slot_acknowledged (id : Z) (slots : list cy_mqtt_pubpack_t) :
  id ≠ MQTT_PACKET_ID_INVALID ->
  forall (index k : nat),
    (forall j s, slots !! j = Some s ->
                 packetid s = MQTT_PACKET_ID_INVALID ∨ ((j + k)%nat = index /\ packetid s = id)) ->
    slots_free (zero_first_slot id slots).
Proof.
  intros Hid. induction slots as [|s rest IH]; intros index k H; simpl.
  - constructor.
  - destruct (decide (packetid s = id)) as [Hs|Hs].
    + constructor; [reflexivity|].
      apply Forall_lookup. intros j s' Hj.
      destruct (H 0%nat s eq_refl) as [H0|[H0 _]]; [congruence|].
      destruct (H (S j) s' Hj) as [Hs'|[Hj' _]]; [exact Hs'|lia].
    + constructor.
      * destruct (H 0%nat s eq_refl) as [H0|[_ H0]]; [exact H0|contradiction].
      * apply (IH index (S k)). intros j s' Hj.
        destruct (H (S j) s' Hj) as [Hs'|[Hj' Hs']]; [left; exact Hs'|].
        right. split; [lia|exact Hs'].
Qed.

(** *** What the dispatcher does to a store *)

Lemma store_empty_after_publish_ack (cfg : config) (id : Z) (info : MQTTDeserializedInfo_t)
    (o : cy_mqtt_object_t) :
  store_empty cfg o -> store_empty cfg (after_publish_ack id info o).
Proof.
  intros [Hlen Hfree]. unfold store_empty, after_publish_ack. simpl.
  destruct (decide (id = MQTT_PACKET_ID_INVALID)); [split; assumption|].
  split; [rewrite zero_first_slot_length; exact Hlen|].
  apply slots_free_zero_first_slot. exact Hfree.
Qed.

Lemma publish_in_flight_after_publish_ack (cfg : config) (index : nat) (id0 id : Z)
    (info : MQTTDeserializedInfo_t) (o : cy_mqtt_object_t) :
  publish_in_flight cfg index id0 o ->
  publish_in_flight cfg index id0 (after_publish_ack id info o).
Proof.
  intros (Hlen & Hack & Honly & Hdone).
  assert (Hstore :
            let slots := if decide (id = MQTT_PACKET_ID_INVALID) then outgoing_pub_packets o
                         else zero_first_slot id (outgoing_pub_packets o) in
            length slots = Z.to_nat (CY_MQTT_MAX_OUTGOING_PUBLISHES cfg) /\
            only_slot index id0 slots /\
            (slots_free (outgoing_pub_packets o) -> slots_free slots)).
  { simpl. destruct (decide (id = MQTT_PACKET_ID_INVALID)).
    - split; [exact Hlen|]. split; [exact Honly|]. exact (λ H, H).
    - split; [rewrite zero_first_slot_length; exact Hlen|].
      split; [apply only_slot_zero_first_slot; exact Honly|].
      apply slots_free_zero_first_slot. }
  destruct Hstore as (Hlen' & Honly' & Hfree').
  unfold publish_in_flight, after_publish_ack. simpl.
  split; [exact Hlen'|].
  split; [destruct (decide (deserializationResult info = MQTTSuccess)); exact Hack|].
  split; [exact Honly'|].
  destruct (decide (deserializationResult info = MQTTSuccess)) as [Hok|Hbad]; simpl.
  - intros Hacked. apply bool_decide_eq_true_1 in Hacked. rewrite Hack in Hacked.
    subst id.
    destruct (decide (id0 = MQTT_PACKET_ID_INVALID)) as [Hid|Hid].
    + apply (only_slot_no_id index). rewrite <- Hid. exact Honly.
    + apply (only_slot_acknowledged id0 _ Hid index 0%nat).
      intros j s Hj. destruct (Honly j s Hj) as [Hs|[Hj' Hs]]; [left; exact Hs|].
      right. split; [lia|exact Hs].
  - intros Hacked. apply Hfree', Hdone, Hacked.
Qed.

(** *** Assertions that the code outside the store respects *)

#[global] Instance store_empty_assertion (cfg : config) :
  StoreAssertion cfg (all_empty cfg).
Proof.
  split.
  - intros h o o' Hs _ [Hlen Hfree]. unfold all_empty, store_empty. rewrite Hs.
    split; assumption.
  - intros h o [Hlen _]. rewrite Hlen. reflexivity.
  - intros h id info o. apply store_empty_after_publish_ack.
Qed.

#[global] Instance publish_in_flight_assertion (cfg : config) (h0 : Z) (index : nat)
    (id0 : Z) :
  StoreAssertion cfg (at_client cfg h0 (publish_in_flight cfg index id0)).
Proof.
  split.
  - intros h o o' Hs Ha. unfold at_client, publish_in_flight, store_empty.
    rewrite Hs, Ha. exact (λ H, H).
  - intros h o. unfold at_client.
    destruct (decide (h = h0)); intros H; destruct H as [Hlen _]; rewrite Hlen;
      reflexivity.
  - intros h id info o. unfold at_client. destruct (decide (h = h0)).
    + apply publish_in_flight_after_publish_ack.
    + apply store_empty_after_publish_ack.
Qed.

Lemma handle_publish_ack_outcome (cfg : config) (h id : Z) (info : MQTTDeserializedInfo_t)
    (w w' : world) (u : unit) :
  h ≠ NULL ->
  (forall o, live_at w h o ->
             (length (outgoing_pub_packets o)
              <= Z.to_nat (CY_MQTT_MAX_OUTGOING_PUBLISHES cfg))%nat) ->
  handle_publish_ack cfg h id info w = Some (u, w') ->
  w' = w ∨
  exists o, live_at w h o /\
            w' = set_heap (<[h := Build_cell true (after_publish_ack id info o)]> (heap w)) w.
Proof.
  intros Hh Hlen Hrun.
  destruct (heap w !! h) as [[[] o]|] eqn:Hcell.
  - right. exists o. split; [exact Hcell|].
    rewrite (handle_publish_ack_run cfg h id info o w Hh Hcell (Hlen o Hcell)) in Hrun.
    injection Hrun as _ <-. reflexivity.
  - left. unfold handle_publish_ack, mqtt_cleanup_outgoing_publish_with_packet_id in Hrun.
    unfold_monad.
    destruct (decide (deserializationResult info ≠ MQTTSuccess));
      [|rewrite Hcell in Hrun; discriminate].
    destruct (decide (h = NULL ∨ id = MQTT_PACKET_ID_INVALID)).
    + injection Hrun as _ <-. reflexivity.
    + rewrite Hcell in Hrun. discriminate.
  - left. unfold handle_publish_ack, mqtt_cleanup_outgoing_publish_with_packet_id in Hrun.
    unfold_monad.
    destruct (decide (deserializationResult info ≠ MQTTSuccess));
      [|rewrite Hcell in Hrun; discriminate].
    destruct (decide (h = NULL ∨ id = MQTT_PACKET_ID_INVALID)).
    + injection Hrun as _ <-. reflexivity.
    + rewrite Hcell in Hrun. discriminate.
Qed.


Lemma triple_update_frame (cfg : config) (φ : Z -> cy_mqtt_object_t -> Prop)
    `{!StoreAssertion cfg φ} (P : event -> Prop) (h : Z)
    (f : cy_mqtt_object_t -> cy_mqtt_object_t) :
  (forall o, outgoing_pub_packets (f o) = outgoing_pub_packets o) ->
  (forall o, pub_ack_status (f o) = pub_ack_status o) ->
  triple φ P (update h f) (λ _, φ).
Proof.
  intros Hs Ha. apply triple_update; [|intros h' o _ H; exact H].
  intros o H. apply (sa_frame h o (f o) (Hs o) (Ha o) H).
Qed.

Ltac keeps_update_leaf :=
  first [ apply triple_update; [intros ? ?; assumption|intros ? ? ? ?; assumption]
        | eapply triple_update_frame;
          first [typeclasses eauto | (intros ?; reflexivity)] ].

Ltac keeps_call_leaf :=
  apply triple_call;
  first [ exact I
        | match goal with
          | HP : forall e, not_a_publish e -> _ |- _ => apply HP; exact I
          end ].

(** One step for code that leaves the store alone. *)
Ltac store_step :=
  lazymatch goal with
  | |- triple _ _ (update _ _) _ => keeps_update_leaf
  | |- triple _ _ (call _) _ => keeps_call_leaf
  | |- _ => keeps_step
  end.

Ltac store_auto := repeat store_step.

Section StoreAssertions.

Context (cfg : config) (env : environment).
Context (φ : Z -> cy_mqtt_object_t -> Prop) `{!StoreAssertion cfg φ}.
Context (P : event -> Prop) (HP : forall e, not_a_publish e -> P e).

Lemma keeps_handle_publish_ack (h id : Z) (info : MQTTDeserializedInfo_t) :
  h ≠ NULL -> triple φ P (handle_publish_ack cfg h id info) (λ _, φ).
Proof.
  intros Hh w a w' Hφ Hrun.
  destruct (handle_publish_ack_outcome cfg h id info w w' a Hh) as [->|(o & Hl & ->)];
    [intros o Hl; apply (sa_length h o), (Hφ h o Hl)|exact Hrun| |].
  - split; [exact Hφ|]. exists []. split; [reflexivity|constructor].
  - split; [|exists []; split; [reflexivity|constructor]].
    apply (each_insert φ φ); [exact Hφ| |intros h' o' _ H; exact H].
    intros _. apply sa_publish_ack, (Hφ h o Hl).
Qed.

Hint Resolve keeps_handle_publish_ack : keeps.

Lemma keeps_copy_suback_status (n : nat) :
  forall (i : Z) (codes status : list Z),
    triple φ P (copy_suback_status n i codes status) (λ _, φ).
Proof. induction n as [|n IH]; intros i codes status; simpl; store_auto. Qed.

Hint Resolve keeps_copy_suback_status : keeps.

Lemma keeps_mqtt_update_suback_status (h : Z) (packet_info : MQTTPacketInfo_t) :
  triple φ P (mqtt_update_suback_status env h packet_info) (λ _, φ).
Proof. unfold mqtt_update_suback_status. store_auto. Qed.

Hint Resolve keeps_mqtt_update_suback_status : keeps.

Lemma keeps_mqtt_event_callback (ctx : Z) (packet_info : option MQTTPacketInfo_t)
    (info : option MQTTDeserializedInfo_t) :
  triple φ P (mqtt_event_callback cfg env ctx packet_info info) (λ _, φ).
Proof. unfold mqtt_event_callback. keeps_unfold_calls. store_auto. Qed.

Hint Resolve keeps_mqtt_event_callback : keeps.

Lemma keeps_dispatch_incoming (h : Z) (packets : list incoming_packet) :
  triple φ P (dispatch_incoming cfg env h packets) (λ _, φ).
Proof. induction packets as [|[packet_info info] rest IH]; simpl; store_auto. Qed.

Hint Resolve keeps_dispatch_incoming : keeps.

Lemma keeps_MQTT_ProcessLoop (h timeout_ms : Z) :
  triple φ P (MQTT_ProcessLoop cfg env h timeout_ms) (λ _, φ).
Proof. unfold MQTT_ProcessLoop. store_auto. Qed.

Hint Resolve keeps_MQTT_ProcessLoop : keeps.

Lemma keeps_MQTT_Connect (h : Z) (info : MQTTConnectInfo_t)
    (will_msg : option MQTTPublishInfo_t) (timeout_ms : Z) :
  triple φ P (MQTT_Connect env h info will_msg timeout_ms) (λ _, φ).
Proof. unfold MQTT_Connect. store_auto. Qed.

Hint Resolve keeps_MQTT_Connect : keeps.

Lemma keeps_mqtt_establish_session (h : Z) (connect_info : MQTTConnectInfo_t)
    (will_msg : option MQTTPublishInfo_t) (create_clean_session : bool) :
  triple φ P (mqtt_establish_session env h connect_info will_msg create_clean_session)
    (λ _, φ).
Proof. unfold mqtt_establish_session. keeps_unfold_calls. store_auto. Qed.

Lemma keeps_mqtt_initialize_core_lib (h networkbuff buff_len : Z) :
  triple φ P (mqtt_initialize_core_lib env h networkbuff buff_len) (λ _, φ).
Proof. unfold mqtt_initialize_core_lib. keeps_unfold_calls. store_auto. Qed.

Lemma keeps_mqtt_disconn_event_thread_iteration :
  triple φ P (mqtt_disconn_event_thread_iteration env) (λ _, φ).
Proof. unfold mqtt_disconn_event_thread_iteration. keeps_unfold_calls. store_auto. Qed.

Lemma keeps_mqtt_receive_thread_iteration (h : Z) :
  triple φ P (mqtt_receive_thread_iteration cfg env h) (λ _, φ).
Proof. unfold mqtt_receive_thread_iteration. keeps_unfold_calls. store_auto. Qed.

Lemma keeps_mqtt_awsport_network_disconnect_callback (user_data : Z) :
  triple φ P (mqtt_awsport_network_disconnect_callback env user_data) (λ _, φ).
Proof. unfold mqtt_awsport_network_disconnect_callback. keeps_unfold_calls. store_auto. Qed.

Lemma keeps_cy_mqtt_init : triple φ P (cy_mqtt_init cfg env) (λ _, φ).
Proof. unfold cy_mqtt_init. keeps_unfold_calls. store_auto. Qed.

Lemma keeps_cy_mqtt_deinit : triple φ P (cy_mqtt_deinit env) (λ _, φ).
Proof. unfold cy_mqtt_deinit. keeps_unfold_calls. store_auto. Qed.

Lemma keeps_malloc_object : triple φ P (malloc_object env) (λ _, φ).
Proof. unfold malloc_object. keeps_unfold_calls. store_auto. Qed.

Lemma keeps_free_object (h : Z) : triple φ P (free_object h) (λ _, φ).
Proof.
  unfold free_object. store_step. store_step; [store_step|].
  apply triple_write_cell; [discriminate|intros ? ? _ ?; assumption].
Qed.

Hint Resolve keeps_malloc_object keeps_free_object keeps_mqtt_initialize_core_lib : keeps.

Lemma keeps_cy_mqtt_create_exit (mqtt_obj : Z) (process_mutex_init_status : bool)
    (result : cy_rslt_t) :
  triple φ P (cy_mqtt_create_exit env mqtt_obj process_mutex_init_status result) (λ _, φ).
Proof. unfold cy_mqtt_create_exit. keeps_unfold_calls. store_auto. Qed.

Lemma keeps_connect_transport (fuel : nat) :
  forall (h : Z) (secure : bool) (retryUtilsStatus : RetryUtilsStatus_t),
    triple φ P (connect_transport cfg env fuel h secure retryUtilsStatus) (λ _, φ).
Proof.
  induction fuel as [|fuel IH]; intros h secure retryUtilsStatus; simpl;
    keeps_unfold_calls; store_auto.
Qed.

Lemma keeps_cy_mqtt_connect_exit (h : Z) (result : cy_rslt_t) :
  triple φ P (cy_mqtt_connect_exit env h result) (λ _, φ).
Proof. unfold cy_mqtt_connect_exit. keeps_unfold_calls. store_auto. Qed.

Lemma keeps_cy_mqtt_disconnect (h : Z) : triple φ P (cy_mqtt_disconnect env h) (λ _, φ).
Proof. unfold cy_mqtt_disconnect. keeps_unfold_calls. store_auto. Qed.

Lemma keeps_publish_ack_wait (fuel : nat) :
  forall (h timeout : Z) (result : cy_rslt_t),
    triple φ P (publish_ack_wait cfg env fuel h timeout result) (λ _, φ).
Proof. induction fuel as [|fuel IH]; intros h timeout result; simpl; store_auto. Qed.

Lemma keeps_subscribe_translate (n : nat) :
  forall (index : Z) (sub_info : list cy_mqtt_subscribe_info_t)
         (sub_list : list MQTTSubscribeInfo_t),
    triple φ P (subscribe_translate n index sub_info sub_list) (λ _, φ).
Proof. induction n as [|n IH]; intros index sub_info sub_list; simpl; store_auto. Qed.

Lemma keeps_unsubscribe_translate (n : nat) :
  forall (index : Z) (unsub_info : list cy_mqtt_subscribe_info_t)
         (unsub_list : list MQTTSubscribeInfo_t),
    triple φ P (unsubscribe_translate n index unsub_info unsub_list) (λ _, φ).
Proof. induction n as [|n IH]; intros index unsub_info unsub_list; simpl; store_auto. Qed.

Lemma keeps_mark_suback_failure (n : nat) :
  forall (index : Z) (status : list Z),
    triple φ P (mark_suback_failure n index status) (λ _, φ).
Proof. induction n as [|n IH]; intros index status; simpl; store_auto. Qed.

Lemma keeps_subscribe_collect (n : nat) :
  forall (index : Z) (status : list Z) (sub_info : list cy_mqtt_subscribe_info_t)
         (result : cy_rslt_t),
    triple φ P (subscribe_collect n index status sub_info result) (λ _, φ).
Proof. induction n as [|n IH]; intros index status sub_info result; simpl; store_auto. Qed.

Hint Resolve keeps_subscribe_translate keeps_unsubscribe_translate
  keeps_mark_suback_failure keeps_subscribe_collect : keeps.

Lemma keeps_subscribe_ack_wait (fuel : nat) :
  forall (h sub_count timeout : Z) (sub_info : list cy_mqtt_subscribe_info_t)
         (result : cy_rslt_t),
    triple φ P (subscribe_ack_wait cfg env fuel h sub_count timeout sub_info result)
      (λ _, φ).
Proof.
  induction fuel as [|fuel IH]; intros h sub_count timeout sub_info result; simpl;
    store_auto.
Qed.

Hint Resolve keeps_subscribe_ack_wait : keeps.

Lemma keeps_subscribe_retry (fuel : nat) :
  forall (h : Z) (sub_list : list MQTTSubscribeInfo_t) (sub_count retry : Z)
         (sub_info : list cy_mqtt_subscribe_info_t),
    triple φ P (subscribe_retry cfg env fuel h sub_list sub_count retry sub_info) (λ _, φ).
Proof.
  induction fuel as [|fuel IH]; intros h sub_list sub_count retry sub_info; simpl;
    keeps_unfold_calls; store_auto.
Qed.

Hint Resolve keeps_subscribe_retry : keeps.

Lemma keeps_cy_mqtt_subscribe (h : Z) (sub_info : option (list cy_mqtt_subscribe_info_t))
    (sub_count : Z) :
  triple φ P (cy_mqtt_subscribe cfg env h sub_info sub_count) (λ _, φ).
Proof. unfold cy_mqtt_subscribe. keeps_unfold_calls. store_auto. Qed.

Lemma keeps_unsubscribe_ack_wait (fuel : nat) :
  forall (h timeout : Z) (result : cy_rslt_t),
    triple φ P (unsubscribe_ack_wait cfg env fuel h timeout result) (λ _, φ).
Proof. induction fuel as [|fuel IH]; intros h timeout result; simpl; store_auto. Qed.

Hint Resolve keeps_unsubscribe_ack_wait : keeps.

Lemma keeps_unsubscribe_retry (fuel : nat) :
  forall (h : Z) (unsub_list : list MQTTSubscribeInfo_t) (unsub_count retry : Z)
         (result : cy_rslt_t),
    triple φ P (unsubscribe_retry cfg env fuel h unsub_list unsub_count retry result)
      (λ _, φ).
Proof.
  induction fuel as [|fuel IH]; intros h unsub_list unsub_count retry result; simpl;
    keeps_unfold_calls; store_auto.
Qed.

Hint Resolve keeps_unsubscribe_retry : keeps.

Lemma keeps_cy_mqtt_unsubscribe (h : Z)
    (unsub_info : option (list cy_mqtt_subscribe_info_t)) (unsub_count : Z) :
  triple φ P (cy_mqtt_unsubscribe cfg env h unsub_info unsub_count) (λ _, φ).
Proof. unfold cy_mqtt_unsubscribe. keeps_unfold_calls. store_auto. Qed.

End StoreAssertions.

#[global] Hint Extern 0 (StoreAssertion _ _) => exact _ : keeps.

#[global] Hint Extern 0 (forall e, not_a_publish e -> any_call e) => exact (λ _ _, I) : keeps.

#[global] Hint Resolve keeps_handle_publish_ack
  keeps_copy_suback_status
  keeps_mqtt_update_suback_status
  keeps_mqtt_event_callback
  keeps_dispatch_incoming
  keeps_MQTT_ProcessLoop
  keeps_MQTT_Connect
  keeps_mqtt_establish_session
  keeps_mqtt_initialize_core_lib
  keeps_mqtt_disconn_event_thread_iteration
  keeps_mqtt_receive_thread_iteration
  keeps_mqtt_awsport_network_disconnect_callback
  keeps_cy_mqtt_init
  keeps_cy_mqtt_deinit
  keeps_malloc_object
  keeps_free_object
  keeps_cy_mqtt_create_exit
  keeps_connect_transport
  keeps_cy_mqtt_connect_exit
  keeps_cy_mqtt_disconnect
  keeps_publish_ack_wait
  keeps_subscribe_translate
  keeps_unsubscribe_translate
  keeps_mark_suback_failure
  keeps_subscribe_collect
  keeps_subscribe_ack_wait
  keeps_subscribe_retry
  keeps_cy_mqtt_subscribe
  keeps_unsubscribe_ack_wait
  keeps_unsubscribe_retry
  keeps_cy_mqtt_unsubscribe : keeps.

(** *** Reads and writes of one slot *)

Lemma load_slot_inv (h index : Z) (w w' : world) (s : cy_mqtt_pubpack_t) :
  load_slot h index w = Some (s, w') ->
  w' = w /\ 0 <= index /\
  exists o, live_at w h o /\ outgoing_pub_packets o !! Z.to_nat index = Some s.
Proof.
  intros H. unfold load_slot in H.
  destruct (bind_inv _ _ _ _ _ H) as (o & w1 & H1 & H2).
  destruct (deref_inv _ _ _ _ H1) as [Hl ->].
  unfold array_load in H2.
  destruct (decide (0 <= index)); [|discriminate].
  destruct (outgoing_pub_packets o !! Z.to_nat index) eqn:Hs; [|discriminate].
  injection H2 as <- <-. split; [reflexivity|]. split; [assumption|].
  exists o. split; assumption.
Qed.

Lemma store_slot_inv (h index : Z) (x : cy_mqtt_pubpack_t) (w w' : world) (u : unit) :
  store_slot h index x w = Some (u, w') ->
  exists o, live_at w h o /\
            0 <= index < Z.of_nat (length (outgoing_pub_packets o)) /\
            w' = set_heap
                   (<[h := Build_cell true
                             (set_outgoing_pub_packets
                                (<[Z.to_nat index := x]> (outgoing_pub_packets o)) o)]>
                      (heap w)) w.
Proof.
  intros H. unfold store_slot in H.
  destruct (bind_inv _ _ _ _ _ H) as (o & w1 & H1 & H2).
  destruct (deref_inv _ _ _ _ H1) as [Hl ->].
  destruct (bind_inv _ _ _ _ _ H2) as (arr & w2 & H3 & H4).
  unfold array_store in H3.
  destruct (decide (0 <= index < Z.of_nat (length (outgoing_pub_packets o))));
    [|discriminate].
  injection H3 as <- <-.
  destruct (update_inv _ _ _ _ _ H4) as (o' & Hl' & ->).
  assert (o' = o) as -> by (unfold live_at in *; congruence).
  exists o. repeat split; try assumption; lia.
Qed.

Lemma cleanup_outgoing_publish_inv (cfg : config) (h index : Z) (w w' : world)
    (r : cy_rslt_t) :
  mqtt_cleanup_outgoing_publish cfg h index w = Some (r, w') ->
  (index >= CY_MQTT_MAX_OUTGOING_PUBLISHES cfg /\ w' = w) ∨
  (index < CY_MQTT_MAX_OUTGOING_PUBLISHES cfg /\
   exists o, live_at w h o /\
             0 <= index < Z.of_nat (length (outgoing_pub_packets o)) /\
             w' = set_heap
                    (<[h := Build_cell true
                              (set_outgoing_pub_packets
                                 (<[Z.to_nat index := zero_pubpack]> (outgoing_pub_packets o))
                                 o)]>
                       (heap w)) w).
Proof.
  intros H. unfold mqtt_cleanup_outgoing_publish in H.
  destruct (decide (index >= CY_MQTT_MAX_OUTGOING_PUBLISHES cfg)) as [Hge|Hlt].
  - injection H as _ <-. left. split; [exact Hge|reflexivity].
  - right. split; [lia|].
    assert (Hs : store_slot h index zero_pubpack w = Some (tt, w')).
    { unfold store_slot.
      destruct (bind_inv _ _ _ _ _ H) as (o & w1 & H1 & H2).
      rewrite (bind_Some _ _ _ _ _ H1).
      destruct (bind_inv _ _ _ _ _ H2) as (arr & w2 & H3 & H4).
      rewrite (bind_Some _ _ _ _ _ H3).
      destruct (bind_inv _ _ _ _ _ H4) as ([] & w3 & H5 & H6).
      injection H6 as _ <-. exact H5. }
    apply (store_slot_inv _ _ _ _ _ _ Hs).
Qed.

Section SlotRules.

Context (φ : Z -> cy_mqtt_object_t -> Prop) (P : event -> Prop).

(** A computation that rewrites the object at [h] by [g], having found [R]
    of it. *)
Lemma triple_object_write {A : Type} (m : M A) (h : Z)
    (g : cy_mqtt_object_t -> cy_mqtt_object_t) (R : cy_mqtt_object_t -> Prop)
    (ψ : Z -> cy_mqtt_object_t -> Prop) :
  (forall w a w',
     m w = Some (a, w') ->
     exists o, live_at w h o /\ R o /\
               w' = set_heap (<[h := Build_cell true (g o)]> (heap w)) w) ->
  (forall o, φ h o -> R o -> ψ h (g o)) ->
  (forall h' o, h' ≠ h -> φ h' o -> ψ h' o) ->
  triple φ P m (λ _, ψ).
Proof.
  intros Hm Hg Hother w a w' Hφ Hrun.
  destruct (Hm w a w' Hrun) as (o & Hl & HR & ->).
  split; [|exists []; split; [reflexivity|constructor]].
  apply (each_insert φ ψ); [exact Hφ| |exact Hother].
  intros _. apply Hg; [apply (Hφ h o Hl)|exact HR].
Qed.

Lemma triple_store_slot (h index : Z) (x : cy_mqtt_pubpack_t)
    (ψ : Z -> cy_mqtt_object_t -> Prop) :
  (forall o, φ h o ->
             0 <= index < Z.of_nat (length (outgoing_pub_packets o)) ->
             ψ h (set_outgoing_pub_packets
                    (<[Z.to_nat index := x]> (outgoing_pub_packets o)) o)) ->
  (forall h' o, h' ≠ h -> φ h' o -> ψ h' o) ->
  triple φ P (store_slot h index x) (λ _, ψ).
Proof.
  intros Hg Hother.
  apply (triple_object_write _ h
           (λ o, set_outgoing_pub_packets
                   (<[Z.to_nat index := x]> (outgoing_pub_packets o)) o)
           (λ o, 0 <= index < Z.of_nat (length (outgoing_pub_packets o))));
    [|exact Hg|exact Hother].
  intros w a w' H. destruct (store_slot_inv _ _ _ _ _ _ H) as (o & Hl & Hi & Hw).
  exists o. split; [exact Hl|]. split; [exact Hi|exact Hw].
Qed.

(** The slot read is the slot of the object at [h] until the next write. *)
Lemma triple_load_slot_bind {B : Type} (h index : Z) (f : cy_mqtt_pubpack_t -> M B)
    (χ : B -> Z -> cy_mqtt_object_t -> Prop) :
  (forall s,
     0 <= index ->
     triple (λ h' o, φ h' o /\
                     (h' = h -> outgoing_pub_packets o !! Z.to_nat index = Some s))
       P (f s) χ) ->
  triple φ P (load_slot h index ≫= f) χ.
Proof.
  intros Hf w b w'' Hφ Hrun.
  destruct (bind_inv _ _ _ _ _ Hrun) as (s & w' & H1 & H2).
  destruct (load_slot_inv _ _ _ _ _ H1) as (-> & Hi & o & Hl & Hs).
  apply (Hf s Hi w b w''); [|exact H2].
  intros h' o' Hl'. split; [apply (Hφ h' o' Hl')|].
  intros ->. assert (o' = o) as -> by (unfold live_at in *; congruence). exact Hs.
Qed.

Lemma triple_cleanup_outgoing_publish (cfg : config) (h index : Z)
    (ψ : Z -> cy_mqtt_object_t -> Prop) :
  index < CY_MQTT_MAX_OUTGOING_PUBLISHES cfg ->
  (forall o, φ h o ->
             0 <= index < Z.of_nat (length (outgoing_pub_packets o)) ->
             ψ h (set_outgoing_pub_packets
                    (<[Z.to_nat index := zero_pubpack]> (outgoing_pub_packets o)) o)) ->
  (forall h' o, h' ≠ h -> φ h' o -> ψ h' o) ->
  triple φ P (mqtt_cleanup_outgoing_publish cfg h index) (λ _, ψ).
Proof.
  intros Hlt Hg Hother.
  apply (triple_object_write _ h
           (λ o, set_outgoing_pub_packets
                   (<[Z.to_nat index := zero_pubpack]> (outgoing_pub_packets o)) o)
           (λ o, 0 <= index < Z.of_nat (length (outgoing_pub_packets o))));
    [|exact Hg|exact Hother].
  intros w a w' H.
  destruct (cleanup_outgoing_publish_inv _ _ _ _ _ _ H) as [[Hge _]|[_ Hw]]; [lia|].
  destruct Hw as (o & Hl & Hi & Hw). exists o. split; [exact Hl|]. split; [exact Hi|exact Hw].
Qed.

End SlotRules.

(** *** The store is empty at every return *)

Lemma store_empty_insert (cfg : config) (o o' : cy_mqtt_object_t) (j : nat)
    (s : cy_mqtt_pubpack_t) :
  store_empty cfg o ->
  packetid s = MQTT_PACKET_ID_INVALID ->
  store_empty cfg (set_outgoing_pub_packets (<[j := s]> (outgoing_pub_packets o)) o').
Proof.
  intros [Hlen Hfree] Hs. split; simpl.
  - rewrite length_insert. exact Hlen.
  - apply slots_free_insert; assumption.
Qed.

Lemma store_empty_replicate (cfg : config) (o : cy_mqtt_object_t) :
  store_empty cfg
    (set_outgoing_pub_packets
       (replicate (Z.to_nat (CY_MQTT_MAX_OUTGOING_PUBLISHES cfg)) zero_pubpack) o).
Proof. split; simpl; [apply length_replicate|apply slots_free_replicate]. Qed.

Lemma store_empty_zero_obj (cfg : config) : store_empty cfg (zero_obj cfg).
Proof. split; simpl; [apply length_replicate|apply slots_free_replicate]. Qed.

Section EmptyStores.

Context (cfg : config) (env : environment).
Context (P : event -> Prop) (HP : forall e, not_a_publish e -> P e).

Lemma empty_mqtt_cleanup_outgoing_publishes (h : Z) :
  triple (all_empty cfg) P (mqtt_cleanup_outgoing_publishes cfg h) (λ _, (all_empty cfg)).
Proof.
  unfold mqtt_cleanup_outgoing_publishes. store_step; [store_step|].
  store_step; [|store_step].
  apply triple_update; [|intros ? ? _ ?; assumption].
  intros o _. apply store_empty_replicate.
Qed.

(** With an empty store no slot matches an identifier the cursor yields. *)
Lemma empty_resend_matching_slots (h id index : Z) (slots : list cy_mqtt_pubpack_t) :
  id ≠ MQTT_PACKET_ID_INVALID ->
  slots_free slots ->
  triple (all_empty cfg) P (resend_matching_slots env h id index slots false) (λ _, (all_empty cfg)).
Proof.
  intros Hid Hfree w a w' Hφ Hrun.
  rewrite (resend_scan_not_found env h id slots index w) in Hrun.
  - injection Hrun as _ <-. split; [exact Hφ|]. exists []. split; [reflexivity|constructor].
  - eapply Forall_impl; [exact Hfree|]. intros s Hs. simpl in Hs. congruence.
Qed.

Lemma empty_resend_while (h : Z) (cursor : list Z) :
  forall (result : cy_rslt_t) (id : Z),
    triple (all_empty cfg) P (resend_while env h result id cursor) (λ _, (all_empty cfg)).
Proof.
  induction cursor as [|next cursor IH]; intros result id; simpl.
  - store_step; [store_step|]. store_step.
    store_step; [apply empty_resend_matching_slots; [assumption|apply H]|].
    store_auto.
  - store_step; [store_step|]. store_step.
    store_step; [apply empty_resend_matching_slots; [assumption|apply H]|].
    store_auto.
Qed.

Hint Resolve empty_resend_while : keeps.

Lemma empty_mqtt_handle_publish_resend (h : Z) :
  triple (all_empty cfg) P (mqtt_handle_publish_resend env h) (λ _, (all_empty cfg)).
Proof. unfold mqtt_handle_publish_resend. store_auto. Qed.

Hint Resolve empty_mqtt_handle_publish_resend empty_mqtt_cleanup_outgoing_publishes : keeps.

Lemma empty_cy_mqtt_connect (h : Z) (connect_info : cy_mqtt_connect_info_t) :
  triple (all_empty cfg) P (cy_mqtt_connect cfg env h connect_info) (λ _, (all_empty cfg)).
Proof.
  unfold cy_mqtt_connect. store_auto.
Qed.

Lemma empty_cy_mqtt_delete (h : Z) : triple (all_empty cfg) P (cy_mqtt_delete cfg env h) (λ _, (all_empty cfg)).
Proof.
  unfold cy_mqtt_delete. keeps_unfold_calls.
  repeat first [ apply triple_update;
                 [intros ? _; apply store_empty_zero_obj|intros ? ? _ ?; assumption]
               | store_step ].
Qed.

Lemma empty_cy_mqtt_create (buffer bufflen : Z)
    (security : option cy_awsport_ssl_credentials_t)
    (broker_info : option cy_mqtt_broker_info_t) (event_callback user_data mqtt_handle : Z) :
  triple (all_empty cfg) P
    (cy_mqtt_create cfg env buffer bufflen security broker_info event_callback user_data
       mqtt_handle)
    (λ _, (all_empty cfg)).
Proof.
  unfold cy_mqtt_create. keeps_unfold_calls.
  repeat first [ apply triple_write_cell;
                 [intros _; destruct security; apply store_empty_zero_obj
                 |intros ? ? _ ?; assumption]
               | store_step ].
Qed.

End EmptyStores.

(** *** cy_mqtt_publish releases the slot it takes *)

Lemma at_client_same (cfg : config) (h : Z) (χ : cy_mqtt_object_t -> Prop)
    (o : cy_mqtt_object_t) :
  at_client cfg h χ h o <-> χ o.
Proof. unfold at_client. rewrite decide_True by reflexivity. reflexivity. Qed.

Lemma at_client_other (cfg : config) (h h' : Z) (χ : cy_mqtt_object_t -> Prop)
    (o : cy_mqtt_object_t) :
  h' ≠ h -> at_client cfg h χ h' o <-> all_empty cfg h' o.
Proof. intros Hne. unfold at_client. rewrite decide_False by exact Hne. reflexivity. Qed.

Lemma at_client_impl (cfg : config) (h : Z) (χ χ' : cy_mqtt_object_t -> Prop) (h' : Z)
    (o : cy_mqtt_object_t) :
  (χ o -> χ' o) -> at_client cfg h χ h' o -> at_client cfg h χ' h' o.
Proof. intros H. unfold at_client. destruct (decide (h' = h)); [exact H|exact (λ x, x)]. Qed.

(** Setting the dup flag of the PUBLISH in the slot changes nothing in this
    respect. *)
Lemma publish_settled_mark (cfg : config) (index : nat) (id : Z) (result : cy_rslt_t)
    (o : cy_mqtt_object_t) (s : cy_mqtt_pubpack_t) :
  publish_settled cfg index id result o ->
  outgoing_pub_packets o !! index = Some s ->
  publish_settled cfg index id result
    (set_outgoing_pub_packets
       (<[index := set_pubinfo (set_dup true (pubinfo s)) s]> (outgoing_pub_packets o)) o).
Proof.
  intros [(Hlen & Hack & Honly & Hdone) Hresult] Hs.
  assert (Hfree : slots_free (outgoing_pub_packets o) ->
                  slots_free (<[index := set_pubinfo (set_dup true (pubinfo s)) s]>
                                (outgoing_pub_packets o))).
  { intros H. apply slots_free_insert; [exact H|].
    apply (slots_free_lookup _ index s H Hs). }
  split; [split; [|split; [|split]]|]; simpl.
  - rewrite length_insert. exact Hlen.
  - exact Hack.
  - apply only_slot_insert; [exact Honly|].
    destruct (Honly index s Hs) as [H|[_ H]]; [left|right]; exact H.
  - intros H. apply Hfree, Hdone, H.
  - intros Hr. destruct (Hresult Hr) as [H|(s' & Hs' & Hq)]; [left; apply Hfree, H|].
    right. rewrite Hs in Hs'. injection Hs' as <-.
    exists (set_pubinfo (set_dup true (pubinfo s)) s). split; [|exact Hq].
    apply list_lookup_insert_eq. apply (lookup_lt_Some _ _ _ Hs).
Qed.

Lemma next_free_index_inv (h pindex : Z) (w w' : world) (found : cy_rslt_t * Z) :
  mqtt_get_next_free_index_for_publish h pindex w = Some (found, w') ->
  w' = w /\
  (fst found = CY_RSLT_SUCCESS ->
   exists o, live_at w h o /\
             0 <= snd found < Z.of_nat (length (outgoing_pub_packets o))).
Proof.
  unfold mqtt_get_next_free_index_for_publish.
  destruct (decide (h = NULL)).
  - intros H. injection H as <- <-. split; [reflexivity|discriminate].
  - intros H. destruct (bind_inv _ _ _ _ _ H) as (o & w1 & H1 & H2).
    destruct (deref_inv _ _ _ _ H1) as [Hl ->].
    pose proof (first_slot_zero MQTT_PACKET_ID_INVALID (outgoing_pub_packets o) 0) as Hscan.
    destruct (first_slot _ 0 (outgoing_pub_packets o)) as [j|].
    + injection H2 as <- <-. split; [reflexivity|]. intros ?.
      exists o. split; [exact Hl|]. simpl. lia.
    + injection H2 as <- <-. split; [reflexivity|discriminate].
Qed.

Section PublishReleasesSlot.

Context (cfg : config) (env : environment).

Lemma publish_retry_settles (h index id : Z) (fuel : nat) :
  forall (retry : Z) (result : cy_rslt_t),
    triple (at_client cfg h (slot_taken cfg (Z.to_nat index) id)) any_call
      (publish_retry cfg env fuel h index retry result)
      (λ r, at_client cfg h (publish_settled cfg (Z.to_nat index) id r)).
Proof.
  induction fuel as [|fuel IH]; intros retry result; simpl.
  { apply triple_no_behaviour. }
  eapply triple_bind.
  { apply (triple_update _ _ _ _
             (at_client cfg h (publish_in_flight cfg (Z.to_nat index) id))).
    - intros o. rewrite !at_client_same. intros (Hlen & Hack & Honly).
      split; [exact Hlen|]. split; [exact Hack|]. split; [exact Honly|]. discriminate.
    - intros h' o Hne. rewrite !at_client_other by exact Hne. exact (λ H, H). }
  intros ?. cbv zeta.
  apply triple_load_slot_bind. intros s Hindex.
  keeps_bind as mqttStatus; [unfold MQTT_Publish, codec_call; keeps_auto|].
  eapply triple_bind
    with (ψ := λ step, at_client cfg h
                         (publish_settled cfg (Z.to_nat index) id (snd step))).
  { destruct (decide (mqttStatus ≠ MQTTSuccess)).
    { apply triple_ret. intros h' o [H _]. revert H. apply at_client_impl.
      intros H. split; [exact H|discriminate]. }
    eapply triple_bind
      with (ψ := λ step, at_client cfg h
                           (publish_settled cfg (Z.to_nat index) id (snd step))).
    { destruct (decide (qos (pubinfo s) ≠ MQTTQoS0)) as [Hq|Hq].
      - eapply triple_bind.
        { eapply triple_conseq;
            [| |apply (keeps_publish_ack_wait cfg env
                         (at_client cfg h (publish_in_flight cfg (Z.to_nat index) id))
                         any_call (λ _ _, I))].
          - intros h' o [H _]. exact H.
          - intros ? ? ? Hpost; exact Hpost. }
        intros waited.
        apply triple_deref_bind_eq. intros o Ho.
        destruct (decide (puback_status (pub_ack_status o) = false)) as [Hp|Hp].
        + apply triple_ret. intros h' o' [H _]. revert H. apply at_client_impl.
          intros H. split; [exact H|discriminate].
        + apply triple_ret. intros h' o' [H Heq].
          destruct (decide (h' = h)) as [->|Hne].
          * rewrite (Heq eq_refl) in *. apply at_client_same in H. apply at_client_same.
            split; [exact H|]. intros _. left.
            destruct H as (_ & _ & _ & Hdone). apply Hdone.
            destruct (puback_status (pub_ack_status o)); [reflexivity|contradiction].
          * apply at_client_other in H; [|exact Hne]. apply at_client_other; assumption.
      - apply triple_ret. intros h' o [H Hs].
        destruct (decide (h' = h)) as [->|Hne].
        + apply at_client_same in H. apply at_client_same.
          split; [exact H|]. intros _. right. exists s. split; [apply Hs; reflexivity|].
          destruct (decide (qos (pubinfo s) = MQTTQoS0)); [assumption|contradiction].
        + apply at_client_other in H; [|exact Hne]. apply at_client_other; assumption. }
    intros step'.
    apply triple_load_slot_bind. intros s' _.
    eapply triple_bind.
    { apply (triple_store_slot _ _ _ _ _
               (at_client cfg h (publish_settled cfg (Z.to_nat index) id (snd step')))).
      - intros o [H Hs] Hi. apply at_client_same in H. apply at_client_same.
        apply publish_settled_mark; [exact H|apply Hs; reflexivity].
      - intros h' o Hne [H _]. apply at_client_other in H; [|exact Hne].
        apply at_client_other; assumption. }
    intros ?. apply triple_ret. intros h' o H. exact H. }
  intros step.
  destruct (decide (fst step ≠ MQTTSuccess ∧
                    wrap_uint8 (retry + 1) < CY_MQTT_MAX_RETRY_VALUE cfg)).
  - eapply triple_conseq; [| |apply IH].
    + intros h' o. apply at_client_impl. intros [(Hlen & Hack & Honly & _) _].
      split; [exact Hlen|]. split; [exact Hack|exact Honly].
    + intros ? ? ? Hpost; exact Hpost.
  - apply triple_ret. intros h' o H. exact H.
Qed.

Lemma empty_cy_mqtt_publish (h : Z) (pubmsg : option cy_mqtt_publish_info_t) :
  triple (all_empty cfg) any_call (cy_mqtt_publish cfg env h pubmsg)
    (λ _, all_empty cfg).
Proof.
  unfold cy_mqtt_publish. destruct pubmsg as [pubmsg|]; [|keeps_auto].
  destruct (decide (h = NULL)); [keeps_auto|].
  apply triple_deref_bind. intros o Ho.
  destruct (decide (mqtt_obj_initialized o = false)); [keeps_auto|].
  destruct (decide (mqtt_session_established o = false)); [keeps_auto|].
  apply (triple_bind_read _ _ _
           (λ found, fst found = CY_RSLT_SUCCESS ->
                     0 <= snd found < CY_MQTT_MAX_OUTGOING_PUBLISHES cfg)).
  { intros w found w' Hφ Hrun.
    destruct (next_free_index_inv _ _ _ _ _ Hrun) as [-> Hfound].
    split; [|reflexivity]. intros Hok.
    destruct (Hfound Hok) as (o' & Hl & Hi).
    destruct (Hφ h o' Hl) as [Hlen _]. rewrite Hlen in Hi. lia. }
  intros [r index] Hfound. simpl in Hfound. simpl fst. simpl snd.
  destruct (decide (r ≠ CY_RSLT_SUCCESS)) as [|Hr]; [keeps_auto|].
  assert (Hindex : 0 <= index < CY_MQTT_MAX_OUTGOING_PUBLISHES cfg).
  { apply Hfound. destruct (decide (r = CY_RSLT_SUCCESS)); [assumption|contradiction]. }
  clear Hfound.
  destruct (decide (msg_qos pubmsg = CY_MQTT_QOS0 ∨ msg_qos pubmsg = CY_MQTT_QOS1 ∨
                    msg_qos pubmsg = CY_MQTT_QOS2)); [|keeps_auto].
  apply triple_load_slot_bind. intros s _.
  eapply triple_bind.
  { apply (triple_store_slot _ _ _ _ _ (all_empty cfg)).
    - intros o' [H Hs] Hi. apply store_empty_insert; [exact H|].
      destruct H as [_ Hfree].
      apply (slots_free_lookup _ (Z.to_nat index) s Hfree), Hs. reflexivity.
    - intros h' o' _ [H _]. exact H. }
  intros ?.
  keeps_bind as result; [unfold cy_rtos_get_mutex, platform_call; keeps_auto|].
  destruct (decide (result ≠ CY_RSLT_SUCCESS)); [keeps_auto|].
  keeps_bind as id; [unfold MQTT_GetPacketId, value_call; keeps_auto|].
  apply triple_load_slot_bind. intros s' _.
  eapply triple_bind.
  { apply (triple_store_slot _ _ _ _ _
             (at_client cfg h (slot_claimed cfg (Z.to_nat index) id))).
    - intros o' [[Hlen Hfree] Hs] Hi. apply at_client_same.
      split; simpl; [rewrite length_insert; exact Hlen|].
      apply only_slot_insert; [apply only_slot_of_free; exact Hfree|].
      right. reflexivity.
    - intros h' o' Hne [H _]. apply at_client_other; assumption. }
  intros ?.
  eapply triple_bind.
  { apply (triple_update _ _ _ _ (at_client cfg h (slot_taken cfg (Z.to_nat index) id))).
    - intros o'. rewrite !at_client_same. intros [Hlen Honly].
      split; [exact Hlen|]. split; [reflexivity|exact Honly].
    - intros h' o' Hne. rewrite !at_client_other by exact Hne. exact (λ H, H). }
  intros ?.
  eapply triple_bind; [apply publish_retry_settles|].
  intros result'.
  assert (Hrelease :
            forall (φ : Z -> cy_mqtt_object_t -> Prop),
              (forall h' o', φ h' o' ->
                             at_client cfg h
                               (publish_settled cfg (Z.to_nat index) id result') h' o') ->
              triple φ any_call (mqtt_cleanup_outgoing_publish cfg h index)
                (λ _, all_empty cfg)).
  { intros φ Hφ. apply triple_cleanup_outgoing_publish; [lia| |].
    - intros o' H Hi. apply Hφ, at_client_same in H.
      destruct H as [(Hlen & _ & Honly & _) _].
      split; simpl; [rewrite length_insert; exact Hlen|].
      apply (only_slot_release _ id). exact Honly.
    - intros h' o' Hne H. apply Hφ in H. apply at_client_other in H; assumption. }
  destruct (decide (result' ≠ CY_RSLT_SUCCESS)) as [|Hok].
  { eapply triple_bind; [apply Hrelease; auto|]. intros ?.
    unfold cy_rtos_set_mutex, platform_call. keeps_auto. }
  apply triple_load_slot_bind. intros s'' _.
  eapply triple_bind with (ψ := λ _, all_empty cfg).
  { destruct (decide (qos (pubinfo s'') = MQTTQoS0)) as [Hq|Hq].
    - eapply triple_bind; [apply Hrelease; intros h' o' [H _]; exact H|].
      intros ?. keeps_auto.
    - apply triple_ret. intros h' o' [H Hs].
      destruct (decide (h' = h)) as [->|Hne].
      + apply at_client_same in H. destruct H as [(Hlen & _ & _ & _) Hresult].
        split; [exact Hlen|].
        destruct Hresult as [Hfree|(s0 & Hs0 & Hq0)].
        * destruct (decide (result' = CY_RSLT_SUCCESS)); [assumption|contradiction].
        * exact Hfree.
        * rewrite (Hs eq_refl) in Hs0. injection Hs0 as <-. contradiction.
      + apply at_client_other in H; assumption. }
  intros ?. unfold cy_rtos_set_mutex, platform_call. keeps_auto.
Qed.

End PublishReleasesSlot.

(** *** Every step keeps the stores empty *)

Lemma keeps_then_ret {A : Type} (φ : Z -> cy_mqtt_object_t -> Prop) (P : event -> Prop)
    (m : M A) :
  triple φ P m (λ _, φ) -> triple φ P (m;; mret tt) (λ _, φ).
Proof.
  intros Hm. apply (triple_bind φ _ _ _ (λ _, φ)); [exact Hm|intros ?].
  apply triple_ret. intros h o H. exact H.
Qed.

Lemma empty_run_operation (cfg : config) (env : environment) (op : operation) :
  triple (all_empty cfg) any_call (run_operation cfg env op) (λ _, all_empty cfg).
Proof.
  assert (HP : forall e, not_a_publish e -> any_call e) by exact (λ _ _, I).
  destruct op; cbn [run_operation];
    first [ solve [eauto with keeps]
          | apply keeps_then_ret;
            eauto using empty_cy_mqtt_create, empty_cy_mqtt_connect, empty_cy_mqtt_publish,
              empty_cy_mqtt_delete with keeps ].
Qed.

Lemma stores_empty_initial (cfg : config) : stores_empty cfg (initial_world cfg).
Proof.
  intros h o Hl. unfold live_at in Hl. simpl in Hl. rewrite lookup_empty in Hl.
  discriminate.
Qed.

Lemma stores_empty_reachable (cfg : config) (env : environment) (w : world) :
  reachable cfg env w -> stores_empty cfg w.
Proof.
  intros Hreach. induction Hreach as [|w op w' _ IH Hrun].
  - apply stores_empty_initial.
  - apply (empty_run_operation cfg env op w tt w' IH Hrun).
Qed.

(** On an empty store the resend asks the cursor once: it returns SUCCESS
    when the cursor yields nothing, and PUBLISH_FAIL when it yields an
    identifier, which no slot carries. *)
Lemma resend_on_empty_store (cfg : config) (env : environment) (h : Z)
    (o : cy_mqtt_object_t) (w : world) :
  stores_empty cfg w ->
  live_at w h o ->
  let tr := Call_MQTT_PublishToResend h :: trace w in
  mqtt_handle_publish_resend env h w
  = Some (match resend_answer env tr with
          | [] => CY_RSLT_SUCCESS
          | id :: _ =>
              if decide (id = MQTT_PACKET_ID_INVALID) then CY_RSLT_SUCCESS
              else CY_RSLT_MODULE_MQTT_PUBLISH_FAIL
          end,
          set_trace tr w).
Proof.
  intros Hempty Hlive tr. unfold mqtt_handle_publish_resend.
  rewrite (bind_Some _ _ _ _ _ (eq_refl : call (Call_MQTT_PublishToResend h) w
                                          = Some (tr, set_trace tr w))).
  destruct (resend_answer env tr) as [|id cursor]; [reflexivity|].
  destruct (decide (id = MQTT_PACKET_ID_INVALID)) as [Hid|Hid].
  - destruct cursor; simpl; rewrite decide_True by exact Hid; reflexivity.
  - apply (resend_unknown_id_fails env h id o); [exact Hid|exact Hlive|].
    destruct (Hempty h o Hlive) as [_ Hfree].
    eapply Forall_impl; [exact Hfree|]. intros s Hs. simpl in Hs. congruence.
Qed.


Lemma created_world_reachable_resumed :
  reachable example_config resumed_session_env created_world.
Proof.
  eapply reachable_step with (op := Op_create 768 1024 None (Some example_broker) 77 0 9).
  - eapply reachable_step with (op := Op_init); [apply reachable_initial|].
    vm_compute. reflexivity.
  - vm_compute. reflexivity.
Qed.


(** ** Running the embedding forwards *)

Lemma bind_Some_pair {A B : Type} (m : M A) (f : A -> M B) (w : world) (p : A * world) :
  m w = Some p -> (m ≫= f) w = f (fst p) (snd p).
Proof. intros H. unfold mbind, M_bind. rewrite H. destruct p. reflexivity. Qed.

Lemma bind_assoc {A B C : Type} (m : M A) (g : A -> M B) (f : B -> M C) (w : world) :
  ((m ≫= g) ≫= f) w = (m ≫= (λ a, g a ≫= f)) w.
Proof. unfold mbind, M_bind. destruct (m w) as [[a w']|]; reflexivity. Qed.

Lemma ret_bind {A B : Type} (a : A) (f : A -> M B) (w : world) :
  (mret a ≫= f) w = f a w.
Proof. reflexivity. Qed.

Lemma live_at_insert_ne (w : world) (h h' : Z) (o o' : cy_mqtt_object_t) (c : cell) :
  h ≠ h' -> live_at w h o -> live_at (set_heap (<[h' := c]> (heap w)) w) h o.
Proof. intros Hne H. unfold live_at. simpl. rewrite lookup_insert_ne by congruence. exact H. Qed.

Lemma live_at_same_heap (w w' : world) (h : Z) (o : cy_mqtt_object_t) :
  heap w' = heap w -> live_at w h o -> live_at w' h o.
Proof. unfold live_at. intros ->. exact (λ H, H). Qed.

(** Find the object a handle points at in the world the run has reached. *)
Ltac solve_live :=
  first [ eassumption
        | apply live_at_insert
        | apply live_at_set_trace; solve_live
        | apply live_at_same_heap with (w := _); [reflexivity|solve_live] ].

(** Reduce the projections of worlds that the steps have built. *)
Ltac world_simpl :=
  cbn [trace heap mqtt_handle_database mqtt_handle_count mqtt_db_mutex mqtt_lib_init_status
       mqtt_db_mutex_init_status mqtt_disconnect_event_thread mqtt_disconnect_event_queue
       thread_sno set_trace set_heap set_mqtt_handle_database set_mqtt_handle_count
       set_mqtt_db_mutex set_mqtt_lib_init_status set_mqtt_db_mutex_init_status
       set_mqtt_disconnect_event_thread set_mqtt_disconnect_event_queue set_thread_sno
       fst snd].

(** Bring the first computation of the run to the head. *)
Ltac run_norm :=
  repeat lazymatch goal with
         | |- context [((?m ≫= ?g) ≫= ?f) ?w] => rewrite (bind_assoc m g f w)
         | |- context [(mret ?a ≫= ?f) ?w] => rewrite (ret_bind a f w)
         end.

(** A step justified by a lemma about the first computation of a bind. *)
Ltac run_by tac :=
  run_norm;
  lazymatch goal with
  | |- context [(?m ≫= ?f) ?w] =>
      let H := fresh in
      eassert (H : m w = Some _) by tac;
      rewrite (bind_Some_pair m f w _ H); clear H; world_simpl
  end.

(** One step of a run: the first computation of a bind is a primitive, a
    read or a write of a live object. *)
Ltac run_step :=
  run_norm;
  lazymatch goal with
  | |- context [(deref ?h ≫= ?f) ?w] =>
      let H := fresh in
      eassert (H : live_at w h _) by solve_live;
      rewrite (bind_Some _ f _ _ _ (deref_live _ _ _ H)); clear H
  | |- context [(update ?h ?g ≫= ?f) ?w] =>
      let H := fresh in
      eassert (H : live_at w h _) by solve_live;
      rewrite (bind_Some _ f _ _ _ (update_live _ _ _ g H)); clear H
  | |- context [update ?h ?g ?w] =>
      let H := fresh in
      eassert (H : live_at w h _) by solve_live;
      rewrite (update_live _ _ _ g H); clear H
  | |- context [(?m ≫= ?f) ?w] =>
      let H := fresh in
      eassert (H : m w = Some _) by reflexivity;
      rewrite (bind_Some_pair m f w _ H); clear H; world_simpl
  end.

(** Settle the test at the head of the run from what is known. *)
Ltac settle :=
  first [ assumption | discriminate | reflexivity | congruence | tauto | lia
        | (intros ?; first [contradiction | discriminate | congruence | tauto | lia]) ].

Ltac run_test :=
  run_norm;
  lazymatch goal with
  | |- context [(if decide ?P then _ else _) ?w] =>
      first [ rewrite (decide_True (P := P)) by settle
            | rewrite (decide_False (P := P)) by settle ]
  | |- context [((if decide ?P then _ else _) ≫= _) ?w] =>
      first [ rewrite (decide_True (P := P)) by settle
            | rewrite (decide_False (P := P)) by settle ]
  end.

Ltac run_auto := repeat first [ run_test | run_step ].
(** ** The outgoing PUBLISH store *)

Lemma first_slot_Some (test : cy_mqtt_pubpack_t -> bool) (slots : list cy_mqtt_pubpack_t) :
  forall (i j : Z),
    first_slot test i slots = Some j ->
    i <= j < i + Z.of_nat (length slots) /\
    (exists s, slots !! Z.to_nat (j - i) = Some s /\ test s = true) /\
    (forall (k : nat) s, (k < Z.to_nat (j - i))%nat -> slots !! k = Some s -> test s = false).
Proof.
  induction slots as [|s rest IH]; intros i j H; simpl in H; [discriminate|].
  destruct (test s) eqn:Hs.
  - injection H as <-. rewrite Z.sub_diag. simpl. split; [lia|]. split.
    + exists s. split; [reflexivity|exact Hs].
    + intros k s' Hk. lia.
  - destruct (IH (i + 1) j H) as (Hj & (s' & Hs' & Ht) & Hbefore).
    replace (Z.to_nat (j - i)) with (S (Z.to_nat (j - (i + 1)))) by lia.
    simpl. split; [lia|]. split.
    + exists s'. split; assumption.
    + intros [|k] s'' Hk Hl; simpl in Hl.
      * injection Hl as <-. exact Hs.
      * apply (Hbefore k s''); [lia|exact Hl].
Qed.

Lemma first_slot_None (test : cy_mqtt_pubpack_t -> bool) (slots : list cy_mqtt_pubpack_t) :
  forall i : Z,
    first_slot test i slots = None <-> Forall (λ s, test s = false) slots.
Proof.
  induction slots as [|s rest IH]; intros i; simpl.
  - split; [constructor|reflexivity].
  - destruct (test s) eqn:Hs.
    + split; [discriminate|]. intros H. inversion H; subst. congruence.
    + rewrite IH. split.
      * intros H. constructor; assumption.
      * intros H. inversion H; subst. assumption.
Qed.

(** X1.  The scan for a free slot returns the index of the first slot whose
    packet identifier is 0: that slot is inside the store and every slot
    before it is occupied.  It fails with MQTT_ERROR, leaving [*pindex] as it
    was, exactly when no slot is free.  Nothing is written. *)
Theorem next_free_index_is_first_free (h pindex : Z) (o : cy_mqtt_object_t) (w : world) :
  h ≠ NULL ->
  live_at w h o ->
  exists r index,
    mqtt_get_next_free_index_for_publish h pindex w = Some ((r, index), w) /\
    ((r = CY_RSLT_SUCCESS /\ 0 <= index < Z.of_nat (length (outgoing_pub_packets o)) /\
      (exists s, outgoing_pub_packets o !! Z.to_nat index = Some s /\
                 packetid s = MQTT_PACKET_ID_INVALID) /\
      (forall (k : nat) s,
         (k < Z.to_nat index)%nat -> outgoing_pub_packets o !! k = Some s ->
         packetid s ≠ MQTT_PACKET_ID_INVALID)) ∨
     (r = CY_RSLT_MODULE_MQTT_ERROR /\ index = pindex /\
      Forall (λ s, packetid s ≠ MQTT_PACKET_ID_INVALID) (outgoing_pub_packets o))).
Proof.
  intros Hh Hlive. unfold mqtt_get_next_free_index_for_publish.
  rewrite decide_False by exact Hh.
  rewrite (bind_Some _ _ _ _ _ (deref_live _ _ _ Hlive)).
  destruct (first_slot _ 0 (outgoing_pub_packets o)) as [j|] eqn:Hscan.
  - apply first_slot_Some in Hscan. rewrite Z.sub_0_r in Hscan.
    destruct Hscan as (Hj & (s & Hs & Ht) & Hbefore).
    exists CY_RSLT_SUCCESS, j. split; [reflexivity|]. left.
    split; [reflexivity|]. split; [lia|]. split.
    + exists s. split; [exact Hs|]. apply bool_decide_eq_true_1 in Ht. exact Ht.
    + intros k s' Hk Hl. specialize (Hbefore k s' Hk Hl).
      apply bool_decide_eq_false_1 in Hbefore. exact Hbefore.
  - apply first_slot_None in Hscan.
    exists CY_RSLT_MODULE_MQTT_ERROR, pindex. split; [reflexivity|]. right.
    split; [reflexivity|]. split; [reflexivity|].
    eapply Forall_impl; [exact Hscan|]. intros s Hs. simpl in Hs.
    apply bool_decide_eq_false_1 in Hs. exact Hs.
Qed.

Lemma next_free_index_is_first_free_witness :
  mqtt_get_next_free_index_for_publish example_client 4 inflight_world
  = Some ((CY_RSLT_SUCCESS, 1), inflight_world).
Proof.
  destruct (next_free_index_is_first_free example_client 4 (example_object inflight_world)
              inflight_world) as (r & index & Hrun & Hcases).
  - discriminate.
  - vm_compute. reflexivity.
  - rewrite Hrun. vm_compute in Hrun. injection Hrun as <- <-. reflexivity.
Defined.

(** X2.  Cleaning up a packet identifier that no slot holds succeeds and
    changes nothing. *)
Theorem cleanup_of_absent_packet_id (cfg : config) (h id : Z) (o : cy_mqtt_object_t)
    (w : world) :
  h ≠ NULL ->
  id ≠ MQTT_PACKET_ID_INVALID ->
  live_at w h o ->
  Forall (λ s, packetid s ≠ id) (outgoing_pub_packets o) ->
  mqtt_cleanup_outgoing_publish_with_packet_id cfg h id w = Some (CY_RSLT_SUCCESS, w).
Proof.
  intros Hh Hid Hlive Habsent. unfold mqtt_cleanup_outgoing_publish_with_packet_id.
  rewrite decide_False by (intros [?|?]; contradiction).
  rewrite (bind_Some _ _ _ _ _ (deref_live _ _ _ Hlive)).
  replace (first_slot _ 0 (outgoing_pub_packets o)) with (@None Z); [reflexivity|].
  symmetry. apply first_slot_None.
  eapply Forall_impl; [exact Habsent|]. intros s Hs. simpl.
  apply bool_decide_eq_false_2. exact Hs.
Qed.

Lemma cleanup_of_absent_packet_id_witness :
  mqtt_cleanup_outgoing_publish_with_packet_id example_config example_client 6 inflight_world
  = Some (CY_RSLT_SUCCESS, inflight_world).
Proof.
  apply (cleanup_of_absent_packet_id example_config example_client 6
           (example_object inflight_world)).
  - discriminate.
  - discriminate.
  - vm_compute. reflexivity.
  - vm_compute. repeat constructor; discriminate.
Defined.
Lemma zero_first_slot_frees (id : Z) (slots : list cy_mqtt_pubpack_t) :
  Exists (λ s, packetid s = id) slots ->
  Exists (λ s, packetid s = MQTT_PACKET_ID_INVALID) (zero_first_slot id slots).
Proof.
  induction 1 as [s rest Hs|s rest Hrest IH]; simpl.
  - rewrite decide_True by exact Hs. left. reflexivity.
  - destruct (decide (packetid s = id)); [left; reflexivity|right; exact IH].
Qed.

(** X3.  Cleaning up a packet identifier that is in the store succeeds,
    zeroes the first slot that holds it and keeps the size of the store; the
    scan for a free slot that follows succeeds. *)
Theorem cleanup_frees_a_slot (cfg : config) (h id pindex : Z) (o : cy_mqtt_object_t)
    (w : world) :
  h ≠ NULL ->
  id ≠ MQTT_PACKET_ID_INVALID ->
  live_at w h o ->
  Z.of_nat (length (outgoing_pub_packets o)) = CY_MQTT_MAX_OUTGOING_PUBLISHES cfg ->
  Exists (λ s, packetid s = id) (outgoing_pub_packets o) ->
  exists w' index,
    mqtt_cleanup_outgoing_publish_with_packet_id cfg h id w = Some (CY_RSLT_SUCCESS, w') /\
    live_at w' h (set_outgoing_pub_packets (zero_first_slot id (outgoing_pub_packets o)) o) /\
    trace w' = trace w /\
    mqtt_get_next_free_index_for_publish h pindex w' = Some ((CY_RSLT_SUCCESS, index), w').
Proof.
  intros Hh Hid Hlive Hlen Hin.
  set (o' := set_outgoing_pub_packets (zero_first_slot id (outgoing_pub_packets o)) o).
  set (w' := set_heap (<[h := Build_cell true o']> (heap w)) w).
  assert (Hrun : mqtt_cleanup_outgoing_publish_with_packet_id cfg h id w
                 = Some (CY_RSLT_SUCCESS, w')).
  { unfold mqtt_cleanup_outgoing_publish_with_packet_id.
    rewrite decide_False by (intros [?|?]; contradiction).
    rewrite (bind_Some _ _ _ _ _ (deref_live _ _ _ Hlive)).
    pose proof (first_slot_zero id (outgoing_pub_packets o) 0) as Hscan.
    destruct (first_slot _ 0 (outgoing_pub_packets o)) as [j|] eqn:Hfirst.
    - destruct Hscan as [Hj Hins]. rewrite Z.sub_0_r in Hins.
      unfold mqtt_cleanup_outgoing_publish. rewrite decide_False by lia.
      rewrite (bind_Some _ _ _ _ _ (deref_live _ _ _ Hlive)).
      rewrite (bind_Some _ _ _ _ _ (array_store_Some (outgoing_pub_packets o) j zero_pubpack w
                                      ltac:(lia))).
      rewrite (bind_Some _ _ _ _ _ (update_live _ _ _ _ Hlive)).
      rewrite Hins. reflexivity.
    - exfalso. apply first_slot_None in Hfirst.
      apply Exists_exists in Hin. destruct Hin as (s & Hs & Heq).
      rewrite Forall_forall in Hfirst. specialize (Hfirst s Hs). simpl in Hfirst.
      apply bool_decide_eq_false_1 in Hfirst. contradiction. }
  assert (Hlive' : live_at w' h o') by apply live_at_insert.
  exists w'. unfold mqtt_get_next_free_index_for_publish.
  rewrite decide_False by exact Hh.
  rewrite (bind_Some _ _ _ _ _ (deref_live _ _ _ Hlive')).
  destruct (first_slot _ 0 (outgoing_pub_packets o')) as [index|] eqn:Hfree.
  - exists index. repeat split; assumption.
  - exfalso. apply first_slot_None in Hfree.
    apply zero_first_slot_frees in Hin.
    apply Exists_exists in Hin. destruct Hin as (s & Hs & Heq).
    rewrite Forall_forall in Hfree. specialize (Hfree s Hs). simpl in Hfree.
    apply bool_decide_eq_false_1 in Hfree. contradiction.
Qed.

Lemma cleanup_frees_a_slot_witness :
  exists w',
    mqtt_cleanup_outgoing_publish_with_packet_id example_config example_client 5
      inflight_world = Some (CY_RSLT_SUCCESS, w') /\
    outgoing_pub_packets (example_object w') = replicate 4 zero_pubpack /\
    mqtt_get_next_free_index_for_publish example_client 4 w'
    = Some ((CY_RSLT_SUCCESS, 0), w').
Proof.
  destruct (cleanup_frees_a_slot example_config example_client 5 4
              (example_object inflight_world) inflight_world)
    as (w' & index & Hrun & Hlive & Htrace & Hnext).
  - discriminate.
  - discriminate.
  - vm_compute. reflexivity.
  - reflexivity.
  - left. reflexivity.
  - exists w'. split; [exact Hrun|].
    vm_compute in Hrun. injection Hrun as <-. split; reflexivity.
Defined.

(** X4.  After mqtt_cleanup_outgoing_publishes every slot of the store is
    free: the scan for a free slot returns index 0 and no packet identifier
    is found in the store any more. *)
Theorem cleanup_all_frees_every_slot (cfg : config) (h pindex : Z)
    (o : cy_mqtt_object_t) (w : world) :
  h ≠ NULL ->
  live_at w h o ->
  0 < CY_MQTT_MAX_OUTGOING_PUBLISHES cfg ->
  exists w',
    mqtt_cleanup_outgoing_publishes cfg h w = Some (CY_RSLT_SUCCESS, w') /\
    live_at w' h
      (set_outgoing_pub_packets
         (replicate (Z.to_nat (CY_MQTT_MAX_OUTGOING_PUBLISHES cfg)) zero_pubpack) o) /\
    trace w' = trace w /\
    mqtt_get_next_free_index_for_publish h pindex w' = Some ((CY_RSLT_SUCCESS, 0), w') /\
    (forall id, id ≠ MQTT_PACKET_ID_INVALID ->
       mqtt_cleanup_outgoing_publish_with_packet_id cfg h id w'
       = Some (CY_RSLT_SUCCESS, w')).
Proof.
  intros Hh Hlive Hmax.
  set (n := Z.to_nat (CY_MQTT_MAX_OUTGOING_PUBLISHES cfg)).
  set (o' := set_outgoing_pub_packets (replicate n zero_pubpack) o).
  set (w' := set_heap (<[h := Build_cell true o']> (heap w)) w).
  assert (Hlive' : live_at w' h o') by apply live_at_insert.
  assert (Hstore : outgoing_pub_packets o' = replicate n zero_pubpack)
    by (destruct o; reflexivity).
  exists w'. split; [|split; [exact Hlive'|split; [reflexivity|split]]].
  - unfold mqtt_cleanup_outgoing_publishes. rewrite decide_False by exact Hh.
    rewrite (bind_Some _ _ _ _ _ (update_live _ _ _ _ Hlive)). reflexivity.
  - unfold mqtt_get_next_free_index_for_publish. rewrite decide_False by exact Hh.
    rewrite (bind_Some _ _ _ _ _ (deref_live _ _ _ Hlive')). rewrite Hstore.
    destruct n as [|n'] eqn:Hn; [lia|]. reflexivity.
  - intros id Hid.
    unfold mqtt_cleanup_outgoing_publish_with_packet_id.
    rewrite decide_False by (intros [?|?]; contradiction).
    rewrite (bind_Some _ _ _ _ _ (deref_live _ _ _ Hlive')). rewrite Hstore.
    replace (first_slot _ 0 (replicate n zero_pubpack)) with (@None Z); [reflexivity|].
    symmetry. apply first_slot_None. apply Forall_replicate.
    apply bool_decide_eq_false_2. simpl. intros Heq. apply Hid. symmetry. exact Heq.
Qed.

Lemma cleanup_all_frees_every_slot_witness :
  exists w',
    mqtt_cleanup_outgoing_publishes example_config example_client inflight_world
    = Some (CY_RSLT_SUCCESS, w') /\
    outgoing_pub_packets (example_object w') = replicate 4 zero_pubpack.
Proof.
  destruct (cleanup_all_frees_every_slot example_config example_client 4
              (example_object inflight_world) inflight_world)
    as (w' & Hrun & Hlive & _).
  - discriminate.
  - vm_compute. reflexivity.
  - reflexivity.
  - exists w'. split; [exact Hrun|].
    vm_compute in Hrun. injection Hrun as <-. reflexivity.
Defined.
(** ** The event dispatcher: the other packet types *)

Lemma lookup_handle_absent (ctx : Z) (db : list mqtt_data_base_t) :
  Forall (λ e, mqtt_context e ≠ ctx) db -> lookup_handle ctx db = NULL.
Proof.
  induction 1 as [|e rest He Hrest IH]; simpl; [reflexivity|].
  rewrite decide_False by exact He. exact IH.
Qed.

(** Enter the dispatcher for a context that resolves to the handle [h]. *)
Ltac enter_dispatcher Hctx Hlookup Hh :=
  unfold mqtt_event_callback;
  rewrite decide_False by exact Hctx;
  unfold gets at 1; unfold mbind at 1; unfold M_bind at 1;
  rewrite Hlookup;
  rewrite decide_False by exact Hh.

(** X5.  A packet whose codec context is NULL or is not in the handle
    database is dropped: no client object is written and no call, the
    application callback included, is made. *)
Theorem event_for_unknown_context_is_dropped (cfg : config) (env : environment) (ctx : Z)
    (packet_info : option MQTTPacketInfo_t) (info : option MQTTDeserializedInfo_t)
    (w : world) :
  ctx = NULL ∨ Forall (λ e, mqtt_context e ≠ ctx) (mqtt_handle_database w) ->
  mqtt_event_callback cfg env ctx packet_info info w = Some (tt, w).
Proof.
  intros Hunknown. unfold mqtt_event_callback.
  destruct packet_info as [pkt|]; [|reflexivity].
  destruct info as [inf|]; [|reflexivity].
  destruct (decide (ctx = NULL)) as [Hnull|Hnull]; [reflexivity|].
  destruct Hunknown as [Hc|Habsent]; [contradiction|].
  unfold gets at 1. unfold mbind at 1. unfold M_bind at 1.
  rewrite (lookup_handle_absent ctx _ Habsent).
  rewrite decide_True by reflexivity. reflexivity.
Qed.

Lemma event_for_unknown_context_is_dropped_witness :
  mqtt_event_callback example_config quiet_env 5000 (Some puback_packet)
    (Some (Build_MQTTDeserializedInfo_t 5 None MQTTSuccess)) inflight_world
  = Some (tt, inflight_world).
Proof.
  apply (event_for_unknown_context_is_dropped example_config quiet_env 5000).
  right. vm_compute. repeat constructor; discriminate.
Defined.

(** X6.  An incoming PUBLISH (any flags in the low four bits of the type)
    that carries publish information is handed to the application callback
    of the owning client exactly once, with the packet identifier, topic,
    payload, dup and retain of the packet and its QoS; with a NULL callback
    nothing happens.  The client object is not written. *)
Theorem incoming_publish_reaches_application (cfg : config) (env : environment)
    (ctx h : Z) (o : cy_mqtt_object_t) (packet_info : MQTTPacketInfo_t)
    (info : MQTTDeserializedInfo_t) (p : MQTTPublishInfo_t) (w : world) :
  ctx ≠ NULL ->
  lookup_handle ctx (mqtt_handle_database w) = h ->
  h ≠ NULL ->
  live_at w h o ->
  Z.land (type packet_info) 240 = MQTT_PACKET_TYPE_PUBLISH ->
  pPublishInfo info = Some p ->
  qos p = MQTTQoS0 ∨ qos p = MQTTQoS1 ∨ qos p = MQTTQoS2 ->
  let event :=
    CY_MQTT_EVENT_TYPE_PUBLISH_RECEIVE
      (Build_cy_mqtt_received_msg_info_t (packetIdentifier info)
         (Build_cy_mqtt_publish_info_t (qos p) (retain p) (dup p) (pTopicName p)
            (topicNameLength p) (pPayload p) (payloadLength p))) in
  mqtt_event_callback cfg env ctx (Some packet_info) (Some info) w
  = Some (tt, if decide (mqtt_event_cb o ≠ NULL)
              then set_trace (Call_mqtt_event_cb h event (user_data o) :: trace w) w
              else w).
Proof.
  intros Hctx Hlookup Hh Hlive Htype Hp Hqos event.
  enter_dispatcher Hctx Hlookup Hh.
  rewrite decide_True by exact Htype. rewrite Hp.
  rewrite (bind_Some _ _ _ _ _ (deref_live _ _ _ Hlive)).
  assert (Hev : publish_receive_event (packetIdentifier info) p = event).
  { unfold publish_receive_event, event, received_qos. do 3 f_equal.
    destruct Hqos as [Hq|[Hq|Hq]]; rewrite Hq; reflexivity. }
  unfold invoke_mqtt_event_cb. rewrite Hev.
  destruct (decide (mqtt_event_cb o ≠ NULL)); reflexivity.
Qed.

Lemma incoming_publish_reaches_application_witness :
  mqtt_event_callback example_config quiet_env example_client
    (Some (Build_MQTTPacketInfo_t 50 [] 0))
    (Some (Build_MQTTDeserializedInfo_t 9
             (Some (Build_MQTTPublishInfo_t MQTTQoS1 false false 900 3 950 2)) MQTTSuccess))
    connected_world
  = Some (tt, set_trace
                (Call_mqtt_event_cb example_client
                   (CY_MQTT_EVENT_TYPE_PUBLISH_RECEIVE
                      (Build_cy_mqtt_received_msg_info_t 9
                         (Build_cy_mqtt_publish_info_t 1 false false 900 3 950 2))) 0
                   :: trace connected_world) connected_world).
Proof.
  rewrite (incoming_publish_reaches_application example_config quiet_env example_client
             example_client (example_object connected_world) _ _
             (Build_MQTTPublishInfo_t MQTTQoS1 false false 900 3 950 2)).
  - reflexivity.
  - discriminate.
  - reflexivity.
  - discriminate.
  - vm_compute. reflexivity.
  - reflexivity.
  - reflexivity.
  - right. left. reflexivity.
Defined.

(** X7.  An UNSUBACK sets [unsub_ack_received] to whether its packet
    identifier is the one of the request last sent; the deserialization
    result is not looked at and nothing else is written. *)
Theorem unsuback_dispatch_sets_flag (cfg : config) (env : environment) (ctx h : Z)
    (o : cy_mqtt_object_t) (packet_info : MQTTPacketInfo_t) (info : MQTTDeserializedInfo_t)
    (w : world) :
  ctx ≠ NULL ->
  lookup_handle ctx (mqtt_handle_database w) = h ->
  h ≠ NULL ->
  live_at w h o ->
  type packet_info = MQTT_PACKET_TYPE_UNSUBACK ->
  mqtt_event_callback cfg env ctx (Some packet_info) (Some info) w
  = Some (tt, set_heap
                (<[h := Build_cell true
                          (set_unsub_ack_received
                             (bool_decide (sent_packet_id o = packetIdentifier info)) o)]>
                   (heap w)) w).
Proof.
  intros Hctx Hlookup Hh Hlive Htype.
  enter_dispatcher Hctx Hlookup Hh. rewrite Htype.
  rewrite decide_False by discriminate.
  rewrite decide_False by discriminate.
  rewrite decide_True by reflexivity.
  rewrite (bind_Some _ _ _ _ _ (deref_live _ _ _ Hlive)).
  destruct (decide (sent_packet_id o ≠ packetIdentifier info)) as [Hne|Heq].
  - rewrite (update_live _ _ _ _ Hlive).
    rewrite bool_decide_eq_false_2 by exact Hne. reflexivity.
  - rewrite (update_live _ _ _ _ Hlive).
    rewrite bool_decide_eq_true_2 by (destruct (decide (sent_packet_id o = packetIdentifier info)); [assumption|contradiction]).
    reflexivity.
Qed.

Lemma unsuback_dispatch_sets_flag_witness :
  exists w',
    mqtt_event_callback example_config quiet_env example_client
      (Some (Build_MQTTPacketInfo_t MQTT_PACKET_TYPE_UNSUBACK [0; 7] 2))
      (Some (Build_MQTTDeserializedInfo_t 7 None MQTTSuccess)) subscribing_world
    = Some (tt, w') /\
    unsub_ack_received (example_object w') = true.
Proof.
  eexists. split.
  - apply (unsuback_dispatch_sets_flag example_config quiet_env example_client
             example_client (example_object subscribing_world)).
    + discriminate.
    + reflexivity.
    + discriminate.
    + vm_compute. reflexivity.
    + reflexivity.
  - vm_compute. reflexivity.
Defined.
(** X8.  A PINGRESP that failed to deserialize ends the session: the
    application is told DISCONNECT with reason BROKER_DOWN (when it has a
    callback) and [mqtt_session_established] is cleared, while
    [mqtt_conn_status] and the rest of the object stay as they were. *)
Theorem failed_pingresp_ends_session (cfg : config) (env : environment) (ctx h : Z)
    (o : cy_mqtt_object_t) (packet_info : MQTTPacketInfo_t) (info : MQTTDeserializedInfo_t)
    (w : world) :
  ctx ≠ NULL ->
  lookup_handle ctx (mqtt_handle_database w) = h ->
  h ≠ NULL ->
  live_at w h o ->
  type packet_info = MQTT_PACKET_TYPE_PINGRESP ->
  deserializationResult info ≠ MQTTSuccess ->
  let notified :=
    if decide (mqtt_event_cb o ≠ NULL)
    then Call_mqtt_event_cb h (CY_MQTT_EVENT_TYPE_DISCONNECT CY_MQTT_DISCONN_TYPE_BROKER_DOWN)
           (user_data o) :: trace w
    else trace w in
  mqtt_event_callback cfg env ctx (Some packet_info) (Some info) w
  = Some (tt, set_heap
                (<[h := Build_cell true (set_mqtt_session_established false o)]> (heap w))
                (set_trace notified w)) /\
  mqtt_conn_status (set_mqtt_session_established false o) = mqtt_conn_status o.
Proof.
  intros Hctx Hlookup Hh Hlive Htype Hbad notified.
  split; [|reflexivity].
  enter_dispatcher Hctx Hlookup Hh. rewrite Htype.
  rewrite decide_False by discriminate.
  rewrite decide_False by discriminate.
  rewrite decide_False by discriminate.
  rewrite decide_True by reflexivity.
  rewrite decide_True by exact Hbad.
  rewrite (bind_Some _ _ _ _ _ (deref_live _ _ _ Hlive)).
  unfold invoke_mqtt_event_cb, notified.
  destruct (decide (mqtt_event_cb o ≠ NULL)).
  - unfold call. unfold mbind, M_bind, mret, M_ret. simpl.
    rewrite (update_live _ _ o _) by exact Hlive. reflexivity.
  - unfold mbind, M_bind, mret, M_ret.
    rewrite (update_live _ _ o _) by exact Hlive. destruct w; reflexivity.
Qed.

Lemma failed_pingresp_ends_session_witness :
  exists w',
    mqtt_event_callback example_config quiet_env example_client
      (Some (Build_MQTTPacketInfo_t MQTT_PACKET_TYPE_PINGRESP [] 0))
      (Some (Build_MQTTDeserializedInfo_t 0 None MQTTBadResponse)) connected_world
    = Some (tt, w') /\
    mqtt_session_established (example_object w') = false /\
    mqtt_conn_status (example_object w') = true /\
    trace w'
    = Call_mqtt_event_cb example_client
        (CY_MQTT_EVENT_TYPE_DISCONNECT CY_MQTT_DISCONN_TYPE_BROKER_DOWN) 0
        :: trace connected_world.
Proof.
  destruct (failed_pingresp_ends_session example_config quiet_env example_client
              example_client (example_object connected_world)
              (Build_MQTTPacketInfo_t MQTT_PACKET_TYPE_PINGRESP [] 0)
              (Build_MQTTDeserializedInfo_t 0 None MQTTBadResponse) connected_world)
    as [Hrun _].
  - discriminate.
  - reflexivity.
  - discriminate.
  - vm_compute. reflexivity.
  - reflexivity.
  - discriminate.
  - eexists. split; [exact Hrun|]. split; [|split]; vm_compute; reflexivity.
Defined.

(** X9.  Packets the dispatcher ignores.  For a packet attributed to a live
    client, nothing is written and nothing is called when it is a SUBACK
    whose packet identifier is not the one of the request last sent, a
    PINGRESP that deserialized, a PUBREL, a PUBCOMP, a DISCONNECT, a PUBLISH
    without publish information, or of a type the dispatcher does not
    know. *)
Theorem ignored_packets_change_nothing (cfg : config) (env : environment) (ctx h : Z)
    (o : cy_mqtt_object_t) (packet_info : MQTTPacketInfo_t) (info : MQTTDeserializedInfo_t)
    (w : world) :
  ctx ≠ NULL ->
  lookup_handle ctx (mqtt_handle_database w) = h ->
  h ≠ NULL ->
  live_at w h o ->
  (Z.land (type packet_info) 240 = MQTT_PACKET_TYPE_PUBLISH /\ pPublishInfo info = None) ∨
  (type packet_info = MQTT_PACKET_TYPE_SUBACK /\ sent_packet_id o ≠ packetIdentifier info) ∨
  (type packet_info = MQTT_PACKET_TYPE_PINGRESP /\ deserializationResult info = MQTTSuccess) ∨
  type packet_info = MQTT_PACKET_TYPE_PUBREL ∨
  type packet_info = MQTT_PACKET_TYPE_PUBCOMP ∨
  type packet_info = MQTT_PACKET_TYPE_DISCONNECT ∨
  (Z.land (type packet_info) 240 ≠ MQTT_PACKET_TYPE_PUBLISH /\
   type packet_info ∉ [MQTT_PACKET_TYPE_SUBACK; MQTT_PACKET_TYPE_UNSUBACK;
                       MQTT_PACKET_TYPE_PINGRESP; MQTT_PACKET_TYPE_PUBREC;
                       MQTT_PACKET_TYPE_PUBACK]) ->
  mqtt_event_callback cfg env ctx (Some packet_info) (Some info) w = Some (tt, w).
Proof.
  intros Hctx Hlookup Hh Hlive Hcase.
  enter_dispatcher Hctx Hlookup Hh.
  destruct Hcase as [[Ht Hp]|[[Ht Hid]|[[Ht Hok]|[Ht|[Ht|[Ht|[Ht Hnot]]]]]]].
  - rewrite decide_True by exact Ht. rewrite Hp. reflexivity.
  - rewrite Ht. rewrite decide_False by discriminate.
    rewrite decide_True by reflexivity.
    rewrite (bind_Some _ _ _ _ _ (deref_live _ _ _ Hlive)).
    rewrite decide_True by exact Hid. reflexivity.
  - rewrite Ht. do 3 (rewrite decide_False by discriminate).
    rewrite decide_True by reflexivity.
    rewrite decide_False by (intros Hne; contradiction). reflexivity.
  - rewrite Ht. do 5 (rewrite decide_False by discriminate).
    rewrite decide_True by reflexivity. reflexivity.
  - rewrite Ht. do 6 (rewrite decide_False by discriminate).
    rewrite decide_True by reflexivity. reflexivity.
  - rewrite Ht. do 8 (rewrite decide_False by discriminate).
    rewrite decide_True by reflexivity. reflexivity.
  - rewrite decide_False by exact Ht.
    repeat (rewrite not_elem_of_cons in Hnot).
    destruct Hnot as (H1 & H2 & H3 & H4 & H5 & _).
    rewrite (decide_False (P := type packet_info = MQTT_PACKET_TYPE_SUBACK)) by exact H1.
    rewrite (decide_False (P := type packet_info = MQTT_PACKET_TYPE_UNSUBACK)) by exact H2.
    rewrite (decide_False (P := type packet_info = MQTT_PACKET_TYPE_PINGRESP)) by exact H3.
    rewrite (decide_False (P := type packet_info = MQTT_PACKET_TYPE_PUBREC)) by exact H4.
    rewrite (decide_False (P := type packet_info = MQTT_PACKET_TYPE_PUBACK)) by exact H5.
    destruct (decide (type packet_info = MQTT_PACKET_TYPE_PUBREL)); [reflexivity|].
    destruct (decide (type packet_info = MQTT_PACKET_TYPE_PUBCOMP)); [reflexivity|].
    destruct (decide (type packet_info = MQTT_PACKET_TYPE_DISCONNECT)); reflexivity.
Qed.

Lemma ignored_packets_change_nothing_witness :
  mqtt_event_callback example_config suback_env example_client (Some suback_packet)
    (Some (Build_MQTTDeserializedInfo_t 8 None MQTTSuccess)) subscribing_world
  = Some (tt, subscribing_world).
Proof.
  apply (ignored_packets_change_nothing example_config suback_env example_client
           example_client (example_object subscribing_world)).
  - discriminate.
  - reflexivity.
  - discriminate.
  - vm_compute. reflexivity.
  - right. left. split; [reflexivity|]. vm_compute. discriminate.
Defined.
(** ** Session establishment and the worker threads *)

Lemma cy_rslt_of_success (r : platform_result) :
  cy_rslt_of r = CY_RSLT_SUCCESS <-> r = PLATFORM_OK.
Proof. destruct r; simpl; split; intros H; try reflexivity; discriminate. Qed.

Lemma MQTT_Connect_run (env : environment) (h : Z) (info : MQTTConnectInfo_t)
    (will_msg : option MQTTPublishInfo_t) (timeout_ms : Z) (o : cy_mqtt_object_t)
    (w : world) :
  live_at w h o ->
  MQTT_Connect env h info will_msg timeout_ms w
  = Some (codec_answer env (Call_MQTT_Connect h info will_msg timeout_ms :: trace w),
          set_heap
            (<[h := Build_cell true
                      match session_present_answer env
                              (Call_MQTT_Connect h info will_msg timeout_ms :: trace w) with
                      | Some b => set_broker_session_present b o
                      | None => o
                      end]> (heap w))
            (set_trace (Call_MQTT_Connect h info will_msg timeout_ms :: trace w) w)).
Proof.
  intros Hlive. unfold MQTT_Connect. run_step.
  destruct (session_present_answer env _) as [b|].
  - run_step. reflexivity.
  - simpl. rewrite insert_id by exact Hlive. destruct w; reflexivity.
Qed.

(** X10.  mqtt_establish_session on a live client returns CONNECT_FAIL or
    SUCCESS, never an RTOS code: SUCCESS exactly when the mutex acquisition,
    the CONNECT handshake and the mutex release all succeed.  The session flag
    is set when the handshake succeeds (also when the release then fails) and
    is left alone otherwise.  Once the mutex has been acquired the last call
    is its release. *)
Theorem establish_session_outcome (env : environment) (h : Z)
    (connect_info : MQTTConnectInfo_t) (will_msg : option MQTTPublishInfo_t)
    (create_clean_session : bool) (o : cy_mqtt_object_t) (w : world) :
  live_at w h o ->
  let tr1 := Call_cy_rtos_get_mutex (process_mutex_ref h) :: trace w in
  let tr2 := Call_MQTT_Connect h connect_info will_msg CY_MQTT_CONNACK_RECV_TIMEOUT_MS
               :: tr1 in
  let tr3 := Call_cy_rtos_set_mutex (process_mutex_ref h) :: tr2 in
  exists r w' o',
    mqtt_establish_session env h connect_info will_msg create_clean_session w
    = Some (r, w') /\
    live_at w' h o' /\
    (r = CY_RSLT_SUCCESS ∨ r = CY_RSLT_MODULE_MQTT_CONNECT_FAIL) /\
    (r = CY_RSLT_SUCCESS <->
     platform_answer env tr1 = PLATFORM_OK /\ codec_answer env tr2 = MQTTSuccess /\
     platform_answer env tr3 = PLATFORM_OK) /\
    mqtt_session_established o'
    = (if decide (platform_answer env tr1 = PLATFORM_OK /\ codec_answer env tr2 = MQTTSuccess)
       then true else mqtt_session_established o) /\
    mqtt_conn_status o' = mqtt_conn_status o /\
    trace w' = (if decide (platform_answer env tr1 = PLATFORM_OK) then tr3 else tr1).
Proof.
  intros Hlive tr1 tr2 tr3. unfold mqtt_establish_session.
  assert (Hflags : forall x : option bool,
            mqtt_session_established
              match x with Some b => set_broker_session_present b o | None => o end
            = mqtt_session_established o /\
            mqtt_conn_status
              match x with Some b => set_broker_session_present b o | None => o end
            = mqtt_conn_status o).
  { intros [b|]; split; reflexivity. }
  destruct (platform_answer env tr1) as [|c1] eqn:H1.
  - destruct (decide (codec_answer env tr2 = MQTTSuccess)) as [H2|H2].
    + destruct (platform_answer env tr3) as [|c3] eqn:H3.
      * eexists _, _, _. split.
        { run_step. fold tr1. rewrite H1. simpl cy_rslt_of.
          rewrite decide_False by (intros Hne; apply Hne; reflexivity).
          run_by ltac:(apply MQTT_Connect_run; solve_live). fold tr2. rewrite H2.
          rewrite decide_False by (intros Hne; apply Hne; reflexivity).
          run_step. run_step. fold tr3. rewrite H3. simpl cy_rslt_of.
          rewrite decide_False by (intros Hne; apply Hne; reflexivity).
          reflexivity. }
        split; [apply live_at_insert|]. split; [left; reflexivity|].
        split; [tauto|]. rewrite !decide_True by tauto.
        repeat split. apply Hflags.
      * eexists _, _, _. split.
        { run_step. fold tr1. rewrite H1. simpl cy_rslt_of.
          rewrite decide_False by (intros Hne; apply Hne; reflexivity).
          run_by ltac:(apply MQTT_Connect_run; solve_live). fold tr2. rewrite H2.
          rewrite decide_False by (intros Hne; apply Hne; reflexivity).
          run_step. run_step. fold tr3. rewrite H3. simpl cy_rslt_of.
          rewrite decide_True by discriminate.
          reflexivity. }
        split; [apply live_at_insert|]. split; [right; reflexivity|].
        split; [split; [discriminate|intros (_ & _ & Hc); discriminate]|].
        rewrite !decide_True by tauto.
        repeat split. apply Hflags.
    + eexists _, _, _. split.
      { run_step. fold tr1. rewrite H1. simpl cy_rslt_of.
        rewrite decide_False by (intros Hne; apply Hne; reflexivity).
        run_by ltac:(apply MQTT_Connect_run; solve_live). fold tr2.
        rewrite decide_True by exact H2.
        run_step. fold tr3. reflexivity. }
      split; [apply live_at_insert|]. split; [right; reflexivity|].
      split; [split; [discriminate|intros (_ & Hc & _); contradiction]|].
      rewrite decide_False by (intros [_ Hc]; contradiction).
      rewrite decide_True by reflexivity.
      repeat split; apply Hflags.
  - eexists _, _, o. split.
    { run_step. fold tr1. rewrite H1. simpl cy_rslt_of.
      rewrite decide_True by discriminate. reflexivity. }
    split; [exact Hlive|]. split; [right; reflexivity|].
    split; [split; [discriminate|intros (Hc & _); discriminate]|].
    rewrite !decide_False by (try intros [Hc _]; discriminate).
    repeat split.
Qed.

Lemma establish_session_outcome_witness :
  exists w' o',
    mqtt_establish_session quiet_env example_client (connect_details example_connect_info)
      None false created_world
    = Some (CY_RSLT_SUCCESS, w') /\
    live_at w' example_client o' /\ mqtt_session_established o' = true.
Proof.
  destruct (establish_session_outcome quiet_env example_client
              (connect_details example_connect_info) None false
              (example_object created_world) created_world)
    as (r & w' & o' & Hrun & Hlive & _ & Hr & Hs & _).
  - vm_compute. reflexivity.
  - exists w', o'. split; [|split; [exact Hlive|]].
    + rewrite Hrun. f_equal. f_equal. apply Hr. repeat split.
    + rewrite Hs. reflexivity.
Defined.
Lemma set_session_false_same (o : cy_mqtt_object_t) :
  mqtt_session_established o = false -> set_mqtt_session_established false o = o.
Proof. destruct o. simpl. intros ->. reflexivity. Qed.

(** X11.  One round of the disconnect event thread for a handle taken from
    the queue.  A client whose session is established is told DISCONNECT with
    reason NETWORK_DOWN (when it has a callback) and its session flag is
    cleared, between the acquisition and the release of its mutex; for a
    client whose session is already down, nothing but the mutex is touched,
    so a second notification for the same loss is not passed on.
    [mqtt_conn_status] is not written. *)
Theorem network_down_is_notified_once (env : environment) (h : Z) (o : cy_mqtt_object_t)
    (w : world) :
  let tr1 := Call_cy_rtos_get_queue :: trace w in
  let tr2 := Call_cy_rtos_get_mutex (process_mutex_ref h) :: tr1 in
  let notified :=
    if decide (mqtt_event_cb o ≠ NULL)
    then Call_mqtt_event_cb h (CY_MQTT_EVENT_TYPE_DISCONNECT CY_MQTT_DISCONN_TYPE_NETWORK_DOWN)
           (user_data o) :: tr2
    else tr2 in
  platform_answer env tr1 = PLATFORM_OK ->
  value_answer env tr1 = h ->
  h ≠ NULL ->
  live_at w h o ->
  platform_answer env tr2 = PLATFORM_OK ->
  mqtt_disconn_event_thread_iteration env w
  = Some (tt,
          if mqtt_session_established o
          then set_heap
                 (<[h := Build_cell true (set_mqtt_session_established false o)]> (heap w))
                 (set_trace (Call_cy_rtos_set_mutex (process_mutex_ref h) :: notified) w)
          else set_trace (Call_cy_rtos_set_mutex (process_mutex_ref h) :: tr2) w).
Proof.
  intros tr1 tr2 notified Hq Hval Hh Hlive Hm.
  unfold mqtt_disconn_event_thread_iteration.
  run_step. fold tr1. rewrite Hq, Hval. simpl cy_rslt_of.
  run_test. run_test. run_step. fold tr2. rewrite Hm. simpl cy_rslt_of.
  run_test. run_step.
  destruct (mqtt_session_established o) eqn:Hs.
  - rewrite decide_True by reflexivity.
    unfold invoke_mqtt_event_cb, notified.
    destruct (decide (mqtt_event_cb o ≠ NULL)).
    + run_auto. reflexivity.
    + run_auto. reflexivity.
  - rewrite decide_False by discriminate. run_auto. reflexivity.
Qed.

Lemma network_down_is_notified_once_witness :
  mqtt_session_established (example_object connected_world) = true /\
  exists w',
    mqtt_disconn_event_thread_iteration network_down_env connected_world = Some (tt, w') /\
    mqtt_session_established (example_object w') = false /\
    mqtt_conn_status (example_object w') = true /\
    exists w'',
      mqtt_disconn_event_thread_iteration network_down_env w' = Some (tt, w'') /\
      heap w'' = heap w' /\
      trace w''
      = [Call_cy_rtos_set_mutex (process_mutex_ref example_client);
         Call_cy_rtos_get_mutex (process_mutex_ref example_client);
         Call_cy_rtos_get_queue] ++ trace w'.
Proof.
  split; [reflexivity|].
  eexists. split.
  - apply (network_down_is_notified_once network_down_env example_client
             (example_object connected_world) connected_world).
    + reflexivity.
    + reflexivity.
    + discriminate.
    + vm_compute. reflexivity.
    + reflexivity.
  - split; [vm_compute; reflexivity|]. split; [vm_compute; reflexivity|].
    eexists. split.
    + apply (network_down_is_notified_once network_down_env example_client
               (set_mqtt_session_established false (example_object connected_world))).
      * reflexivity.
      * reflexivity.
      * discriminate.
      * vm_compute. reflexivity.
      * reflexivity.
    + split; vm_compute; reflexivity.
Defined.

(** A round of the codec that has no packet to deliver. *)
Lemma MQTT_ProcessLoop_quiet (cfg : config) (env : environment) (h timeout_ms : Z)
    (w : world) :
  incoming_answer env (Call_MQTT_ProcessLoop h timeout_ms :: trace w) = [] ->
  MQTT_ProcessLoop cfg env h timeout_ms w
  = Some (codec_answer env (Call_MQTT_ProcessLoop h timeout_ms :: trace w),
          set_trace (Call_MQTT_ProcessLoop h timeout_ms :: trace w) w).
Proof.
  intros Hnone. unfold MQTT_ProcessLoop. run_step. rewrite Hnone. reflexivity.
Qed.

(** X12.  One round of the receive thread of a live client.  The loop is
    left only when the mutex cannot be acquired.  With the mutex held,
    MQTT_ProcessLoop is called only while the session is established; when it
    delivers no packet, the session is ended (DISCONNECT with reason
    BROKER_DOWN, session flag cleared) exactly when its status is
    MQTTKeepAliveTimeout, and every other status, the failures
    MQTTRecvFailed, MQTTSendFailed, MQTTBadResponse and MQTTIllegalState
    included, leaves the client as it was.  The mutex is released and the
    thread sleeps before the next round. *)
Theorem receive_thread_round (cfg : config) (env : environment) (h : Z)
    (o : cy_mqtt_object_t) (w : world) :
  live_at w h o ->
  let tr1 := Call_cy_rtos_get_mutex (process_mutex_ref h) :: trace w in
  let tr2 := Call_MQTT_ProcessLoop h CY_MQTT_RECEIVE_DATA_TIMEOUT_MS :: tr1 in
  let rest (tr : list event) :=
    Call_cy_rtos_delay_milliseconds CY_MQTT_RECEIVE_THREAD_SLEEP_MS
      :: Call_cy_rtos_set_mutex (process_mutex_ref h) :: tr in
  let notified :=
    if decide (mqtt_event_cb o ≠ NULL)
    then Call_mqtt_event_cb h (CY_MQTT_EVENT_TYPE_DISCONNECT CY_MQTT_DISCONN_TYPE_BROKER_DOWN)
           (user_data o) :: tr2
    else tr2 in
  (platform_answer env tr1 ≠ PLATFORM_OK ->
   mqtt_receive_thread_iteration cfg env h w = Some (false, set_trace tr1 w)) /\
  (platform_answer env tr1 = PLATFORM_OK ->
   mqtt_session_established o = false ->
   mqtt_receive_thread_iteration cfg env h w = Some (true, set_trace (rest tr1) w)) /\
  (platform_answer env tr1 = PLATFORM_OK ->
   mqtt_session_established o = true ->
   incoming_answer env tr2 = [] ->
   mqtt_receive_thread_iteration cfg env h w
   = Some (true,
           if decide (codec_answer env tr2 = MQTTKeepAliveTimeout)
           then set_heap
                  (<[h := Build_cell true (set_mqtt_session_established false o)]> (heap w))
                  (set_trace (rest notified) w)
           else set_trace (rest tr2) w)).
Proof.
  intros Hlive tr1 tr2 rest notified. unfold mqtt_receive_thread_iteration.
  split; [|split].
  - intros Hbad. run_step. fold tr1.
    rewrite decide_True by (rewrite cy_rslt_of_success; exact Hbad). reflexivity.
  - intros Hok Hs. run_step. fold tr1. rewrite Hok. simpl cy_rslt_of.
    run_test. run_step. rewrite Hs. run_auto. reflexivity.
  - intros Hok Hs Hnone. run_step. fold tr1. rewrite Hok. simpl cy_rslt_of.
    run_test. run_step. rewrite Hs.
    run_by ltac:(apply MQTT_ProcessLoop_quiet; exact Hnone). fold tr1 tr2.
    destruct (codec_answer env tr2) eqn:Hstatus;
      try (rewrite (decide_False (P := _ = MQTTKeepAliveTimeout)) by discriminate);
      try (rewrite (decide_True (P := MQTTKeepAliveTimeout = MQTTKeepAliveTimeout))
             by reflexivity).
    all: try (rewrite decide_False by (intros Hne; apply Hne; reflexivity);
              run_auto; reflexivity).
    all: try (rewrite decide_True by discriminate).
    all: try (rewrite decide_True by tauto).
    all: try (rewrite decide_False by (intros [?|[?|[?|[?|?]]]]; discriminate)).
    all: try (rewrite (decide_False (P := _ = MQTTKeepAliveTimeout)) by discriminate).
    all: try (run_auto; reflexivity).
    rewrite decide_True by reflexivity.
    unfold invoke_mqtt_event_cb, notified.
    run_step.
    destruct (decide (mqtt_event_cb o ≠ NULL)); run_auto; reflexivity.
Qed.

Lemma receive_thread_round_witness :
  exists w',
    mqtt_receive_thread_iteration example_config keep_alive_timeout_env example_client
      connected_world
    = Some (true, w') /\
    mqtt_session_established (example_object connected_world) = true /\
    mqtt_session_established (example_object w') = false /\
    mqtt_conn_status (example_object w') = true.
Proof.
  destruct (receive_thread_round example_config keep_alive_timeout_env example_client
              (example_object connected_world) connected_world eq_refl)
    as (_ & _ & Hround).
  eexists. split; [apply Hround; reflexivity|].
  split; [reflexivity|]. split; vm_compute; reflexivity.
Defined.
(** ** Library initialisation and teardown *)

(** X13.  cy_mqtt_init on a library that is not initialised either
    succeeds, having initialised the registry mutex, the network layer, the
    disconnect queue and the disconnect thread in this order and set both
    status flags, or returns the RTOS code of the step that failed with both
    flags false and everything it had initialised released again.  The handle
    database, the handle count and the heap are not touched.  After a
    success, calling it again returns SUCCESS and does nothing. *)
Theorem init_succeeds_or_rolls_back (cfg : config) (env : environment) (w : world) :
  mqtt_lib_init_status w = false ->
  mqtt_db_mutex_init_status w = false ->
  let e1 := Call_cy_rtos_init_mutex2 mqtt_db_mutex_ref in
  let e2 := Call_cy_awsport_network_init in
  let e3 := Call_cy_rtos_init_queue (CY_MQTT_MAX_HANDLE cfg) in
  let e4 := Call_cy_rtos_create_thread mqtt_disconnect_event_thread_ref in
  let u1 := Call_cy_rtos_deinit_mutex mqtt_db_mutex_ref in
  let u2 := Call_cy_awsport_network_deinit in
  let u3 := Call_cy_rtos_deinit_queue in
  exists r w',
    cy_mqtt_init cfg env w = Some (r, w') /\
    mqtt_handle_database w' = mqtt_handle_database w /\
    mqtt_handle_count w' = mqtt_handle_count w /\
    heap w' = heap w /\
    ((r = CY_RSLT_SUCCESS /\ mqtt_lib_init_status w' = true /\
      mqtt_db_mutex_init_status w' = true /\
      trace w' = [e4; e3; e2; e1] ++ trace w /\
      (forall env', cy_mqtt_init cfg env' w' = Some (CY_RSLT_SUCCESS, w'))) ∨
     ((exists code, r = CY_RSLT_PLATFORM code) /\
      mqtt_lib_init_status w' = false /\ mqtt_db_mutex_init_status w' = false /\
      (trace w' = [e1] ++ trace w ∨
       trace w' = [u1; e2; e1] ++ trace w ∨
       trace w' = [u2; u1; e3; e2; e1] ++ trace w ∨
       trace w' = [u3; u2; u1; e4; e3; e2; e1] ++ trace w))).
Proof.
  intros Hlib Hdb e1 e2 e3 e4 u1 u2 u3. subst e1 e2 e3 e4 u1 u2 u3.
  unfold cy_mqtt_init.
  run_step. rewrite Hlib. run_step. run_step.
  destruct (platform_answer env (_ :: trace w)) as [|c1] eqn:H1; simpl cy_rslt_of.
  - run_test. run_step. run_step.
    destruct (platform_answer env (_ :: _ :: trace w)) as [|c2] eqn:H2;
      simpl cy_rslt_of.
    + run_test. run_step. run_step.
      destruct (platform_answer env (_ :: _ :: _ :: trace w)) as [|c3] eqn:H3;
        simpl cy_rslt_of.
      * run_test. run_step. run_step.
        destruct (platform_answer env (_ :: _ :: _ :: _ :: trace w)) as [|c4] eqn:H4;
          simpl cy_rslt_of.
        -- run_test. run_step. eexists _, _. split; [reflexivity|].
           do 3 (split; [reflexivity|]). left. repeat split; reflexivity.
        -- run_test. unfold cy_rtos_deinit_mutex. run_auto.
           eexists _, _. split; [reflexivity|].
           do 3 (split; [reflexivity|]). right.
           split; [eexists; reflexivity|]. split; [exact Hlib|]. split; [reflexivity|].
           right. right. right. reflexivity.
      * run_test. unfold cy_rtos_deinit_mutex. run_auto.
        eexists _, _. split; [reflexivity|].
        do 3 (split; [reflexivity|]). right.
        split; [eexists; reflexivity|]. split; [exact Hlib|]. split; [reflexivity|].
        right. right. left. reflexivity.
    + run_test. unfold cy_rtos_deinit_mutex. run_auto.
      eexists _, _. split; [reflexivity|].
      do 3 (split; [reflexivity|]). right.
      split; [eexists; reflexivity|]. split; [exact Hlib|]. split; [reflexivity|].
      right. left. reflexivity.
  - run_test. eexists _, _. split; [reflexivity|].
    do 3 (split; [reflexivity|]). right.
    split; [eexists; reflexivity|]. split; [exact Hlib|]. split; [exact Hdb|].
    left. reflexivity.
Qed.

Lemma init_succeeds_or_rolls_back_witness :
  exists w',
    cy_mqtt_init example_config quiet_env (initial_world example_config)
    = Some (CY_RSLT_SUCCESS, w') /\
    mqtt_lib_init_status w' = true /\
    cy_mqtt_init example_config quiet_env w' = Some (CY_RSLT_SUCCESS, w').
Proof.
  destruct (init_succeeds_or_rolls_back example_config quiet_env
              (initial_world example_config))
    as (r & w' & Hrun & _ & _ & _ & [(-> & Hlib & _ & _ & Hagain)|((c & ->) & _)]).
  - reflexivity.
  - reflexivity.
  - exists w'. split; [exact Hrun|]. split; [exact Hlib|]. apply Hagain.
  - exfalso. vm_compute in Hrun. discriminate.
Defined.

(** X14.  cy_mqtt_deinit on an initialised library without clients tears
    down the registry mutex, the network layer, the disconnect thread (when
    there is one) and the disconnect queue, in this order, and stops at the
    first step that fails, returning its RTOS code.  [mqtt_db_mutex_init_status]
    is cleared as soon as the mutex is gone, [mqtt_lib_init_status] only when
    every step has succeeded.  The handle database, the handle count and the
    heap are not touched. *)
Theorem deinit_tears_down_in_order (env : environment) (w : world) :
  mqtt_lib_init_status w = true ->
  mqtt_db_mutex_init_status w = true ->
  mqtt_handle_count w = 0 ->
  mqtt_disconnect_event_thread w ≠ NULL ->
  let u1 := Call_cy_rtos_deinit_mutex mqtt_db_mutex_ref in
  let u2 := Call_cy_awsport_network_deinit in
  let u3 := Call_cy_rtos_terminate_thread mqtt_disconnect_event_thread_ref in
  let u4 := Call_cy_rtos_join_thread mqtt_disconnect_event_thread_ref in
  let u5 := Call_cy_rtos_deinit_queue in
  exists r w',
    cy_mqtt_deinit env w = Some (r, w') /\
    mqtt_handle_database w' = mqtt_handle_database w /\
    mqtt_handle_count w' = mqtt_handle_count w /\
    heap w' = heap w /\
    ((r = CY_RSLT_SUCCESS /\ mqtt_lib_init_status w' = false /\
      mqtt_db_mutex_init_status w' = false /\ mqtt_disconnect_event_thread w' = NULL /\
      trace w' = [u5; u4; u3; u2; u1] ++ trace w) ∨
     ((exists code, r = CY_RSLT_PLATFORM code) /\ mqtt_lib_init_status w' = true /\
      ((mqtt_db_mutex_init_status w' = true /\ trace w' = [u1] ++ trace w) ∨
       (mqtt_db_mutex_init_status w' = false /\
        (trace w' = [u2; u1] ++ trace w ∨
         trace w' = [u3; u2; u1] ++ trace w ∨
         trace w' = [u4; u3; u2; u1] ++ trace w ∨
         trace w' = [u5; u4; u3; u2; u1] ++ trace w))))).
Proof.
  intros Hlib Hdb Hcount Hthread u1 u2 u3 u4 u5. subst u1 u2 u3 u4 u5.
  unfold cy_mqtt_deinit.
  run_step. run_step.
  rewrite (decide_False (P := _ ∨ _)) by (intros [?|?]; congruence).
  run_step. rewrite (decide_False (P := _ ≠ _)) by (intros Hne; apply Hne; exact Hcount).
  unfold cy_rtos_deinit_mutex, cy_rtos_terminate_thread, cy_rtos_join_thread.
  run_auto.
  destruct (platform_answer env (_ :: trace w)) as [|c1] eqn:H1; simpl cy_rslt_of.
  - run_auto.
    destruct (platform_answer env (_ :: _ :: trace w)) as [|c2] eqn:H2; simpl cy_rslt_of.
    + run_auto.
      destruct (platform_answer env (_ :: _ :: _ :: trace w)) as [|c3] eqn:H3;
        simpl cy_rslt_of.
      * run_auto.
        destruct (platform_answer env (_ :: _ :: _ :: _ :: trace w)) as [|c4] eqn:H4;
          simpl cy_rslt_of.
        -- run_auto.
           destruct (platform_answer env (_ :: _ :: _ :: _ :: _ :: trace w))
             as [|c5] eqn:H5; simpl cy_rslt_of.
           ++ run_auto. eexists _, _. split; [reflexivity|].
              do 3 (split; [reflexivity|]). left. repeat split; reflexivity.
           ++ run_auto. eexists _, _. split; [reflexivity|].
              do 3 (split; [reflexivity|]). right.
              split; [eexists; reflexivity|]. split; [exact Hlib|]. right.
              split; [reflexivity|]. right. right. right. reflexivity.
        -- run_auto. eexists _, _. split; [reflexivity|].
           do 3 (split; [reflexivity|]). right.
           split; [eexists; reflexivity|]. split; [exact Hlib|]. right.
           split; [reflexivity|]. right. right. left. reflexivity.
      * run_auto. eexists _, _. split; [reflexivity|].
        do 3 (split; [reflexivity|]). right.
        split; [eexists; reflexivity|]. split; [exact Hlib|]. right.
        split; [reflexivity|]. right. left. reflexivity.
    + run_auto. eexists _, _. split; [reflexivity|].
      do 3 (split; [reflexivity|]). right.
      split; [eexists; reflexivity|]. split; [exact Hlib|]. right.
      split; [reflexivity|]. left. reflexivity.
  - run_auto. eexists _, _. split; [reflexivity|].
    do 3 (split; [reflexivity|]). right.
    split; [eexists; reflexivity|]. split; [exact Hlib|]. left.
    split; [exact Hdb|]. reflexivity.
Qed.
Lemma deinit_tears_down_in_order_witness :
  exists w',
    cy_mqtt_deinit quiet_env
      (world_after (cy_mqtt_init example_config quiet_env) (initial_world example_config))
    = Some (CY_RSLT_SUCCESS, w') /\
    mqtt_lib_init_status w' = false /\ mqtt_db_mutex_init_status w' = false.
Proof.
  destruct (deinit_tears_down_in_order quiet_env
              (world_after (cy_mqtt_init example_config quiet_env)
                 (initial_world example_config)))
    as (r & w' & Hrun & _ & _ & _ & [(-> & Hlib & Hdb & _)|((c & ->) & _)]).
  - reflexivity.
  - reflexivity.
  - reflexivity.
  - vm_compute. discriminate.
  - exists w'. split; [exact Hrun|]. split; assumption.
  - exfalso. vm_compute in Hrun. discriminate.
Defined.

(** X15.  A library whose registry mutex is gone while
    [mqtt_lib_init_status] is still set, the state a deinit that failed after
    its first step leaves behind, cannot be used or repaired through the API:
    init returns SUCCESS without doing anything, deinit returns DEINIT_FAIL,
    and create with valid arguments returns CREATE_FAIL; none of them makes
    a call or changes the state. *)
Theorem failed_deinit_leaves_library_stuck (cfg : config) (env : environment) (w : world) :
  mqtt_lib_init_status w = true ->
  mqtt_db_mutex_init_status w = false ->
  cy_mqtt_init cfg env w = Some (CY_RSLT_SUCCESS, w) /\
  cy_mqtt_deinit env w = Some (CY_RSLT_MODULE_MQTT_DEINIT_FAIL, w) /\
  (forall buffer bufflen security broker_info event_callback user_data mqtt_handle,
     buffer ≠ NULL -> CY_MQTT_MIN_NETWORK_BUFFER_SIZE cfg <= bufflen ->
     event_callback ≠ NULL -> mqtt_handle ≠ NULL ->
     cy_mqtt_create cfg env buffer bufflen security (Some broker_info) event_callback
       user_data mqtt_handle w
     = Some ((CY_RSLT_MODULE_MQTT_CREATE_FAIL, None), w)).
Proof.
  intros Hlib Hdb. split; [|split].
  - unfold cy_mqtt_init. run_step. rewrite Hlib. reflexivity.
  - unfold cy_mqtt_deinit. run_step. run_step.
    rewrite decide_True by (right; exact Hdb). reflexivity.
  - intros buffer bufflen security broker_info event_callback user_data mqtt_handle
      Hbuf Hlen Hcb Hhandle.
    unfold cy_mqtt_create.
    rewrite decide_False by (intros [?|?]; contradiction).
    rewrite decide_False by exact Hbuf.
    rewrite decide_False by lia.
    run_step. run_step.
    rewrite decide_True by (right; exact Hdb). reflexivity.
Qed.

Lemma failed_deinit_leaves_library_stuck_witness :
  (cy_mqtt_init example_config quiet_env;; cy_mqtt_deinit network_deinit_fails_env)
    (initial_world example_config)
  = Some (CY_RSLT_PLATFORM 7, half_torn_down_world) /\
  cy_mqtt_init example_config quiet_env half_torn_down_world
  = Some (CY_RSLT_SUCCESS, half_torn_down_world) /\
  cy_mqtt_deinit quiet_env half_torn_down_world
  = Some (CY_RSLT_MODULE_MQTT_DEINIT_FAIL, half_torn_down_world) /\
  cy_mqtt_create example_config quiet_env 768 1024 None (Some example_broker) 77 0 9
    half_torn_down_world
  = Some ((CY_RSLT_MODULE_MQTT_CREATE_FAIL, None), half_torn_down_world).
Proof.
  split; [vm_compute; reflexivity|].
  destruct (failed_deinit_leaves_library_stuck example_config quiet_env
              half_torn_down_world) as (Hinit & Hdeinit & Hcreate).
  - reflexivity.
  - reflexivity.
  - split; [exact Hinit|]. split; [exact Hdeinit|].
    apply Hcreate; [discriminate|vm_compute; discriminate|discriminate|discriminate].
Defined.
(** ** Creation and deletion of clients *)

(** X16.  cy_mqtt_create gives up before it allocates anything: with BADARG
    for a NULL broker, handle pointer, callback or buffer and for a buffer
    below the minimum size, with CREATE_FAIL when the library is not
    initialised, all of these without any call; and with CREATE_FAIL when
    the handle count has reached CY_MQTT_MAX_HANDLE, where the registry mutex
    is acquired and released and nothing else happens. *)
Theorem create_fails_before_allocating (cfg : config) (env : environment)
    (buffer bufflen : Z) (security : option cy_awsport_ssl_credentials_t)
    (broker_info : option cy_mqtt_broker_info_t) (event_callback user_data mqtt_handle : Z)
    (w : world) :
  let valid :=
    broker_info ≠ None /\ mqtt_handle ≠ NULL /\ event_callback ≠ NULL /\ buffer ≠ NULL /\
    CY_MQTT_MIN_NETWORK_BUFFER_SIZE cfg <= bufflen in
  let create :=
    cy_mqtt_create cfg env buffer bufflen security broker_info event_callback user_data
      mqtt_handle in
  let tr1 := Call_cy_rtos_get_mutex mqtt_db_mutex_ref :: trace w in
  (¬ valid -> create w = Some ((CY_RSLT_MODULE_MQTT_BADARG, None), w)) /\
  (valid -> mqtt_lib_init_status w = false ∨ mqtt_db_mutex_init_status w = false ->
   create w = Some ((CY_RSLT_MODULE_MQTT_CREATE_FAIL, None), w)) /\
  (valid -> mqtt_lib_init_status w = true -> mqtt_db_mutex_init_status w = true ->
   platform_answer env tr1 = PLATFORM_OK ->
   CY_MQTT_MAX_HANDLE cfg <= mqtt_handle_count w ->
   create w
   = Some ((CY_RSLT_MODULE_MQTT_CREATE_FAIL, None),
           set_trace (Call_cy_rtos_set_mutex mqtt_db_mutex_ref :: tr1) w)).
Proof.
  intros valid create tr1. subst valid create tr1. unfold cy_mqtt_create.
  split; [|split].
  - intros Hbad. destruct broker_info as [broker|]; [|reflexivity].
    destruct (decide (mqtt_handle = NULL ∨ event_callback = NULL)); [reflexivity|].
    destruct (decide (buffer = NULL)); [reflexivity|].
    destruct (decide (bufflen < CY_MQTT_MIN_NETWORK_BUFFER_SIZE cfg)); [reflexivity|].
    exfalso. apply Hbad. repeat split; try tauto; [discriminate|lia].
  - intros (Hbroker & Hhandle & Hcb & Hbuf & Hlen) Hinit.
    destruct broker_info as [broker|]; [|contradiction].
    rewrite decide_False by (intros [?|?]; contradiction).
    rewrite decide_False by exact Hbuf.
    rewrite decide_False by lia.
    run_step. run_step. rewrite decide_True by exact Hinit. reflexivity.
  - intros (Hbroker & Hhandle & Hcb & Hbuf & Hlen) Hlib Hdb Hget Hfull.
    destruct broker_info as [broker|]; [|contradiction].
    rewrite decide_False by (intros [?|?]; contradiction).
    rewrite decide_False by exact Hbuf.
    rewrite decide_False by lia.
    run_step. run_step.
    rewrite decide_False by (intros [?|?]; congruence).
    unfold cy_rtos_get_mutex, cy_rtos_set_mutex.
    run_step. rewrite Hget. simpl cy_rslt_of. run_test. run_step.
    rewrite decide_True by lia. run_step. reflexivity.
Qed.

Lemma create_fails_before_allocating_witness :
  cy_mqtt_create example_config quiet_env 768 100 None (Some example_broker) 77 0 9
    created_world
  = Some ((CY_RSLT_MODULE_MQTT_BADARG, None), created_world).
Proof.
  destruct (create_fails_before_allocating example_config quiet_env 768 100 None
              (Some example_broker) 77 0 9 created_world) as (Hbad & _).
  apply Hbad. intros (_ & _ & _ & _ & Hlen). vm_compute in Hlen. apply Hlen. reflexivity.
Defined.

Lemma first_free_db_slot_Some (db : list mqtt_data_base_t) :
  forall (i j : Z),
    first_free_db_slot i db = Some j ->
    i <= j < i + Z.of_nat (length db) /\
    (exists e, db !! Z.to_nat (j - i) = Some e /\ mqtt_handle e = NULL) /\
    (forall (k : nat) e, (k < Z.to_nat (j - i))%nat -> db !! k = Some e ->
                         mqtt_handle e ≠ NULL).
Proof.
  induction db as [|e rest IH]; intros i j H; simpl in H; [discriminate|].
  destruct (decide (mqtt_handle e = NULL)) as [He|He].
  - injection H as <-. rewrite Z.sub_diag. simpl. split; [lia|]. split.
    + exists e. split; [reflexivity|exact He].
    + intros k e' Hk. lia.
  - destruct (IH (i + 1) j H) as (Hj & (e' & He' & Hnull) & Hbefore).
    replace (Z.to_nat (j - i)) with (S (Z.to_nat (j - (i + 1)))) by lia.
    simpl. split; [lia|]. split.
    + exists e'. split; assumption.
    + intros [|k] e'' Hk Hl; simpl in Hl.
      * injection Hl as <-. exact He.
      * apply (Hbefore k e''); [lia|exact Hl].
Qed.

(** Registering a handle makes it the answer of the lookup for its context,
    when no entry carried that context before. *)
Lemma lookup_handle_insert (p : Z) (db : list mqtt_data_base_t) (i : nat) :
  Forall (λ e, mqtt_context e ≠ p) db ->
  (i < length db)%nat ->
  lookup_handle p (<[i := Build_mqtt_data_base_t p p]> db) = p.
Proof.
  revert i. induction db as [|e rest IH]; intros i Habsent Hi; simpl in Hi; [lia|].
  inversion Habsent as [|? ? He Hrest]; subst.
  destruct i as [|i]; simpl.
  - rewrite decide_True by reflexivity. reflexivity.
  - rewrite decide_False by exact He. apply IH; [exact Hrest|lia].
Qed.

Lemma malloc_object_run (env : environment) (p : Z) (w : world) :
  value_answer env (Call_malloc_object :: trace w) = p ->
  p ≠ NULL ->
  (forall o, ¬ live_at w p o) ->
  malloc_object env w = Some (p, set_trace (Call_malloc_object :: trace w) w).
Proof.
  intros Hval Hp Hfresh. unfold malloc_object. run_step. rewrite Hval.
  rewrite decide_False by exact Hp. run_step.
  destruct (heap w !! p) as [[[] o]|] eqn:Hc; try reflexivity.
  exfalso. apply (Hfresh o). exact Hc.
Qed.

(** The run of cy_mqtt_create when nothing fails. *)
Lemma cy_mqtt_create_run (cfg : config) (env : environment)
    (buffer bufflen : Z) (security : option cy_awsport_ssl_credentials_t)
    (broker_info : cy_mqtt_broker_info_t) (event_callback app_data mqtt_handle : Z)
    (p slot_index : Z) (w : world) :
  mqtt_handle ≠ NULL -> event_callback ≠ NULL -> buffer ≠ NULL ->
  CY_MQTT_MIN_NETWORK_BUFFER_SIZE cfg <= bufflen ->
  mqtt_lib_init_status w = true -> mqtt_db_mutex_init_status w = true ->
  mqtt_handle_count w < CY_MQTT_MAX_HANDLE cfg ->
  (forall tr, platform_answer env tr = PLATFORM_OK) ->
  (forall tr, codec_answer env tr = MQTTSuccess) ->
  value_answer env
    (Call_malloc_object :: Call_cy_rtos_set_mutex mqtt_db_mutex_ref
       :: Call_cy_rtos_get_mutex mqtt_db_mutex_ref :: trace w) = p ->
  p ≠ NULL ->
  (forall o, ¬ live_at w p o) ->
  first_free_db_slot 0 (mqtt_handle_database w) = Some slot_index ->
  exists w' o',
    cy_mqtt_create cfg env buffer bufflen security (Some broker_info) event_callback
      app_data mqtt_handle w
    = Some ((CY_RSLT_SUCCESS, Some p), w') /\
    heap w' = <[p := Build_cell true o']> (heap w) /\
    mqtt_obj_initialized o' = true /\ mqtt_obj_index o' = slot_index /\
    mqtt_session_established o' = false /\ mqtt_conn_status o' = false /\
    outgoing_pub_packets o'
    = replicate (Z.to_nat (CY_MQTT_MAX_OUTGOING_PUBLISHES cfg)) zero_pubpack /\
    mqtt_event_cb o' = event_callback /\ user_data o' = app_data /\
    mqtt_handle_database w'
    = <[Z.to_nat slot_index := Build_mqtt_data_base_t p p]> (mqtt_handle_database w) /\
    mqtt_handle_count w' = wrap_uint8 (mqtt_handle_count w + 1) /\
    mqtt_lib_init_status w' = true /\ mqtt_db_mutex_init_status w' = true.
Proof.
  intros Hhandle Hcb Hbuf Hlen Hlib Hdb Hcount Hplat Hcodec Hmalloc Hp Hfresh Hslot.
  destruct (first_free_db_slot_Some _ _ _ Hslot) as (Hrange & _ & _).
  unfold cy_mqtt_create.
  rewrite decide_False by (intros [?|?]; contradiction).
  rewrite decide_False by exact Hbuf.
  rewrite decide_False by lia.
  run_step. run_step.
  rewrite (decide_False (P := _ ∨ _)) by (intros [?|?]; congruence).
  unfold cy_rtos_get_mutex, cy_rtos_set_mutex.
  run_step. rewrite Hplat. simpl cy_rslt_of. run_test.
  run_step. rewrite decide_False by lia.
  run_step. rewrite Hplat. simpl cy_rslt_of. run_test.
  run_by ltac:(apply malloc_object_run; [exact Hmalloc|exact Hp|exact Hfresh]).
  rewrite decide_False by exact Hp.
  cbv zeta. unfold write_cell. run_step. run_step. run_step.
  rewrite Hplat. simpl cy_rslt_of. run_test.
  unfold mqtt_initialize_core_lib. rewrite decide_False by exact Hp.
  repeat first [ rewrite Hplat; simpl cy_rslt_of | rewrite Hcodec | run_test | run_step ].
  rewrite Hslot.
  run_by ltac:(apply array_store_Some; lia).
  repeat first [ rewrite Hplat; simpl cy_rslt_of | rewrite Hcodec | run_test | run_step ].
  eexists _, _. split; [reflexivity|].
  split; [simpl; rewrite !insert_insert_eq; reflexivity|].
  do 7 (split; [destruct security; reflexivity|]).
  split; [reflexivity|]. split; [reflexivity|]. split; [exact Hlib|exact Hdb].
Qed.

(** X17.  cy_mqtt_create with valid arguments, on an initialised library
    with room for a client and collaborators that succeed, returns SUCCESS
    and the address the allocator handed out.  The new object is live,
    initialised, neither connected nor in a session, with an empty PUBLISH
    store and the callback and user data of the call; it is entered in the
    first free database slot, whose index it records, the handle count is
    incremented, and the other objects are untouched.  The dispatcher's
    lookup of the new context yields the new handle. *)
Theorem create_registers_a_fresh_client (cfg : config) (env : environment)
    (buffer bufflen : Z) (security : option cy_awsport_ssl_credentials_t)
    (broker_info : cy_mqtt_broker_info_t) (event_callback app_data mqtt_handle : Z)
    (p slot_index : Z) (w : world) :
  mqtt_handle ≠ NULL -> event_callback ≠ NULL -> buffer ≠ NULL ->
  CY_MQTT_MIN_NETWORK_BUFFER_SIZE cfg <= bufflen ->
  mqtt_lib_init_status w = true -> mqtt_db_mutex_init_status w = true ->
  mqtt_handle_count w < CY_MQTT_MAX_HANDLE cfg ->
  (forall tr, platform_answer env tr = PLATFORM_OK) ->
  (forall tr, codec_answer env tr = MQTTSuccess) ->
  value_answer env
    (Call_malloc_object :: Call_cy_rtos_set_mutex mqtt_db_mutex_ref
       :: Call_cy_rtos_get_mutex mqtt_db_mutex_ref :: trace w) = p ->
  p ≠ NULL ->
  (forall o, ¬ live_at w p o) ->
  first_free_db_slot 0 (mqtt_handle_database w) = Some slot_index ->
  exists w' o',
    cy_mqtt_create cfg env buffer bufflen security (Some broker_info) event_callback
      app_data mqtt_handle w
    = Some ((CY_RSLT_SUCCESS, Some p), w') /\
    live_at w' p o' /\
    mqtt_obj_initialized o' = true /\ mqtt_obj_index o' = slot_index /\
    mqtt_session_established o' = false /\ mqtt_conn_status o' = false /\
    outgoing_pub_packets o'
    = replicate (Z.to_nat (CY_MQTT_MAX_OUTGOING_PUBLISHES cfg)) zero_pubpack /\
    mqtt_event_cb o' = event_callback /\ user_data o' = app_data /\
    mqtt_handle_database w' !! Z.to_nat slot_index = Some (Build_mqtt_data_base_t p p) /\
    (forall k, k ≠ Z.to_nat slot_index ->
       mqtt_handle_database w' !! k = mqtt_handle_database w !! k) /\
    mqtt_handle_count w' = wrap_uint8 (mqtt_handle_count w + 1) /\
    (forall q, q ≠ p -> heap w' !! q = heap w !! q) /\
    (Forall (λ e, mqtt_context e ≠ p) (mqtt_handle_database w) ->
     lookup_handle p (mqtt_handle_database w') = p).
Proof.
  intros Hhandle Hcb Hbuf Hlen Hlib Hdb Hcount Hplat Hcodec Hmalloc Hp Hfresh Hslot.
  destruct (first_free_db_slot_Some _ _ _ Hslot) as (Hrange & _ & _).
  destruct (cy_mqtt_create_run cfg env buffer bufflen security broker_info event_callback
              app_data mqtt_handle p slot_index w Hhandle Hcb Hbuf Hlen Hlib Hdb Hcount
              Hplat Hcodec Hmalloc Hp Hfresh Hslot)
    as (w' & o' & Hrun & Hheap & Hinit & Hidx & Hsess & Hconn & Hstore & Hcb' & Hud &
        Hdb' & Hcount' & _).
  exists w', o'. split; [exact Hrun|].
  split; [unfold live_at; rewrite Hheap; apply lookup_insert_eq|].
  do 7 (split; [assumption|]).
  split; [rewrite Hdb'; apply list_lookup_insert_eq; lia|].
  split; [intros k Hk; rewrite Hdb'; apply list_lookup_insert_ne; congruence|].
  split; [exact Hcount'|]. split.
  - intros q Hq. rewrite Hheap. apply lookup_insert_ne. congruence.
  - intros Habsent. rewrite Hdb'. apply lookup_handle_insert; [exact Habsent|lia].
Qed.

Lemma create_registers_a_fresh_client_witness :
  exists w',
    cy_mqtt_create example_config quiet_env 768 1024 None (Some example_broker) 77 0 9
      initialised_world
    = Some ((CY_RSLT_SUCCESS, Some example_client), w') /\
    lookup_handle example_client (mqtt_handle_database w') = example_client /\
    mqtt_handle_count w' = 1.
Proof.
  destruct (create_registers_a_fresh_client example_config quiet_env 768 1024 None
              example_broker 77 0 9 example_client 0 initialised_world)
    as (w' & o' & Hrun & _ & _ & _ & _ & _ & _ & _ & _ & _ & _ & Hcount & _ & Hlookup).
  - discriminate.
  - discriminate.
  - discriminate.
  - vm_compute. discriminate.
  - reflexivity.
  - reflexivity.
  - reflexivity.
  - intros tr. reflexivity.
  - intros tr. reflexivity.
  - reflexivity.
  - discriminate.
  - intros o Hlive. vm_compute in Hlive. discriminate.
  - reflexivity.
  - exists w'. split; [exact Hrun|]. split; [|exact Hcount].
    apply Hlookup. vm_compute. repeat constructor; discriminate.
Defined.

(** X18.  Deleting the client that a create has just registered brings the
    registry back: the handle database and the handle count are what they
    were before the create, the object is no longer live, the other objects
    are untouched, and the dispatcher's lookup of the deleted context finds
    nothing. *)
Theorem delete_undoes_create (cfg : config) (env : environment)
    (buffer bufflen : Z) (security : option cy_awsport_ssl_credentials_t)
    (broker_info : cy_mqtt_broker_info_t) (event_callback app_data mqtt_handle : Z)
    (p slot_index : Z) (w : world) :
  mqtt_handle ≠ NULL -> event_callback ≠ NULL -> buffer ≠ NULL ->
  CY_MQTT_MIN_NETWORK_BUFFER_SIZE cfg <= bufflen ->
  mqtt_lib_init_status w = true -> mqtt_db_mutex_init_status w = true ->
  0 <= mqtt_handle_count w < CY_MQTT_MAX_HANDLE cfg ->
  CY_MQTT_MAX_HANDLE cfg <= 255 ->
  (forall tr, platform_answer env tr = PLATFORM_OK) ->
  (forall tr, codec_answer env tr = MQTTSuccess) ->
  value_answer env
    (Call_malloc_object :: Call_cy_rtos_set_mutex mqtt_db_mutex_ref
       :: Call_cy_rtos_get_mutex mqtt_db_mutex_ref :: trace w) = p ->
  p ≠ NULL ->
  (forall o, ¬ live_at w p o) ->
  first_free_db_slot 0 (mqtt_handle_database w) = Some slot_index ->
  mqtt_handle_database w !! Z.to_nat slot_index = Some zero_db_entry ->
  Forall (λ e, mqtt_context e ≠ p) (mqtt_handle_database w) ->
  exists w1 w2,
    cy_mqtt_create cfg env buffer bufflen security (Some broker_info) event_callback
      app_data mqtt_handle w
    = Some ((CY_RSLT_SUCCESS, Some p), w1) /\
    cy_mqtt_delete cfg env p w1 = Some (CY_RSLT_SUCCESS, w2) /\
    mqtt_handle_database w2 = mqtt_handle_database w /\
    mqtt_handle_count w2 = mqtt_handle_count w /\
    (forall o, ¬ live_at w2 p o) /\
    (forall q, q ≠ p -> heap w2 !! q = heap w !! q) /\
    lookup_handle p (mqtt_handle_database w2) = NULL.
Proof.
  intros Hhandle Hcb Hbuf Hlen Hlib Hdb Hcount Hmax Hplat Hcodec Hmalloc Hp Hfresh Hslot
    Hblank Habsent.
  destruct (first_free_db_slot_Some _ _ _ Hslot) as (Hrange & _ & _).
  destruct (cy_mqtt_create_run cfg env buffer bufflen security broker_info event_callback
              app_data mqtt_handle p slot_index w Hhandle Hcb Hbuf Hlen Hlib Hdb
              ltac:(lia) Hplat Hcodec Hmalloc Hp Hfresh Hslot)
    as (w1 & o1 & Hrun & Hheap & Hinit & Hidx & _ & _ & _ & _ & _ & Hdb1 & Hcount1 & _).
  assert (Hlive1 : live_at w1 p o1).
  { unfold live_at. rewrite Hheap. apply lookup_insert_eq. }
  exists w1. eexists. split; [exact Hrun|]. split.
  - unfold cy_mqtt_delete. rewrite decide_False by exact Hp.
    run_step. rewrite decide_False by (rewrite Hinit; discriminate).
    unfold cy_rtos_deinit_mutex, cy_rtos_get_mutex, cy_rtos_set_mutex.
    run_step. run_step. rewrite Hplat. simpl cy_rslt_of. run_test.
    run_step.
    run_by ltac:(apply array_store_Some; rewrite Hidx, Hdb1, length_insert; lia).
    run_step. run_step. run_step. rewrite Hplat. simpl cy_rslt_of. run_test.
    run_step. unfold free_object. run_auto. unfold write_cell. reflexivity.
  - simpl. split; [|split; [|split; [|split]]].
    + rewrite Hidx, Hdb1, list_insert_insert_eq. apply list_insert_id. exact Hblank.
    + rewrite Hcount1. unfold wrap_uint8.
      rewrite (Z.mod_small (mqtt_handle_count w + 1)) by lia.
      rewrite Z.mod_small by lia. lia.
    + intros o Hlive. unfold live_at in Hlive. simpl in Hlive.
      rewrite lookup_insert_eq in Hlive. discriminate.
    + intros q Hq. rewrite !lookup_insert_ne by congruence.
      rewrite Hheap. apply lookup_insert_ne. congruence.
    + rewrite Hidx, Hdb1, list_insert_insert_eq, (list_insert_id _ _ _ Hblank).
      apply lookup_handle_absent. exact Habsent.
Qed.

Lemma delete_undoes_create_witness :
  exists w1 w2,
    cy_mqtt_create example_config quiet_env 768 1024 None (Some example_broker) 77 0 9
      initialised_world
    = Some ((CY_RSLT_SUCCESS, Some example_client), w1) /\
    cy_mqtt_delete example_config quiet_env example_client w1 = Some (CY_RSLT_SUCCESS, w2) /\
    mqtt_handle_database w2 = mqtt_handle_database initialised_world /\
    mqtt_handle_count w2 = 0.
Proof.
  destruct (delete_undoes_create example_config quiet_env 768 1024 None
              example_broker 77 0 9 example_client 0 initialised_world)
    as (w1 & w2 & Hcreate & Hdelete & Hdb & Hcount & _).
  - discriminate.
  - discriminate.
  - discriminate.
  - vm_compute. discriminate.
  - reflexivity.
  - reflexivity.
  - vm_compute. split; [discriminate|reflexivity].
  - vm_compute. discriminate.
  - intros tr. reflexivity.
  - intros tr. reflexivity.
  - reflexivity.
  - discriminate.
  - intros o Hlive. vm_compute in Hlive. discriminate.
  - reflexivity.
  - reflexivity.
  - vm_compute. repeat constructor; discriminate.
  - exists w1, w2. repeat split; assumption.
Defined.
(** ** The request path: publish *)

Lemma first_slot_first (test : cy_mqtt_pubpack_t -> bool) (slots : list cy_mqtt_pubpack_t) :
  forall (i : nat) (j : Z) (s : cy_mqtt_pubpack_t),
    slots !! i = Some s ->
    test s = true ->
    (forall (k : nat) s', (k < i)%nat -> slots !! k = Some s' -> test s' = false) ->
    first_slot test j slots = Some (j + Z.of_nat i).
Proof.
  induction slots as [|s0 rest IH]; intros i j s Hs Ht Hbefore; [discriminate|].
  destruct i as [|i]; simpl in *.
  - injection Hs as ->. rewrite Ht. f_equal. lia.
  - rewrite (Hbefore 0%nat s0) by (try reflexivity; lia).
    rewrite (IH i (j + 1) s Hs Ht).
    + f_equal. lia.
    + intros k s' Hk Hl. apply (Hbefore (S k) s'); [lia|exact Hl].
Qed.

Lemma next_free_index_run (h pindex index : Z) (o : cy_mqtt_object_t)
    (s : cy_mqtt_pubpack_t) (w : world) :
  h ≠ NULL ->
  live_at w h o ->
  first_free_slot (outgoing_pub_packets o) index s ->
  mqtt_get_next_free_index_for_publish h pindex w = Some ((CY_RSLT_SUCCESS, index), w).
Proof.
  intros Hh Hlive (Hi & Hs & Hfree & Hbefore).
  unfold mqtt_get_next_free_index_for_publish. rewrite decide_False by exact Hh.
  run_step.
  rewrite (first_slot_first _ _ (Z.to_nat index) 0 s Hs).
  - rewrite Z2Nat.id by exact Hi. reflexivity.
  - apply bool_decide_eq_true_2. exact Hfree.
  - intros k s' Hk Hl. apply bool_decide_eq_false_2. apply (Hbefore k s' Hk Hl).
Qed.

Lemma load_slot_run (h index : Z) (o : cy_mqtt_object_t) (s : cy_mqtt_pubpack_t)
    (w : world) :
  live_at w h o ->
  0 <= index ->
  outgoing_pub_packets o !! Z.to_nat index = Some s ->
  load_slot h index w = Some (s, w).
Proof.
  intros Hlive Hi Hs. unfold load_slot. run_step. apply array_load_Some; assumption.
Qed.

Lemma store_slot_run (h index : Z) (o : cy_mqtt_object_t) (s : cy_mqtt_pubpack_t)
    (w : world) :
  live_at w h o ->
  0 <= index < Z.of_nat (length (outgoing_pub_packets o)) ->
  store_slot h index s w
  = Some (tt, set_heap
                (<[h := Build_cell true
                          (set_outgoing_pub_packets
                             (<[Z.to_nat index := s]> (outgoing_pub_packets o)) o)]>
                   (heap w)) w).
Proof.
  intros Hlive Hi. unfold store_slot. run_step.
  run_by ltac:(apply array_store_Some; exact Hi). run_step. reflexivity.
Qed.

Lemma cleanup_outgoing_publish_run (cfg : config) (h index : Z) (o : cy_mqtt_object_t)
    (w : world) :
  live_at w h o ->
  0 <= index < Z.of_nat (length (outgoing_pub_packets o)) ->
  Z.of_nat (length (outgoing_pub_packets o)) = CY_MQTT_MAX_OUTGOING_PUBLISHES cfg ->
  mqtt_cleanup_outgoing_publish cfg h index w
  = Some (CY_RSLT_SUCCESS,
          set_heap
            (<[h := Build_cell true
                      (set_outgoing_pub_packets
                         (<[Z.to_nat index := zero_pubpack]> (outgoing_pub_packets o)) o)]>
               (heap w)) w).
Proof.
  intros Hlive Hi Hlen. unfold mqtt_cleanup_outgoing_publish.
  rewrite decide_False by lia. run_step.
  run_by ltac:(apply array_store_Some; exact Hi). run_step. reflexivity.
Qed.
Lemma retry_fuel_pos (cfg : config) : exists n, retry_fuel cfg = S n.
Proof.
  unfold retry_fuel. destruct (Z.to_nat (Z.max 1 (CY_MQTT_MAX_RETRY_VALUE cfg))) eqn:H.
  - lia.
  - eexists. reflexivity.
Qed.

(** Reduce the fields of client objects that the steps have written. *)
Ltac obj_simpl :=
  cbn [mqtt_obj_initialized mqtt_secure_mode mqtt_session_established broker_session_present
       mqtt_conn_status mqtt_obj_index network_context server_info security recv_thread
       mqtt_event_cb sub_ack_status num_of_subs_in_req unsub_ack_received pub_ack_status
       sent_packet_id outgoing_pub_packets process_mutex user_data
       set_mqtt_obj_initialized set_mqtt_secure_mode set_mqtt_session_established
       set_broker_session_present set_mqtt_conn_status set_mqtt_obj_index
       set_network_context set_server_info set_security set_recv_thread set_mqtt_event_cb
       set_sub_ack_status set_num_of_subs_in_req set_unsub_ack_received set_pub_ack_status
       set_sent_packet_id set_outgoing_pub_packets set_process_mutex set_user_data
       packetid pubinfo set_pubinfo set_packetid ack_packetid puback_status
       set_puback_status qos retain dup pTopicName topicNameLength pPayload payloadLength
       set_dup set_qos fst snd].

(** Steps that read or write the slot [index] of the store of a live
    client, [Hi] bounding the index. *)
Ltac run_slot Hi :=
  first
    [ run_by ltac:(eapply load_slot_run;
                   [ solve_live | lia
                   | obj_simpl;
                     first [ eassumption
                           | apply list_lookup_insert_eq; rewrite ?length_insert; lia ] ])
    | run_by ltac:(eapply store_slot_run;
                   [ solve_live | obj_simpl; rewrite ?length_insert; lia ])
    | run_by ltac:(eapply cleanup_outgoing_publish_run;
                   [ solve_live | obj_simpl; rewrite ?length_insert; lia
                   | obj_simpl; rewrite ?length_insert; lia ]) ];
  obj_simpl; rewrite ?insert_insert_eq, ?list_insert_insert_eq.
(** X19.  With a session established and a free slot in the store, publish
    of a message whose QoS is none of 0, 1 and 2 fails with PUBLISH_FAIL
    before it takes the mutex or makes any call; the client object is not
    written. *)
Theorem publish_with_unsupported_qos_fails (cfg : config) (env : environment) (h : Z)
    (o : cy_mqtt_object_t) (pubmsg : cy_mqtt_publish_info_t) (w : world) :
  h ≠ NULL ->
  live_at w h o ->
  mqtt_obj_initialized o = true ->
  mqtt_session_established o = true ->
  ¬ (msg_qos pubmsg = CY_MQTT_QOS0 ∨ msg_qos pubmsg = CY_MQTT_QOS1 ∨
     msg_qos pubmsg = CY_MQTT_QOS2) ->
  cy_mqtt_publish cfg env h (Some pubmsg) w = Some (CY_RSLT_MODULE_MQTT_PUBLISH_FAIL, w).
Proof.
  intros Hh Hlive Hinit Hsess Hqos. unfold cy_mqtt_publish.
  rewrite decide_False by exact Hh. run_step.
  rewrite decide_False by (rewrite Hinit; discriminate).
  rewrite decide_False by (rewrite Hsess; discriminate).
  unfold mqtt_get_next_free_index_for_publish. rewrite decide_False by exact Hh.
  run_step.
  destruct (first_slot _ 0 (outgoing_pub_packets o)) as [index|] eqn:Hscan.
  - run_norm. cbn [fst snd]. rewrite decide_False by (intros Hne; apply Hne; reflexivity).
    rewrite decide_False by exact Hqos. reflexivity.
  - run_norm. cbn [fst snd]. rewrite decide_True by discriminate. reflexivity.
Qed.

Lemma publish_with_unsupported_qos_fails_witness :
  cy_mqtt_publish example_config quiet_env example_client
    (Some (Build_cy_mqtt_publish_info_t 3 false false 900 3 950 2)) connected_world
  = Some (CY_RSLT_MODULE_MQTT_PUBLISH_FAIL, connected_world).
Proof.
  apply (publish_with_unsupported_qos_fails example_config quiet_env example_client
           (example_object connected_world)).
  - discriminate.
  - vm_compute. reflexivity.
  - reflexivity.
  - reflexivity.
  - vm_compute. intros [H|[H|H]]; discriminate.
Defined.
(** X20.  A QoS 0 publish, when the mutex is acquired and the send
    succeeds, sends exactly one PUBLISH and waits for no acknowledgement: the
    calls are the mutex acquisition, MQTT_GetPacketId, MQTT_Publish and the
    mutex release, whose result is returned.  The PUBLISH carries the QoS,
    topic and payload of the message; its retain and dup flags are those the
    free slot held, [msg_retain] and [msg_dup] are not read.  The slot is
    zeroed again before the call returns. *)
Theorem qos0_publish_is_fire_and_forget (cfg : config) (env : environment) (h : Z)
    (o : cy_mqtt_object_t) (pubmsg : cy_mqtt_publish_info_t) (index : Z)
    (s : cy_mqtt_pubpack_t) (w : world) :
  h ≠ NULL ->
  live_at w h o ->
  mqtt_obj_initialized o = true ->
  mqtt_session_established o = true ->
  Z.of_nat (length (outgoing_pub_packets o)) = CY_MQTT_MAX_OUTGOING_PUBLISHES cfg ->
  first_free_slot (outgoing_pub_packets o) index s ->
  msg_qos pubmsg = CY_MQTT_QOS0 ->
  let tr1 := Call_cy_rtos_get_mutex (process_mutex_ref h) :: trace w in
  let tr2 := Call_MQTT_GetPacketId h :: tr1 in
  let id := value_answer env tr2 in
  let sent :=
    Build_MQTTPublishInfo_t MQTTQoS0 (retain (pubinfo s)) (dup (pubinfo s)) (topic pubmsg)
      (topic_len pubmsg) (payload pubmsg) (payload_len pubmsg) in
  let tr3 := Call_MQTT_Publish h sent id :: tr2 in
  let tr4 := Call_cy_rtos_set_mutex (process_mutex_ref h) :: tr3 in
  platform_answer env tr1 = PLATFORM_OK ->
  codec_answer env tr3 = MQTTSuccess ->
  cy_mqtt_publish cfg env h (Some pubmsg) w
  = Some (cy_rslt_of (platform_answer env tr4),
          set_heap
            (<[h := Build_cell true
                      (set_outgoing_pub_packets
                         (<[Z.to_nat index := zero_pubpack]> (outgoing_pub_packets o))
                         (set_pub_ack_status (Build_cy_mqtt_pub_ack_status_t id false) o))]>
               (heap w))
            (set_trace tr4 w)).
Proof.
  intros Hh Hlive Hinit Hsess Hlen Hfree Hqos tr1 tr2 id sent tr3 tr4 Hget Hsend.
  pose proof Hfree as (Hi & Hs & Hid & _).
  assert (Hrange : 0 <= index < Z.of_nat (length (outgoing_pub_packets o))).
  { split; [exact Hi|]. apply lookup_lt_Some in Hs. lia. }
  destruct (retry_fuel_pos cfg) as (fuel & Hfuel).
  unfold cy_mqtt_publish. rewrite decide_False by exact Hh. run_step.
  rewrite decide_False by (rewrite Hinit; discriminate).
  rewrite decide_False by (rewrite Hsess; discriminate).
  run_by ltac:(eapply next_free_index_run; [exact Hh|solve_live|exact Hfree]).
  rewrite decide_False by (intros Hne; apply Hne; reflexivity).
  rewrite decide_True by (left; exact Hqos).
  rewrite Hqos. change CY_MQTT_QOS0 with MQTTQoS0.
  run_slot Hrange. run_slot Hrange.
  unfold cy_rtos_get_mutex, cy_rtos_set_mutex, MQTT_GetPacketId, MQTT_Publish.
  run_step. fold tr1. rewrite Hget. simpl cy_rslt_of. run_test.
  run_step. fold tr1 tr2 id.
  run_slot Hrange. run_slot Hrange. run_step. obj_simpl. rewrite ?insert_insert_eq.
  rewrite Hfuel. cbn [publish_retry]. run_step. obj_simpl. rewrite ?insert_insert_eq.
  run_slot Hrange.
  unfold MQTT_Publish at 1. run_step. fold sent tr3. rewrite Hsend.
  run_test. run_test. run_slot Hrange. run_slot Hrange.
  run_norm. cbn [fst snd].
  rewrite (decide_False (P := _ /\ _)) by (intros [Hne _]; apply Hne; reflexivity).
  run_test. run_slot Hrange. run_test. run_slot Hrange.
  run_step. fold tr4. reflexivity.
Qed.

Lemma qos0_publish_is_fire_and_forget_witness :
  exists w',
    cy_mqtt_publish example_config quiet_env example_client
      (Some (Build_cy_mqtt_publish_info_t CY_MQTT_QOS0 true false 900 3 950 2))
      connected_world
    = Some (CY_RSLT_SUCCESS, w') /\
    published_ids (trace w') = [4116] /\
    In (Call_MQTT_Publish example_client
          (Build_MQTTPublishInfo_t MQTTQoS0 false false 900 3 950 2) 4116) (trace w') /\
    outgoing_pub_packets (example_object w') = replicate 4 zero_pubpack.
Proof.
  eexists. split.
  - apply (qos0_publish_is_fire_and_forget example_config quiet_env example_client
             (example_object connected_world) _ 0 zero_pubpack).
    + discriminate.
    + vm_compute. reflexivity.
    + reflexivity.
    + reflexivity.
    + reflexivity.
    + vm_compute. repeat split; try discriminate. intros k s' Hk. lia.
    + reflexivity.
    + reflexivity.
    + reflexivity.
  - split; [vm_compute; reflexivity|]. split; [vm_compute; tauto|].
    vm_compute. reflexivity.
Defined.

(** The retry loop when no PUBLISH can be sent: one send per round, no wait
    for an acknowledgement, and the dup flag is never set. *)
Lemma publish_retry_send_fails (cfg : config) (env : environment) (h index : Z)
    (s : cy_mqtt_pubpack_t) :
  (forall info id tr, codec_answer env (Call_MQTT_Publish h info id :: tr) ≠ MQTTSuccess) ->
  0 <= index ->
  CY_MQTT_MAX_RETRY_VALUE cfg <= 255 ->
  forall (n fuel : nat) (retry : Z) (result : cy_rslt_t) (o : cy_mqtt_object_t) (w : world),
    live_at w h o ->
    outgoing_pub_packets o !! Z.to_nat index = Some s ->
    (1 <= n <= fuel)%nat ->
    0 <= retry ->
    retry + Z.of_nat n = CY_MQTT_MAX_RETRY_VALUE cfg ->
    publish_retry cfg env fuel h index retry result w
    = Some (CY_RSLT_MODULE_MQTT_PUBLISH_FAIL,
            set_heap (<[h := Build_cell true (ack_cleared o)]> (heap w))
              (set_trace
                 (replicate n (Call_MQTT_Publish h (pubinfo s) (packetid s)) ++ trace w)
                 w)).
Proof.
  intros Hfail Hi Hmax n. induction n as [|n IH]; intros fuel retry result o w Hlive Hs Hn
    Hretry Hsum; [lia|].
  destruct fuel as [|fuel]; [lia|].
  cbn [publish_retry]. run_step. fold (ack_cleared o).
  run_by ltac:(eapply load_slot_run; [solve_live|exact Hi|exact Hs]).
  unfold MQTT_Publish. run_step.
  rewrite decide_True by apply Hfail.
  run_norm. cbn [fst snd].
  assert (Hwrap : wrap_uint8 (retry + 1) = retry + 1).
  { unfold wrap_uint8. apply Z.mod_small. lia. }
  rewrite Hwrap.
  destruct n as [|n].
  - rewrite decide_False by lia. reflexivity.
  - rewrite decide_True by (split; [apply Hfail|lia]).
    erewrite (IH fuel (retry + 1) _ (ack_cleared o)); [| |exact Hs|lia|lia|lia].
    + f_equal. f_equal. simpl. rewrite insert_insert_eq.
      change (Call_MQTT_Publish h (pubinfo s) (packetid s)
                :: replicate n (Call_MQTT_Publish h (pubinfo s) (packetid s))
                ++ Call_MQTT_Publish h (pubinfo s) (packetid s) :: trace w)
        with (replicate (S n) (Call_MQTT_Publish h (pubinfo s) (packetid s))
                ++ Call_MQTT_Publish h (pubinfo s) (packetid s) :: trace w).
      rewrite (cons_middle _ (replicate (S n) _)), app_assoc.
      rewrite <- (replicate_cons_app (S n)). reflexivity.
    + solve_live.
Qed.

(** X21.  When the codec cannot send the PUBLISH, publish tries exactly
    CY_MQTT_MAX_RETRY_VALUE times, every time with the same packet identifier
    and with the dup flag as in the first attempt (it is set only after a
    successful send), never calls MQTT_ProcessLoop, and returns PUBLISH_FAIL
    with the slot zeroed and the mutex released. *)
Theorem publish_gives_up_after_max_retries (cfg : config) (env : environment) (h : Z)
    (o : cy_mqtt_object_t) (pubmsg : cy_mqtt_publish_info_t) (index : Z)
    (s : cy_mqtt_pubpack_t) (w : world) :
  h ≠ NULL ->
  live_at w h o ->
  mqtt_obj_initialized o = true ->
  mqtt_session_established o = true ->
  Z.of_nat (length (outgoing_pub_packets o)) = CY_MQTT_MAX_OUTGOING_PUBLISHES cfg ->
  first_free_slot (outgoing_pub_packets o) index s ->
  msg_qos pubmsg = CY_MQTT_QOS0 ∨ msg_qos pubmsg = CY_MQTT_QOS1 ∨
  msg_qos pubmsg = CY_MQTT_QOS2 ->
  1 <= CY_MQTT_MAX_RETRY_VALUE cfg <= 255 ->
  (forall info id tr, codec_answer env (Call_MQTT_Publish h info id :: tr) ≠ MQTTSuccess) ->
  let tr1 := Call_cy_rtos_get_mutex (process_mutex_ref h) :: trace w in
  let tr2 := Call_MQTT_GetPacketId h :: tr1 in
  let id := value_answer env tr2 in
  let sent :=
    Build_MQTTPublishInfo_t (msg_qos pubmsg) (retain (pubinfo s)) (dup (pubinfo s))
      (topic pubmsg) (topic_len pubmsg) (payload pubmsg) (payload_len pubmsg) in
  platform_answer env tr1 = PLATFORM_OK ->
  cy_mqtt_publish cfg env h (Some pubmsg) w
  = Some (CY_RSLT_MODULE_MQTT_PUBLISH_FAIL,
          set_heap
            (<[h := Build_cell true
                      (set_outgoing_pub_packets
                         (<[Z.to_nat index := zero_pubpack]> (outgoing_pub_packets o))
                         (set_pub_ack_status (Build_cy_mqtt_pub_ack_status_t id false) o))]>
               (heap w))
            (set_trace
               (Call_cy_rtos_set_mutex (process_mutex_ref h)
                  :: replicate (Z.to_nat (CY_MQTT_MAX_RETRY_VALUE cfg))
                       (Call_MQTT_Publish h sent id) ++ tr2) w)).
Proof.
  intros Hh Hlive Hinit Hsess Hlen Hfree Hqos Hmax Hfail tr1 tr2 id sent Hget.
  pose proof Hfree as (Hi & Hs & Hid & _).
  assert (Hrange : 0 <= index < Z.of_nat (length (outgoing_pub_packets o))).
  { split; [exact Hi|]. apply lookup_lt_Some in Hs. lia. }
  unfold cy_mqtt_publish. rewrite decide_False by exact Hh. run_step.
  rewrite decide_False by (rewrite Hinit; discriminate).
  rewrite decide_False by (rewrite Hsess; discriminate).
  run_by ltac:(eapply next_free_index_run; [exact Hh|solve_live|exact Hfree]).
  rewrite decide_False by (intros Hne; apply Hne; reflexivity).
  rewrite decide_True by exact Hqos.
  run_slot Hrange. run_slot Hrange.
  unfold cy_rtos_get_mutex, cy_rtos_set_mutex, MQTT_GetPacketId.
  run_step. fold tr1. rewrite Hget. simpl cy_rslt_of. run_test.
  run_step. fold tr1 tr2 id.
  run_slot Hrange. run_slot Hrange. run_step. obj_simpl. rewrite ?insert_insert_eq.
  run_by ltac:(eapply (publish_retry_send_fails cfg env h index _ Hfail Hi ltac:(lia)
                         (Z.to_nat (CY_MQTT_MAX_RETRY_VALUE cfg)));
               [ solve_live
               | obj_simpl; apply list_lookup_insert_eq; lia
               | unfold retry_fuel; lia | lia | lia ]).
  obj_simpl. rewrite ?insert_insert_eq.
  run_test.
  run_by ltac:(eapply cleanup_outgoing_publish_run;
               [ solve_live | unfold ack_cleared; obj_simpl; rewrite ?length_insert; lia
               | unfold ack_cleared; obj_simpl; rewrite ?length_insert; lia ]).
  unfold ack_cleared. obj_simpl. rewrite ?insert_insert_eq, ?list_insert_insert_eq.
  run_step. reflexivity.
Qed.

Lemma publish_gives_up_after_max_retries_witness :
  exists w',
    cy_mqtt_publish example_config send_fails_env example_client (Some example_message)
      connected_world
    = Some (CY_RSLT_MODULE_MQTT_PUBLISH_FAIL, w') /\
    published_ids (trace w') = [4116; 4116; 4116] /\
    outgoing_pub_packets (example_object w') = replicate 4 zero_pubpack /\
    hd_error (trace w') = Some (Call_cy_rtos_set_mutex (process_mutex_ref example_client)).
Proof.
  eexists. split.
  - apply (publish_gives_up_after_max_retries example_config send_fails_env example_client
             (example_object connected_world) example_message 0 zero_pubpack).
    + discriminate.
    + vm_compute. reflexivity.
    + reflexivity.
    + reflexivity.
    + reflexivity.
    + vm_compute. repeat split; try discriminate. intros k s' Hk. lia.
    + right. left. reflexivity.
    + vm_compute. split; discriminate.
    + intros info id tr. discriminate.
    + reflexivity.
  - split; [vm_compute; reflexivity|]. split; vm_compute; reflexivity.
Defined.
(** The ACK wait of publish when the codec has nothing to deliver: the loop
    polls once per millisecond of its budget and leaves the world as it was
    but for the calls. *)
Lemma publish_ack_wait_quiet (cfg : config) (env : environment) (h : Z)
    (o : cy_mqtt_object_t) :
  (forall tr, codec_answer env tr = MQTTSuccess) ->
  (forall tr, incoming_answer env tr = []) ->
  puback_status (pub_ack_status o) = false ->
  forall (n fuel : nat) (result : cy_rslt_t) (w : world),
    live_at w h o ->
    (1 <= n <= fuel)%nat ->
    Z.of_nat n < 2 ^ 32 ->
    publish_ack_wait cfg env fuel h (Z.of_nat n) result w
    = Some ((MQTTSuccess, result),
            set_trace
              (replicate n (Call_MQTT_ProcessLoop h CY_MQTT_RECEIVE_DATA_TIMEOUT_MS)
                 ++ trace w) w).
Proof.
  intros Hcodec Hquiet Hack n. induction n as [|n IH]; intros fuel result w Hlive Hn Hsmall;
    [lia|].
  destruct fuel as [|fuel]; [lia|].
  cbn [publish_ack_wait].
  run_by ltac:(apply MQTT_ProcessLoop_quiet; apply Hquiet).
  rewrite Hcodec. run_test. run_step. rewrite decide_False by (rewrite Hack; discriminate).
  cbv zeta.
  assert (Hwrap : wrap_uint32 (Z.of_nat (S n) - CY_MQTT_SOCKET_RECEIVE_TIMEOUT_MS)
                  = Z.of_nat n).
  { unfold wrap_uint32, CY_MQTT_SOCKET_RECEIVE_TIMEOUT_MS. rewrite Z.mod_small; lia. }
  rewrite Hwrap.
  destruct n as [|n].
  - rewrite decide_False by (simpl; lia). reflexivity.
  - rewrite decide_True by lia.
    rewrite IH by (try solve_live; lia).
    f_equal. f_equal. simpl.
    change (Call_MQTT_ProcessLoop h CY_MQTT_RECEIVE_DATA_TIMEOUT_MS
              :: replicate n (Call_MQTT_ProcessLoop h CY_MQTT_RECEIVE_DATA_TIMEOUT_MS)
              ++ Call_MQTT_ProcessLoop h CY_MQTT_RECEIVE_DATA_TIMEOUT_MS :: trace w)
      with (replicate (S n) (Call_MQTT_ProcessLoop h CY_MQTT_RECEIVE_DATA_TIMEOUT_MS)
              ++ Call_MQTT_ProcessLoop h CY_MQTT_RECEIVE_DATA_TIMEOUT_MS :: trace w).
    rewrite (cons_middle _ (replicate (S n) _)), app_assoc.
    rewrite <- (replicate_cons_app (S n)). reflexivity.
Qed.

Lemma ack_wait_fuel_budget (cfg : config) :
  1 <= CY_MQTT_ACK_RECEIVE_TIMEOUT_MS cfg < 2 ^ 32 ->
  wrap_uint32 (CY_MQTT_ACK_RECEIVE_TIMEOUT_MS cfg)
  = Z.of_nat (Z.to_nat (CY_MQTT_ACK_RECEIVE_TIMEOUT_MS cfg)) /\
  ack_wait_fuel cfg = Z.to_nat (CY_MQTT_ACK_RECEIVE_TIMEOUT_MS cfg).
Proof.
  intros H. unfold ack_wait_fuel, wrap_uint32. rewrite Z.mod_small by lia.
  rewrite decide_False by lia. split; [lia|reflexivity].
Qed.

Lemma concat_replicate_snoc {A : Type} (n : nat) (l : list A) :
  concat (replicate n l) ++ l = l ++ concat (replicate n l).
Proof.
  induction n as [|n IH]; simpl.
  - rewrite app_nil_r. reflexivity.
  - rewrite <- app_assoc, IH. reflexivity.
Qed.

Lemma publish_retry_unacked (cfg : config) (env : environment) (h index : Z) :
  (forall tr, codec_answer env tr = MQTTSuccess) ->
  (forall tr, incoming_answer env tr = []) ->
  1 <= CY_MQTT_ACK_RECEIVE_TIMEOUT_MS cfg < 2 ^ 32 ->
  CY_MQTT_MAX_RETRY_VALUE cfg <= 255 ->
  forall (n fuel : nat) (retry : Z) (result : cy_rslt_t) (o : cy_mqtt_object_t)
         (s : cy_mqtt_pubpack_t) (w : world),
    live_at w h o ->
    0 <= index ->
    outgoing_pub_packets o !! Z.to_nat index = Some s ->
    qos (pubinfo s) ≠ MQTTQoS0 ->
    (n < fuel)%nat ->
    0 <= retry ->
    retry + Z.of_nat (S n) = CY_MQTT_MAX_RETRY_VALUE cfg ->
    publish_retry cfg env fuel h index retry result w
    = Some (CY_RSLT_MODULE_MQTT_PUBLISH_FAIL,
            set_heap
              (<[h := Build_cell true
                        (set_outgoing_pub_packets
                           (<[Z.to_nat index := marked_dup s]> (outgoing_pub_packets o))
                           (ack_cleared o))]> (heap w))
              (set_trace
                 (concat (replicate n (unacked_round cfg h (marked_dup s)))
                    ++ unacked_round cfg h s ++ trace w) w)).
Proof.
  intros Hcodec Hquiet Htimeout Hmax n.
  induction n as [|n IH]; intros fuel retry result o s w Hlive Hi Hs Hqos Hn Hretry Hsum.
  all: destruct fuel as [|fuel]; [lia|].
  all: assert (Hrange : 0 <= index < Z.of_nat (length (outgoing_pub_packets o)))
         by (split; [exact Hi|apply lookup_lt_Some in Hs; lia]).
  all: cbn [publish_retry]; run_step; fold (ack_cleared o).
  all: run_by ltac:(eapply load_slot_run; [solve_live|exact Hi|exact Hs]).
  all: unfold MQTT_Publish; run_step; rewrite Hcodec; run_test.
  all: rewrite decide_True by exact Hqos.
  all: destruct (ack_wait_fuel_budget cfg Htimeout) as [Hbudget Hfuel].
  all: rewrite Hbudget, Hfuel.
  all: run_by ltac:(eapply (publish_ack_wait_quiet cfg env h (ack_cleared o) Hcodec Hquiet
                              eq_refl);
                    [ solve_live | lia | lia ]).
  all: run_step; rewrite decide_True by reflexivity.
  all: run_by ltac:(eapply load_slot_run; [solve_live|exact Hi|exact Hs]).
  all: run_by ltac:(eapply store_slot_run; [solve_live|exact Hrange]).
  all: run_norm; cbn [fst snd].
  all: assert (Hwrap : wrap_uint8 (retry + 1) = retry + 1)
         by (unfold wrap_uint8; apply Z.mod_small; lia).
  all: rewrite Hwrap.
  - rewrite decide_False by lia. unfold unacked_round, marked_dup. simpl.
    rewrite insert_insert_eq. rewrite <- app_assoc. reflexivity.
  - rewrite decide_True by (split; [discriminate|lia]).
    erewrite (IH fuel (retry + 1) _ _ (marked_dup s));
      [ | solve_live | exact Hi
        | unfold ack_cleared; obj_simpl; apply list_lookup_insert_eq; lia
        | exact Hqos | lia | lia | lia ].
    f_equal. f_equal. unfold set_heap, set_trace. simpl. f_equal.
    + rewrite !insert_insert_eq. unfold ack_cleared. obj_simpl.
      rewrite list_insert_insert_eq. reflexivity.
    + change (marked_dup (marked_dup s)) with (marked_dup s).
      rewrite app_assoc, concat_replicate_snoc, <- !app_assoc.
      f_equal. unfold unacked_round. rewrite <- app_assoc. reflexivity.
Qed.
(** X22.  A QoS 1 or QoS 2 publish that the broker never acknowledges (the
    sends succeed, MQTT_ProcessLoop succeeds and delivers nothing) is sent
    CY_MQTT_MAX_RETRY_VALUE times with the same packet identifier, the first
    time as composed and every further time with the dup flag set; after each
    send MQTT_ProcessLoop is polled CY_MQTT_ACK_RECEIVE_TIMEOUT_MS times.
    The call then returns PUBLISH_FAIL with the slot zeroed and the mutex
    released. *)
Theorem unacknowledged_publish_times_out (cfg : config) (env : environment) (h : Z)
    (o : cy_mqtt_object_t) (pubmsg : cy_mqtt_publish_info_t) (index : Z)
    (s : cy_mqtt_pubpack_t) (w : world) :
  h ≠ NULL ->
  live_at w h o ->
  mqtt_obj_initialized o = true ->
  mqtt_session_established o = true ->
  Z.of_nat (length (outgoing_pub_packets o)) = CY_MQTT_MAX_OUTGOING_PUBLISHES cfg ->
  first_free_slot (outgoing_pub_packets o) index s ->
  msg_qos pubmsg = CY_MQTT_QOS1 ∨ msg_qos pubmsg = CY_MQTT_QOS2 ->
  1 <= CY_MQTT_MAX_RETRY_VALUE cfg <= 255 ->
  1 <= CY_MQTT_ACK_RECEIVE_TIMEOUT_MS cfg < 2 ^ 32 ->
  (forall tr, codec_answer env tr = MQTTSuccess) ->
  (forall tr, incoming_answer env tr = []) ->
  let tr1 := Call_cy_rtos_get_mutex (process_mutex_ref h) :: trace w in
  let tr2 := Call_MQTT_GetPacketId h :: tr1 in
  let id := value_answer env tr2 in
  let sent :=
    Build_cy_mqtt_pubpack_t id
      (Build_MQTTPublishInfo_t (msg_qos pubmsg) (retain (pubinfo s)) (dup (pubinfo s))
         (topic pubmsg) (topic_len pubmsg) (payload pubmsg) (payload_len pubmsg)) in
  platform_answer env tr1 = PLATFORM_OK ->
  cy_mqtt_publish cfg env h (Some pubmsg) w
  = Some (CY_RSLT_MODULE_MQTT_PUBLISH_FAIL,
          set_heap
            (<[h := Build_cell true
                      (set_outgoing_pub_packets
                         (<[Z.to_nat index := zero_pubpack]> (outgoing_pub_packets o))
                         (set_pub_ack_status (Build_cy_mqtt_pub_ack_status_t id false) o))]>
               (heap w))
            (set_trace
               (Call_cy_rtos_set_mutex (process_mutex_ref h)
                  :: concat (replicate (Z.to_nat (CY_MQTT_MAX_RETRY_VALUE cfg - 1))
                               (unacked_round cfg h (marked_dup sent)))
                  ++ unacked_round cfg h sent ++ tr2) w)).
Proof.
  intros Hh Hlive Hinit Hsess Hlen Hfree Hqos Hmax Htimeout Hcodec Hquiet tr1 tr2 id sent
    Hget.
  pose proof Hfree as (Hi & Hs & Hid & _).
  assert (Hrange : 0 <= index < Z.of_nat (length (outgoing_pub_packets o))).
  { split; [exact Hi|]. apply lookup_lt_Some in Hs. lia. }
  unfold cy_mqtt_publish. rewrite decide_False by exact Hh. run_step.
  rewrite decide_False by (rewrite Hinit; discriminate).
  rewrite decide_False by (rewrite Hsess; discriminate).
  run_by ltac:(eapply next_free_index_run; [exact Hh|solve_live|exact Hfree]).
  rewrite decide_False by (intros Hne; apply Hne; reflexivity).
  rewrite decide_True by tauto.
  run_slot Hrange. run_slot Hrange.
  unfold cy_rtos_get_mutex, cy_rtos_set_mutex, MQTT_GetPacketId.
  run_step. fold tr1. rewrite Hget. simpl cy_rslt_of. run_test.
  run_step. fold tr1 tr2 id.
  run_slot Hrange. run_slot Hrange. run_step. obj_simpl. rewrite ?insert_insert_eq.
  run_by ltac:(eapply (publish_retry_unacked cfg env h index Hcodec Hquiet Htimeout
                         ltac:(lia) (Z.to_nat (CY_MQTT_MAX_RETRY_VALUE cfg - 1)) _ _ _ _
                         sent);
               [ solve_live | exact Hi
               | obj_simpl; apply list_lookup_insert_eq; lia
               | unfold sent; obj_simpl; unfold MQTTQoS0;
                 destruct Hqos as [Hq|Hq]; rewrite Hq; discriminate
               | unfold retry_fuel; lia | lia | lia ]).
  unfold ack_cleared. obj_simpl. rewrite ?insert_insert_eq, ?list_insert_insert_eq.
  run_test.
  run_by ltac:(eapply cleanup_outgoing_publish_run;
               [ solve_live | obj_simpl; rewrite ?length_insert; lia
               | obj_simpl; rewrite ?length_insert; lia ]).
  obj_simpl. rewrite ?insert_insert_eq, ?list_insert_insert_eq.
  run_step. reflexivity.
Qed.

Lemma unacknowledged_publish_times_out_witness :
  exists w',
    cy_mqtt_publish short_wait_config quiet_env example_client (Some example_message)
      connected_world
    = Some (CY_RSLT_MODULE_MQTT_PUBLISH_FAIL, w') /\
    published_ids (trace w') = [4116; 4116; 4116] /\
    length (omap (λ e, match e with
                       | Call_MQTT_ProcessLoop _ _ => Some e
                       | _ => None
                       end) (trace w'))
    = 15%nat /\
    outgoing_pub_packets (example_object w') = replicate 4 zero_pubpack.
Proof.
  eexists. split.
  - apply (unacknowledged_publish_times_out short_wait_config quiet_env example_client
             (example_object connected_world) example_message 0 zero_pubpack).
    + discriminate.
    + vm_compute. reflexivity.
    + reflexivity.
    + reflexivity.
    + reflexivity.
    + vm_compute. repeat split; try discriminate. intros k s' Hk. lia.
    + left. reflexivity.
    + vm_compute. split; discriminate.
    + vm_compute. split; [discriminate|reflexivity].
    + intros tr. reflexivity.
    + intros tr. reflexivity.
    + reflexivity.
  - split; [vm_compute; reflexivity|]. split; vm_compute; reflexivity.
Defined.
(** ** What a run adds to the trace *)

Section Emits.

Context (P : event -> Prop).

Lemma emits_ret {A : Type} (a : A) : emits P (mret a).
Proof. intros w a' w' H. injection H as _ <-. exists []. split; [reflexivity|constructor]. Qed.

Lemma emits_bind {A B : Type} (m : M A) (f : A -> M B) :
  emits P m -> (forall a, emits P (f a)) -> emits P (m ≫= f).
Proof.
  intros Hm Hf w b w'' Hrun.
  destruct (bind_inv _ _ _ _ _ Hrun) as (a & w' & H1 & H2).
  destruct (Hm _ _ _ H1) as (new1 & Ht1 & HP1).
  destruct (Hf _ _ _ _ H2) as (new2 & Ht2 & HP2).
  exists (new2 ++ new1). split.
  - rewrite Ht2, Ht1, app_assoc. reflexivity.
  - apply Forall_app. split; assumption.
Qed.

Lemma emits_no_behaviour {A : Type} : emits P (no_behaviour : M A).
Proof. intros w a w' H. discriminate. Qed.

Lemma emits_gets {A : Type} (f : world -> A) : emits P (gets f).
Proof. intros w a w' H. injection H as _ <-. exists []. split; [reflexivity|constructor]. Qed.

Lemma emits_call (e : event) : P e -> emits P (call e).
Proof.
  intros He w a w' H. injection H as _ <-. exists [e]. split; [reflexivity|].
  constructor; [exact He|constructor].
Qed.

Lemma emits_modify (f : world -> world) :
  (forall w, trace (f w) = trace w) -> emits P (modify f).
Proof.
  intros Hf w a w' H. injection H as _ <-. exists []. split; [apply Hf|constructor].
Qed.

Lemma emits_deref (h : Z) : emits P (deref h).
Proof.
  intros w a w' H. unfold deref in H.
  destruct (heap w !! h) as [[live o]|]; simpl in H; [|discriminate].
  destruct live; [|discriminate].
  injection H as _ <-. exists []. split; [reflexivity|constructor].
Qed.

Lemma emits_update (h : Z) (f : cy_mqtt_object_t -> cy_mqtt_object_t) :
  emits P (update h f).
Proof.
  unfold update. apply emits_bind; [apply emits_deref|intros o].
  apply emits_modify. intros w. reflexivity.
Qed.

Lemma emits_array_load {A : Type} (l : list A) (i : Z) : emits P (array_load l i).
Proof.
  unfold array_load. destruct (decide (0 <= i)); [|apply emits_no_behaviour].
  destruct (l !! Z.to_nat i); [apply emits_ret|apply emits_no_behaviour].
Qed.

Lemma emits_array_store {A : Type} (l : list A) (i : Z) (x : A) :
  emits P (array_store l i x).
Proof.
  unfold array_store.
  destruct (decide (0 <= i < Z.of_nat (length l)));
    [apply emits_ret|apply emits_no_behaviour].
Qed.

End Emits.

Lemma emits_weaken {A : Type} (P Q : event -> Prop) (m : M A) :
  (forall e, P e -> Q e) -> emits P m -> emits Q m.
Proof.
  intros HPQ Hm w a w' H. destruct (Hm _ _ _ H) as (new & Ht & HP).
  exists new. split; [exact Ht|]. eapply Forall_impl; [exact HP|exact HPQ].
Qed.

Create HintDb emits discriminated.

(** One step of a proof that a computation emits only events of a kind;
    [tac] shows that an event is of the kind. *)
Ltac emits_step tac :=
  match goal with
  | |- emits _ (mret _) => apply emits_ret
  | |- emits _ (_ ≫= _) => apply emits_bind; [|intros]
  | |- emits _ no_behaviour => apply emits_no_behaviour
  | |- emits _ (gets _) => apply emits_gets
  | |- emits _ (call _) => apply emits_call; tac
  | |- emits _ (deref _) => apply emits_deref
  | |- emits _ (update _ _) => apply emits_update
  | |- emits _ (array_load _ _) => apply emits_array_load
  | |- emits _ (array_store _ _ _) => apply emits_array_store
  | |- emits _ (modify _) => apply emits_modify; intros; reflexivity
  | |- emits _ (if decide ?Q then _ else _) => destruct (decide Q)
  | |- emits _ (if ?b then _ else _) => destruct b
  | |- emits _ (match ?x with _ => _ end) => destruct x
  | |- emits _ (let _ := _ in _) => cbv zeta
  | |- emits _ _ => solve [eauto with emits]
  end.

Ltac emits_auto tac := repeat emits_step tac.

Ltac emits_codec := emits_auto ltac:(exact I).

Lemma emits_codec_call (env : environment) (e : event) :
  codec_or_callback e -> emits codec_or_callback (codec_call env e).
Proof. intros He. unfold codec_call. emits_auto ltac:(exact He). Qed.

Lemma emits_invoke_mqtt_event_cb (h : Z) (o : cy_mqtt_object_t) (ev : cy_mqtt_event_t) :
  emits codec_or_callback (invoke_mqtt_event_cb h o ev).
Proof. unfold invoke_mqtt_event_cb. emits_codec. Qed.

Lemma emits_mqtt_cleanup_outgoing_publish (cfg : config) (h index : Z) :
  emits codec_or_callback (mqtt_cleanup_outgoing_publish cfg h index).
Proof. unfold mqtt_cleanup_outgoing_publish. emits_codec. Qed.

#[global] Hint Resolve emits_invoke_mqtt_event_cb emits_mqtt_cleanup_outgoing_publish : emits.

Lemma emits_mqtt_cleanup_outgoing_publish_with_packet_id (cfg : config) (h id : Z) :
  emits codec_or_callback (mqtt_cleanup_outgoing_publish_with_packet_id cfg h id).
Proof. unfold mqtt_cleanup_outgoing_publish_with_packet_id. emits_codec. Qed.

Lemma emits_copy_suback_status (n : nat) :
  forall (i : Z) (codes status : list Z),
    emits codec_or_callback (copy_suback_status n i codes status).
Proof. induction n as [|n IH]; intros i codes status; simpl; emits_codec. Qed.

#[global] Hint Resolve emits_mqtt_cleanup_outgoing_publish_with_packet_id
  emits_copy_suback_status : emits.

Lemma emits_mqtt_update_suback_status (env : environment) (h : Z)
    (packet_info : MQTTPacketInfo_t) :
  emits codec_or_callback (mqtt_update_suback_status env h packet_info).
Proof. unfold mqtt_update_suback_status. emits_codec. Qed.

Lemma emits_handle_publish_ack (cfg : config) (h id : Z) (info : MQTTDeserializedInfo_t) :
  emits codec_or_callback (handle_publish_ack cfg h id info).
Proof. unfold handle_publish_ack. emits_codec. Qed.

#[global] Hint Resolve emits_mqtt_update_suback_status emits_handle_publish_ack : emits.

Lemma emits_mqtt_event_callback (cfg : config) (env : environment) (ctx : Z)
    (packet_info : option MQTTPacketInfo_t) (info : option MQTTDeserializedInfo_t) :
  emits codec_or_callback (mqtt_event_callback cfg env ctx packet_info info).
Proof. unfold mqtt_event_callback. emits_codec. Qed.

#[global] Hint Resolve emits_mqtt_event_callback : emits.

Lemma emits_dispatch_incoming (cfg : config) (env : environment) (h : Z)
    (packets : list incoming_packet) :
  emits codec_or_callback (dispatch_incoming cfg env h packets).
Proof. induction packets as [|[packet_info info] rest IH]; simpl; emits_codec. Qed.

#[global] Hint Resolve emits_dispatch_incoming : emits.

Lemma emits_MQTT_ProcessLoop (cfg : config) (env : environment) (h timeout_ms : Z) :
  emits codec_or_callback (MQTT_ProcessLoop cfg env h timeout_ms).
Proof. unfold MQTT_ProcessLoop. emits_codec. Qed.

#[global] Hint Resolve emits_MQTT_ProcessLoop : emits.

Lemma emits_publish_ack_wait (cfg : config) (env : environment) (h : Z) (fuel : nat) :
  forall (timeout : Z) (result : cy_rslt_t),
    emits codec_or_callback (publish_ack_wait cfg env fuel h timeout result).
Proof. induction fuel as [|fuel IH]; intros timeout result; simpl; emits_codec. Qed.

#[global] Hint Resolve emits_publish_ack_wait : emits.

Lemma emits_publish_retry (cfg : config) (env : environment) (h index : Z) (fuel : nat) :
  forall (retry : Z) (result : cy_rslt_t),
    emits codec_or_callback (publish_retry cfg env fuel h index retry result).
Proof.
  induction fuel as [|fuel IH]; intros retry result; simpl;
    unfold load_slot, store_slot, MQTT_Publish, codec_call; emits_codec.
Qed.

Section EmitsPureLoops.

Lemma emits_subscribe_translate (n : nat) :
  forall (index : Z) (sub_info : list cy_mqtt_subscribe_info_t)
         (sub_list : list MQTTSubscribeInfo_t),
    emits codec_or_callback (subscribe_translate n index sub_info sub_list).
Proof. induction n as [|n IH]; intros index sub_info sub_list; simpl; emits_codec. Qed.

Lemma emits_unsubscribe_translate (n : nat) :
  forall (index : Z) (unsub_info : list cy_mqtt_subscribe_info_t)
         (unsub_list : list MQTTSubscribeInfo_t),
    emits codec_or_callback (unsubscribe_translate n index unsub_info unsub_list).
Proof. induction n as [|n IH]; intros index unsub_info unsub_list; simpl; emits_codec. Qed.

Lemma emits_mark_suback_failure (n : nat) :
  forall (index : Z) (status : list Z),
    emits codec_or_callback (mark_suback_failure n index status).
Proof. induction n as [|n IH]; intros index status; simpl; emits_codec. Qed.

Lemma emits_subscribe_collect (n : nat) :
  forall (index : Z) (status : list Z) (sub_info : list cy_mqtt_subscribe_info_t)
         (result : cy_rslt_t),
    emits codec_or_callback (subscribe_collect n index status sub_info result).
Proof.
  induction n as [|n IH]; intros index status sub_info result; simpl; emits_codec.
Qed.

End EmitsPureLoops.

#[global] Hint Resolve emits_publish_retry emits_subscribe_translate
  emits_unsubscribe_translate emits_mark_suback_failure emits_subscribe_collect : emits.

Lemma emits_subscribe_ack_wait (cfg : config) (env : environment) (h sub_count : Z)
    (fuel : nat) :
  forall (timeout : Z) (sub_info : list cy_mqtt_subscribe_info_t) (result : cy_rslt_t),
    emits codec_or_callback
      (subscribe_ack_wait cfg env fuel h sub_count timeout sub_info result).
Proof.
  induction fuel as [|fuel IH]; intros timeout sub_info result; simpl; emits_codec.
Qed.

#[global] Hint Resolve emits_subscribe_ack_wait : emits.

Lemma emits_subscribe_retry (cfg : config) (env : environment) (h : Z)
    (sub_list : list MQTTSubscribeInfo_t) (sub_count : Z) (fuel : nat) :
  forall (retry : Z) (sub_info : list cy_mqtt_subscribe_info_t),
    emits codec_or_callback
      (subscribe_retry cfg env fuel h sub_list sub_count retry sub_info).
Proof.
  induction fuel as [|fuel IH]; intros retry sub_info; simpl;
    unfold codec_call; emits_codec.
Qed.

Lemma emits_unsubscribe_ack_wait (cfg : config) (env : environment) (h : Z) (fuel : nat) :
  forall (timeout : Z) (result : cy_rslt_t),
    emits codec_or_callback (unsubscribe_ack_wait cfg env fuel h timeout result).
Proof. induction fuel as [|fuel IH]; intros timeout result; simpl; emits_codec. Qed.

#[global] Hint Resolve emits_subscribe_retry emits_unsubscribe_ack_wait : emits.

Lemma emits_unsubscribe_retry (cfg : config) (env : environment) (h : Z)
    (unsub_list : list MQTTSubscribeInfo_t) (unsub_count : Z) (fuel : nat) :
  forall (retry : Z) (result : cy_rslt_t),
    emits codec_or_callback
      (unsubscribe_retry cfg env fuel h unsub_list unsub_count retry result).
Proof.
  induction fuel as [|fuel IH]; intros retry result; simpl;
    unfold codec_call; emits_codec.
Qed.

#[global] Hint Resolve emits_unsubscribe_retry : emits.
(** ** The per-client mutex in the request path *)

Lemma held_not_a_lock (env : environment) (h : Z) (new tr : list event) :
  Forall not_a_lock new -> held env h (new ++ tr) = held env h tr.
Proof.
  induction 1 as [|e new He Hnew IH]; [reflexivity|].
  destruct e; simpl in He |- *; try contradiction; exact IH.
Qed.

Lemma codec_or_callback_not_a_lock (e : event) : codec_or_callback e -> not_a_lock e.
Proof. destruct e; simpl; tauto. Qed.

Lemma trace_triple_ret {A : Type} (P : list event -> Prop) (a : A)
    (Q : A -> list event -> Prop) :
  (forall tr, P tr -> Q a tr) -> trace_triple P (mret a) Q.
Proof. intros HPQ w a' w' HP H. injection H as <- <-. apply HPQ. exact HP. Qed.

Lemma trace_triple_bind {A B : Type} (P : list event -> Prop) (m : M A)
    (Q : A -> list event -> Prop) (f : A -> M B) (S : B -> list event -> Prop) :
  trace_triple P m Q -> (forall a, trace_triple (Q a) (f a) S) ->
  trace_triple P (m ≫= f) S.
Proof.
  intros Hm Hf w b w'' HP Hrun.
  destruct (bind_inv _ _ _ _ _ Hrun) as (a & w' & H1 & H2).
  apply (Hf a w' b w''); [apply (Hm w a w' HP H1)|exact H2].
Qed.

Lemma trace_triple_pre {A : Type} (P P' : list event -> Prop) (m : M A)
    (Q : A -> list event -> Prop) :
  (forall tr, P' tr -> P tr) -> trace_triple P m Q -> trace_triple P' m Q.
Proof. intros HP Hm w a w' HP' Hrun. apply (Hm w a w'); [apply HP; exact HP'|exact Hrun]. Qed.

(** A computation that makes no lock call keeps the count. *)
Lemma trace_triple_held {A : Type} (env : environment) (h : Z) (k : nat) (m : M A) :
  emits not_a_lock m ->
  trace_triple (λ tr, held env h tr = k) m (λ _ tr, held env h tr = k).
Proof.
  intros Hm w a w' HP Hrun. destruct (Hm _ _ _ Hrun) as (new & -> & Hnew).
  rewrite held_not_a_lock by exact Hnew. exact HP.
Qed.

Lemma trace_triple_get_mutex (env : environment) (h : Z) (k : nat) :
  trace_triple (λ tr, held env h tr = k) (cy_rtos_get_mutex env (process_mutex_ref h))
    (λ r tr, held env h tr = if decide (r = CY_RSLT_SUCCESS) then S k else k).
Proof.
  intros w r w' HP Hrun. injection Hrun as <- <-. simpl.
  rewrite (decide_True (P := h = h)) by reflexivity.
  destruct (platform_answer env _); simpl.
  - rewrite HP. reflexivity.
  - exact HP.
Qed.

Lemma trace_triple_set_mutex (env : environment) (h : Z) (k : nat) :
  trace_triple (λ tr, held env h tr = S k) (cy_rtos_set_mutex env (process_mutex_ref h))
    (λ _ tr, held env h tr = k).
Proof.
  intros w r w' HP Hrun. injection Hrun as <- <-. simpl.
  rewrite (decide_True (P := h = h)) by reflexivity. rewrite HP. reflexivity.
Qed.

(** Steps of the requests outside the retry loops that make no lock call. *)
Ltac emits_no_lock :=
  unfold load_slot, store_slot, MQTT_GetPacketId, value_call;
  repeat first
    [ apply (emits_weaken codec_or_callback not_a_lock _ codec_or_callback_not_a_lock);
      solve [eauto with emits]
    | emits_step ltac:(exact I) ].

Ltac keep_held := apply trace_triple_held; emits_no_lock.


(** ** Slots of the store between calls *)


(** ** The scenarios of the specification, run on the embedding *)

(** A QoS 0 publish on a clean session succeeds without an ACK wait and
    leaves the store empty. *)
Example scenario_clean_qos0_publish :
  exists w',
    cy_mqtt_publish example_config quiet_env example_client
      (Some (Build_cy_mqtt_publish_info_t CY_MQTT_QOS0 false false 900 3 950 2))
      connected_world
    = Some (CY_RSLT_SUCCESS, w') /\
    outgoing_pub_packets (example_object w') = replicate 4 zero_pubpack /\
    length (published_ids (trace w')) = 1%nat.
Proof. eexists. split; [vm_compute; reflexivity|]. split; reflexivity. Qed.

(** A QoS 1 publish whose first PUBACK is lost is sent again with the dup
    flag and the same packet identifier, and succeeds. *)
Example scenario_qos1_publish_with_one_retry :
  exists w' id,
    cy_mqtt_publish short_wait_config late_puback_env example_client (Some example_message)
      connected_world
    = Some (CY_RSLT_SUCCESS, w') /\
    outgoing_pub_packets (example_object w') = replicate 4 zero_pubpack /\
    published_ids (trace w') = [id; id] /\
    In (Call_MQTT_Publish example_client (pubinfo (qos1_message id)) id) (trace w') /\
    In (Call_MQTT_Publish example_client (set_dup true (pubinfo (qos1_message id))) id)
      (trace w').
Proof.
  eexists. eexists. split; [vm_compute; reflexivity|].
  split; [reflexivity|]. split; [reflexivity|].
  split; vm_compute; tauto.
Qed.

(** A subscribe to two topics answered by the SUBACK codes 0x01 and 0x80
    succeeds with QoS 1 granted to the first topic and INVALID for the
    second. *)
Example scenario_subscribe_with_mixed_suback :
  exists w' sub_info',
    cy_mqtt_subscribe example_config mixed_suback_env example_client
      (Some [Build_cy_mqtt_subscribe_info_t 900 1 CY_MQTT_QOS1 0;
             Build_cy_mqtt_subscribe_info_t 901 1 CY_MQTT_QOS2 0]) 2 connected_world
    = Some ((CY_RSLT_SUCCESS, Some sub_info'), w') /\
    allocated_qos <$> sub_info' = [CY_MQTT_QOS1; CY_MQTT_QOS_INVALID] /\
    num_of_subs_in_req (example_object w') = 0.
Proof.
  eexists. eexists. split; [vm_compute; reflexivity|]. split; reflexivity.
Qed.

(** A keep-alive timeout seen by the receive thread is reported to the
    application as DISCONNECT with reason BROKER_DOWN and ends the session. *)
Example scenario_keep_alive_timeout :
  exists w',
    mqtt_receive_thread_iteration example_config keep_alive_timeout_env example_client
      connected_world
    = Some (true, w') /\
    mqtt_session_established (example_object w') = false /\
    In (Call_mqtt_event_cb example_client
          (CY_MQTT_EVENT_TYPE_DISCONNECT CY_MQTT_DISCONN_TYPE_BROKER_DOWN) 0) (trace w').
Proof.
  eexists. split; [vm_compute; reflexivity|]. split; [reflexivity|].
  vm_compute. tauto.
Qed.

